(** * Reminder scheduler of the discharge assistant: a shallow embedding

    This development embeds [utils/scheduler.py] (class
    [HealthcareScheduler] with the dataclasses [MedicationSchedule] and
    [FollowUpSchedule]) and states the properties of its specification
    against the embedding.

    Conventions of the embedding.
    - A naive [datetime] is a point of the proleptic Gregorian time line with
      microsecond resolution; it is the number of microseconds since
      0001-01-01T00:00:00 ([datetime.min]).  Comparison is comparison of
      these numbers, [timedelta(days=n)] is [n] days of microseconds, and
      [.date()] is the day number.
    - A Python [dict] keeps insertion order, and that order is the order of
      the arrays written to [schedules.json]; dictionaries are association
      lists with first-match lookup.
    - A call that can raise returns an [outcome]; a method that mutates
      [self], the file or the job registry of the [schedule] package takes
      the world and returns the new one.
    - Every operation reads the clock once: the argument [now] stands for all
      the [datetime.now()] calls of one invocation.
    - The file [schedules.json] holds the value that [json.load] would
      return, so text level parsing is one case ([Unparseable]); writing
      the file succeeds.
    - The fields of a schedule have the types of their annotations.
      Python does not check them, so a file that was not written by the
      module can put a value of another type into a field.  The load is
      therefore embedded twice: [Unchecked._load_schedules] is the method
      as Python runs it, with fields that take every value, and
      [_load_schedules] is its reading at the annotated types, which the
      operations on schedules build on.  The two agree on every file
      except those with a value of another type, for which the typed load
      logs [TypeMismatch] (lemma [load_schedules_reads]).
    - The calls of the foreground and the iterations of the background
      loop are taken one at a time.
    - A [World] is a process with one scheduler object, which owns the
      file.  Where the repository makes more scheduler objects in one
      process (the functions [create_medication_schedule] and
      [create_followup_schedule], the button that starts all reminders in
      [app.py]), [Process] holds the objects, the file they share and the
      job registry of the [schedule] package, which is one per process;
      each job is kept with the object whose method it calls.  The runs of
      a [World] are lists of [op], the runs of a [Process] lists of
      [action].
    - The two methods of [utils/telegram_sender.py] that the dispatch
      calls, [send_message] and [send_summary] are embedded down to the
      request given to [requests.post]; the answer of the network is an
      argument.  A [str] is held as its UTF-8 bytes.  The Telegram client
      of a scheduler is taken to exist: its constructor, which needs the
      credentials of the environment and the network, is not embedded.
    - The [schedule] package and the functions of the standard library that
      the module calls are not part of the repository; they enter through
      the class [Library] and the job registry below, which state what the
      module relies on. *)

From Stdlib Require Import ZArith List String Ascii Bool Lia.
From Stdlib Require Import DecimalString.
Import ListNotations.

Local Open Scope string_scope.
Local Open Scope list_scope.
Local Open Scope Z_scope.

(** ** Exceptions and outcomes *)

(** The exceptions the module can meet.  [TypeMismatch] is not a Python
    exception: it marks a JSON value whose type differs from the annotation
    of the dataclass field it is loaded into.  Python stores such a value
    unchecked ([Unchecked._load_schedules] below is the load as Python
    runs it, on every file); the schedules of the typed embedding have no
    object for it, and the typed load ends there and says so by this
    mark. *)
Inductive exn : Type :=
| KeyError (key : string)
| TypeError
| ValueError
| AttributeError
| OverflowError
| ScheduleValueError
| TypeMismatch.

Inductive outcome (A : Type) : Type :=
| Returns (a : A)
| Raises (e : exn).
Arguments Returns {A} a.
Arguments Raises {A} e.

Definition bind {A B : Type} (m : outcome A) (k : A -> outcome B) : outcome B :=
  match m with
  | Returns a => k a
  | Raises e => Raises e
  end.

Declare Scope outcome_scope.
Delimit Scope outcome_scope with outcome.
Notation "x <- m ;; k" := (bind m (fun x => k))
  (at level 61, m at next level, right associativity) : outcome_scope.
Local Open Scope outcome_scope.

Definition of_option {A : Type} (e : exn) (o : option A) : outcome A :=
  match o with
  | Some a => Returns a
  | None => Raises e
  end.

(** Sequential [for x in l: ...] whose body may raise: the first exception
    leaves the loop. *)
Fixpoint mapM {A B : Type} (f : A -> outcome B) (l : list A) : outcome (list B) :=
  match l with
  | [] => Returns []
  | x :: r => y <- f x ;; ys <- mapM f r ;; Returns (y :: ys)
  end.

(** ** Naive datetimes *)

Module Datetime.

Definition datetime : Type := Z.

Definition usec_per_second : Z := 1000000.
Definition usec_per_day : Z := 86400 * usec_per_second.

(** [date.max.toordinal()] *)
Definition MAXORDINAL : Z := 3652059.

(** [datetime.min <= d <= datetime.max] *)
Definition in_range (d : Z) : bool :=
  (0 <=? d) && (d <? MAXORDINAL * usec_per_day).

(** [d.date()], as the number of days since 0001-01-01 *)
Definition date (d : datetime) : Z := d / usec_per_day.

(** [d.time()], as microseconds since midnight *)
Definition time (d : datetime) : Z := d mod usec_per_day.

(** [timedelta(days=n)]: the constructor rejects more than 999999999
    days either way. *)
Definition timedelta_days (n : Z) : outcome Z :=
  if Z.abs n <=? 999999999 then Returns (n * usec_per_day)
  else Raises OverflowError.

(** [d + delta] and [d - delta]: the result has to be a datetime. *)
Definition add (d : datetime) (delta : Z) : outcome datetime :=
  if in_range (d + delta) then Returns (d + delta) else Raises OverflowError.

Definition sub (d : datetime) (delta : Z) : outcome datetime :=
  add d (- delta).

End Datetime.
Import Datetime.

(** ** Library functions the module calls

    [datetime.isoformat] and [datetime.fromisoformat] of the standard
    library, and the parser of [schedule.every().day.at(time_str)], which
    yields the time of day in microseconds or rejects the string
    ([ScheduleValueError]).  The properties are stated for every library
    that satisfies [library_laws]; [python_library] below is a concrete
    one. *)
Class Library : Type := {
  isoformat : datetime -> string;
  fromisoformat : string -> option datetime;
  at_time : string -> option Z
}.

Definition library_laws (L : Library) : Prop :=
  (forall d, in_range d = true -> fromisoformat (isoformat d) = Some d) /\
  (forall s d, fromisoformat s = Some d -> in_range d = true) /\
  (forall s t, at_time s = Some t -> 0 <= t < usec_per_day).

(** *** The proleptic Gregorian calendar, after CPython's [datetime] *)

Module Calendar.

Definition is_leap (year : Z) : bool :=
  (year mod 4 =? 0) && (negb (year mod 100 =? 0) || (year mod 400 =? 0)).

Definition days_before_year (year : Z) : Z :=
  let y := year - 1 in y * 365 + y / 4 - y / 100 + y / 400.

Definition DAYS_IN_MONTH (month : Z) : Z :=
  match month with
  | 1 => 31 | 2 => 28 | 3 => 31 | 4 => 30 | 5 => 31 | 6 => 30
  | 7 => 31 | 8 => 31 | 9 => 30 | 10 => 31 | 11 => 30 | 12 => 31
  | _ => 0
  end.

Definition DAYS_BEFORE_MONTH (month : Z) : Z :=
  match month with
  | 1 => 0 | 2 => 31 | 3 => 59 | 4 => 90 | 5 => 120 | 6 => 151
  | 7 => 181 | 8 => 212 | 9 => 243 | 10 => 273 | 11 => 304 | 12 => 334
  | _ => 0
  end.

Definition days_in_month (year month : Z) : Z :=
  if (month =? 2) && is_leap year then 29 else DAYS_IN_MONTH month.

Definition days_before_month (year month : Z) : Z :=
  DAYS_BEFORE_MONTH month + (if (2 <? month) && is_leap year then 1 else 0).

Definition ymd2ord (year month day : Z) : Z :=
  days_before_year year + days_before_month year month + day.

Definition DI400Y : Z := 146097.
Definition DI100Y : Z := 36524.
Definition DI4Y : Z := 1461.

(** The month and day of the [n]-th day (from 0) of a year. *)
Definition month_day (leapyear : bool) (n : Z) : Z * Z :=
  let month := Z.shiftr (n + 50) 5 in
  let preceding :=
    DAYS_BEFORE_MONTH month + (if (2 <? month) && leapyear then 1 else 0) in
  if n <? preceding then
    let month' := month - 1 in
    let preceding' :=
      preceding
      - (DAYS_IN_MONTH month' + (if (month' =? 2) && leapyear then 1 else 0)) in
    (month', n - preceding' + 1)
  else (month, n - preceding + 1).

Definition ord2ymd (n : Z) : Z * Z * Z :=
  let n := n - 1 in
  let n400 := n / DI400Y in
  let n := n mod DI400Y in
  let year := n400 * 400 + 1 in
  let n100 := n / DI100Y in
  let n := n mod DI100Y in
  let n4 := n / DI4Y in
  let n := n mod DI4Y in
  let n1 := n / 365 in
  let n := n mod 365 in
  let year := year + n100 * 100 + n4 * 4 + n1 in
  if (n1 =? 4) || (n100 =? 4) then (year - 1, 12, 31)
  else
    let leapyear := (n1 =? 3) && (negb (n4 =? 24) || (n100 =? 3)) in
    let '(month, day) := month_day leapyear n in
    (year, month, day).

(** The check that [month_day] names a day of the year's calendar. *)
Definition month_day_ok (leap : bool) (n : Z) : bool :=
  let '(m, d) := month_day leap n in
  (1 <=? m) && (m <=? 12) && (1 <=? d)
  && (d <=? DAYS_IN_MONTH m + (if (m =? 2) && leap then 1 else 0))
  && (DAYS_BEFORE_MONTH m + (if (2 <? m) && leap then 1 else 0) + d =? n + 1).

End Calendar.

(** *** Fixed width decimal fields *)

Module Digits.

Definition digit_char (n : Z) : ascii := ascii_of_nat (48 + Z.to_nat n).

Definition char_digit (c : ascii) : option Z :=
  let n := Z.of_nat (nat_of_ascii c) in
  if (48 <=? n) && (n <=? 57) then Some (n - 48) else None.

(** [n] written with [k] decimal digits, zero padded *)
Fixpoint pad (k : nat) (n : Z) : string :=
  match k with
  | O => EmptyString
  | S k' => String.append (pad k' (n / 10)) (String (digit_char (n mod 10)) EmptyString)
  end.

(** reads [k] decimal digits from the front of [s] *)
Fixpoint read_num (k : nat) (s : string) : option (Z * string) :=
  match k with
  | O => Some (0, s)
  | S k' =>
      match read_num k' s with
      | Some (a, String c rest) =>
          match char_digit c with
          | Some d => Some (10 * a + d, rest)
          | None => None
          end
      | _ => None
      end
  end.

Definition read_lit (c : ascii) (s : string) : option string :=
  match s with
  | String c' rest => if Ascii.eqb c c' then Some rest else None
  | EmptyString => None
  end.

End Digits.

(** *** A concrete library *)

Module PythonLibrary.
Import Calendar Digits.

Definition usec_per_minute : Z := 60 * usec_per_second.
Definition usec_per_hour : Z := 3600 * usec_per_second.

(** [d.isoformat()]: [YYYY-MM-DDTHH:MM:SS], followed by [.ffffff] when the
    microsecond field is not zero. *)
Definition py_isoformat (d : datetime) : string :=
  let '(year, month, day) := ord2ymd (d / usec_per_day + 1) in
  let t := d mod usec_per_day in
  let hour := t / usec_per_hour in
  let minute := (t / usec_per_minute) mod 60 in
  let second := (t / usec_per_second) mod 60 in
  let microsecond := t mod usec_per_second in
  String.concat ""
    [ pad 4 year; "-"; pad 2 month; "-"; pad 2 day; "T";
      pad 2 hour; ":"; pad 2 minute; ":"; pad 2 second;
      if microsecond =? 0 then "" else String.append "." (pad 6 microsecond) ].

Definition combine (year month day hour minute second microsecond : Z)
  : option datetime :=
  if (1 <=? year) && (year <=? 9999) && (1 <=? month) && (month <=? 12)
     && (1 <=? day) && (day <=? days_in_month year month)
     && (hour <=? 23) && (minute <=? 59) && (second <=? 59)
  then Some ((ymd2ord year month day - 1) * usec_per_day
             + hour * usec_per_hour + minute * usec_per_minute
             + second * usec_per_second + microsecond)
  else None.

Definition opt_bind {A B : Type} (o : option A) (k : A -> option B) : option B :=
  match o with Some a => k a | None => None end.

(** [datetime.fromisoformat(s)] on the two shapes [isoformat] writes.
    (Python reads further spellings of a date; the properties below hold
    for every library with [library_laws], whatever else it accepts.) *)
Definition py_fromisoformat (s : string) : option datetime :=
  opt_bind (read_num 4 s) (fun '(year, s) =>
  opt_bind (read_lit "-" s) (fun s =>
  opt_bind (read_num 2 s) (fun '(month, s) =>
  opt_bind (read_lit "-" s) (fun s =>
  opt_bind (read_num 2 s) (fun '(day, s) =>
  opt_bind (read_lit "T" s) (fun s =>
  opt_bind (read_num 2 s) (fun '(hour, s) =>
  opt_bind (read_lit ":" s) (fun s =>
  opt_bind (read_num 2 s) (fun '(minute, s) =>
  opt_bind (read_lit ":" s) (fun s =>
  opt_bind (read_num 2 s) (fun '(second, s) =>
  match s with
  | EmptyString => combine year month day hour minute second 0
  | String c s =>
      if Ascii.eqb c "." then
        opt_bind (read_num 6 s) (fun '(microsecond, s) =>
        match s with
        | EmptyString => combine year month day hour minute second microsecond
        | _ => None
        end)
      else None
  end))))))))))).

(** [Job.at(time_str)] of a daily job: [HH:MM] or [HH:MM:SS] with
    [HH <= 23], [MM <= 59], [SS <= 59]. *)
Definition py_at_time (s : string) : option Z :=
  opt_bind (read_num 2 s) (fun '(hour, s) =>
  opt_bind (read_lit ":" s) (fun s =>
  opt_bind (read_num 2 s) (fun '(minute, s) =>
  let finish (second : Z) :=
    if (hour <=? 23) && (minute <=? 59) && (second <=? 59)
    then Some (hour * usec_per_hour + minute * usec_per_minute
               + second * usec_per_second)
    else None in
  match s with
  | EmptyString => finish 0
  | String c s =>
      if Ascii.eqb c ":" then
        opt_bind (read_num 2 s) (fun '(second, s) =>
        match s with
        | EmptyString => finish second
        | _ => None
        end)
      else None
  end))).

#[export] Instance python_library : Library := {
  isoformat := py_isoformat;
  fromisoformat := py_fromisoformat;
  at_time := py_at_time
}.

End PythonLibrary.

(** ** Insertion ordered dictionaries *)

Module PyDict.
Section Dict.
Context {V : Type}.

Definition dict : Type := list (string * V).

(** [d.get(k)] *)
Fixpoint get (k : string) (d : dict) : option V :=
  match d with
  | [] => None
  | (k', v) :: r => if String.eqb k' k then Some v else get k r
  end.

(** [k in d] *)
Definition contains (k : string) (d : dict) : bool :=
  match get k d with Some _ => true | None => false end.

(** [d[k] = v]: a present key keeps its place, a new key goes last. *)
Fixpoint set (k : string) (v : V) (d : dict) : dict :=
  match d with
  | [] => [(k, v)]
  | (k', v') :: r =>
      if String.eqb k' k then (k', v) :: r else (k', v') :: set k v r
  end.

(** [d[k].field = ...]: the object stored under [k] is changed in place. *)
Fixpoint modify (k : string) (f : V -> V) (d : dict) : dict :=
  match d with
  | [] => []
  | (k', v) :: r =>
      if String.eqb k' k then (k', f v) :: r else (k', v) :: modify k f r
  end.

Definition keys (d : dict) : list string := map fst d.
Definition values (d : dict) : list V := map snd d.

(** [{k: v for k, v in d.items() if p(v)}] *)
Definition comprehension (p : V -> bool) (d : dict) : dict :=
  filter (fun kv => p (snd kv)) d.

End Dict.
Arguments dict V : clear implicits.
End PyDict.
Import PyDict.

(** ** JSON values, as [json.load] returns them *)

(** A Python [float]: what [json.load] returns for a number with a
    fraction or an exponent and for the constants [NaN], [Infinity] and
    [-Infinity].  A finite float is [mantissa * 2 ^ exponent], with its
    sign. *)
Inductive pyfloat : Type :=
| nan
| inf (negative : bool)
| finite (negative : bool) (mantissa : N) (exponent : Z).

(** A [JDict] lists the items of a Python dict, which has each key
    once. *)
#[local] Unset Elimination Schemes.
Inductive json : Type :=
| JNull
| JBool (b : bool)
| JInt (n : Z)
| JFloat (x : pyfloat)
| JStr (s : string)
| JList (l : list json)
| JDict (items : list (string * json)).
#[local] Set Elimination Schemes.

Module Json.

(** [j[key]] with a string key: only a dict can be subscripted so. *)
Definition getitem (key : string) (j : json) : outcome json :=
  match j with
  | JDict items => of_option (KeyError key) (PyDict.get key items)
  | _ => Raises TypeError
  end.

(** [j.get(key, default)]: only a dict has [get]. *)
Definition get_default (key : string) (default : json) (j : json) : outcome json :=
  match j with
  | JDict items =>
      Returns (match PyDict.get key items with Some v => v | None => default end)
  | _ => Raises AttributeError
  end.

Fixpoint chars (s : string) : list json :=
  match s with
  | EmptyString => []
  | String c r => JStr (String c EmptyString) :: chars r
  end.

(** [for x in j]: a list yields its elements, a dict its keys, a string
    its characters; nothing else is iterable. *)
Definition iter (j : json) : outcome (list json) :=
  match j with
  | JList l => Returns l
  | JDict items => Returns (map (fun kv => JStr (fst kv)) items)
  | JStr s => Returns (chars s)
  | _ => Raises TypeError
  end.

(** A value at the type of an annotation. *)
Definition as_str (j : json) : outcome string :=
  match j with JStr s => Returns s | _ => Raises TypeMismatch end.

Definition as_int (j : json) : outcome Z :=
  match j with JInt n => Returns n | _ => Raises TypeMismatch end.

Definition as_bool (j : json) : outcome bool :=
  match j with JBool b => Returns b | _ => Raises TypeMismatch end.

Definition as_list {A : Type} (elt : json -> outcome A) (j : json) : outcome (list A) :=
  match j with JList l => mapM elt l | _ => Raises TypeMismatch end.

End Json.

(** ** The two dataclasses *)

Module MedicationSchedule.

Record t : Type := mk {
  id : string;
  medication_name : string;
  dosage : string;
  times : list string;
  duration_days : Z;
  start_date : datetime;
  end_date : datetime;
  additional_notes : string;
  is_active : bool;
  created_at : datetime;
  chat_id : option string
}.

(** The generated [__init__] followed by [__post_init__]: [is_active] and
    [chat_id] take their defaults unless given, a missing [created_at]
    becomes the current time.  (Both callers pass [end_date].) *)
Definition init (id medication_name dosage : string) (times : list string)
    (duration_days : Z) (start_date end_date : datetime)
    (additional_notes : string) (is_active : option bool)
    (created_at : option datetime) (now : datetime) : t :=
  mk id medication_name dosage times duration_days start_date end_date
     additional_notes
     (match is_active with Some b => b | None => true end)
     (match created_at with Some c => c | None => now end)
     None.

Definition set_is_active (b : bool) (s : t) : t :=
  mk (id s) (medication_name s) (dosage s) (times s) (duration_days s)
     (start_date s) (end_date s) (additional_notes s) b (created_at s)
     (chat_id s).

Definition set_chat_id (c : option string) (s : t) : t :=
  mk (id s) (medication_name s) (dosage s) (times s) (duration_days s)
     (start_date s) (end_date s) (additional_notes s) (is_active s)
     (created_at s) c.

End MedicationSchedule.

Module FollowUpSchedule.

Record t : Type := mk {
  id : string;
  appointment_type : string;
  appointment_date : datetime;
  appointment_time : string;
  location : string;
  notes : string;
  reminder_days_before : list Z;
  is_active : bool;
  created_at : datetime
}.

Definition init (id appointment_type : string) (appointment_date : datetime)
    (appointment_time location notes : string)
    (reminder_days_before : list Z) (is_active : option bool)
    (created_at : option datetime) (now : datetime) : t :=
  mk id appointment_type appointment_date appointment_time location notes
     reminder_days_before
     (match is_active with Some b => b | None => true end)
     (match created_at with Some c => c | None => now end).

Definition set_is_active (b : bool) (s : t) : t :=
  mk (id s) (appointment_type s) (appointment_date s) (appointment_time s)
     (location s) (notes s) (reminder_days_before s) b (created_at s).

End FollowUpSchedule.

Module Med := MedicationSchedule.
Module Fu := FollowUpSchedule.

(** ** The scheduler object and its surroundings *)

(** The fields of [HealthcareScheduler] that hold schedule state.  (The
    Telegram client and the thread handle carry none.) *)
Record HealthcareScheduler : Type := {
  medication_schedules : dict Med.t;
  followup_schedules : dict Fu.t;
  is_running : bool
}.

(** The state [__init__] sets up before it loads the file. *)
Definition fresh_scheduler : HealthcareScheduler :=
  {| medication_schedules := []; followup_schedules := []; is_running := false |}.

(** The file [schedules.json]. *)
Inductive storage : Type :=
| Missing
| Unparseable
| Content (data : json).

(** *** Jobs of the [schedule] package

    [schedule.every().day.at(t).do(f, ...)] registers a daily job in the
    package's registry.  A job is due when [now >= next_run];
    [run_pending] runs the due jobs in the order of their [next_run] and
    moves each to the next occurrence of its time of day after the clock. *)
Inductive job_func : Type :=
| send_medication (schedule_id : string)
| send_followup (schedule_id : string) (days_before : Z).

Record Job : Type := {
  job_at : Z;
  job_do : job_func;
  next_run : datetime
}.

(** The calls made to [TelegramSender]. *)
Inductive telegram_call : Type :=
| medication_reminder (chat_id : option string) (medication_name dosage : string)
    (time_to_take : datetime) (additional_notes : string)
| follow_up_reminder (appointment_type : string) (date : datetime)
    (time location notes : string).

(** A delivery: the job that ran, the clock, and the call it made. *)
Record delivery : Type := {
  by_job : Job;
  sent_at : datetime;
  call : telegram_call
}.

Record World : Type := {
  self : HealthcareScheduler;
  disk : storage;
  jobs : list Job;
  delivered : list delivery
}.

Definition set_self (s : HealthcareScheduler) (w : World) : World :=
  {| self := s; disk := disk w; jobs := jobs w; delivered := delivered w |}.

Definition set_medications (m : dict Med.t) (s : HealthcareScheduler) : HealthcareScheduler :=
  {| medication_schedules := m; followup_schedules := followup_schedules s;
     is_running := is_running s |}.

Definition set_followups (f : dict Fu.t) (s : HealthcareScheduler) : HealthcareScheduler :=
  {| medication_schedules := medication_schedules s; followup_schedules := f;
     is_running := is_running s |}.

Definition set_is_running (b : bool) (s : HealthcareScheduler) : HealthcareScheduler :=
  {| medication_schedules := medication_schedules s;
     followup_schedules := followup_schedules s; is_running := b |}.

Definition add_job (j : Job) (w : World) : World :=
  {| self := self w; disk := disk w; jobs := jobs w ++ [j]; delivered := delivered w |}.

Section WithLibrary.
Context {L : Library}.

(** ** Persistence *)

Definition medication_to_json (schedule : Med.t) : json :=
  JDict [ ("id", JStr (Med.id schedule));
          ("medication_name", JStr (Med.medication_name schedule));
          ("dosage", JStr (Med.dosage schedule));
          ("times", JList (map JStr (Med.times schedule)));
          ("duration_days", JInt (Med.duration_days schedule));
          ("start_date", JStr (isoformat (Med.start_date schedule)));
          ("end_date", JStr (isoformat (Med.end_date schedule)));
          ("additional_notes", JStr (Med.additional_notes schedule));
          ("is_active", JBool (Med.is_active schedule));
          ("created_at", JStr (isoformat (Med.created_at schedule))) ].

Definition followup_to_json (schedule : Fu.t) : json :=
  JDict [ ("id", JStr (Fu.id schedule));
          ("appointment_type", JStr (Fu.appointment_type schedule));
          ("appointment_date", JStr (isoformat (Fu.appointment_date schedule)));
          ("appointment_time", JStr (Fu.appointment_time schedule));
          ("location", JStr (Fu.location schedule));
          ("notes", JStr (Fu.notes schedule));
          ("reminder_days_before", JList (map JInt (Fu.reminder_days_before schedule)));
          ("is_active", JBool (Fu.is_active schedule));
          ("created_at", JStr (isoformat (Fu.created_at schedule))) ].

(** The value [_save_schedules] hands to [json.dump]. *)
Definition snapshot (s : HealthcareScheduler) : json :=
  JDict [ ("medications",
           JList (map medication_to_json (PyDict.values (medication_schedules s))));
          ("followups",
           JList (map followup_to_json (PyDict.values (followup_schedules s)))) ].

Definition _save_schedules (w : World) : World :=
  {| self := self w; disk := Content (snapshot (self w));
     jobs := jobs w; delivered := delivered w |}.

(** [datetime.fromisoformat(j)]: [TypeError] unless [j] is a string,
    [ValueError] when the string is no date. *)
Definition datetime_of_json (j : json) : outcome datetime :=
  match j with
  | JStr s => of_option ValueError (fromisoformat s)
  | _ => Raises TypeError
  end.

(** The constructor call in the first loop of [_load_schedules], read at
    the annotated types; the keyword arguments are evaluated in the order
    written.  On a record whose values have the types of the annotations
    this is the call as Python runs it,
    [Unchecked.medication_of_json]; a value of another type, which Python
    stores as it is, has no place in [Med.t] and gives [TypeMismatch]
    (lemma [medication_of_json_reads]). *)
Definition medication_of_json (med_data : json) : outcome Med.t :=
  id <- bind (Json.getitem "id" med_data) Json.as_str ;;
  medication_name <- bind (Json.getitem "medication_name" med_data) Json.as_str ;;
  dosage <- bind (Json.getitem "dosage" med_data) Json.as_str ;;
  times <- bind (Json.getitem "times" med_data) (Json.as_list Json.as_str) ;;
  duration_days <- bind (Json.getitem "duration_days" med_data) Json.as_int ;;
  start_date <- bind (Json.getitem "start_date" med_data) datetime_of_json ;;
  end_date <- bind (Json.getitem "end_date" med_data) datetime_of_json ;;
  additional_notes <- bind (Json.getitem "additional_notes" med_data) Json.as_str ;;
  is_active <- bind (Json.getitem "is_active" med_data) Json.as_bool ;;
  created_at <- bind (Json.getitem "created_at" med_data) datetime_of_json ;;
  Returns (Med.init id medication_name dosage times duration_days start_date
             end_date additional_notes (Some is_active) (Some created_at)
             created_at).

(** The same for the second loop (lemma [followup_of_json_reads]). *)
Definition followup_of_json (followup_data : json) : outcome Fu.t :=
  id <- bind (Json.getitem "id" followup_data) Json.as_str ;;
  appointment_type <- bind (Json.getitem "appointment_type" followup_data) Json.as_str ;;
  appointment_date <- bind (Json.getitem "appointment_date" followup_data) datetime_of_json ;;
  appointment_time <- bind (Json.getitem "appointment_time" followup_data) Json.as_str ;;
  location <- bind (Json.getitem "location" followup_data) Json.as_str ;;
  notes <- bind (Json.getitem "notes" followup_data) Json.as_str ;;
  reminder_days_before <-
    bind (Json.getitem "reminder_days_before" followup_data) (Json.as_list Json.as_int) ;;
  is_active <- bind (Json.getitem "is_active" followup_data) Json.as_bool ;;
  created_at <- bind (Json.getitem "created_at" followup_data) datetime_of_json ;;
  Returns (Fu.init id appointment_type appointment_date appointment_time
             location notes reminder_days_before (Some is_active)
             (Some created_at) created_at).

(** The two loops of [_load_schedules].  Each returns the scheduler as far
    as it got and the exception that ended it, if any; [TypeMismatch]
    there says that the file holds a value the typed schedules cannot
    hold, and that the scheduler is as far as the typed reading goes. *)
Fixpoint load_medications (l : list json) (s : HealthcareScheduler)
  : HealthcareScheduler * option exn :=
  match l with
  | [] => (s, None)
  | med_data :: r =>
      match medication_of_json med_data with
      | Returns schedule =>
          load_medications r
            (set_medications
               (PyDict.set (Med.id schedule) schedule (medication_schedules s)) s)
      | Raises e => (s, Some e)
      end
  end.

Fixpoint load_followups (l : list json) (s : HealthcareScheduler)
  : HealthcareScheduler * option exn :=
  match l with
  | [] => (s, None)
  | followup_data :: r =>
      match followup_of_json followup_data with
      | Returns schedule =>
          load_followups r
            (set_followups
               (PyDict.set (Fu.id schedule) schedule (followup_schedules s)) s)
      | Raises e => (s, Some e)
      end
  end.

(** [_load_schedules]: the whole body is inside [try: ... except
    Exception as e: logger.error(...)], so the method always returns; the
    second component is the exception it logged, if any. *)
Definition _load_schedules (d : storage) (s : HealthcareScheduler)
  : HealthcareScheduler * option exn :=
  match d with
  | Missing => (s, None)
  | Unparseable => (s, Some ValueError)
  | Content data =>
      match bind (Json.get_default "medications" (JList []) data) Json.iter with
      | Raises e => (s, Some e)
      | Returns meds =>
          match load_medications meds s with
          | (s1, Some e) => (s1, Some e)
          | (s1, None) =>
              match bind (Json.get_default "followups" (JList []) data) Json.iter with
              | Raises e => (s1, Some e)
              | Returns fus => load_followups fus s1
              end
          end
      end
  end.

(** [HealthcareScheduler()] *)
Definition __init__ (d : storage) : HealthcareScheduler :=
  fst (_load_schedules d fresh_scheduler).

End WithLibrary.

(** ** The load as Python runs it

    Python does not check the annotations of a dataclass.  The constructor
    calls of [_load_schedules] store the value that the file holds under a
    key, whatever its type; only the date fields go through
    [datetime.fromisoformat], and only the id has to be a value that can be
    the key of a dictionary.  [Unchecked] holds the two dataclasses and the
    scheduler with fields that take every value, and [_load_schedules] on
    them.  The scheduler of the rest of this development is the reading of
    these objects at the annotated types. *)
Module Unchecked.

(** *** Values as keys of a [dict] *)

(** [hash(j)] raises [TypeError] for a list and for a dict. *)
Definition hashable (j : json) : bool :=
  match j with
  | JList _ => false
  | JDict _ => false
  | _ => true
  end.

(** The value of a number, as a signed mantissa and an exponent of two;
    [True] and [False] are the integers 1 and 0. *)
Definition as_number (j : json) : option (Z * Z) :=
  match j with
  | JBool b => Some (if b then 1 else 0, 0)
  | JInt n => Some (n, 0)
  | JFloat (finite negative mantissa exponent) =>
      Some (if negative then - Z.of_N mantissa else Z.of_N mantissa, exponent)
  | _ => None
  end.

(** Numbers compare by value, exactly. *)
Definition number_eqb (a b : Z * Z) : bool :=
  let e := Z.min (snd a) (snd b) in
  fst a * 2 ^ (snd a - e) =? fst b * 2 ^ (snd b - e).

(** Whether the key [k] of a dict is found under [j]: the same object, or
    [k == j].  Every [NaN] of a file is the same object, the constant of
    the [json] module. *)
Definition key_eqb (k j : json) : bool :=
  match as_number k, as_number j with
  | Some a, Some b => number_eqb a b
  | _, _ =>
      match k, j with
      | JNull, JNull => true
      | JStr s, JStr t => String.eqb s t
      | JFloat nan, JFloat nan => true
      | JFloat (inf s), JFloat (inf t) => Bool.eqb s t
      | _, _ => false
      end
  end.

Section Dict.
Context {V : Type}.

Definition dict : Type := list (json * V).

(** A present key keeps its place and stays the object it is; a new key
    goes last. *)
Fixpoint store (k : json) (v : V) (d : dict) : dict :=
  match d with
  | [] => [(k, v)]
  | (k', v') :: r =>
      if key_eqb k' k then (k', v) :: r else (k', v') :: store k v r
  end.

(** [d[k] = v] *)
Definition setitem (k : json) (v : V) (d : dict) : outcome dict :=
  if hashable k then Returns (store k v d) else Raises TypeError.

End Dict.
Arguments dict V : clear implicits.

(** *** The dataclasses, with fields that hold any value *)

Module MedicationSchedule.

Record t : Type := mk {
  id : json;
  medication_name : json;
  dosage : json;
  times : json;
  duration_days : json;
  start_date : datetime;
  end_date : datetime;
  additional_notes : json;
  is_active : json;
  created_at : datetime;
  chat_id : json
}.

End MedicationSchedule.

Module FollowUpSchedule.

Record t : Type := mk {
  id : json;
  appointment_type : json;
  appointment_date : datetime;
  appointment_time : json;
  location : json;
  notes : json;
  reminder_days_before : json;
  is_active : json;
  created_at : datetime
}.

End FollowUpSchedule.

Module Med := MedicationSchedule.
Module Fu := FollowUpSchedule.

Record HealthcareScheduler : Type := {
  medication_schedules : dict Med.t;
  followup_schedules : dict Fu.t;
  is_running : bool
}.

Definition fresh_scheduler : HealthcareScheduler :=
  {| medication_schedules := []; followup_schedules := []; is_running := false |}.

Definition set_medications (m : dict Med.t) (s : HealthcareScheduler)
  : HealthcareScheduler :=
  {| medication_schedules := m; followup_schedules := followup_schedules s;
     is_running := is_running s |}.

Definition set_followups (f : dict Fu.t) (s : HealthcareScheduler)
  : HealthcareScheduler :=
  {| medication_schedules := medication_schedules s; followup_schedules := f;
     is_running := is_running s |}.

Section Load.
Context {L : Library}.

(** The constructor call in the first loop of [_load_schedules]: the
    keyword arguments are evaluated in the order written, and the values
    are stored as they are.  [chat_id] is not passed and takes its default,
    [None]. *)
Definition medication_of_json (med_data : json) : outcome Med.t :=
  id <- Json.getitem "id" med_data ;;
  medication_name <- Json.getitem "medication_name" med_data ;;
  dosage <- Json.getitem "dosage" med_data ;;
  times <- Json.getitem "times" med_data ;;
  duration_days <- Json.getitem "duration_days" med_data ;;
  start_date <- bind (Json.getitem "start_date" med_data) datetime_of_json ;;
  end_date <- bind (Json.getitem "end_date" med_data) datetime_of_json ;;
  additional_notes <- Json.getitem "additional_notes" med_data ;;
  is_active <- Json.getitem "is_active" med_data ;;
  created_at <- bind (Json.getitem "created_at" med_data) datetime_of_json ;;
  Returns (Med.mk id medication_name dosage times duration_days start_date
             end_date additional_notes is_active created_at JNull).

Definition followup_of_json (followup_data : json) : outcome Fu.t :=
  id <- Json.getitem "id" followup_data ;;
  appointment_type <- Json.getitem "appointment_type" followup_data ;;
  appointment_date <-
    bind (Json.getitem "appointment_date" followup_data) datetime_of_json ;;
  appointment_time <- Json.getitem "appointment_time" followup_data ;;
  location <- Json.getitem "location" followup_data ;;
  notes <- Json.getitem "notes" followup_data ;;
  reminder_days_before <- Json.getitem "reminder_days_before" followup_data ;;
  is_active <- Json.getitem "is_active" followup_data ;;
  created_at <- bind (Json.getitem "created_at" followup_data) datetime_of_json ;;
  Returns (Fu.mk id appointment_type appointment_date appointment_time location
             notes reminder_days_before is_active created_at).

(** The body of each loop: the constructor call, then
    [self.medication_schedules[schedule.id] = schedule]. *)
Definition load_medication (med_data : json) (s : HealthcareScheduler)
  : outcome HealthcareScheduler :=
  schedule <- medication_of_json med_data ;;
  d <- setitem (Med.id schedule) schedule (medication_schedules s) ;;
  Returns (set_medications d s).

Definition load_followup (followup_data : json) (s : HealthcareScheduler)
  : outcome HealthcareScheduler :=
  schedule <- followup_of_json followup_data ;;
  d <- setitem (Fu.id schedule) schedule (followup_schedules s) ;;
  Returns (set_followups d s).

(** What a loop stores for a record: the object of the constructor call,
    when its id can be a key. *)
Definition medication_record (med_data : json) : outcome Med.t :=
  schedule <- medication_of_json med_data ;;
  if hashable (Med.id schedule) then Returns schedule else Raises TypeError.

Definition followup_record (followup_data : json) : outcome Fu.t :=
  schedule <- followup_of_json followup_data ;;
  if hashable (Fu.id schedule) then Returns schedule else Raises TypeError.

(** A loop whose body may raise: the scheduler as far as the loop got, and
    the exception that ended it, if any. *)
Fixpoint load_each (body : json -> HealthcareScheduler -> outcome HealthcareScheduler)
    (l : list json) (s : HealthcareScheduler)
  : HealthcareScheduler * option exn :=
  match l with
  | [] => (s, None)
  | data :: r =>
      match body data s with
      | Returns s' => load_each body r s'
      | Raises e => (s, Some e)
      end
  end.

(** [_load_schedules]: the whole body is inside [try: ... except
    Exception as e: logger.error(...)], so the method always returns; the
    second component is the exception it logged, if any. *)
Definition _load_schedules (d : storage) (s : HealthcareScheduler)
  : HealthcareScheduler * option exn :=
  match d with
  | Missing => (s, None)
  | Unparseable => (s, Some ValueError)
  | Content data =>
      match bind (Json.get_default "medications" (JList []) data) Json.iter with
      | Raises e => (s, Some e)
      | Returns meds =>
          match load_each load_medication meds s with
          | (s1, Some e) => (s1, Some e)
          | (s1, None) =>
              match bind (Json.get_default "followups" (JList []) data) Json.iter with
              | Raises e => (s1, Some e)
              | Returns fus => load_each load_followup fus s1
              end
          end
      end
  end.

(** The dictionary after [d[v.id] = v] for each [v] of [vs] in turn. *)
Definition store_medications (vs : list Med.t) (d : dict Med.t) : dict Med.t :=
  fold_left (fun d v => store (Med.id v) v d) vs d.

Definition store_followups (vs : list Fu.t) (d : dict Fu.t) : dict Fu.t :=
  fold_left (fun d v => store (Fu.id v) v d) vs d.

(** The dictionaries of [HealthcareScheduler()]. *)
Definition __init__ (d : storage) : HealthcareScheduler :=
  fst (_load_schedules d fresh_scheduler).

End Load.

End Unchecked.

(** *** The objects of the annotated types

    A schedule whose fields hold values of the annotated types, as the
    object that Python holds, and the same for the scheduler. *)
Definition unchecked_medication (schedule : Med.t) : Unchecked.Med.t :=
  Unchecked.Med.mk (JStr (Med.id schedule))
    (JStr (Med.medication_name schedule))
    (JStr (Med.dosage schedule))
    (JList (map JStr (Med.times schedule)))
    (JInt (Med.duration_days schedule))
    (Med.start_date schedule)
    (Med.end_date schedule)
    (JStr (Med.additional_notes schedule))
    (JBool (Med.is_active schedule))
    (Med.created_at schedule)
    (match Med.chat_id schedule with
     | Some c => JStr c
     | None => JNull
     end).

Definition unchecked_followup (schedule : Fu.t) : Unchecked.Fu.t :=
  Unchecked.Fu.mk (JStr (Fu.id schedule))
    (JStr (Fu.appointment_type schedule))
    (Fu.appointment_date schedule)
    (JStr (Fu.appointment_time schedule))
    (JStr (Fu.location schedule))
    (JStr (Fu.notes schedule))
    (JList (map JInt (Fu.reminder_days_before schedule)))
    (JBool (Fu.is_active schedule))
    (Fu.created_at schedule).

Definition unchecked (s : HealthcareScheduler) : Unchecked.HealthcareScheduler :=
  {| Unchecked.medication_schedules :=
       map (fun kv => (JStr (fst kv), unchecked_medication (snd kv)))
         (medication_schedules s);
     Unchecked.followup_schedules :=
       map (fun kv => (JStr (fst kv), unchecked_followup (snd kv)))
         (followup_schedules s);
     Unchecked.is_running := is_running s |}.

(** The typed reading of a call agrees with the call as Python runs it:
    they return the same object or raise the same exception, unless the
    object has no typed reading. *)
Definition reads {A B : Type} (inj : A -> B) (typed : outcome A)
    (object : outcome B) : Prop :=
  match typed with
  | Returns x => object = Returns (inj x)
  | Raises TypeMismatch => True
  | Raises e => object = Raises e
  end.

Section Operations.
Context {L : Library}.

(** ** The job registry of the [schedule] package *)

(** [Job._schedule_next_run] of a daily job with a time of day: the first
    instant after [now] whose time of day is [job_at]; today when that is
    still ahead, tomorrow otherwise. *)
Definition next_occurrence (at_ : Z) (now : datetime) : datetime :=
  let today := date now * usec_per_day + at_ in
  if now <? today then today else today + usec_per_day.

(** [schedule.every().day.at(time_str).do(f, ...)] *)
Definition every_day_at_do (time_str : string) (f : job_func) (now : datetime)
    (w : World) : outcome World :=
  match at_time time_str with
  | Some t =>
      Returns (add_job {| job_at := t; job_do := f;
                          next_run := next_occurrence t now |} w)
  | None => Raises ScheduleValueError
  end.

(** [Job.should_run] *)
Definition should_run (now : datetime) (j : Job) : bool := next_run j <=? now.

(** [sorted(runnable_jobs)]: jobs compare by [next_run]; the sort is
    stable. *)
Fixpoint insert_job (j : Job) (l : list Job) : list Job :=
  match l with
  | [] => [j]
  | k :: r => if next_run k <? next_run j then k :: insert_job j r else j :: k :: r
  end.

Definition sorted (l : list Job) : list Job := fold_right insert_job [] l.

Definition reschedule (now : datetime) (j : Job) : Job :=
  if should_run now j
  then {| job_at := job_at j; job_do := job_do j;
          next_run := next_occurrence (job_at j) now |}
  else j.

(** ** Registering reminders *)

(** The loop of [_schedule_medication_reminders]; an exception of [at]
    leaves the loop and is logged. *)
Fixpoint schedule_medication_loop (schedule_id : string) (times : list string)
    (now : datetime) (w : World) : World :=
  match times with
  | [] => w
  | time_str :: r =>
      match every_day_at_do time_str (send_medication schedule_id) now w with
      | Returns w' => schedule_medication_loop schedule_id r now w'
      | Raises _ => w
      end
  end.

Definition _schedule_medication_reminders (medication_schedule : Med.t)
    (now : datetime) (w : World) : World :=
  schedule_medication_loop (Med.id medication_schedule)
    (Med.times medication_schedule) now w.

(** [appointment_date - timedelta(days=days_before)] *)
Definition reminder_date_of (appointment_date : datetime) (days_before : Z)
  : outcome datetime :=
  delta <- timedelta_days days_before ;; Datetime.sub appointment_date delta.

Fixpoint schedule_followup_loop (followup_schedule : Fu.t) (l : list Z)
    (now : datetime) (w : World) : World :=
  match l with
  | [] => w
  | days_before :: r =>
      match reminder_date_of (Fu.appointment_date followup_schedule) days_before with
      | Raises _ => w
      | Returns reminder_date =>
          if now <? reminder_date then
            match every_day_at_do "09:00"
                    (send_followup (Fu.id followup_schedule) days_before) now w with
            | Returns w' => schedule_followup_loop followup_schedule r now w'
            | Raises _ => w
            end
          else schedule_followup_loop followup_schedule r now w
      end
  end.

Definition _schedule_followup_reminders (followup_schedule : Fu.t)
    (now : datetime) (w : World) : World :=
  schedule_followup_loop followup_schedule
    (Fu.reminder_days_before followup_schedule) now w.

(** ** Adding schedules *)

(** [uuid4] is the string [str(uuid.uuid4())] comes out as. *)
Definition add_medication_schedule (medication_name dosage : string)
    (times : list string) (duration_days : Z) (start_date : option datetime)
    (additional_notes : string) (chat_id : option string)
    (uuid4 : string) (now : datetime) (w : World) : outcome string * World :=
  let start_date := match start_date with Some d => d | None => now end in
  let schedule_id := uuid4 in
  match (delta <- timedelta_days duration_days ;; Datetime.add start_date delta) with
  | Raises e => (Raises e, w)
  | Returns end_date =>
      let schedule :=
        Med.init schedule_id medication_name dosage times duration_days
          start_date end_date additional_notes None None now in
      let schedule :=
        match chat_id with
        | Some c => if String.eqb c "" then schedule
                    else Med.set_chat_id (Some c) schedule
        | None => schedule
        end in
      let w :=
        set_self (set_medications
                    (PyDict.set schedule_id schedule (medication_schedules (self w)))
                    (self w)) w in
      let w := _schedule_medication_reminders schedule now w in
      let w := _save_schedules w in
      (Returns schedule_id, w)
  end.

Definition add_followup_schedule (appointment_type : string)
    (appointment_date : datetime) (appointment_time location notes : string)
    (reminder_days_before : option (list Z))
    (uuid4 : string) (now : datetime) (w : World) : string * World :=
  let reminder_days_before :=
    match reminder_days_before with Some l => l | None => [1; 3; 7] end in
  let schedule_id := uuid4 in
  let schedule :=
    Fu.init schedule_id appointment_type appointment_date appointment_time
      location notes reminder_days_before None None now in
  let w :=
    set_self (set_followups
                (PyDict.set schedule_id schedule (followup_schedules (self w)))
                (self w)) w in
  let w := _schedule_followup_reminders schedule now w in
  let w := _save_schedules w in
  (schedule_id, w).

(** ** Dispatch

    The two job functions return the new world and the calls they made to
    the Telegram client. *)
Definition _send_medication_reminder (schedule_id : string) (now : datetime)
    (w : World) : World * list telegram_call :=
  match PyDict.get schedule_id (medication_schedules (self w)) with
  | None => (w, [])
  | Some schedule =>
      if negb (Med.is_active schedule) then (w, [])
      else if Med.end_date schedule <? now then
        let w :=
          set_self (set_medications
                      (PyDict.modify schedule_id (Med.set_is_active false)
                         (medication_schedules (self w)))
                      (self w)) w in
        (_save_schedules w, [])
      else
        (w, [medication_reminder (Med.chat_id schedule)
               (Med.medication_name schedule) (Med.dosage schedule) now
               (Med.additional_notes schedule)])
  end.

Definition _send_followup_reminder (schedule_id : string) (days_before : Z)
    (now : datetime) (w : World) : World * list telegram_call :=
  match PyDict.get schedule_id (followup_schedules (self w)) with
  | None => (w, [])
  | Some schedule =>
      if negb (Fu.is_active schedule) then (w, [])
      else
        match reminder_date_of (Fu.appointment_date schedule) days_before with
        | Raises _ => (w, [])
        | Returns reminder_date =>
            if negb (date reminder_date =? date now) then (w, [])
            else
              (w, [follow_up_reminder (Fu.appointment_type schedule)
                     (Fu.appointment_date schedule)
                     (Fu.appointment_time schedule) (Fu.location schedule)
                     (Fu.notes schedule)])
        end
  end.

Definition call_job_func (f : job_func) (now : datetime) (w : World)
  : World * list telegram_call :=
  match f with
  | send_medication schedule_id => _send_medication_reminder schedule_id now w
  | send_followup schedule_id days_before =>
      _send_followup_reminder schedule_id days_before now w
  end.

(** Running one due job; its deliveries are logged with the job as it was
    when it fell due. *)
Definition run_job (now : datetime) (w : World) (j : Job) : World :=
  let '(w', calls) := call_job_func (job_do j) now w in
  {| self := self w'; disk := disk w'; jobs := jobs w';
     delivered :=
       delivered w'
       ++ map (fun c => {| by_job := j; sent_at := now; call := c |}) calls |}.

(** [schedule.run_pending()] *)
Definition run_pending (now : datetime) (w : World) : World :=
  let runnable := filter (should_run now) (jobs w) in
  let w' := fold_left (run_job now) (sorted runnable) w in
  {| self := self w'; disk := disk w';
     jobs := map (reschedule now) (jobs w'); delivered := delivered w' |}.

(** ** Stopping schedules *)

Definition stop_medication_schedule (schedule_id : string) (w : World)
  : bool * World :=
  if PyDict.contains schedule_id (medication_schedules (self w)) then
    let w :=
      set_self (set_medications
                  (PyDict.modify schedule_id (Med.set_is_active false)
                     (medication_schedules (self w)))
                  (self w)) w in
    (true, _save_schedules w)
  else (false, w).

Definition stop_followup_schedule (schedule_id : string) (w : World)
  : bool * World :=
  if PyDict.contains schedule_id (followup_schedules (self w)) then
    let w :=
      set_self (set_followups
                  (PyDict.modify schedule_id (Fu.set_is_active false)
                     (followup_schedules (self w)))
                  (self w)) w in
    (true, _save_schedules w)
  else (false, w).

(** ** Views *)

Definition get_active_schedules (now : datetime) (s : HealthcareScheduler)
  : dict Med.t * dict Fu.t :=
  (PyDict.comprehension
     (fun v => Med.is_active v && (now <=? Med.end_date v))
     (medication_schedules s),
   PyDict.comprehension
     (fun v => Fu.is_active v && (now <? Fu.appointment_date v))
     (followup_schedules s)).

(** ** The background loop *)

Definition start_scheduler (w : World) : World :=
  if is_running (self w) then w else set_self (set_is_running true (self w)) w.

Definition stop_scheduler (w : World) : World :=
  set_self (set_is_running false (self w)) w.

(** One iteration of [run_scheduler]: [while self.is_running:
    schedule.run_pending()]. *)
Definition tick (now : datetime) (w : World) : World :=
  if is_running (self w) then run_pending now w else w.

(** ** The system as a transition system

    The foreground calls and the iterations of the background loop are
    taken one at a time.  [NewProcess] ends the process and constructs the
    scheduler again: the job registry of the old process is gone, the file
    stays. *)
Inductive op : Type :=
| AddMedication (medication_name dosage : string) (times : list string)
    (duration_days : Z) (start_date : option datetime)
    (additional_notes : string) (chat_id : option string)
    (uuid4 : string) (now : datetime)
| AddFollowup (appointment_type : string) (appointment_date : datetime)
    (appointment_time location notes : string)
    (reminder_days_before : option (list Z)) (uuid4 : string) (now : datetime)
| StopMedication (schedule_id : string)
| StopFollowup (schedule_id : string)
| ListActive (now : datetime)
| StartScheduler
| StopScheduler
| Tick (now : datetime)
| NewProcess.

Definition exec (o : op) (w : World) : World :=
  match o with
  | AddMedication medication_name dosage times duration_days start_date
      additional_notes chat_id uuid4 now =>
      snd (add_medication_schedule medication_name dosage times duration_days
             start_date additional_notes chat_id uuid4 now w)
  | AddFollowup appointment_type appointment_date appointment_time location
      notes reminder_days_before uuid4 now =>
      snd (add_followup_schedule appointment_type appointment_date
             appointment_time location notes reminder_days_before uuid4 now w)
  | StopMedication schedule_id => snd (stop_medication_schedule schedule_id w)
  | StopFollowup schedule_id => snd (stop_followup_schedule schedule_id w)
  | ListActive _ => w
  | StartScheduler => start_scheduler w
  | StopScheduler => stop_scheduler w
  | Tick now => tick now w
  | NewProcess =>
      {| self := __init__ (disk w); disk := disk w; jobs := [];
         delivered := delivered w |}
  end.

Definition run (ops : list op) (w : World) : World :=
  fold_left (fun w o => exec o w) ops w.

(** The world in which a process starts: whatever is on disk, no jobs,
    nothing delivered. *)
Definition boot (d : storage) : World :=
  {| self := __init__ d; disk := d; jobs := []; delivered := [] |}.

End Operations.

(** ** Several scheduler objects in one process

    [HealthcareScheduler()] is called more than once in a process: the
    convenience functions at the end of [utils/scheduler.py] and the last
    step of the application ([app.py]) construct a new object on every
    call.  The objects share [schedules.json] and the job registry, which
    is a module global of the [schedule] package; a job holds the bound
    method of the object that registered it.  A process is the list of its
    scheduler objects in the order of their construction, the file, the
    registry with the owner of each job, and the deliveries with the owner
    of the job that made them. *)
Record Process : Type := {
  objects : list HealthcareScheduler;
  file : storage;
  registry : list (nat * Job);
  outbox : list (nat * delivery)
}.

(** The world a method of the object [s] sees; what it adds to the registry
    and to the deliveries is collected in the two empty lists. *)
Definition world_of (s : HealthcareScheduler) (d : storage) : World :=
  {| self := s; disk := d; jobs := []; delivered := [] |}.

Fixpoint replace_nth {A : Type} (i : nat) (x : A) (l : list A) : list A :=
  match l, i with
  | [], _ => []
  | _ :: r, O => x :: r
  | y :: r, S i' => y :: replace_nth i' x r
  end.

(** The process after a method of object [i] has left the world [w]. *)
Definition merge (i : nat) (w : World) (p : Process) : Process :=
  {| objects := replace_nth i (self w) (objects p);
     file := disk w;
     registry := registry p ++ map (pair i) (jobs w);
     outbox := outbox p ++ map (pair i) (delivered w) |}.

Section Processes.
Context {L : Library}.

(** [HealthcareScheduler()]: the new object is the last of the list. *)
Definition construct (p : Process) : Process :=
  {| objects := objects p ++ [__init__ (file p)];
     file := file p; registry := registry p; outbox := outbox p |}.

(** A method call on the object [i], when there is such an object. *)
Definition call_method {A : Type} (i : nat) (method : World -> A * World)
    (p : Process)
  : option (A * Process) :=
  match nth_error (objects p) i with
  | Some s =>
      let r := method (world_of s (file p)) in
      Some (fst r, merge i (snd r) p)
  | None => None
  end.

(** [create_medication_schedule] and [create_followup_schedule] *)
Definition create_medication_schedule (medication_name dosage : string)
    (times : list string) (duration_days : Z) (additional_notes : string)
    (uuid4 : string) (now : datetime) (p : Process) : outcome string * Process :=
  let scheduler := List.length (objects p) in
  let p := construct p in
  let r := add_medication_schedule medication_name dosage times duration_days
             None additional_notes None uuid4 now
             (world_of (__init__ (file p)) (file p)) in
  (fst r, merge scheduler (snd r) p).

Definition create_followup_schedule (appointment_type : string)
    (appointment_date : datetime) (appointment_time location notes : string)
    (uuid4 : string) (now : datetime) (p : Process) : string * Process :=
  let scheduler := List.length (objects p) in
  let p := construct p in
  let r := add_followup_schedule appointment_type appointment_date
             appointment_time location notes None uuid4 now
             (world_of (__init__ (file p)) (file p)) in
  (fst r, merge scheduler (snd r) p).

(** *** The registry of the process *)

(** A due job runs the method of its owner. *)
Definition run_owned_job (now : datetime) (p : Process) (ij : nat * Job) : Process :=
  match nth_error (objects p) (fst ij) with
  | Some s =>
      let '(w, calls) :=
        call_job_func (job_do (snd ij)) now (world_of s (file p)) in
      {| objects := replace_nth (fst ij) (self w) (objects p);
         file := disk w;
         registry := registry p;
         outbox :=
           outbox p
           ++ map (fun c => (fst ij, {| by_job := snd ij; sent_at := now;
                                        call := c |})) calls |}
  | None => p
  end.

Fixpoint insert_owned (ij : nat * Job) (l : list (nat * Job)) : list (nat * Job) :=
  match l with
  | [] => [ij]
  | k :: r =>
      if next_run (snd k) <? next_run (snd ij) then k :: insert_owned ij r
      else ij :: k :: r
  end.

Definition sorted_owned (l : list (nat * Job)) : list (nat * Job) :=
  fold_right insert_owned [] l.

(** [schedule.run_pending()], whichever thread calls it: every due job of
    the registry is run, whoever owns it. *)
Definition run_pending_all (now : datetime) (p : Process) : Process :=
  let runnable := filter (fun ij => should_run now (snd ij)) (registry p) in
  let p' := fold_left (run_owned_job now) (sorted_owned runnable) p in
  {| objects := objects p'; file := file p';
     registry := map (fun ij => (fst ij, reschedule now (snd ij))) (registry p');
     outbox := outbox p' |}.

(** One iteration of the loop that [start_scheduler] of the object [i]
    started. *)
Definition tick_of (i : nat) (now : datetime) (p : Process) : Process :=
  match nth_error (objects p) i with
  | Some s => if is_running s then run_pending_all now p else p
  | None => p
  end.

(** *** The last step of the application

    An entry of [st.session_state.medication_reminders], with the id that
    [uuid4()] returns for it and the clock of its call. *)
Record Reminder : Type := {
  reminder_medication : string;
  reminder_dosage : string;
  reminder_times : list string;
  reminder_duration : Z;
  reminder_message : string;
  reminder_chat_id : string;
  reminder_uuid4 : string;
  reminder_now : datetime
}.

(** The loop over the reminders; an exception of
    [add_medication_schedule] leaves it. *)
Fixpoint add_reminders (reminders : list Reminder) (w : World)
  : outcome unit * World :=
  match reminders with
  | [] => (Returns tt, w)
  | reminder :: rest =>
      match add_medication_schedule (reminder_medication reminder)
              (reminder_dosage reminder) (reminder_times reminder)
              (reminder_duration reminder) None (reminder_message reminder)
              (Some (reminder_chat_id reminder)) (reminder_uuid4 reminder)
              (reminder_now reminder) w with
      | (Returns _, w') => add_reminders rest w'
      | (Raises e, w') => (Raises e, w')
      end
  end.

(** What the button [Start All Reminders] does: a new scheduler, a
    schedule for every reminder of the session, and the loop of the new
    scheduler; an exception is shown on the page. *)
Definition start_all_reminders (reminders : list Reminder) (p : Process)
  : outcome unit * Process :=
  let scheduler := List.length (objects p) in
  let p := construct p in
  let r := add_reminders reminders (world_of (__init__ (file p)) (file p)) in
  match fst r with
  | Returns _ => (Returns tt, merge scheduler (start_scheduler (snd r)) p)
  | Raises e => (Raises e, merge scheduler (snd r) p)
  end.

End Processes.

(** ** Text

    A Python [str] is held as its UTF-8 encoding. *)

Module Text.

Definition code (a : ascii) : N := N_of_ascii a.

(** The code points for which [str.isspace] holds, by the length of their
    encoding: U+0009 to U+000D and U+001C to U+0020; U+0085 and U+00A0;
    U+1680, U+2000 to U+200A, U+2028, U+2029, U+202F, U+205F and U+3000. *)
Definition space1 (a : ascii) : bool :=
  ((9 <=? code a) && (code a <=? 13) || (28 <=? code a) && (code a <=? 32))%N.

Definition space2 (a b : ascii) : bool :=
  ((code a =? 194) && ((code b =? 133) || (code b =? 160)))%N.

Definition space3 (a b c : ascii) : bool :=
  ((code a =? 225) && (code b =? 154) && (code c =? 128)
   || (code a =? 226) && (code b =? 128)
      && ((128 <=? code c) && (code c <=? 138)
          || (code c =? 168) || (code c =? 169) || (code c =? 175))
   || (code a =? 226) && (code b =? 129) && (code c =? 159)
   || (code a =? 227) && (code b =? 128) && (code c =? 128))%N.

(** [s.lstrip()] *)
Fixpoint lstrip (l : list ascii) : list ascii :=
  match l with
  | [] => []
  | a :: r =>
      if space1 a then lstrip r
      else
        match r with
        | [] => l
        | b :: r2 =>
            if space2 a b then lstrip r2
            else
              match r2 with
              | [] => l
              | c :: r3 => if space3 a b c then lstrip r3 else l
              end
        end
  end.

(** [s.rstrip()] on the reversed string: the last byte comes first. *)
Fixpoint rstrip_rev (l : list ascii) : list ascii :=
  match l with
  | [] => []
  | c :: r =>
      if space1 c then rstrip_rev r
      else
        match r with
        | [] => l
        | b :: r2 =>
            if space2 b c then rstrip_rev r2
            else
              match r2 with
              | [] => l
              | a :: r3 => if space3 a b c then rstrip_rev r3 else l
              end
        end
  end.

Definition strip_bytes (l : list ascii) : list ascii :=
  lstrip (rev (rstrip_rev (rev l))).

(** [s.strip()] *)
Definition strip (s : string) : string :=
  string_of_list_ascii (strip_bytes (list_ascii_of_string s)).

(** A byte that begins no white space, and one that ends none. *)
Definition plain_head (a : ascii) : bool :=
  negb (space1 a)
  && negb ((code a =? 194) || (code a =? 225) || (code a =? 226)
           || (code a =? 227))%N.

Definition plain_tail (c : ascii) : bool :=
  negb (space1 c)
  && negb ((128 <=? code c) && (code c <=? 138)
           || (code c =? 133) || (code c =? 159) || (code c =? 160)
           || (code c =? 168) || (code c =? 169) || (code c =? 175))%N.

(** A byte that is part of no white space. *)
Definition plain (a : ascii) : bool := plain_head a && plain_tail a.

Definition starts_plain (s : string) : bool :=
  match s with
  | String a _ => plain a
  | EmptyString => false
  end.

Definition ends_plain (s : string) : bool :=
  match rev (list_ascii_of_string s) with
  | c :: _ => plain_tail c
  | [] => false
  end.

(** [str(n)] of an [int] *)
Definition str_int (n : Z) : string := NilZero.string_of_int (Z.to_int n).

Definition newline : string := String "010" EmptyString.

End Text.

(** [strftime] of the standard library with the two formats the scheduler
    uses, [%I:%M %p] and [%Y-%m-%d]; what they print depends on the locale
    and the platform. *)
Class Formats : Type := {
  strftime_I_M_p : datetime -> string;
  strftime_Y_m_d : datetime -> string
}.

(** The two formats as Python prints them in the C locale, for years from
    1000 on. *)
Module PythonFormats.
Import Calendar Digits PythonLibrary.
#[local] Open Scope string_scope.

Definition py_strftime_I_M_p (d : datetime) : string :=
  let t := (d mod usec_per_day)%Z in
  let hour := (t / usec_per_hour)%Z in
  let minute := ((t / usec_per_minute) mod 60)%Z in
  pad 2 (if (hour mod 12 =? 0)%Z then 12%Z else (hour mod 12)%Z)
  ++ ":" ++ pad 2 minute ++ " " ++ (if (hour <? 12)%Z then "AM" else "PM").

Definition py_strftime_Y_m_d (d : datetime) : string :=
  let '(year, month, day) := ord2ymd (d / usec_per_day + 1)%Z in
  pad 4 year ++ "-" ++ pad 2 month ++ "-" ++ pad 2 day.

#[export] Instance python_formats : Formats := {
  strftime_I_M_p := py_strftime_I_M_p;
  strftime_Y_m_d := py_strftime_Y_m_d
}.

End PythonFormats.

(** ** The Telegram client ([utils/telegram_sender.py])

    The fields of [TelegramSender]; [chat_id] is the chat of the
    environment variable [TELEGRAM_CHAT_ID]. *)
Module Telegram.
Import Text.
#[local] Open Scope string_scope.

Record TelegramSender : Type := {
  bot_token : string;
  chat_id : string;
  base_url : string
}.

(** [requests.post(url, data=data)]: the address and the dictionary
    [data], in the order of its keys. *)
Record Post : Type := {
  url : string;
  data : list (string * option string)
}.

(** What [requests.post] comes back with: a response with its status
    code, or an exception. *)
Inductive Reply : Type :=
| Response (status_code : Z)
| RequestException.

Definition sendMessage (sender : TelegramSender) (to : option string)
    (text parse_mode : string) : Post :=
  {| url := base_url sender ++ "/sendMessage";
     data := [ ("chat_id", to); ("text", Some text);
               ("parse_mode", Some parse_mode) ] |}.

(** The end of the three sending methods: [True] for status 200, [False]
    for another status and for an exception, which is logged. *)
Definition sent (reply : Reply) : bool :=
  match reply with
  | Response status_code => (status_code =? 200)%Z
  | RequestException => false
  end.

(** Each method returns its result and the requests it made. *)
Definition send_message (sender : TelegramSender) (message parse_mode : string)
    (reply : Reply) : bool * list Post :=
  if String.eqb message "" || String.eqb (strip message) "" then (false, [])
  else (sent reply, [sendMessage sender (Some (chat_id sender)) message parse_mode]).

Definition medication_text (medication_name dosage time_to_take
    additional_notes : string) : string :=
  strip (newline ++ "💊 <b>Medication Reminder</b>" ++ newline ++ newline
         ++ "<b>Medication:</b> " ++ medication_name ++ newline
         ++ "<b>Dosage:</b> " ++ dosage ++ newline
         ++ "<b>Time:</b> " ++ time_to_take ++ newline ++ newline
         ++ (if String.eqb additional_notes "" then "" else additional_notes)
         ++ newline ++ newline
         ++ "Please take your medication as prescribed.").

Definition send_medication_reminder (sender : TelegramSender)
    (to : option string) (medication_name dosage time_to_take
    additional_notes : string) (reply : Reply) : bool * list Post :=
  let message :=
    medication_text medication_name dosage time_to_take additional_notes in
  (sent reply, [sendMessage sender to message "HTML"]).

Definition follow_up_text (appointment_type date time location notes : string)
  : string :=
  strip (newline ++ "📅 <b>Follow-up Appointment Reminder</b>" ++ newline
         ++ newline
         ++ "<b>Type:</b> " ++ appointment_type ++ newline
         ++ "<b>Date:</b> " ++ date ++ newline
         ++ "<b>Time:</b> " ++ time ++ newline ++ newline
         ++ (if String.eqb location "" then ""
             else "<b>Location:</b> " ++ location)
         ++ newline ++ newline
         ++ (if String.eqb notes "" then "" else notes)
         ++ newline ++ newline
         ++ "Please confirm your appointment or contact us if you need to reschedule."
         ++ newline ++ "        ").

Definition send_follow_up_reminder (sender : TelegramSender)
    (appointment_type date time location notes : string) (reply : Reply)
  : bool * list Post :=
  send_message sender
    (follow_up_text appointment_type date time location notes) "HTML" reply.

(** The call of the dispatch, with the arguments as
    [_send_medication_reminder] and [_send_followup_reminder] pass them. *)
Definition perform {F : Formats} (sender : TelegramSender) (c : telegram_call)
    (reply : Reply) : bool * list Post :=
  match c with
  | medication_reminder to medication_name dosage time_to_take
      additional_notes =>
      send_medication_reminder sender to medication_name dosage
        (strftime_I_M_p time_to_take) additional_notes reply
  | follow_up_reminder appointment_type date time location notes =>
      send_follow_up_reminder sender appointment_type (strftime_Y_m_d date)
        time location notes reply
  end.

(** *** [send_summary] of the scheduler *)

Definition medication_line (now : datetime) (schedule : Med.t) : string :=
  let days_left := ((Med.end_date schedule - now) / usec_per_day)%Z in
  "• " ++ Med.medication_name schedule ++ " (" ++ Med.dosage schedule
  ++ ") - " ++ str_int days_left ++ " days left" ++ newline.

Definition followup_line (now : datetime) (schedule : Fu.t) : string :=
  let days_until := ((Fu.appointment_date schedule - now) / usec_per_day)%Z in
  "• " ++ Fu.appointment_type schedule ++ " - " ++ str_int days_until
  ++ " days until appointment" ++ newline.

Definition nonempty {V : Type} (d : dict V) : bool :=
  match d with [] => false | _ :: _ => true end.

(** The text [send_summary] builds. *)
Definition summary_text (now : datetime) (s : HealthcareScheduler) : string :=
  let active_schedules := get_active_schedules now s in
  let summary : string :=
    "📋 <b>Healthcare Schedule Summary</b>" ++ newline ++ newline in
  let summary : string :=
    if nonempty (fst active_schedules) then
      fold_left
        (fun summary schedule =>
           (summary ++ medication_line now schedule)%string)
        (PyDict.values (fst active_schedules))
        (summary ++ "💊 <b>Active Medications:</b>" ++ newline)%string
      ++ newline
    else summary in
  let summary : string :=
    if nonempty (snd active_schedules) then
      fold_left
        (fun summary schedule =>
           (summary ++ followup_line now schedule)%string)
        (PyDict.values (snd active_schedules))
        (summary ++ "📅 <b>Upcoming Appointments:</b>" ++ newline)%string
    else summary in
  if negb (nonempty (fst active_schedules))
     && negb (nonempty (snd active_schedules))
  then summary ++ "No active schedules at the moment."
  else summary.

(** [send_summary]: the requests it makes; the scheduler is read only. *)
Definition send_summary (sender : TelegramSender) (now : datetime)
    (reply : Reply) (s : HealthcareScheduler) : list Post :=
  snd (send_message sender (summary_text now s) "HTML" reply).

End Telegram.

(** ** Invariants of the registry and of the world *)

Fixpoint unique_keys {V : Type} (d : dict V) : bool :=
  match d with
  | [] => true
  | (k, _) :: r => negb (PyDict.contains k r) && unique_keys r
  end.

(** A medication schedule sits under its own id and holds datetimes. *)
Definition medication_ok (kv : string * Med.t) : bool :=
  String.eqb (Med.id (snd kv)) (fst kv)
  && in_range (Med.start_date (snd kv))
  && in_range (Med.end_date (snd kv))
  && in_range (Med.created_at (snd kv)).

Definition followup_ok (kv : string * Fu.t) : bool :=
  String.eqb (Fu.id (snd kv)) (fst kv)
  && in_range (Fu.appointment_date (snd kv))
  && in_range (Fu.created_at (snd kv)).

(** What holds of the two dictionaries of every scheduler object: a Python
    dict has each key once, both are keyed by [schedule.id], and the date
    fields are [datetime] objects. *)
Definition well_formed (s : HealthcareScheduler) : bool :=
  unique_keys (medication_schedules s)
  && forallb medication_ok (medication_schedules s)
  && unique_keys (followup_schedules s)
  && forallb followup_ok (followup_schedules s).

(** The scheduler as the file describes it: [chat_id] is not written, and
    the loop of a new object is not running. *)
Definition persisted_view (s : HealthcareScheduler) : HealthcareScheduler :=
  {| medication_schedules :=
       map (fun kv => (fst kv, Med.set_chat_id None (snd kv)))
         (medication_schedules s);
     followup_schedules := followup_schedules s;
     is_running := false |}.

(** The dictionary after [d[v.id] = v] for each [v] of [vs] in turn. *)
Definition store_medications (vs : list Med.t) (d : dict Med.t) : dict Med.t :=
  fold_left (fun d v => PyDict.set (Med.id v) v d) vs d.

Definition store_followups (vs : list Fu.t) (d : dict Fu.t) : dict Fu.t :=
  fold_left (fun d v => PyDict.set (Fu.id v) v d) vs d.

Definition no_chat_id (kv : string * Med.t) : bool :=
  match Med.chat_id (snd kv) with None => true | Some _ => false end.

(** What holds of a scheduler that was just constructed. *)
Definition just_loaded (s : HealthcareScheduler) : bool :=
  well_formed s && forallb no_chat_id (medication_schedules s)
  && negb (is_running s).

Section Invariants.
Context {L : Library}.

(** The file describes the scheduler in memory. *)
Definition in_sync (w : World) : Prop :=
  __init__ (disk w) = persisted_view (self w).

Definition consistent (w : World) : Prop :=
  well_formed (self w) = true /\ in_sync w.

(** What the environment guarantees of the arguments of an operation: the
    clock and the date arguments are [datetime] objects, and [uuid4()]
    returns an identifier that is not in use. *)
Definition op_ok (w : World) (o : op) : bool :=
  match o with
  | AddMedication _ _ _ _ start_date _ _ uuid4 now =>
      negb (PyDict.contains uuid4 (medication_schedules (self w)))
      && in_range now
      && match start_date with Some d => in_range d | None => true end
  | AddFollowup _ appointment_date _ _ _ _ uuid4 now =>
      negb (PyDict.contains uuid4 (followup_schedules (self w)))
      && in_range now && in_range appointment_date
  | _ => true
  end.

Fixpoint run_ok (ops : list op) (w : World) : bool :=
  match ops with
  | [] => true
  | o :: r => op_ok w o && run_ok r (exec o w)
  end.

(** [is_active] of the schedule stored under [schedule_id], when there is
    one. *)
Definition medication_active (schedule_id : string) (w : World) : option bool :=
  option_map Med.is_active (PyDict.get schedule_id (medication_schedules (self w))).

Definition followup_active (schedule_id : string) (w : World) : option bool :=
  option_map Fu.is_active (PyDict.get schedule_id (followup_schedules (self w))).

(** How a schedule may change while it is stored: [is_active] may go from
    true to false, a chat id may be lost, nothing else changes. *)
Definition medication_evolves (s s' : Med.t) : Prop :=
  Med.set_chat_id None (Med.set_is_active true s')
  = Med.set_chat_id None (Med.set_is_active true s)
  /\ (Med.is_active s = false -> Med.is_active s' = false).

Definition followup_evolves (s s' : Fu.t) : Prop :=
  Fu.set_is_active true s' = Fu.set_is_active true s
  /\ (Fu.is_active s = false -> Fu.is_active s' = false).

(** Every schedule of [w] is still stored in [w'], changed at most as
    above. *)
Definition evolves (w w' : World) : Prop :=
  forall schedule_id,
    (forall s, PyDict.get schedule_id (medication_schedules (self w)) = Some s ->
               exists s',
                 PyDict.get schedule_id (medication_schedules (self w')) = Some s'
                 /\ medication_evolves s s')
    /\ (forall s, PyDict.get schedule_id (followup_schedules (self w)) = Some s ->
                  exists s',
                    PyDict.get schedule_id (followup_schedules (self w')) = Some s'
                    /\ followup_evolves s s').

(** The condition under which a job function calls the Telegram client. *)
Definition fires (f : job_func) (now : datetime) (w : World) : Prop :=
  match f with
  | send_medication schedule_id =>
      exists s,
        PyDict.get schedule_id (medication_schedules (self w)) = Some s
        /\ Med.is_active s = true /\ now <= Med.end_date s
  | send_followup schedule_id days_before =>
      exists s reminder_date,
        PyDict.get schedule_id (followup_schedules (self w)) = Some s
        /\ Fu.is_active s = true
        /\ reminder_date_of (Fu.appointment_date s) days_before
           = Returns reminder_date
        /\ date reminder_date = date now
  end.

(** The delivery [e] was made in a world between [w] and [w']. *)
Definition fired_between (w w' : World) (e : delivery) : Prop :=
  exists wm,
    evolves w wm /\ evolves wm w' /\ fires (job_do (by_job e)) (sent_at e) wm.

(** *** Counting deliveries *)

Definition job_func_eqb (f g : job_func) : bool :=
  match f, g with
  | send_medication a, send_medication b => String.eqb a b
  | send_followup a n, send_followup b m => String.eqb a b && (n =? m)
  | _, _ => false
  end.

(** A time of day to look for, or any. *)
Definition matches_time (t : option Z) (x : Z) : bool :=
  match t with
  | Some t => x =? t
  | None => true
  end.

(** The jobs that run [f], at the time of day [t] when one is given. *)
Definition has_label (f : job_func) (t : option Z) (j : Job) : bool :=
  job_func_eqb (job_do j) f && matches_time t (job_at j).

(** The deliveries of such jobs made on the calendar day [day]. *)
Definition deliveries_on (f : job_func) (t : option Z) (day : Z) (w : World) : nat :=
  List.length (filter (fun e => has_label f t (by_job e) && (date (sent_at e) =? day))
            (delivered w)).

(** All deliveries of the jobs that run [f]. *)
Definition deliveries_of (f : job_func) (w : World) : nat :=
  List.length (filter (fun e => job_func_eqb (job_do (by_job e)) f) (delivered w)).

(** Such jobs that are still to run on [day] or earlier. *)
Definition pending_on (f : job_func) (t : option Z) (day : Z) (w : World) : nat :=
  List.length (filter (fun j => has_label f t j && (date (next_run j) <=? day)) (jobs w)).

(** The number of entries of [times] that the registry reads as the time of
    day [t]. *)
Definition entries_at (t : option Z) (times : list string) : nat :=
  List.length (filter (fun time_str =>
                    match at_time time_str with
                    | Some x => matches_time t x
                    | None => false
                    end) times).

Definition occurrences (n : Z) (l : list Z) : nat :=
  List.length (filter (Z.eqb n) l).

(** How many jobs the stored schedule accounts for. *)
Definition capacity (f : job_func) (t : option Z) (s : HealthcareScheduler) : nat :=
  match f with
  | send_medication schedule_id =>
      match PyDict.get schedule_id (medication_schedules s) with
      | Some schedule => entries_at t (Med.times schedule)
      | None => O
      end
  | send_followup schedule_id days_before =>
      match PyDict.get schedule_id (followup_schedules s) with
      | Some schedule => occurrences days_before (Fu.reminder_days_before schedule)
      | None => O
      end
  end.

(** Every job holds a time of day, and falls due at that time of day. *)
Definition job_ok (j : Job) : bool :=
  (0 <=? job_at j) && (job_at j <? usec_per_day)
  && (Datetime.time (next_run j) =? job_at j).

(** Deliveries made and jobs still to run never exceed what the schedule
    accounts for. *)
Definition accounted (w : World) : Prop :=
  forallb job_ok (jobs w) = true
  /\ forall f t day,
       (deliveries_on f t day w + pending_on f t day w <= capacity f t (self w))%nat.

(** The tick at [now] runs every due job on the calendar day it fell due. *)
Definition timely (now : datetime) (w : World) : bool :=
  forallb (fun j => negb (should_run now j) || (date (next_run j) =? date now))
    (jobs w).

Fixpoint ticks_timely (ops : list op) (w : World) : bool :=
  match ops with
  | [] => true
  | o :: r =>
      match o with
      | Tick now => negb (is_running (self w)) || timely now w
      | _ => true
      end
      && ticks_timely r (exec o w)
  end.

End Invariants.

(** ** Kinds of operations *)

(** The operations that add no schedule. *)
Definition adds_nothing (o : op) : bool :=
  match o with
  | AddMedication _ _ _ _ _ _ _ _ _ => false
  | AddFollowup _ _ _ _ _ _ _ _ => false
  | _ => true
  end.

(** The operations that do not start the background loop. *)
Definition starts_nothing (o : op) : bool :=
  match o with
  | StartScheduler => false
  | _ => true
  end.

(** The operations that leave the process running. *)
Definition same_process (o : op) : bool :=
  match o with
  | NewProcess => false
  | _ => true
  end.

(** The operations other than the stop of the medication schedule
    [schedule_id], and likewise for follow-ups. *)
Definition keeps_medication (schedule_id : string) (o : op) : bool :=
  match o with
  | StopMedication k => negb (String.eqb k schedule_id)
  | _ => true
  end.

Definition keeps_followup (schedule_id : string) (o : op) : bool :=
  match o with
  | StopFollowup k => negb (String.eqb k schedule_id)
  | _ => true
  end.

(** No iteration of the loop in [ops] reads a clock past [limit]. *)
Definition ticks_until (limit : datetime) (o : op) : bool :=
  match o with
  | Tick now => now <=? limit
  | _ => true
  end.

(** The medication schedule [schedule_id] is stored and active, and ends at
    [limit]. *)
Definition active_medication_until (schedule_id : string) (limit : datetime)
    (w : World) : Prop :=
  exists s,
    PyDict.get schedule_id (medication_schedules (self w)) = Some s
    /\ Med.is_active s = true /\ Med.end_date s = limit.


(** The deliveries the job [j] makes when it is run in [w] at [now]. *)
Definition deliveries_of_job {L : Library} (now : datetime) (w : World) (j : Job)
  : list delivery :=
  map (fun c => {| by_job := j; sent_at := now; call := c |})
    (snd (call_job_func (job_do j) now w)).

(** The medication schedules of [v] are those of [w], except that some of
    those that ended before [now] have been made inactive; the follow-up
    schedules are the same. *)
Definition expired_at {L : Library} (now : datetime) (w v : World) : Prop :=
  followup_schedules (self v) = followup_schedules (self w)
  /\ forall k,
       PyDict.get k (medication_schedules (self v))
       = PyDict.get k (medication_schedules (self w))
       \/ exists s,
            PyDict.get k (medication_schedules (self w)) = Some s
            /\ Med.end_date s < now
            /\ PyDict.get k (medication_schedules (self v))
               = Some (Med.set_is_active false s).

(** Every medication schedule of [w] is still stored in [w'], with the chat
    id it had or with none. *)
Definition chat_kept (w w' : World) : Prop :=
  forall schedule_id s,
    PyDict.get schedule_id (medication_schedules (self w)) = Some s ->
    exists s',
      PyDict.get schedule_id (medication_schedules (self w')) = Some s'
      /\ (Med.chat_id s' = Med.chat_id s \/ Med.chat_id s' = None).

(** The delivery [e] is the call that its job's function made in a world
    between [w] and [w']. *)
Definition sent_between {L : Library} (w w' : World) (e : delivery) : Prop :=
  exists wm,
    evolves w wm /\ evolves wm w' /\ chat_kept wm w'
    /\ snd (call_job_func (job_do (by_job e)) (sent_at e) wm) = [call e].

(** The job [j] runs the function of a schedule that [s] stores. *)
Definition job_known (s : HealthcareScheduler) (j : Job) : bool :=
  match job_do j with
  | send_medication k => PyDict.contains k (medication_schedules s)
  | send_followup k _ => PyDict.contains k (followup_schedules s)
  end.

(** The follow-up schedule [schedule_id] is stored in [w], and neither a
    job of it falls due nor a reminder of it was sent before [first]. *)
Definition followup_not_before (schedule_id : string) (first : datetime)
    (w : World) : Prop :=
  forallb job_ok (jobs w) = true
  /\ PyDict.contains schedule_id (followup_schedules (self w)) = true
  /\ (forall j n, In j (jobs w) -> job_do j = send_followup schedule_id n ->
                  first <= next_run j)
  /\ (forall e n, In e (delivered w) ->
                  job_do (by_job e) = send_followup schedule_id n ->
                  first <= sent_at e).

(** The deliveries the job [ij] makes when it is run at [now] in the
    process [p], on the object that owns it. *)
Definition deliveries_of_owned_job {L : Library} (now : datetime) (p : Process)
    (ij : nat * Job) : list (nat * delivery) :=
  match nth_error (objects p) (fst ij) with
  | Some s =>
      map (fun c => (fst ij, {| by_job := snd ij; sent_at := now; call := c |}))
        (snd (call_job_func (job_do (snd ij)) now (world_of s (file p))))
  | None => []
  end.

(** The objects of [p] are those of [p0], each with some of its medication
    schedules that ended before [now] made inactive. *)
Definition expired_in {L : Library} (now : datetime) (p0 p : Process) : Prop :=
  forall i,
    match nth_error (objects p0) i, nth_error (objects p) i with
    | Some s0, Some s =>
        expired_at now (world_of s0 (file p0)) (world_of s (file p))
    | None, None => True
    | _, _ => False
    end.

(** ** The process as a transition system

    What happens in a process that holds several scheduler objects: a new
    object is constructed, a method of an object is called, the loop that
    [start_scheduler] of an object started goes through an iteration, one
    of the two convenience functions is called, or the button of the
    application is pressed.  As for one object, the steps are taken one at
    a time. *)
Inductive action : Type :=
| Construct
| Call (i : nat) (o : op)
| Iterate (i : nat) (now : datetime)
| CreateMedication (medication_name dosage : string) (times : list string)
    (duration_days : Z) (additional_notes : string) (uuid4 : string)
    (now : datetime)
| CreateFollowup (appointment_type : string) (appointment_date : datetime)
    (appointment_time location notes : string) (uuid4 : string) (now : datetime)
| StartAllReminders (reminders : list Reminder).

(** The operations that are calls of a method of the scheduler: an
    iteration of the loop and the end of the process are none. *)
Definition method (o : op) : bool :=
  match o with
  | Tick _ => false
  | NewProcess => false
  | _ => true
  end.

Section ProcessRuns.
Context {L : Library}.

Definition act (a : action) (p : Process) : Process :=
  match a with
  | Construct => construct p
  | Call i o =>
      match nth_error (objects p) i with
      | Some s =>
          if method o then merge i (exec o (world_of s (file p))) p else p
      | None => p
      end
  | Iterate i now => tick_of i now p
  | CreateMedication medication_name dosage times duration_days
      additional_notes uuid4 now =>
      snd (create_medication_schedule medication_name dosage times
             duration_days additional_notes uuid4 now p)
  | CreateFollowup appointment_type appointment_date appointment_time location
      notes uuid4 now =>
      snd (create_followup_schedule appointment_type appointment_date
             appointment_time location notes uuid4 now p)
  | StartAllReminders reminders => snd (start_all_reminders reminders p)
  end.

Definition play (acts : list action) (p : Process) : Process :=
  fold_left (fun p a => act a p) acts p.

(** What the environment guarantees of a method call, as for one object:
    the id that [uuid4()] returns is not in use in the object that is
    called. *)
Definition action_ok (p : Process) (a : action) : bool :=
  match a with
  | Call i o =>
      match nth_error (objects p) i with
      | Some s => op_ok (world_of s (file p)) o
      | None => true
      end
  | _ => true
  end.

Fixpoint play_ok (acts : list action) (p : Process) : bool :=
  match acts with
  | [] => true
  | a :: r => action_ok p a && play_ok r (act a p)
  end.

(** Every object of [p] is still in [p'], at its place, and each of its
    schedules is still stored, changed at most as [evolves] allows. *)
Definition objects_evolve (p p' : Process) : Prop :=
  forall i s,
    nth_error (objects p) i = Some s ->
    exists s',
      nth_error (objects p') i = Some s'
      /\ evolves (world_of s (file p)) (world_of s' (file p')).

(** The deliveries of [new] that jobs of the object [i] made are calls
    that a job function made on a scheduler with the property [P]. *)
Definition fired_by (P : HealthcareScheduler -> Prop) (i : nat)
    (new : list (nat * delivery)) : Prop :=
  forall e,
    In (i, e) new ->
    exists s d,
      P s /\ fires (job_do (by_job e)) (sent_at e) (world_of s d).

End ProcessRuns.

Definition not_running (s : HealthcareScheduler) : Prop := is_running s = false.

(** The actions that start no loop. *)
Definition starts_no_loop (a : action) : bool :=
  match a with
  | Call _ o => starts_nothing o
  | StartAllReminders _ => false
  | _ => true
  end.

(** The actions other than a stop of the medication schedule
    [schedule_id] on the object [i], and likewise for follow-ups. *)
Definition keeps_medication_of (i : nat) (schedule_id : string) (a : action)
  : bool :=
  match a with
  | Call j o => negb (Nat.eqb j i) || keeps_medication schedule_id o
  | _ => true
  end.

Definition keeps_followup_of (i : nat) (schedule_id : string) (a : action)
  : bool :=
  match a with
  | Call j o => negb (Nat.eqb j i) || keeps_followup schedule_id o
  | _ => true
  end.

(** No iteration of a loop reads a clock past [limit]. *)
Definition iterations_until (limit : datetime) (a : action) : bool :=
  match a with
  | Iterate _ now => now <=? limit
  | _ => true
  end.

(** [is_active] of the schedule that the scheduler [s] stores under
    [schedule_id], when there is one. *)
Definition medication_active_in (schedule_id : string) (s : HealthcareScheduler)
  : option bool :=
  option_map Med.is_active (PyDict.get schedule_id (medication_schedules s)).

Definition followup_active_in (schedule_id : string) (s : HealthcareScheduler)
  : option bool :=
  option_map Fu.is_active (PyDict.get schedule_id (followup_schedules s)).

(** ** Concrete worlds *)

Module Examples.
Import PythonLibrary.

(** The instant [hour]:[minute] of day number [day]. *)
Definition at_clock (day hour minute : Z) : datetime :=
  day * usec_per_day + hour * usec_per_hour + minute * usec_per_minute.

(** 2024-03-31, counted in days from 0001-01-01. *)
Definition day0 : Z := 738975.

(** A process with an empty directory starts the loop and adds a one day
    schedule at 07:00. *)
Definition lisinopril_ops : list op :=
  [ StartScheduler;
    AddMedication "Lisinopril" "10mg" ["08:00"; "20:00"] 1 None
      "Take with food" (Some "4711") "med-1" (at_clock day0 7 0) ].

Definition lisinopril_world : World := run lisinopril_ops (boot Missing).

(** The two reminders of the day, then the tick of the next morning. *)
Definition lisinopril_day : list op :=
  [ Tick (at_clock day0 8 0); Tick (at_clock day0 20 0);
    Tick (at_clock (day0 + 1) 8 0) ].

(** The schedule is stopped by hand. *)
Definition stopping_ops : list op := lisinopril_ops ++ [StopMedication "med-1"].

Definition stopped_world : World := run stopping_ops (boot Missing).

(** What may follow: a tick, another schedule, a restart, more ticks. *)
Definition later_ops : list op :=
  [ Tick (at_clock day0 8 0);
    AddMedication "Metformin" "500mg" ["09:30"] 30 None "" None "med-2"
      (at_clock day0 9 0);
    AddFollowup "Cardiology" (at_clock (day0 + 7) 14 30) "2:30 PM" "Room 302"
      "" None "fu-1" (at_clock day0 9 5);
    NewProcess;
    StartScheduler;
    Tick (at_clock day0 20 0) ].

(** A call with a time that is no time of day and a duration of zero
    days. *)
Definition unvalidated_add : outcome string * World :=
  add_medication_schedule "Lisinopril" "10mg" ["25:99"] 0 None "" None "med-1"
    (at_clock day0 7 0) (boot Missing).

(** The schedule that [lisinopril_ops] stores. *)
Definition lisinopril_schedule : Med.t :=
  Med.mk "med-1" "Lisinopril" "10mg" ["08:00"; "20:00"] 1 (at_clock day0 7 0)
    (at_clock (day0 + 1) 7 0) "Take with food" true (at_clock day0 7 0)
    (Some "4711").

Definition eight_o_clock : Z := 8 * usec_per_hour.

(** The same time of day listed twice, and the tick at that time. *)
Definition doubled_ops : list op :=
  [ StartScheduler;
    AddMedication "Lisinopril" "10mg" ["08:00"; "08:00"] 1 None "" (Some "4711")
      "med-1" (at_clock day0 7 0);
    Tick (at_clock day0 8 0) ].

(** A schedule added a day before the loop starts: the job that fell due on
    the first day is run in the morning of the second, before its time of
    day comes again. *)
Definition late_ops : list op :=
  [ AddMedication "Lisinopril" "10mg" ["08:00"] 7 None "" (Some "4711")
      "med-1" (at_clock day0 7 0);
    StartScheduler;
    Tick (at_clock (day0 + 1) 7 30);
    Tick (at_clock (day0 + 1) 8 0) ].

(** An appointment in a week, with the default reminders, and the morning
    ticks of the days before it. *)
Definition cardiology_ops : list op :=
  [ StartScheduler;
    AddFollowup "Cardiology" (at_clock (day0 + 7) 14 30) "2:30 PM" "Room 302"
      "" None "fu-1" (at_clock day0 8 0);
    Tick (at_clock day0 9 0); Tick (at_clock (day0 + 1) 9 0);
    Tick (at_clock (day0 + 2) 9 0); Tick (at_clock (day0 + 3) 9 0);
    Tick (at_clock (day0 + 4) 9 0); Tick (at_clock (day0 + 5) 9 0);
    Tick (at_clock (day0 + 6) 9 0); Tick (at_clock (day0 + 7) 9 0) ].

Definition cardiology_schedule : Fu.t :=
  Fu.mk "fu-1" "Cardiology" (at_clock (day0 + 7) 14 30) "2:30 PM" "Room 302" ""
    [1; 3; 7] true (at_clock day0 8 0).

(** The same appointment, with a loop that comes to its first iteration
    four days after the jobs fell due. *)
Definition late_followup_ops : list op :=
  [ AddFollowup "Cardiology" (at_clock (day0 + 7) 14 30) "2:30 PM" "Room 302"
      "" None "fu-1" (at_clock day0 8 0);
    StartScheduler;
    Tick (at_clock (day0 + 4) 11 0) ].

(** An appointment tomorrow at 08:00 with a reminder on the day itself; the
    daily check of that day runs at 09:00. *)
Definition same_day_ops : list op :=
  [ StartScheduler;
    AddFollowup "Cardiology" (at_clock (day0 + 1) 8 0) "8:00 AM" "" ""
      (Some [0]) "fu-1" (at_clock day0 12 0);
    Tick (at_clock (day0 + 1) 9 0) ].

(** The offset 3 listed twice, and the daily checks up to the third day
    before the appointment. *)
Definition repeated_offset_ops : list op :=
  [ StartScheduler;
    AddFollowup "Cardiology" (at_clock (day0 + 7) 14 30) "2:30 PM" "" ""
      (Some [3; 3]) "fu-1" (at_clock day0 8 0);
    Tick (at_clock day0 9 0); Tick (at_clock (day0 + 1) 9 0);
    Tick (at_clock (day0 + 2) 9 0); Tick (at_clock (day0 + 3) 9 0);
    Tick (at_clock (day0 + 4) 9 0) ].

(** A file whose second medication record has no field but [id]. *)
Definition truncated_file : storage :=
  Content
    (JDict [ ("medications",
              JList [ medication_to_json lisinopril_schedule;
                      JDict [("id", JStr "med-2")] ]);
             ("followups", JList [ followup_to_json cardiology_schedule ]) ]).

(** A file whose first medication record holds values of other types than
    the annotations say: a number as id, [null] as name, 1.5 as dosage, a
    string where the list of times should be, a string as duration, a list
    as notes and [yes] for [is_active]. *)
Definition mistyped_record : json :=
  JDict [ ("id", JInt 7);
          ("medication_name", JNull);
          ("dosage", JFloat (finite false 3 (-1)));
          ("times", JStr "08:00");
          ("duration_days", JStr "seven");
          ("start_date", JStr (isoformat (at_clock day0 7 0)));
          ("end_date", JStr (isoformat (at_clock (day0 + 1) 7 0)));
          ("additional_notes", JList []);
          ("is_active", JStr "yes");
          ("created_at", JStr (isoformat (at_clock day0 7 0))) ].

Definition mistyped_file : storage :=
  Content
    (JDict [ ("medications",
              JList [ mistyped_record; medication_to_json lisinopril_schedule ]);
             ("followups", JList [ followup_to_json cardiology_schedule ]) ]).

End Examples.

(** ** More concrete worlds *)

Module MoreExamples.
Import PythonLibrary Examples.

Definition noon : datetime := at_clock day0 12 0.

(** The process of [lisinopril_world] is started again. *)
Definition restarted_world : World := exec NewProcess lisinopril_world.

(** The loop of the new process runs through the times of the schedule. *)
Definition idle_ticks : list op :=
  [ StartScheduler; Tick (at_clock day0 8 0); Tick (at_clock day0 20 0) ].

(** The schedule is stopped, and the loop goes on. *)
Definition stop_and_tick : list op :=
  [ StopMedication "med-1"; Tick (at_clock day0 8 0);
    Tick (at_clock (day0 + 1) 8 0) ].

(** The 08:00 job of [lisinopril_world], and what it delivers at 08:00. *)
Definition morning_job : Job :=
  {| job_at := eight_o_clock; job_do := send_medication "med-1";
     next_run := at_clock day0 8 0 |}.

Definition morning_delivery : delivery :=
  {| by_job := morning_job; sent_at := at_clock day0 8 0;
     call := medication_reminder (Some "4711") "Lisinopril" "10mg"
               (at_clock day0 8 0) "Take with food" |}.

Definition nine_o_clock : Z := 9 * usec_per_hour.

(** An appointment tomorrow afternoon, added today at 10:00 with the
    default reminders, and the daily checks up to the appointment. *)
Definition tomorrow_add : op :=
  AddFollowup "Cardiology" (at_clock (day0 + 1) 14 30) "2:30 PM" "Room 302" ""
    None "fu-1" (at_clock day0 10 0).

Definition tomorrow_ticks : list op :=
  [ Tick (at_clock day0 14 30); Tick (at_clock (day0 + 1) 9 0);
    Tick (at_clock (day0 + 1) 14 30) ].

(** A process in which no scheduler has been constructed yet. *)
Definition new_process : Process :=
  {| objects := []; file := Missing; registry := []; outbox := [] |}.

(** The reminder of the session, as the first click and as the second
    click on [Start All Reminders] meet it. *)
Definition session_reminder (uuid4 : string) (now : datetime) : Reminder :=
  {| reminder_medication := "Lisinopril"; reminder_dosage := "10mg";
     reminder_times := ["08:00"; "20:00"]; reminder_duration := 7;
     reminder_message := "Time to take your medication!";
     reminder_chat_id := "4711";
     reminder_uuid4 := uuid4; reminder_now := now |}.

Definition first_click : Process :=
  snd (start_all_reminders [session_reminder "med-1" (at_clock day0 7 0)]
         new_process).

Definition second_click : Process :=
  snd (start_all_reminders [session_reminder "med-2" (at_clock day0 7 5)]
         first_click).

(** The scheduler of the first click. *)
Definition first_scheduler : HealthcareScheduler :=
  nth 0 (objects first_click) fresh_scheduler.

(** A schedule that is created through the convenience function while the
    scheduler of the first click is running. *)
Definition with_created : Process :=
  snd (create_medication_schedule "Metformin" "500mg" ["09:30"] 30 "" "med-9"
         (at_clock day0 9 0) first_click).

Definition created_scheduler : HealthcareScheduler :=
  nth 1 (objects with_created) fresh_scheduler.

Definition created_job : Job :=
  {| job_at := 9 * usec_per_hour + 30 * usec_per_minute;
     job_do := send_medication "med-9"; next_run := at_clock day0 9 30 |}.

(** The two clicks a week later.  At 07:02 the schedule of the first click
    has ended and the schedule of the second click has not; at 08:00 both
    have. *)
Definition first_expired : Process :=
  act (Iterate 0 (at_clock (day0 + 7) 7 2)) second_click.

Definition both_expired : Process :=
  play [Iterate 0 (at_clock (day0 + 7) 8 0); Construct] first_expired.

(** The schedule of the first click is stopped on the object of the first
    click, and the loops go on for the week. *)
Definition first_stopped : Process :=
  act (Call 0 (StopMedication "med-1")) second_click.

Definition week_of_ticks : list action :=
  [ Iterate 1 (at_clock day0 8 0); Iterate 0 (at_clock day0 20 0);
    Construct;
    Call 2 (AddFollowup "Cardiology" (at_clock (day0 + 7) 14 30) "2:30 PM"
              "Room 302" "" None "fu-1" (at_clock day0 21 0));
    Iterate 1 (at_clock (day0 + 7) 8 0) ].

(** The loop of the first click is stopped; a schedule is created through
    the convenience function and another is added, and the loop of the
    first click comes to an iteration at each of their times. *)
Definition first_click_stopped : Process :=
  act (Call 0 StopScheduler) first_click.

Definition quiet_actions : list action :=
  [ CreateMedication "Metformin" "500mg" ["09:30"] 30 "" "med-9"
      (at_clock day0 9 0);
    Iterate 0 (at_clock day0 9 30);
    Call 0 (AddFollowup "Cardiology" (at_clock (day0 + 7) 14 30) "2:30 PM"
              "Room 302" "" None "fu-1" (at_clock day0 10 0));
    Iterate 1 (at_clock day0 20 0) ].

(** The schedule of the first click is stopped on the object of the second
    click, which holds it because it loaded the file. *)
Definition stopped_elsewhere : Process :=
  act (Call 1 (StopMedication "med-1")) second_click.

(** Stops on the object of the first click and an iteration before the
    schedule of the second click ends. *)
Definition other_stops : list action :=
  [ Call 0 (StopMedication "med-1"); Call 0 (StopMedication "med-2");
    Iterate 0 (at_clock (day0 + 7) 7 2); Construct ].

End MoreExamples.

(** * Properties *)

(** ** The concrete library satisfies the laws *)

(** A property checked on each number of a range holds on the range. *)
Lemma forall_range (P : Z -> bool) (lo len : nat) :
  forallb (fun k => P (Z.of_nat k)) (seq lo len) = true ->
  forall n, Z.of_nat lo <= n < Z.of_nat (lo + len) -> P n = true.
Proof.
  intros Hall n Hn. rewrite forallb_forall in Hall.
  specialize (Hall (Z.to_nat n)). rewrite Z2Nat.id in Hall by lia.
  apply Hall, in_seq. lia.
Qed.

Module DigitsFacts.
Import Digits.

Lemma char_digit_digit_char (n : Z) :
  0 <= n <= 9 -> char_digit (digit_char n) = Some n.
Proof.
  intros H.
  pose proof (forall_range
                (fun k => match char_digit (digit_char k) with
                          | Some d => d =? k
                          | None => false
                          end) 0 10 eq_refl n ltac:(lia)) as Hk.
  cbv beta in Hk. destruct (char_digit (digit_char n)); [| discriminate].
  apply Z.eqb_eq in Hk. now subst.
Qed.

Lemma append_assoc (a b c : string) :
  String.append (String.append a b) c = String.append a (String.append b c).
Proof. induction a as [| x a IH]; simpl; [reflexivity | now rewrite IH]. Qed.

Lemma append_nil_r (a : string) : String.append a EmptyString = a.
Proof. induction a as [| x a IH]; simpl; [reflexivity | now rewrite IH]. Qed.

Lemma read_num_pad (k : nat) :
  forall (n : Z) (rest : string),
    0 <= n < 10 ^ Z.of_nat k ->
    read_num k (String.append (pad k n) rest) = Some (n, rest).
Proof.
  induction k as [| k IH]; intros n rest Hn.
  - simpl in *. replace n with 0 by lia. reflexivity.
  - assert (Hpow : 10 ^ Z.of_nat (S k) = 10 * 10 ^ Z.of_nat k).
    { rewrite Nat2Z.inj_succ, Z.pow_succ_r by lia. reflexivity. }
    rewrite Hpow in Hn.
    cbn [pad read_num]. rewrite append_assoc. cbn [String.append].
    rewrite IH by (split; [apply Z.div_pos; lia | apply Z.div_lt_upper_bound; lia]).
    rewrite char_digit_digit_char
      by (pose proof (Z.mod_pos_bound n 10 ltac:(lia)); lia).
    f_equal. f_equal. pose proof (Z.div_mod n 10 ltac:(lia)). lia.
Qed.

Lemma read_num_pad_end (k : nat) (n : Z) :
  0 <= n < 10 ^ Z.of_nat k -> read_num k (pad k n) = Some (n, EmptyString).
Proof.
  intros H. rewrite <- (append_nil_r (pad k n)). now apply read_num_pad.
Qed.

Lemma char_digit_bound (c : ascii) (d : Z) :
  char_digit c = Some d -> 0 <= d <= 9.
Proof.
  unfold char_digit.
  destruct ((48 <=? Z.of_nat (nat_of_ascii c)) && (Z.of_nat (nat_of_ascii c) <=? 57))
    eqn:E; [| discriminate].
  intros [= <-]. apply andb_prop in E. destruct E as [E1 E2].
  apply Z.leb_le in E1. apply Z.leb_le in E2. lia.
Qed.

Lemma read_num_bound (k : nat) :
  forall (s rest : string) (n : Z),
    read_num k s = Some (n, rest) -> 0 <= n < 10 ^ Z.of_nat k.
Proof.
  induction k as [| k IH]; intros s rest n H.
  - cbn in H. injection H as <- _. cbn. lia.
  - cbn [read_num] in H.
    destruct (read_num k s) as [[a [| c r]] |] eqn:E; try discriminate.
    destruct (char_digit c) as [d |] eqn:Ec; [| discriminate].
    replace n with (10 * a + d) by congruence.
    apply IH in E. apply char_digit_bound in Ec.
    rewrite Nat2Z.inj_succ, Z.pow_succ_r by lia. lia.
Qed.

End DigitsFacts.

Module CalendarFacts.
Import Calendar.

Lemma days_before_year_decomp (a b c e : Z) :
  0 <= b <= 3 -> 0 <= c <= 24 -> 0 <= e <= 3 ->
  days_before_year (400 * a + 100 * b + 4 * c + e + 1)
  = DI400Y * a + DI100Y * b + DI4Y * c + 365 * e.
Proof.
  intros Hb Hc He. unfold days_before_year, DI400Y, DI100Y, DI4Y.
  cbv zeta.
  replace (400 * a + 100 * b + 4 * c + e + 1 - 1)
    with (400 * a + 100 * b + 4 * c + e) by lia.
  Z.div_mod_to_equations. lia.
Qed.

Lemma is_leap_decomp (a b c e : Z) :
  0 <= b <= 3 -> 0 <= c <= 24 -> 0 <= e <= 3 ->
  is_leap (400 * a + 100 * b + 4 * c + e + 1)
  = (e =? 3) && (negb (c =? 24) || (b =? 3)).
Proof.
  intros Hb Hc He. unfold is_leap.
  destruct (Z.eqb_spec e 3) as [E3 | E3];
    destruct (Z.eqb_spec c 24) as [C24 | C24];
    destruct (Z.eqb_spec b 3) as [B3 | B3];
    destruct (Z.eqb_spec ((400 * a + 100 * b + 4 * c + e + 1) mod 4) 0) as [M4 | M4];
    destruct (Z.eqb_spec ((400 * a + 100 * b + 4 * c + e + 1) mod 100) 0) as [M100 | M100];
    destruct (Z.eqb_spec ((400 * a + 100 * b + 4 * c + e + 1) mod 400) 0) as [M400 | M400];
    cbn; try reflexivity; exfalso;
    revert M4 M100 M400; Z.div_mod_to_equations; lia.
Qed.

Lemma month_day_ok_all (leap : bool) (n : Z) :
  0 <= n < (if leap then 366 else 365) -> month_day_ok leap n = true.
Proof.
  intros Hn. destruct leap.
  - apply (forall_range (month_day_ok true) 0 366); [vm_compute; reflexivity | lia].
  - apply (forall_range (month_day_ok false) 0 365); [vm_compute; reflexivity | lia].
Qed.

Lemma ord2ymd_spec (n : Z) :
  1 <= n <= MAXORDINAL ->
  let '(y, m, d) := ord2ymd n in
  1 <= y <= 9999 /\ 1 <= m <= 12 /\ 1 <= d <= days_in_month y m
  /\ ymd2ord y m d = n.
Proof.
  intros Hn. unfold MAXORDINAL in Hn. unfold ord2ymd. cbv zeta.
  set (n0 := n - 1).
  set (a := n0 / DI400Y). set (r1 := n0 mod DI400Y).
  set (b := r1 / DI100Y). set (r2 := r1 mod DI100Y).
  set (c := r2 / DI4Y). set (r3 := r2 mod DI4Y).
  set (e := r3 / 365). set (r := r3 mod 365).
  assert (H1 : n0 = DI400Y * a + r1 /\ 0 <= r1 < DI400Y).
  { split; [apply Z.div_mod | apply Z.mod_pos_bound]; unfold DI400Y; lia. }
  assert (H2 : r1 = DI100Y * b + r2 /\ 0 <= r2 < DI100Y).
  { split; [apply Z.div_mod | apply Z.mod_pos_bound]; unfold DI100Y; lia. }
  assert (H3 : r2 = DI4Y * c + r3 /\ 0 <= r3 < DI4Y).
  { split; [apply Z.div_mod | apply Z.mod_pos_bound]; unfold DI4Y; lia. }
  assert (H4 : r3 = 365 * e + r /\ 0 <= r < 365).
  { split; [apply Z.div_mod | apply Z.mod_pos_bound]; lia. }
  assert (Hn0 : 0 <= n0 <= 3652058 /\ n = n0 + 1) by (unfold n0; lia).
  clearbody a r1 b r2 c r3 e r. clearbody n0.
  unfold DI400Y, DI100Y, DI4Y in H1, H2, H3.
  destruct H1 as [H1 B1], H2 as [H2 B2], H3 as [H3 B3], H4 as [H4 B4].
  assert (Ha : 0 <= a <= 24) by lia.
  assert (Hb : 0 <= b <= 4) by lia.
  assert (Hc : 0 <= c <= 24) by lia.
  assert (He : 0 <= e <= 4) by lia.
  destruct (Z.eqb_spec e 4) as [E4 | E4];
    [| destruct (Z.eqb_spec b 4) as [B4' | B4']]; cbn [orb].
  - (* the last day of a leap year inside a century *)
    assert (Hc' : c <= 23) by lia.
    replace (a * 400 + 1 + b * 100 + c * 4 + e - 1)
      with (400 * a + 100 * b + 4 * c + 3 + 1) by lia.
    assert (Hb' : 0 <= b <= 3) by lia.
    pose proof (is_leap_decomp a b c 3 Hb' ltac:(lia) ltac:(lia)) as Hl.
    pose proof (days_before_year_decomp a b c 3 Hb' ltac:(lia) ltac:(lia)) as Hd.
    replace ((3 =? 3) && (negb (c =? 24) || (b =? 3))) with true in Hl
      by (destruct (Z.eqb_spec c 24); [lia | reflexivity]).
    unfold ymd2ord, days_in_month, days_before_month. rewrite Hl, Hd.
    unfold DI400Y, DI100Y, DI4Y.
    change ((12 =? 2) && true) with false.
    change ((2 <? 12) && true) with true.
    change (DAYS_IN_MONTH 12) with 31.
    change (DAYS_BEFORE_MONTH 12) with 334.
    cbv iota. lia.
  - (* the last day of a 400 year cycle *)
    replace (a * 400 + 1 + b * 100 + c * 4 + e - 1)
      with (400 * a + 100 * 3 + 4 * 24 + 3 + 1) by lia.
    pose proof (is_leap_decomp a 3 24 3 ltac:(lia) ltac:(lia) ltac:(lia)) as Hl.
    pose proof (days_before_year_decomp a 3 24 3 ltac:(lia) ltac:(lia) ltac:(lia)) as Hd.
    change ((3 =? 3) && (negb (24 =? 24) || (3 =? 3))) with true in Hl.
    unfold ymd2ord, days_in_month, days_before_month. rewrite Hl, Hd.
    unfold DI400Y, DI100Y, DI4Y.
    change ((12 =? 2) && true) with false.
    change ((2 <? 12) && true) with true.
    change (DAYS_IN_MONTH 12) with 31.
    change (DAYS_BEFORE_MONTH 12) with 334.
    cbv iota. lia.
  - assert (Hb' : 0 <= b <= 3) by lia.
    assert (He' : 0 <= e <= 3) by lia.
    replace (a * 400 + 1 + b * 100 + c * 4 + e)
      with (400 * a + 100 * b + 4 * c + e + 1) by lia.
    pose proof (is_leap_decomp a b c e Hb' Hc He') as Hl.
    pose proof (days_before_year_decomp a b c e Hb' Hc He') as Hd.
    set (leap := (e =? 3) && (negb (c =? 24) || (b =? 3))) in *.
    assert (Hr : 0 <= r < (if leap then 366 else 365)) by (destruct leap; lia).
    pose proof (month_day_ok_all leap r Hr) as Hok.
    unfold month_day_ok in Hok.
    destruct (month_day leap r) as [m d].
    repeat (apply andb_prop in Hok; destruct Hok as [Hok ?]).
    unfold ymd2ord, days_in_month, days_before_month. rewrite Hl, Hd.
    unfold DI400Y, DI100Y, DI4Y.
    destruct ((m =? 2) && leap) eqn:Em; destruct ((2 <? m) && leap) eqn:Em'.
    all: repeat match goal with
                | H : (_ <=? _) = true |- _ => apply Z.leb_le in H
                | H : (_ =? _) = true |- _ => apply Z.eqb_eq in H
                end.
    all: assert (DAYS_IN_MONTH m = 28 \/ m <> 2).
    all: try (destruct (Z.eq_dec m 2) as [-> | ?]; [left; reflexivity | right; assumption]).
    all: try (apply andb_prop in Em; destruct Em as [Em _]; apply Z.eqb_eq in Em).
    all: lia.
Qed.

End CalendarFacts.

Module PythonLibraryFacts.
Import Calendar Digits PythonLibrary DigitsFacts CalendarFacts.

Lemma time_fields (t : Z) :
  0 <= t < usec_per_day ->
  let hour := t / usec_per_hour in
  let minute := (t / usec_per_minute) mod 60 in
  let second := (t / usec_per_second) mod 60 in
  let microsecond := t mod usec_per_second in
  0 <= hour <= 23 /\ 0 <= minute <= 59 /\ 0 <= second <= 59
  /\ 0 <= microsecond <= 999999
  /\ hour * usec_per_hour + minute * usec_per_minute
     + second * usec_per_second + microsecond = t.
Proof.
  unfold usec_per_day, usec_per_hour, usec_per_minute, usec_per_second.
  intros Ht. cbv zeta. Z.div_mod_to_equations. lia.
Qed.

Lemma py_fromisoformat_isoformat (d : datetime) :
  in_range d = true -> py_fromisoformat (py_isoformat d) = Some d.
Proof.
  intros Hd. unfold in_range in Hd.
  apply andb_prop in Hd. destruct Hd as [Hlo Hhi].
  apply Z.leb_le in Hlo. apply Z.ltb_lt in Hhi.
  assert (Hday : 0 < usec_per_day) by (unfold usec_per_day, usec_per_second; lia).
  assert (Hord : 1 <= d / usec_per_day + 1 <= MAXORDINAL).
  { split.
    - pose proof (Z.div_pos d usec_per_day Hlo Hday). lia.
    - assert (d / usec_per_day < MAXORDINAL)
        by (apply Z.div_lt_upper_bound; lia). lia. }
  pose proof (ord2ymd_spec _ Hord) as Hymd.
  pose proof (Z.div_mod d usec_per_day ltac:(lia)) as Hdm.
  pose proof (time_fields (d mod usec_per_day)
                (Z.mod_pos_bound d usec_per_day Hday)) as Ht.
  cbv zeta in Ht.
  unfold py_isoformat.
  destruct (ord2ymd (d / usec_per_day + 1)) as [[year month] day].
  destruct Hymd as (Hy & Hm & Hdd & Hord').
  set (t := d mod usec_per_day) in *.
  set (hour := t / usec_per_hour) in *.
  set (minute := (t / usec_per_minute) mod 60) in *.
  set (second := (t / usec_per_second) mod 60) in *.
  set (microsecond := t mod usec_per_second) in *.
  destruct Ht as (Hh & Hmi & Hs & Hus & Hsum).
  clearbody hour minute second microsecond t.
  assert (Hdim : days_in_month year month <= 31).
  { unfold days_in_month.
    destruct ((month =? 2) && is_leap year); [lia |].
    apply Z.leb_le.
    apply (forall_range (fun m => DAYS_IN_MONTH m <=? 31) 1 12);
      [vm_compute; reflexivity | lia]. }
  assert (Hcombine : forall us, us = microsecond ->
            combine year month day hour minute second us = Some d).
  { intros us ->. unfold combine.
    replace ((1 <=? year) && (year <=? 9999) && (1 <=? month) && (month <=? 12)
             && (1 <=? day) && (day <=? days_in_month year month)
             && (hour <=? 23) && (minute <=? 59) && (second <=? 59)) with true.
    - cbv iota. apply f_equal. rewrite Hord'.
      unfold usec_per_hour, usec_per_minute, usec_per_day, usec_per_second in *.
      lia.
    - symmetry. repeat (apply andb_true_intro; split); apply Z.leb_le; lia. }
  unfold py_fromisoformat, String.concat.
  cbn [String.append].
  rewrite read_num_pad by (cbn; lia). cbn [opt_bind read_lit Ascii.eqb Bool.eqb].
  rewrite read_num_pad by (cbn; lia). cbn [opt_bind read_lit Ascii.eqb Bool.eqb].
  rewrite read_num_pad by (cbn; lia). cbn [opt_bind read_lit Ascii.eqb Bool.eqb].
  rewrite read_num_pad by (cbn; lia). cbn [opt_bind read_lit Ascii.eqb Bool.eqb].
  rewrite read_num_pad by (cbn; lia). cbn [opt_bind read_lit Ascii.eqb Bool.eqb].
  rewrite read_num_pad by (cbn; lia). cbn [opt_bind].
  destruct (Z.eqb_spec microsecond 0) as [E0 | E0].
  - apply Hcombine. lia.
  - cbn [String.append Ascii.eqb Bool.eqb].
    rewrite read_num_pad_end by (cbn; lia). cbn [opt_bind].
    now apply Hcombine.
Qed.

Lemma month_extent (leap : bool) (month : Z) :
  1 <= month <= 12 ->
  0 <= DAYS_BEFORE_MONTH month + (if (2 <? month) && leap then 1 else 0)
  /\ DAYS_BEFORE_MONTH month + (if (2 <? month) && leap then 1 else 0)
     + (if (month =? 2) && leap then 29 else DAYS_IN_MONTH month)
     <= 365 + (if leap then 1 else 0).
Proof.
  intros Hm.
  pose proof (forall_range
                (fun m =>
                   (0 <=? DAYS_BEFORE_MONTH m + (if (2 <? m) && leap then 1 else 0))
                   && (DAYS_BEFORE_MONTH m + (if (2 <? m) && leap then 1 else 0)
                       + (if (m =? 2) && leap then 29 else DAYS_IN_MONTH m)
                       <=? 365 + (if leap then 1 else 0)))
                1 12 ltac:(destruct leap; vm_compute; reflexivity) month
                ltac:(lia)) as H.
  cbv beta in H. apply andb_prop in H. destruct H as [H1 H2].
  apply Z.leb_le in H1. apply Z.leb_le in H2. split; assumption.
Qed.

Lemma combine_in_range (year month day hour minute second microsecond : Z)
    (d : datetime) :
  0 <= hour -> 0 <= minute -> 0 <= second -> 0 <= microsecond <= 999999 ->
  combine year month day hour minute second microsecond = Some d ->
  in_range d = true.
Proof.
  intros Hh Hmi Hs Hus. unfold combine.
  destruct ((1 <=? year) && (year <=? 9999) && (1 <=? month) && (month <=? 12)
            && (1 <=? day) && (day <=? days_in_month year month)
            && (hour <=? 23) && (minute <=? 59) && (second <=? 59)) eqn:Hc;
    [| discriminate].
  intros [= <-].
  rewrite !andb_true_iff, !Z.leb_le in Hc.
  destruct Hc as ((((((((Hy1 & Hy2) & Hm1) & Hm2) & Hd1) & Hd2) & Hh') & Hmi') & Hs').
  assert (Hord : 1 <= ymd2ord year month day <= MAXORDINAL).
  { unfold ymd2ord, MAXORDINAL.
    assert (Hy : 0 <= days_before_year year
                /\ days_before_year year + 365
                   + (if is_leap year then 1 else 0) <= 3652059).
    { unfold days_before_year, is_leap. cbv zeta.
      destruct (Z.eqb_spec (year mod 4) 0), (Z.eqb_spec (year mod 100) 0),
        (Z.eqb_spec (year mod 400) 0); cbn [andb orb negb];
        Z.div_mod_to_equations; lia. }
    pose proof (month_extent (is_leap year) month (conj Hm1 Hm2)) as Hm.
    unfold days_before_month. unfold days_in_month in Hd2.
    set (before := DAYS_BEFORE_MONTH month
                   + (if (2 <? month) && is_leap year then 1 else 0)) in *.
    set (len := if (month =? 2) && is_leap year then 29 else DAYS_IN_MONTH month) in *.
    set (extra := if is_leap year then 1 else 0) in *.
    clearbody before len extra. lia. }
  unfold in_range, MAXORDINAL in *.
  unfold usec_per_hour, usec_per_minute, usec_per_day, usec_per_second.
  apply andb_true_intro. split; [apply Z.leb_le | apply Z.ltb_lt]; lia.
Qed.

Ltac step_bind :=
  match goal with
  | |- context [opt_bind ?x _] =>
      let E := fresh "E" in
      destruct x as [? |] eqn:E; cbn [opt_bind]; [| discriminate]
  end;
  repeat match goal with
         | p : (Z * string)%type |- _ => destruct p
         | E : read_num _ _ = Some _ |- _ => apply read_num_bound in E; cbn in E
         end.

Lemma py_fromisoformat_in_range (s : string) (d : datetime) :
  py_fromisoformat s = Some d -> in_range d = true.
Proof.
  unfold py_fromisoformat.
  do 11 step_bind.
  match goal with
  | |- match ?s with EmptyString => _ | String _ _ => _ end = _ -> _ =>
      destruct s as [| c s']
  end.
  - apply combine_in_range; lia.
  - destruct (Ascii.eqb c "."); [| discriminate].
    step_bind.
    match goal with
    | |- match ?s with EmptyString => _ | String _ _ => _ end = _ -> _ =>
        destruct s; [| discriminate]
    end.
    apply combine_in_range; lia.
Qed.

Lemma py_at_time_bound (s : string) (t : Z) :
  py_at_time s = Some t -> 0 <= t < usec_per_day.
Proof.
  unfold py_at_time.
  do 3 step_bind.
  assert (Hfin : forall hour minute second,
             0 <= hour -> 0 <= minute -> 0 <= second ->
             (if (hour <=? 23) && (minute <=? 59) && (second <=? 59)
              then Some (hour * usec_per_hour + minute * usec_per_minute
                         + second * usec_per_second)
              else None) = Some t -> 0 <= t < usec_per_day).
  { intros hour minute second Hh Hm Hs.
    destruct ((hour <=? 23) && (minute <=? 59) && (second <=? 59)) eqn:Hc;
      [| discriminate].
    rewrite !andb_true_iff, !Z.leb_le in Hc. intros [= <-].
    unfold usec_per_hour, usec_per_minute, usec_per_day, usec_per_second. lia. }
  match goal with
  | |- match ?s with EmptyString => _ | String _ _ => _ end = _ -> _ =>
      destruct s as [| c s']
  end.
  - apply Hfin; lia.
  - destruct (Ascii.eqb c ":"); [| discriminate].
    step_bind.
    match goal with
    | |- match ?s with EmptyString => _ | String _ _ => _ end = _ -> _ =>
        destruct s; [| discriminate]
    end.
    apply Hfin; lia.
Qed.

Lemma python_library_laws : library_laws python_library.
Proof.
  split; [| split].
  - exact py_fromisoformat_isoformat.
  - exact py_fromisoformat_in_range.
  - exact py_at_time_bound.
Qed.

End PythonLibraryFacts.

(** ** Dictionaries *)

Module PyDictFacts.
Section Facts.
Context {V : Type}.
Implicit Types (d : dict V) (k : string) (v : V).

Lemma get_set_same k v d : PyDict.get k (PyDict.set k v d) = Some v.
Proof.
  induction d as [| [k' v'] r IH]; cbn.
  - now rewrite String.eqb_refl.
  - destruct (String.eqb k' k) eqn:E; cbn; rewrite E; [reflexivity | exact IH].
Qed.

Lemma get_set_other k k' v d :
  k' <> k -> PyDict.get k' (PyDict.set k v d) = PyDict.get k' d.
Proof.
  intros Hne. induction d as [| [k0 v0] r IH]; cbn.
  - destruct (String.eqb_spec k k'); [congruence | reflexivity].
  - destruct (String.eqb_spec k0 k) as [-> | Hk]; cbn.
    + destruct (String.eqb_spec k k'); [congruence | reflexivity].
    + destruct (String.eqb k0 k'); [reflexivity | exact IH].
Qed.

Lemma get_modify_same k (f : V -> V) d :
  PyDict.get k (PyDict.modify k f d) = option_map f (PyDict.get k d).
Proof.
  induction d as [| [k' v'] r IH]; cbn; [reflexivity |].
  destruct (String.eqb k' k) eqn:E; cbn; rewrite E; [reflexivity | exact IH].
Qed.

Lemma get_modify_other k k' (f : V -> V) d :
  k' <> k -> PyDict.get k' (PyDict.modify k f d) = PyDict.get k' d.
Proof.
  intros Hne. induction d as [| [k0 v0] r IH]; cbn; [reflexivity |].
  destruct (String.eqb_spec k0 k) as [-> | Hk]; cbn.
  - destruct (String.eqb_spec k k'); [congruence | reflexivity].
  - destruct (String.eqb k0 k'); [reflexivity | exact IH].
Qed.

Lemma keys_modify k (f : V -> V) d :
  PyDict.keys (PyDict.modify k f d) = PyDict.keys d.
Proof.
  induction d as [| [k' v'] r IH]; cbn; [reflexivity |].
  destruct (String.eqb k' k); cbn; [reflexivity | now f_equal].
Qed.

Lemma contains_keys k d : PyDict.contains k d = true <-> In k (PyDict.keys d).
Proof.
  unfold PyDict.contains. induction d as [| [k' v'] r IH]; cbn.
  - split; [discriminate | tauto].
  - destruct (String.eqb_spec k' k) as [-> | Hk].
    + split; auto.
    + rewrite IH. split; [auto | intros [? | ?]; [congruence | assumption]].
Qed.

Lemma contains_false_get k d :
  PyDict.contains k d = false <-> PyDict.get k d = None.
Proof.
  unfold PyDict.contains. destruct (PyDict.get k d); split; congruence.
Qed.

Lemma contains_modify k k' (f : V -> V) d :
  PyDict.contains k' (PyDict.modify k f d) = PyDict.contains k' d.
Proof.
  unfold PyDict.contains.
  destruct (String.eqb_spec k' k) as [-> | Hne].
  - rewrite get_modify_same. now destruct (PyDict.get k d).
  - now rewrite get_modify_other.
Qed.

Lemma contains_set k k' v d :
  PyDict.contains k' (PyDict.set k v d)
  = String.eqb k k' || PyDict.contains k' d.
Proof.
  unfold PyDict.contains.
  destruct (String.eqb_spec k k') as [<- | Hne].
  - now rewrite get_set_same.
  - rewrite get_set_other by congruence. reflexivity.
Qed.

Lemma unique_keys_modify k (f : V -> V) d :
  unique_keys (PyDict.modify k f d) = unique_keys d.
Proof.
  induction d as [| [k' v'] r IH]; cbn; [reflexivity |].
  destruct (String.eqb k' k); cbn; [reflexivity |].
  now rewrite contains_modify, IH.
Qed.

Lemma unique_keys_set k v d :
  unique_keys d = true -> unique_keys (PyDict.set k v d) = true.
Proof.
  induction d as [| [k' v'] r IH]; cbn; [reflexivity |].
  intros H. apply andb_prop in H. destruct H as [Hk Hr].
  destruct (String.eqb_spec k' k) as [-> | Hne]; cbn.
  - now rewrite Hk, Hr.
  - rewrite contains_set, IH by assumption.
    destruct (String.eqb_spec k k'); [congruence |].
    cbn. now rewrite Hk.
Qed.

(** A new key goes to the end. *)
Lemma set_fresh k v d :
  PyDict.contains k d = false -> PyDict.set k v d = d ++ [(k, v)].
Proof.
  unfold PyDict.contains.
  induction d as [| [k' v'] r IH]; cbn; [reflexivity |].
  destruct (String.eqb k' k); [discriminate |].
  intros H. now rewrite IH.
Qed.

Lemma forallb_set (p : string * V -> bool) k v d :
  p (k, v) = true -> forallb p d = true ->
  forallb p (PyDict.set k v d) = true.
Proof.
  intros Hp Hd. induction d as [| [k' v'] r IH]; cbn.
  - now rewrite Hp.
  - cbn in Hd. apply andb_prop in Hd. destruct Hd as [H1 H2].
    destruct (String.eqb_spec k' k) as [-> | Hne]; cbn.
    + now rewrite Hp, H2.
    + now rewrite H1, IH.
Qed.

Lemma forallb_modify (p : string * V -> bool) k (f : V -> V) d :
  (forall k' v', p (k', v') = true -> p (k', f v') = true) ->
  forallb p d = true -> forallb p (PyDict.modify k f d) = true.
Proof.
  intros Hf. induction d as [| [k' v'] r IH]; cbn; [reflexivity |].
  intros Hd. apply andb_prop in Hd. destruct Hd as [H1 H2].
  destruct (String.eqb k' k); cbn.
  - now rewrite (Hf _ _ H1), H2.
  - now rewrite H1, IH.
Qed.

End Facts.
End PyDictFacts.

(** ** Properties of single operations *)

Section LocalProperties.
Context {L : Library}.
Import PyDictFacts.

Lemma self_schedule_medication_loop (schedule_id : string) (times : list string)
    (now : datetime) (w : World) :
  self (schedule_medication_loop schedule_id times now w) = self w
  /\ disk (schedule_medication_loop schedule_id times now w) = disk w
  /\ delivered (schedule_medication_loop schedule_id times now w) = delivered w.
Proof.
  revert w. induction times as [| time_str r IH]; intros w; cbn; [auto |].
  unfold every_day_at_do. destruct (at_time time_str); [| auto].
  destruct (IH (add_job {| job_at := z; job_do := send_medication schedule_id;
                           next_run := next_occurrence z now |} w)) as (H1 & H2 & H3).
  now rewrite H1, H2, H3.
Qed.

Lemma self_schedule_followup_loop (schedule : Fu.t) (l : list Z)
    (now : datetime) (w : World) :
  self (schedule_followup_loop schedule l now w) = self w
  /\ disk (schedule_followup_loop schedule l now w) = disk w
  /\ delivered (schedule_followup_loop schedule l now w) = delivered w.
Proof.
  revert w. induction l as [| days_before r IH]; intros w; cbn; [auto |].
  destruct (reminder_date_of (Fu.appointment_date schedule) days_before); [| auto].
  destruct (now <? a); [| apply IH].
  unfold every_day_at_do. destruct (at_time "09:00"); [| auto].
  destruct (IH (add_job {| job_at := z;
                           job_do := send_followup (Fu.id schedule) days_before;
                           next_run := next_occurrence z now |} w)) as (H1 & H2 & H3).
  now rewrite H1, H2, H3.
Qed.

(** C8.  For every scheduler state and query time, [get_active_schedules]
    returns exactly the medication schedules that are active with
    [now <= end_date], and exactly the follow-up schedules that are active
    with [appointment_date] strictly after [now]. *)
Theorem get_active_schedules_exact (now : datetime) (s : HealthcareScheduler) :
  (forall k v,
      In (k, v) (fst (get_active_schedules now s))
      <-> In (k, v) (medication_schedules s)
          /\ Med.is_active v = true /\ now <= Med.end_date v)
  /\ (forall k v,
         In (k, v) (snd (get_active_schedules now s))
         <-> In (k, v) (followup_schedules s)
             /\ Fu.is_active v = true /\ now < Fu.appointment_date v).
Proof.
  unfold get_active_schedules, PyDict.comprehension. cbn [fst snd].
  split; intros k v; rewrite filter_In; cbn [snd];
    rewrite andb_true_iff; [rewrite Z.leb_le | rewrite Z.ltb_lt]; tauto.
Qed.

(** C10.  Stopping a schedule changes the [is_active] field of the
    schedule stored under the given id and nothing else in the two
    dictionaries: the other dictionary, the keys and their order, every
    schedule under another key and every other field of the stopped
    schedule stay as they were. *)
Theorem stop_schedule_frame (schedule_id : string) (w : World) :
  let wm := snd (stop_medication_schedule schedule_id w) in
  let wf := snd (stop_followup_schedule schedule_id w) in
  (followup_schedules (self wm) = followup_schedules (self w)
   /\ PyDict.keys (medication_schedules (self wm))
      = PyDict.keys (medication_schedules (self w))
   /\ (forall k, k <> schedule_id ->
                 PyDict.get k (medication_schedules (self wm))
                 = PyDict.get k (medication_schedules (self w)))
   /\ (forall s, PyDict.get schedule_id (medication_schedules (self w)) = Some s ->
                 exists s',
                   PyDict.get schedule_id (medication_schedules (self wm)) = Some s'
                   /\ Med.is_active s' = false
                   /\ Med.id s' = Med.id s
                   /\ Med.medication_name s' = Med.medication_name s
                   /\ Med.dosage s' = Med.dosage s
                   /\ Med.times s' = Med.times s
                   /\ Med.duration_days s' = Med.duration_days s
                   /\ Med.start_date s' = Med.start_date s
                   /\ Med.end_date s' = Med.end_date s
                   /\ Med.additional_notes s' = Med.additional_notes s
                   /\ Med.created_at s' = Med.created_at s
                   /\ Med.chat_id s' = Med.chat_id s))
  /\ (medication_schedules (self wf) = medication_schedules (self w)
      /\ PyDict.keys (followup_schedules (self wf))
         = PyDict.keys (followup_schedules (self w))
      /\ (forall k, k <> schedule_id ->
                    PyDict.get k (followup_schedules (self wf))
                    = PyDict.get k (followup_schedules (self w)))
      /\ (forall s, PyDict.get schedule_id (followup_schedules (self w)) = Some s ->
                    exists s',
                      PyDict.get schedule_id (followup_schedules (self wf)) = Some s'
                      /\ Fu.is_active s' = false
                      /\ Fu.id s' = Fu.id s
                      /\ Fu.appointment_type s' = Fu.appointment_type s
                      /\ Fu.appointment_date s' = Fu.appointment_date s
                      /\ Fu.appointment_time s' = Fu.appointment_time s
                      /\ Fu.location s' = Fu.location s
                      /\ Fu.notes s' = Fu.notes s
                      /\ Fu.reminder_days_before s' = Fu.reminder_days_before s
                      /\ Fu.created_at s' = Fu.created_at s)).
Proof.
  cbv zeta. unfold stop_medication_schedule, stop_followup_schedule.
  split.
  - destruct (PyDict.contains schedule_id (medication_schedules (self w))) eqn:Ec;
      cbn [snd self _save_schedules set_self set_medications
             medication_schedules followup_schedules].
    + repeat split.
      * apply keys_modify.
      * intros k Hk. now apply get_modify_other.
      * intros s Hs. exists (Med.set_is_active false s).
        rewrite get_modify_same, Hs. cbn. repeat split; reflexivity.
    + repeat split.
      intros s Hs. apply contains_false_get in Ec. congruence.
  - destruct (PyDict.contains schedule_id (followup_schedules (self w))) eqn:Ec;
      cbn [snd self _save_schedules set_self set_followups
             medication_schedules followup_schedules].
    + repeat split.
      * apply keys_modify.
      * intros k Hk. now apply get_modify_other.
      * intros s Hs. exists (Fu.set_is_active false s).
        rewrite get_modify_same, Hs. cbn. repeat split; reflexivity.
    + repeat split.
      intros s Hs. apply contains_false_get in Ec. congruence.
Qed.

Lemma modify_idempotent {V : Type} (k : string) (f : V -> V) (d : dict V) :
  (forall v, f (f v) = f v) ->
  PyDict.modify k f (PyDict.modify k f d) = PyDict.modify k f d.
Proof.
  intros Hf. induction d as [| [k' v'] r IH]; cbn; [reflexivity |].
  destruct (String.eqb k' k) eqn:E; cbn; rewrite E.
  - now rewrite Hf.
  - now rewrite IH.
Qed.

(** C7, as the code has it.  [stop_medication_schedule] and
    [stop_followup_schedule] return whether the id is known.  For a known
    id the schedule becomes inactive and the file is rewritten from the
    scheduler; for an unknown id the call returns [False] and leaves the
    world as it was; no exception is raised either way.  A second stop
    returns the same result and the same world as the first. *)
Theorem stop_schedule_result (schedule_id : string) (w : World) :
  let rm := stop_medication_schedule schedule_id w in
  let rf := stop_followup_schedule schedule_id w in
  (fst rm = PyDict.contains schedule_id (medication_schedules (self w))
   /\ medication_active schedule_id (snd rm)
      = option_map (fun _ => false) (medication_active schedule_id w)
   /\ (if fst rm then disk (snd rm) = Content (snapshot (self (snd rm)))
       else snd rm = w)
   /\ stop_medication_schedule schedule_id (snd rm) = rm)
  /\ (fst rf = PyDict.contains schedule_id (followup_schedules (self w))
      /\ followup_active schedule_id (snd rf)
         = option_map (fun _ => false) (followup_active schedule_id w)
      /\ (if fst rf then disk (snd rf) = Content (snapshot (self (snd rf)))
          else snd rf = w)
      /\ stop_followup_schedule schedule_id (snd rf) = rf).
Proof.
  cbv zeta. unfold medication_active, followup_active. split.
  - unfold stop_medication_schedule.
    destruct (PyDict.contains schedule_id (medication_schedules (self w))) eqn:Ec;
      cbn [fst snd].
    + repeat split.
      * cbn. rewrite get_modify_same.
        now destruct (PyDict.get schedule_id (medication_schedules (self w))).
      * cbn [_save_schedules set_self set_medications self medication_schedules
               followup_schedules is_running disk jobs delivered].
        rewrite contains_modify, Ec.
        rewrite modify_idempotent by reflexivity. reflexivity.
    + repeat split.
      * apply contains_false_get in Ec. now rewrite Ec.
      * now rewrite Ec.
  - unfold stop_followup_schedule.
    destruct (PyDict.contains schedule_id (followup_schedules (self w))) eqn:Ec;
      cbn [fst snd].
    + repeat split.
      * cbn. rewrite get_modify_same.
        now destruct (PyDict.get schedule_id (followup_schedules (self w))).
      * cbn [_save_schedules set_self set_followups self medication_schedules
               followup_schedules is_running disk jobs delivered].
        rewrite contains_modify, Ec.
        rewrite modify_idempotent by reflexivity. reflexivity.
    + repeat split.
      * apply contains_false_get in Ec. now rewrite Ec.
      * now rewrite Ec.
Qed.

(** C6, as the code has it.  [add_medication_schedule] checks neither
    [times] nor [duration_days].  Whenever [start_date +
    timedelta(days=duration_days)] is a datetime the call returns the new
    id, the schedule is stored under it, active, with the arguments as
    given, and the file is rewritten from the scheduler; a chat id that is
    empty is not stored.  Otherwise the [OverflowError] of the date
    arithmetic is raised and the world is left as it was. *)
Theorem add_medication_schedule_unvalidated
    (medication_name dosage : string) (times : list string) (duration_days : Z)
    (start_date : option datetime) (additional_notes : string)
    (chat_id : option string) (uuid4 : string) (now : datetime) (w : World) :
  let r := add_medication_schedule medication_name dosage times duration_days
             start_date additional_notes chat_id uuid4 now w in
  let start := match start_date with Some d => d | None => now end in
  match (delta <- timedelta_days duration_days ;; Datetime.add start delta) with
  | Returns end_date =>
      fst r = Returns uuid4
      /\ PyDict.get uuid4 (medication_schedules (self (snd r)))
         = Some (Med.mk uuid4 medication_name dosage times duration_days start
                   end_date additional_notes true now
                   (match chat_id with
                    | Some c => if String.eqb c "" then None else Some c
                    | None => None
                    end))
      /\ disk (snd r) = Content (snapshot (self (snd r)))
  | Raises e => r = (Raises e, w)
  end.
Proof.
  cbv zeta. unfold add_medication_schedule.
  destruct (delta <- timedelta_days duration_days;;
            Datetime.add match start_date with Some d => d | None => now end delta)
    as [end_date | e]; [| reflexivity].
  cbn [fst snd]. split; [reflexivity |].
  unfold _schedule_medication_reminders, _save_schedules. cbn [self disk].
  match goal with
  | |- context [schedule_medication_loop ?i ?t ?n ?w0] =>
      destruct (self_schedule_medication_loop i t n w0) as (Hs & _ & _)
  end.
  split; [| reflexivity].
  rewrite Hs. cbn [self set_self medication_schedules set_medications].
  rewrite get_set_same. f_equal.
  destruct chat_id as [c |]; [destruct (String.eqb c "") |]; reflexivity.
Qed.

End LocalProperties.

(** ** Persistence: what a load after a save gives *)

Section Persistence.
Context {L : Library}.
Hypothesis laws : library_laws L.
Import PyDictFacts.

Lemma mapM_as_str (l : list string) :
  mapM Json.as_str (map JStr l) = Returns l.
Proof. induction l as [| x r IH]; cbn; [reflexivity | now rewrite IH]. Qed.

Lemma mapM_as_int (l : list Z) :
  mapM Json.as_int (map JInt l) = Returns l.
Proof. induction l as [| x r IH]; cbn; [reflexivity | now rewrite IH]. Qed.

Lemma datetime_of_json_isoformat (d : datetime) :
  in_range d = true -> datetime_of_json (JStr (isoformat d)) = Returns d.
Proof.
  intros Hd. cbn. destruct laws as (Hrt & _ & _). now rewrite Hrt.
Qed.

Lemma datetime_of_json_in_range (j : json) (d : datetime) :
  datetime_of_json j = Returns d -> in_range d = true.
Proof.
  destruct laws as (_ & Hr & _).
  destruct j; cbn; try discriminate.
  destruct (fromisoformat s) as [d' |] eqn:E; cbn; [| discriminate].
  intros [= <-]. now apply (Hr s).
Qed.

Lemma medication_of_json_to_json (s : Med.t) :
  in_range (Med.start_date s) = true ->
  in_range (Med.end_date s) = true ->
  in_range (Med.created_at s) = true ->
  medication_of_json (medication_to_json s) = Returns (Med.set_chat_id None s).
Proof.
  intros H1 H2 H3. unfold medication_of_json, medication_to_json.
  cbn [Json.getitem PyDict.get String.eqb Ascii.eqb Bool.eqb of_option bind
         Json.as_str Json.as_int Json.as_bool Json.as_list].
  rewrite mapM_as_str. cbn [bind].
  rewrite !datetime_of_json_isoformat by assumption.
  reflexivity.
Qed.

Lemma followup_of_json_to_json (s : Fu.t) :
  in_range (Fu.appointment_date s) = true ->
  in_range (Fu.created_at s) = true ->
  followup_of_json (followup_to_json s) = Returns s.
Proof.
  intros H1 H2. unfold followup_of_json, followup_to_json.
  cbn [Json.getitem PyDict.get String.eqb Ascii.eqb Bool.eqb of_option bind
         Json.as_str Json.as_int Json.as_bool Json.as_list].
  rewrite mapM_as_int. cbn [bind].
  rewrite !datetime_of_json_isoformat by assumption.
  destruct s; reflexivity.
Qed.

(** Decoding yields schedules that satisfy the registry invariant. *)
Lemma bind_returns {A B : Type} (m : outcome A) (k : A -> outcome B) (b : B) :
  bind m k = Returns b -> exists a, m = Returns a /\ k a = Returns b.
Proof. destruct m as [a | e]; cbn; [eauto | discriminate]. Qed.

Lemma bind_datetime_in_range (key : string) (j : json) (d : datetime) :
  bind (Json.getitem key j) datetime_of_json = Returns d -> in_range d = true.
Proof.
  intros H. apply bind_returns in H. destruct H as (a & _ & H).
  now apply datetime_of_json_in_range in H.
Qed.

Lemma medication_of_json_ok (j : json) (s : Med.t) :
  medication_of_json j = Returns s ->
  medication_ok (Med.id s, s) = true /\ Med.chat_id s = None.
Proof.
  unfold medication_of_json. intros H.
  repeat (apply bind_returns in H; destruct H as (? & ? & H)).
  injection H as <-. unfold medication_ok. cbn.
  rewrite String.eqb_refl.
  repeat match goal with
         | H : bind _ datetime_of_json = Returns _ |- _ =>
             apply bind_datetime_in_range in H; rewrite H
         end.
  split; reflexivity.
Qed.

Lemma followup_of_json_ok (j : json) (s : Fu.t) :
  followup_of_json j = Returns s -> followup_ok (Fu.id s, s) = true.
Proof.
  unfold followup_of_json. intros H.
  repeat (apply bind_returns in H; destruct H as (? & ? & H)).
  injection H as <-. unfold followup_ok. cbn.
  rewrite String.eqb_refl.
  repeat match goal with
         | H : bind _ datetime_of_json = Returns _ |- _ =>
             apply bind_datetime_in_range in H; rewrite H
         end.
  reflexivity.
Qed.

Lemma mapM_map {A B C : Type} (f : B -> outcome C) (g : A -> B) (h : A -> C)
    (l : list A) :
  (forall x, In x l -> f (g x) = Returns (h x)) ->
  mapM f (map g l) = Returns (map h l).
Proof.
  induction l as [| x r IH]; intros H; cbn; [reflexivity |].
  rewrite (H x (or_introl eq_refl)). cbn.
  rewrite IH by (intros y Hy; apply H; now right). reflexivity.
Qed.

Lemma load_medications_decoded (l : list json) :
  forall (vs : list Med.t) (s : HealthcareScheduler),
    mapM medication_of_json l = Returns vs ->
    load_medications l s
    = (set_medications (store_medications vs (medication_schedules s)) s, None).
Proof.
  induction l as [| j r IH]; intros vs s H; cbn in H.
  - injection H as <-. destruct s; reflexivity.
  - apply bind_returns in H. destruct H as (v & Hv & H).
    apply bind_returns in H. destruct H as (vs' & Hvs & H).
    injection H as <-. cbn. rewrite Hv. rewrite (IH vs') by assumption.
    reflexivity.
Qed.

Lemma load_followups_decoded (l : list json) :
  forall (vs : list Fu.t) (s : HealthcareScheduler),
    mapM followup_of_json l = Returns vs ->
    load_followups l s
    = (set_followups (store_followups vs (followup_schedules s)) s, None).
Proof.
  induction l as [| j r IH]; intros vs s H; cbn in H.
  - injection H as <-. destruct s; reflexivity.
  - apply bind_returns in H. destruct H as (v & Hv & H).
    apply bind_returns in H. destruct H as (vs' & Hvs & H).
    injection H as <-. cbn. rewrite Hv. rewrite (IH vs') by assumption.
    reflexivity.
Qed.

(** Storing the values of a well formed dictionary one by one rebuilds it. *)
Lemma store_values_rebuilds {V : Type} (key : V -> string) (d : dict V) :
  forall acc : dict V,
    unique_keys d = true ->
    (forall k v, In (k, v) d -> key v = k) ->
    (forall k, In k (PyDict.keys d) -> PyDict.contains k acc = false) ->
    fold_left (fun a v => PyDict.set (key v) v a) (PyDict.values d) acc = acc ++ d.
Proof.
  induction d as [| [k v] r IH]; intros acc Hu Hk Hfresh; cbn.
  - now rewrite app_nil_r.
  - cbn in Hu. apply andb_prop in Hu. destruct Hu as [Hkr Hu].
    apply negb_true_iff in Hkr.
    rewrite (Hk k v (or_introl eq_refl)).
    rewrite set_fresh by (apply Hfresh; now left).
    rewrite IH.
    + now rewrite <- app_assoc.
    + assumption.
    + intros k' v' Hin. apply Hk. now right.
    + intros k' Hin.
      assert (Hne : k' <> k).
      { intros ->. apply contains_keys in Hin. congruence. }
      rewrite <- (set_fresh k v acc) by (apply Hfresh; now left).
      rewrite contains_set.
      destruct (String.eqb_spec k k'); [congruence |].
      cbn. apply Hfresh. now right.
Qed.

Lemma forallb_In {A : Type} (p : A -> bool) (l : list A) (x : A) :
  forallb p l = true -> In x l -> p x = true.
Proof. intros H. rewrite forallb_forall in H. apply H. Qed.

Lemma well_formed_parts (s : HealthcareScheduler) :
  well_formed s = true <->
  unique_keys (medication_schedules s) = true
  /\ forallb medication_ok (medication_schedules s) = true
  /\ unique_keys (followup_schedules s) = true
  /\ forallb followup_ok (followup_schedules s) = true.
Proof. unfold well_formed. rewrite !andb_true_iff. tauto. Qed.

Lemma medication_ok_parts (k : string) (v : Med.t) :
  medication_ok (k, v) = true <->
  Med.id v = k /\ in_range (Med.start_date v) = true
  /\ in_range (Med.end_date v) = true /\ in_range (Med.created_at v) = true.
Proof.
  unfold medication_ok. cbn. rewrite !andb_true_iff, String.eqb_eq. tauto.
Qed.

Lemma followup_ok_parts (k : string) (v : Fu.t) :
  followup_ok (k, v) = true <->
  Fu.id v = k /\ in_range (Fu.appointment_date v) = true
  /\ in_range (Fu.created_at v) = true.
Proof.
  unfold followup_ok. cbn. rewrite !andb_true_iff, String.eqb_eq. tauto.
Qed.

(** Save, then load into a new scheduler: everything comes back but the
    chat ids. *)
Lemma load_snapshot (s : HealthcareScheduler) :
  well_formed s = true ->
  _load_schedules (Content (snapshot s)) fresh_scheduler = (persisted_view s, None).
Proof.
  intros Hwf. apply well_formed_parts in Hwf.
  destruct Hwf as (Hum & Hom & Huf & Hof).
  unfold _load_schedules, snapshot.
  cbn [Json.get_default PyDict.get String.eqb Ascii.eqb Bool.eqb bind Json.iter].
  rewrite (load_medications_decoded _
             (map (Med.set_chat_id None) (PyDict.values (medication_schedules s)))).
  2:{ apply mapM_map. intros v Hv. apply in_map_iff in Hv.
      destruct Hv as ([k v'] & <- & Hin). cbn.
      pose proof (forallb_In _ _ _ Hom Hin) as Hok.
      apply medication_ok_parts in Hok. destruct Hok as (_ & H1 & H2 & H3).
      now apply medication_of_json_to_json. }
  rewrite (load_followups_decoded _ (PyDict.values (followup_schedules s))).
  2:{ rewrite <- (map_id (PyDict.values (followup_schedules s))) at 2.
      apply mapM_map. intros v Hv. apply in_map_iff in Hv.
      destruct Hv as ([k v'] & <- & Hin). cbn.
      pose proof (forallb_In _ _ _ Hof Hin) as Hok.
      apply followup_ok_parts in Hok. destruct Hok as (_ & H1 & H2).
      now apply followup_of_json_to_json. }
  f_equal. unfold persisted_view, set_followups, set_medications,
    store_medications, store_followups. cbn. f_equal.
  - set (d' := map (fun kv => (fst kv, Med.set_chat_id None (snd kv)))
                 (medication_schedules s)).
    replace (map (Med.set_chat_id None) (PyDict.values (medication_schedules s)))
      with (PyDict.values d')
      by (unfold d', PyDict.values; rewrite !map_map; reflexivity).
    rewrite (store_values_rebuilds Med.id d' []); [reflexivity | | | reflexivity].
    + clear - Hum. unfold d'.
      induction (medication_schedules s) as [| [k v] r IH]; cbn in *; [reflexivity |].
      apply andb_prop in Hum. destruct Hum as [Hk Hr].
      rewrite IH by assumption. rewrite andb_true_r.
      apply negb_true_iff. apply negb_true_iff in Hk.
      apply contains_false_get. apply contains_false_get in Hk.
      clear - Hk. induction r as [| [k' v'] r IH]; cbn in *; [reflexivity |].
      destruct (String.eqb k' k); [discriminate | now apply IH].
    + intros k v Hin. unfold d' in Hin. apply in_map_iff in Hin.
      destruct Hin as ([k0 v0] & [= <- <-] & Hin).
      pose proof (forallb_In _ _ _ Hom Hin) as Hok.
      apply medication_ok_parts in Hok. cbn. tauto.
  - rewrite (store_values_rebuilds Fu.id (followup_schedules s) []);
      [reflexivity | assumption | | reflexivity].
    intros k v Hin. pose proof (forallb_In _ _ _ Hof Hin) as Hok.
    apply followup_ok_parts in Hok. tauto.
Qed.

End Persistence.

(** ** The load as Python runs it: what it stores and where it ends *)

Section UncheckedFacts.
Context {L : Library}.

Lemma getitem_returns (key : string) (j v : json) :
  Json.getitem key j = Returns v <->
  exists items, j = JDict items /\ PyDict.get key items = Some v.
Proof.
  split.
  - destruct j; cbn; try discriminate. intros H. exists items.
    split; [reflexivity |].
    destruct (PyDict.get key items); cbn in H; [congruence | discriminate].
  - intros (items & -> & H). cbn. now rewrite H.
Qed.

Lemma datetime_of_json_returns (j : json) (d : datetime) :
  datetime_of_json j = Returns d <->
  exists s, j = JStr s /\ fromisoformat s = Some d.
Proof.
  split.
  - destruct j; cbn; try discriminate. intros H. exists s.
    split; [reflexivity |].
    destruct (fromisoformat s); cbn in H; [congruence | discriminate].
  - intros (s & -> & H). cbn. now rewrite H.
Qed.

Ltac open_bind H :=
  let v := fresh "v" in
  let Hv := fresh "Hv" in
  apply bind_returns in H; destruct H as (v & Hv & H).

(** A medication record is stored exactly when it is an object that has
    the ten keys of the constructor call and strings that
    [fromisoformat] reads under the three dates; the other values are
    stored as they are. *)
Lemma medication_of_json_returns (med_data : json) (v : Unchecked.Med.t) :
  Unchecked.medication_of_json med_data = Returns v <->
  exists items start_date end_date created_at,
    med_data = JDict items
    /\ PyDict.get "id" items = Some (Unchecked.Med.id v)
    /\ PyDict.get "medication_name" items = Some (Unchecked.Med.medication_name v)
    /\ PyDict.get "dosage" items = Some (Unchecked.Med.dosage v)
    /\ PyDict.get "times" items = Some (Unchecked.Med.times v)
    /\ PyDict.get "duration_days" items = Some (Unchecked.Med.duration_days v)
    /\ PyDict.get "start_date" items = Some (JStr start_date)
    /\ fromisoformat start_date = Some (Unchecked.Med.start_date v)
    /\ PyDict.get "end_date" items = Some (JStr end_date)
    /\ fromisoformat end_date = Some (Unchecked.Med.end_date v)
    /\ PyDict.get "additional_notes" items
       = Some (Unchecked.Med.additional_notes v)
    /\ PyDict.get "is_active" items = Some (Unchecked.Med.is_active v)
    /\ PyDict.get "created_at" items = Some (JStr created_at)
    /\ fromisoformat created_at = Some (Unchecked.Med.created_at v)
    /\ Unchecked.Med.chat_id v = JNull.
Proof.
  unfold Unchecked.medication_of_json. split.
  - intros H. do 10 open_bind H. injection H as <-.
    apply bind_returns in Hv4, Hv5, Hv8.
    destruct Hv4 as (j1 & Hj1 & Hd1), Hv5 as (j2 & Hj2 & Hd2),
             Hv8 as (j3 & Hj3 & Hd3).
    apply datetime_of_json_returns in Hd1, Hd2, Hd3.
    destruct Hd1 as (s1 & -> & Hs1), Hd2 as (s2 & -> & Hs2),
             Hd3 as (s3 & -> & Hs3).
    apply getitem_returns in Hv. destruct Hv as (items & -> & Hid).
    repeat match goal with
           | H : Json.getitem _ (JDict items) = Returns _ |- _ =>
               apply getitem_returns in H;
               let x := fresh in
               let E := fresh in
               destruct H as (x & E & H); injection E as <-
           end.
    exists items, s1, s2, s3. cbn. repeat split; assumption.
  - intros (items & s1 & s2 & s3 & -> & H1 & H2 & H3 & H4 & H5 & H6 & H6'
            & H7 & H7' & H8 & H9 & H10 & H10' & H11).
    cbn. rewrite H1, H2, H3, H4, H5, H6, H7, H8, H9, H10. cbn.
    rewrite H6', H7', H10'. cbn. destruct v. cbn in *. now subst.
Qed.

Lemma followup_of_json_returns (followup_data : json) (v : Unchecked.Fu.t) :
  Unchecked.followup_of_json followup_data = Returns v <->
  exists items appointment_date created_at,
    followup_data = JDict items
    /\ PyDict.get "id" items = Some (Unchecked.Fu.id v)
    /\ PyDict.get "appointment_type" items
       = Some (Unchecked.Fu.appointment_type v)
    /\ PyDict.get "appointment_date" items = Some (JStr appointment_date)
    /\ fromisoformat appointment_date = Some (Unchecked.Fu.appointment_date v)
    /\ PyDict.get "appointment_time" items
       = Some (Unchecked.Fu.appointment_time v)
    /\ PyDict.get "location" items = Some (Unchecked.Fu.location v)
    /\ PyDict.get "notes" items = Some (Unchecked.Fu.notes v)
    /\ PyDict.get "reminder_days_before" items
       = Some (Unchecked.Fu.reminder_days_before v)
    /\ PyDict.get "is_active" items = Some (Unchecked.Fu.is_active v)
    /\ PyDict.get "created_at" items = Some (JStr created_at)
    /\ fromisoformat created_at = Some (Unchecked.Fu.created_at v).
Proof.
  unfold Unchecked.followup_of_json. split.
  - intros H. do 9 open_bind H. injection H as <-.
    apply bind_returns in Hv1, Hv7.
    destruct Hv1 as (j1 & Hj1 & Hd1), Hv7 as (j2 & Hj2 & Hd2).
    apply datetime_of_json_returns in Hd1, Hd2.
    destruct Hd1 as (s1 & -> & Hs1), Hd2 as (s2 & -> & Hs2).
    apply getitem_returns in Hv. destruct Hv as (items & -> & Hid).
    repeat match goal with
           | H : Json.getitem _ (JDict items) = Returns _ |- _ =>
               apply getitem_returns in H;
               let x := fresh in
               let E := fresh in
               destruct H as (x & E & H); injection E as <-
           end.
    exists items, s1, s2. cbn. repeat split; assumption.
  - intros (items & s1 & s2 & -> & H1 & H2 & H3 & H3' & H4 & H5 & H6 & H7
            & H8 & H9 & H9').
    cbn. rewrite H1, H2, H3, H4, H5, H6, H7, H8, H9. cbn.
    rewrite H3', H9'. cbn. destruct v. cbn in *. now subst.
Qed.

(** *** The two loops *)

Section Loop.
Context {A : Type}.
Variable record : json -> outcome A.
Variable put : A -> Unchecked.HealthcareScheduler -> Unchecked.HealthcareScheduler.
Variable body :
  json -> Unchecked.HealthcareScheduler -> outcome Unchecked.HealthcareScheduler.
Hypothesis body_record :
  forall j s, body j s = bind (record j) (fun v => Returns (put v s)).

Lemma load_each_all (l : list json) :
  forall vs s,
    mapM record l = Returns vs ->
    Unchecked.load_each body l s = (fold_left (fun s v => put v s) vs s, None).
Proof.
  induction l as [| j r IH]; intros vs s H; cbn in H.
  - injection H as <-. reflexivity.
  - apply bind_returns in H. destruct H as (v & Hv & H).
    apply bind_returns in H. destruct H as (vs' & Hvs & H).
    injection H as <-. cbn. rewrite body_record, Hv. cbn. now apply IH.
Qed.

Lemma load_each_stops (good : list json) :
  forall vs bad rest e s,
    mapM record good = Returns vs ->
    record bad = Raises e ->
    Unchecked.load_each body (good ++ bad :: rest) s
    = (fold_left (fun s v => put v s) vs s, Some e).
Proof.
  induction good as [| j r IH]; intros vs bad rest e s H Hbad; cbn in H.
  - injection H as <-. cbn. now rewrite body_record, Hbad.
  - apply bind_returns in H. destruct H as (v & Hv & H).
    apply bind_returns in H. destruct H as (vs' & Hvs & H).
    injection H as <-. cbn. rewrite body_record, Hv. cbn. now apply IH.
Qed.

End Loop.

Lemma load_medication_record (j : json) (s : Unchecked.HealthcareScheduler) :
  Unchecked.load_medication j s
  = bind (Unchecked.medication_record j)
      (fun v =>
         Returns (Unchecked.set_medications
                    (Unchecked.store (Unchecked.Med.id v) v
                       (Unchecked.medication_schedules s)) s)).
Proof.
  unfold Unchecked.load_medication, Unchecked.medication_record,
    Unchecked.setitem.
  destruct (Unchecked.medication_of_json j) as [v | e]; cbn; [| reflexivity].
  destruct (Unchecked.hashable (Unchecked.Med.id v)); reflexivity.
Qed.

Lemma load_followup_record (j : json) (s : Unchecked.HealthcareScheduler) :
  Unchecked.load_followup j s
  = bind (Unchecked.followup_record j)
      (fun v =>
         Returns (Unchecked.set_followups
                    (Unchecked.store (Unchecked.Fu.id v) v
                       (Unchecked.followup_schedules s)) s)).
Proof.
  unfold Unchecked.load_followup, Unchecked.followup_record, Unchecked.setitem.
  destruct (Unchecked.followup_of_json j) as [v | e]; cbn; [| reflexivity].
  destruct (Unchecked.hashable (Unchecked.Fu.id v)); reflexivity.
Qed.

Lemma fold_store_medications (vs : list Unchecked.Med.t) :
  forall s,
    fold_left
      (fun s v =>
         Unchecked.set_medications
           (Unchecked.store (Unchecked.Med.id v) v
              (Unchecked.medication_schedules s)) s) vs s
    = Unchecked.set_medications
        (Unchecked.store_medications vs (Unchecked.medication_schedules s)) s.
Proof.
  unfold Unchecked.store_medications.
  induction vs as [| v r IH]; intros s; cbn; [now destruct s |].
  now rewrite IH.
Qed.

Lemma fold_store_followups (vs : list Unchecked.Fu.t) :
  forall s,
    fold_left
      (fun s v =>
         Unchecked.set_followups
           (Unchecked.store (Unchecked.Fu.id v) v
              (Unchecked.followup_schedules s)) s) vs s
    = Unchecked.set_followups
        (Unchecked.store_followups vs (Unchecked.followup_schedules s)) s.
Proof.
  unfold Unchecked.store_followups.
  induction vs as [| v r IH]; intros s; cbn; [now destruct s |].
  now rewrite IH.
Qed.

(** *** The scheduler at the annotated types

    On a file that gives every field a value of the type of its annotation
    the typed [_load_schedules] is the load as Python runs it: it logs
    [TypeMismatch] for no other file, and on the others the two loads
    store the same schedules, in the same order, and log the same
    exception. *)

Lemma as_str_returns (j : json) (x : string) :
  Json.as_str j = Returns x -> j = JStr x.
Proof. destruct j; cbn; try discriminate. now intros [= ->]. Qed.

Lemma as_int_returns (j : json) (x : Z) :
  Json.as_int j = Returns x -> j = JInt x.
Proof. destruct j; cbn; try discriminate. now intros [= ->]. Qed.

Lemma as_bool_returns (j : json) (x : bool) :
  Json.as_bool j = Returns x -> j = JBool x.
Proof. destruct j; cbn; try discriminate. now intros [= ->]. Qed.

Lemma mapM_as_str_returns (l : list json) :
  forall xs, mapM Json.as_str l = Returns xs -> l = map JStr xs.
Proof.
  induction l as [| j r IH]; intros xs H; cbn in H.
  - now injection H as <-.
  - apply bind_returns in H. destruct H as (x & Hx & H).
    apply bind_returns in H. destruct H as (xs' & Hxs & H).
    injection H as <-. apply as_str_returns in Hx. subst j. cbn.
    now rewrite (IH xs').
Qed.

Lemma mapM_as_int_returns (l : list json) :
  forall xs, mapM Json.as_int l = Returns xs -> l = map JInt xs.
Proof.
  induction l as [| j r IH]; intros xs H; cbn in H.
  - now injection H as <-.
  - apply bind_returns in H. destruct H as (x & Hx & H).
    apply bind_returns in H. destruct H as (xs' & Hxs & H).
    injection H as <-. apply as_int_returns in Hx. subst j. cbn.
    now rewrite (IH xs').
Qed.

Lemma as_strs_returns (j : json) (xs : list string) :
  Json.as_list Json.as_str j = Returns xs -> j = JList (map JStr xs).
Proof.
  destruct j; cbn; try discriminate. intros H.
  now rewrite (mapM_as_str_returns l xs H).
Qed.

Lemma as_ints_returns (j : json) (xs : list Z) :
  Json.as_list Json.as_int j = Returns xs -> j = JList (map JInt xs).
Proof.
  destruct j; cbn; try discriminate. intros H.
  now rewrite (mapM_as_int_returns l xs H).
Qed.

Lemma mapM_as_str_raises (l : list json) (e : exn) :
  mapM Json.as_str l = Raises e -> e = TypeMismatch.
Proof.
  induction l as [| j r IH]; cbn; [discriminate |].
  destruct j; cbn; try (now intros [= <-]).
  destruct (mapM Json.as_str r); cbn; [discriminate |].
  intros [= <-]. now apply IH.
Qed.

Lemma mapM_as_int_raises (l : list json) (e : exn) :
  mapM Json.as_int l = Raises e -> e = TypeMismatch.
Proof.
  induction l as [| j r IH]; cbn; [discriminate |].
  destruct j; cbn; try (now intros [= <-]).
  destruct (mapM Json.as_int r); cbn; [discriminate |].
  intros [= <-]. now apply IH.
Qed.

(** One field of a constructor call, read at its annotated type and read
    as it is. *)
Lemma typed_field {A B C : Type} (read : json -> outcome A) (inj : A -> json)
    (key : string) (j : json) (k : A -> outcome B) (k' : json -> outcome C)
    (R : outcome B -> outcome C -> Prop) :
  (forall v x, read v = Returns x -> v = inj x) ->
  (forall v e, read v = Raises e -> e = TypeMismatch) ->
  (forall e, R (Raises e) (Raises e)) ->
  (forall c, R (Raises TypeMismatch) c) ->
  (forall x, R (k x) (k' (inj x))) ->
  R (bind (bind (Json.getitem key j) read) k) (bind (Json.getitem key j) k').
Proof.
  intros Hret Hraise Hsame Hmis Hk.
  destruct (Json.getitem key j) as [v | e]; cbn; [| apply Hsame].
  destruct (read v) as [x | e] eqn:E; cbn.
  - rewrite (Hret v x E). apply Hk.
  - rewrite (Hraise v e E). apply Hmis.
Qed.

Lemma date_field {B C : Type} (key : string) (j : json)
    (k : datetime -> outcome B) (k' : datetime -> outcome C)
    (R : outcome B -> outcome C -> Prop) :
  (forall e, R (Raises e) (Raises e)) ->
  (forall x, R (k x) (k' x)) ->
  R (bind (bind (Json.getitem key j) datetime_of_json) k)
    (bind (bind (Json.getitem key j) datetime_of_json) k').
Proof.
  intros Hsame Hk.
  destruct (bind (Json.getitem key j) datetime_of_json) as [x | e]; cbn;
    [apply Hk | apply Hsame].
Qed.

Lemma reads_raises {A B : Type} (inj : A -> B) (e : exn) :
  reads inj (Raises e) (Raises e).
Proof. now destruct e. Qed.

Lemma as_strs_raises (v : json) (e : exn) :
  Json.as_list Json.as_str v = Raises e -> e = TypeMismatch.
Proof.
  destruct v; cbn; try (now intros [= <-]). apply mapM_as_str_raises.
Qed.

Lemma as_ints_raises (v : json) (e : exn) :
  Json.as_list Json.as_int v = Raises e -> e = TypeMismatch.
Proof.
  destruct v; cbn; try (now intros [= <-]). apply mapM_as_int_raises.
Qed.

Lemma as_str_raises (v : json) (e : exn) :
  Json.as_str v = Raises e -> e = TypeMismatch.
Proof. destruct v; cbn; try discriminate; now intros [= <-]. Qed.

Lemma as_int_raises (v : json) (e : exn) :
  Json.as_int v = Raises e -> e = TypeMismatch.
Proof. destruct v; cbn; try discriminate; now intros [= <-]. Qed.

Lemma as_bool_raises (v : json) (e : exn) :
  Json.as_bool v = Raises e -> e = TypeMismatch.
Proof. destruct v; cbn; try discriminate; now intros [= <-]. Qed.

Ltac typed_field_with read inj ret raises :=
  match goal with
  | |- reads ?i _ _ =>
      apply (typed_field read inj _ _ _ _ (reads i));
      [apply ret | apply raises | apply reads_raises | exact (fun _ => I)
      | intros ?]
  end.

Ltac date_field_here :=
  match goal with
  | |- reads ?i _ _ =>
      apply (date_field _ _ _ _ (reads i)); [apply reads_raises | intros ?]
  end.

Ltac typed_fields :=
  repeat first
    [ typed_field_with Json.as_str JStr as_str_returns as_str_raises
    | typed_field_with Json.as_int JInt as_int_returns as_int_raises
    | typed_field_with Json.as_bool JBool as_bool_returns as_bool_raises
    | typed_field_with (Json.as_list Json.as_str)
        (fun xs => JList (map JStr xs)) as_strs_returns as_strs_raises
    | typed_field_with (Json.as_list Json.as_int)
        (fun xs => JList (map JInt xs)) as_ints_returns as_ints_raises
    | date_field_here ].

Lemma medication_of_json_reads (med_data : json) :
  reads unchecked_medication (medication_of_json med_data)
    (Unchecked.medication_of_json med_data).
Proof.
  unfold medication_of_json, Unchecked.medication_of_json.
  typed_fields. cbn. reflexivity.
Qed.

Lemma followup_of_json_reads (followup_data : json) :
  reads unchecked_followup (followup_of_json followup_data)
    (Unchecked.followup_of_json followup_data).
Proof.
  unfold followup_of_json, Unchecked.followup_of_json.
  typed_fields. cbn. reflexivity.
Qed.

Lemma store_unchecked {V W : Type} (f : V -> W) (k : string) (v : V)
    (d : PyDict.dict V) :
  Unchecked.store (JStr k) (f v) (map (fun kv => (JStr (fst kv), f (snd kv))) d)
  = map (fun kv => (JStr (fst kv), f (snd kv))) (PyDict.set k v d).
Proof.
  induction d as [| [k' v'] r IH]; cbn; [reflexivity |].
  change (Unchecked.key_eqb (JStr k') (JStr k)) with (String.eqb k' k).
  destruct (String.eqb k' k); cbn; [reflexivity | now rewrite IH].
Qed.

Lemma load_medications_reads (l : list json) :
  forall s,
    snd (load_medications l s) <> Some TypeMismatch ->
    Unchecked.load_each Unchecked.load_medication l (unchecked s)
    = (unchecked (fst (load_medications l s)), snd (load_medications l s)).
Proof.
  induction l as [| j r IH]; intros s H; cbn in *; [reflexivity |].
  pose proof (medication_of_json_reads j) as Hj.
  unfold Unchecked.load_medication.
  destruct (medication_of_json j) as [m | e]; cbn in Hj.
  - rewrite Hj. cbn. rewrite <- (IH _ H). f_equal.
    unfold unchecked, Unchecked.set_medications. cbn. f_equal.
    apply (store_unchecked unchecked_medication).
  - cbn in H. destruct e; try (rewrite Hj; reflexivity). congruence.
Qed.

Lemma load_followups_reads (l : list json) :
  forall s,
    snd (load_followups l s) <> Some TypeMismatch ->
    Unchecked.load_each Unchecked.load_followup l (unchecked s)
    = (unchecked (fst (load_followups l s)), snd (load_followups l s)).
Proof.
  induction l as [| j r IH]; intros s H; cbn in *; [reflexivity |].
  pose proof (followup_of_json_reads j) as Hj.
  unfold Unchecked.load_followup.
  destruct (followup_of_json j) as [m | e]; cbn in Hj.
  - rewrite Hj. cbn. rewrite <- (IH _ H). f_equal.
    unfold unchecked, Unchecked.set_followups. cbn. f_equal.
    apply (store_unchecked unchecked_followup).
  - cbn in H. destruct e; try (rewrite Hj; reflexivity). congruence.
Qed.

Lemma load_schedules_reads (d : storage) (s : HealthcareScheduler) :
  snd (_load_schedules d s) <> Some TypeMismatch ->
  Unchecked._load_schedules d (unchecked s)
  = (unchecked (fst (_load_schedules d s)), snd (_load_schedules d s)).
Proof.
  unfold _load_schedules, Unchecked._load_schedules.
  destruct d as [| | data]; try reflexivity.
  destruct (bind (Json.get_default "medications" (JList []) data) Json.iter)
    as [meds | e]; [| reflexivity].
  pose proof (load_medications_reads meds s) as Hm.
  destruct (load_medications meds s) as [s1 [e |]]; cbn [fst snd] in *.
  - intros H. now rewrite (Hm H).
  - rewrite Hm by discriminate.
    destruct (bind (Json.get_default "followups" (JList []) data) Json.iter)
      as [fus | e]; [| reflexivity].
    apply load_followups_reads.
Qed.

End UncheckedFacts.

(** ** The world invariant *)

Section Consistency.
Context {L : Library}.
Hypothesis laws : library_laws L.
Import PyDictFacts.

Lemma fold_left_invariant {A B : Type} (P : A -> Prop) (f : A -> B -> A)
    (l : list B) :
  (forall a x, P a -> P (f a x)) -> forall a, P a -> P (fold_left f l a).
Proof.
  intros Hf. induction l as [| x r IH]; intros a Ha; cbn; [exact Ha |].
  apply IH, Hf, Ha.
Qed.

Lemma consistent_ext (w1 w2 : World) :
  self w1 = self w2 -> disk w1 = disk w2 -> consistent w1 -> consistent w2.
Proof.
  unfold consistent, in_sync. intros Hs Hd [Hwf Hsync].
  now rewrite <- Hs, <- Hd.
Qed.

Lemma consistent_save (w : World) :
  well_formed (self w) = true -> consistent (_save_schedules w).
Proof.
  intros Hwf. split; [exact Hwf |].
  unfold in_sync, __init__. cbn [disk _save_schedules self].
  now rewrite (load_snapshot laws).
Qed.

Lemma just_loaded_parts (s : HealthcareScheduler) :
  just_loaded s = true <->
  well_formed s = true
  /\ forallb no_chat_id (medication_schedules s) = true
  /\ is_running s = false.
Proof.
  unfold just_loaded. rewrite !andb_true_iff, negb_true_iff. tauto.
Qed.

Lemma load_medications_just_loaded (l : list json) :
  forall s, just_loaded s = true -> just_loaded (fst (load_medications l s)) = true.
Proof.
  induction l as [| j r IH]; intros s Hs; cbn; [exact Hs |].
  destruct (medication_of_json j) as [v | e] eqn:Ev; [| exact Hs].
  apply IH. apply (medication_of_json_ok laws) in Ev. destruct Ev as [Hok Hchat].
  apply just_loaded_parts in Hs. destruct Hs as (Hwf & Hnc & Hrun).
  apply well_formed_parts in Hwf. destruct Hwf as (Hum & Hom & Huf & Hof).
  apply just_loaded_parts. repeat split.
  - apply well_formed_parts. cbn. repeat split; try assumption.
    + now apply unique_keys_set.
    + now apply forallb_set.
  - cbn. apply forallb_set; [| assumption].
    unfold no_chat_id. cbn. now rewrite Hchat.
  - exact Hrun.
Qed.

Lemma load_followups_just_loaded (l : list json) :
  forall s, just_loaded s = true -> just_loaded (fst (load_followups l s)) = true.
Proof.
  induction l as [| j r IH]; intros s Hs; cbn; [exact Hs |].
  destruct (followup_of_json j) as [v | e] eqn:Ev; [| exact Hs].
  apply IH. apply (followup_of_json_ok laws) in Ev.
  apply just_loaded_parts in Hs. destruct Hs as (Hwf & Hnc & Hrun).
  apply well_formed_parts in Hwf. destruct Hwf as (Hum & Hom & Huf & Hof).
  apply just_loaded_parts. repeat split; [| assumption | assumption].
  apply well_formed_parts. cbn. repeat split; try assumption.
  - now apply unique_keys_set.
  - now apply forallb_set.
Qed.

Lemma init_just_loaded (d : storage) : just_loaded (__init__ d) = true.
Proof.
  unfold __init__, _load_schedules.
  destruct d as [| | data]; try reflexivity.
  destruct (bind (Json.get_default "medications" (JList []) data) Json.iter)
    as [meds | e]; [| reflexivity].
  pose proof (load_medications_just_loaded meds fresh_scheduler eq_refl) as H1.
  destruct (load_medications meds fresh_scheduler) as [s1 [e |]]; [exact H1 |].
  cbn [fst] in H1.
  destruct (bind (Json.get_default "followups" (JList []) data) Json.iter)
    as [fus | e]; [| exact H1].
  now apply load_followups_just_loaded.
Qed.

Lemma set_chat_id_none (v : Med.t) :
  Med.chat_id v = None -> Med.set_chat_id None v = v.
Proof. destruct v; cbn; now intros ->. Qed.

Lemma persisted_view_just_loaded (s : HealthcareScheduler) :
  just_loaded s = true -> persisted_view s = s.
Proof.
  intros H. apply just_loaded_parts in H. destruct H as (_ & Hnc & Hrun).
  destruct s as [meds fus running]. cbn in *. subst running.
  unfold persisted_view. cbn. f_equal.
  induction meds as [| [k v] r IH]; cbn in *; [reflexivity |].
  apply andb_prop in Hnc. destruct Hnc as [Hv Hr].
  rewrite IH by assumption. rewrite set_chat_id_none; [reflexivity |].
  unfold no_chat_id in Hv. cbn in Hv. now destruct (Med.chat_id v).
Qed.

(** A process that starts finds the world consistent, whatever is on disk. *)
Lemma consistent_boot (d : storage) : consistent (boot d).
Proof.
  pose proof (init_just_loaded d) as H.
  split; cbn.
  - apply just_loaded_parts in H. tauto.
  - unfold in_sync. cbn. symmetry. now apply persisted_view_just_loaded.
Qed.

Lemma medication_ok_set_is_active (b : bool) (k : string) (v : Med.t) :
  medication_ok (k, v) = true -> medication_ok (k, Med.set_is_active b v) = true.
Proof. intros H. exact H. Qed.

Lemma followup_ok_set_is_active (b : bool) (k : string) (v : Fu.t) :
  followup_ok (k, v) = true -> followup_ok (k, Fu.set_is_active b v) = true.
Proof. intros H. exact H. Qed.

Lemma well_formed_modify_medication (k : string) (b : bool) (s : HealthcareScheduler) :
  well_formed s = true ->
  well_formed (set_medications
                 (PyDict.modify k (Med.set_is_active b) (medication_schedules s)) s)
  = true.
Proof.
  intros H. apply well_formed_parts in H. destruct H as (Hum & Hom & Huf & Hof).
  apply well_formed_parts. cbn. repeat split; try assumption.
  - now rewrite unique_keys_modify.
  - apply forallb_modify; [| assumption].
    intros k' v'. apply medication_ok_set_is_active.
Qed.

Lemma well_formed_modify_followup (k : string) (b : bool) (s : HealthcareScheduler) :
  well_formed s = true ->
  well_formed (set_followups
                 (PyDict.modify k (Fu.set_is_active b) (followup_schedules s)) s)
  = true.
Proof.
  intros H. apply well_formed_parts in H. destruct H as (Hum & Hom & Huf & Hof).
  apply well_formed_parts. cbn. repeat split; try assumption.
  - now rewrite unique_keys_modify.
  - apply forallb_modify; [| assumption].
    intros k' v'. apply followup_ok_set_is_active.
Qed.

Lemma consistent_send_medication (schedule_id : string) (now : datetime) (w : World) :
  consistent w -> consistent (fst (_send_medication_reminder schedule_id now w)).
Proof.
  intros Hc. unfold _send_medication_reminder.
  destruct (PyDict.get schedule_id (medication_schedules (self w))) as [s |];
    [| exact Hc].
  destruct (negb (Med.is_active s)); [exact Hc |].
  destruct (Med.end_date s <? now); [| exact Hc].
  cbn [fst]. apply consistent_save. cbn.
  apply well_formed_modify_medication, Hc.
Qed.

Lemma send_followup_world (schedule_id : string) (days_before : Z)
    (now : datetime) (w : World) :
  fst (_send_followup_reminder schedule_id days_before now w) = w.
Proof.
  unfold _send_followup_reminder.
  destruct (PyDict.get schedule_id (followup_schedules (self w))) as [s |];
    [| reflexivity].
  destruct (negb (Fu.is_active s)); [reflexivity |].
  destruct (reminder_date_of (Fu.appointment_date s) days_before); [| reflexivity].
  destruct (negb (date a =? date now)); reflexivity.
Qed.

Lemma consistent_call_job_func (f : job_func) (now : datetime) (w : World) :
  consistent w -> consistent (fst (call_job_func f now w)).
Proof.
  intros Hc. destruct f as [schedule_id | schedule_id days_before]; cbn.
  - now apply consistent_send_medication.
  - now rewrite send_followup_world.
Qed.

Lemma run_job_self (now : datetime) (w : World) (j : Job) :
  self (run_job now w j) = self (fst (call_job_func (job_do j) now w))
  /\ disk (run_job now w j) = disk (fst (call_job_func (job_do j) now w))
  /\ jobs (run_job now w j) = jobs (fst (call_job_func (job_do j) now w)).
Proof.
  unfold run_job. destruct (call_job_func (job_do j) now w) as [w' calls].
  cbn. auto.
Qed.

Lemma consistent_run_job (now : datetime) (w : World) (j : Job) :
  consistent w -> consistent (run_job now w j).
Proof.
  intros Hc. destruct (run_job_self now w j) as (Hs & Hd & _).
  apply (consistent_ext (fst (call_job_func (job_do j) now w))); try congruence.
  now apply consistent_call_job_func.
Qed.

Lemma consistent_run_pending (now : datetime) (w : World) :
  consistent w -> consistent (run_pending now w).
Proof.
  intros Hc. unfold run_pending.
  set (w' := fold_left (run_job now) (sorted (filter (should_run now) (jobs w))) w).
  assert (Hw' : consistent w').
  { unfold w'. apply fold_left_invariant; [| exact Hc].
    intros a j. apply consistent_run_job. }
  now apply (consistent_ext w').
Qed.

Lemma add_returns_in_range (d delta : Z) (r : datetime) :
  Datetime.add d delta = Returns r -> in_range r = true.
Proof.
  unfold Datetime.add. destruct (in_range (d + delta)) eqn:E; [| discriminate].
  now intros [= <-].
Qed.

Lemma consistent_exec (o : op) (w : World) :
  consistent w -> op_ok w o = true -> consistent (exec o w).
Proof.
  intros Hc Hok. destruct o; cbn [exec].
  - (* add_medication_schedule *)
    unfold add_medication_schedule.
    destruct (delta <- timedelta_days duration_days;;
              Datetime.add match start_date with Some d => d | None => now end delta)
      as [end_date | e] eqn:Eend; [| exact Hc].
    cbn [snd]. apply consistent_save.
    unfold _schedule_medication_reminders.
    match goal with
    | |- context [schedule_medication_loop ?i ?t ?n ?w0] =>
        destruct (self_schedule_medication_loop i t n w0) as (Hs & _ & _)
    end.
    rewrite Hs. cbn [self set_self].
    cbn in Hok. rewrite !andb_true_iff in Hok. destruct Hok as ((_ & Hnow) & Hstart).
    apply bind_returns in Eend. destruct Eend as (delta & _ & Eend).
    apply add_returns_in_range in Eend.
    destruct Hc as [Hwf _]. apply well_formed_parts in Hwf.
    destruct Hwf as (Hum & Hom & Huf & Hof).
    apply well_formed_parts. cbn. repeat split; try assumption.
    + now apply unique_keys_set.
    + apply forallb_set; [| assumption].
      apply medication_ok_parts.
      destruct chat_id as [c |]; [destruct (String.eqb c "") |]; cbn;
        (repeat split; [assumption || (destruct start_date; assumption) ..]).
  - (* add_followup_schedule *)
    unfold add_followup_schedule. cbn [snd]. apply consistent_save.
    unfold _schedule_followup_reminders.
    match goal with
    | |- context [schedule_followup_loop ?s ?l ?n ?w0] =>
        destruct (self_schedule_followup_loop s l n w0) as (Hs & _ & _)
    end.
    rewrite Hs. cbn [self set_self].
    cbn in Hok. rewrite !andb_true_iff in Hok. destruct Hok as ((_ & Hnow) & Happ).
    destruct Hc as [Hwf _]. apply well_formed_parts in Hwf.
    destruct Hwf as (Hum & Hom & Huf & Hof).
    apply well_formed_parts. cbn. repeat split; try assumption.
    + now apply unique_keys_set.
    + apply forallb_set; [| assumption].
      apply followup_ok_parts. cbn. repeat split; assumption.
  - (* stop_medication_schedule *)
    unfold stop_medication_schedule.
    destruct (PyDict.contains schedule_id (medication_schedules (self w)));
      [| exact Hc].
    cbn [snd]. apply consistent_save. cbn.
    apply well_formed_modify_medication, Hc.
  - (* stop_followup_schedule *)
    unfold stop_followup_schedule.
    destruct (PyDict.contains schedule_id (followup_schedules (self w)));
      [| exact Hc].
    cbn [snd]. apply consistent_save. cbn.
    apply well_formed_modify_followup, Hc.
  - exact Hc.
  - unfold start_scheduler. destruct (is_running (self w)); [exact Hc |].
    destruct Hc as [Hwf Hsync]. split; [exact Hwf | exact Hsync].
  - unfold stop_scheduler. destruct Hc as [Hwf Hsync].
    split; [exact Hwf | exact Hsync].
  - unfold tick. destruct (is_running (self w)); [| exact Hc].
    now apply consistent_run_pending.
  - pose proof (init_just_loaded (disk w)) as H.
    split; cbn.
    + apply just_loaded_parts in H. tauto.
    + unfold in_sync. cbn. symmetry. now apply persisted_view_just_loaded.
Qed.

Lemma consistent_run (ops : list op) :
  forall w, consistent w -> run_ok ops w = true -> consistent (run ops w).
Proof.
  induction ops as [| o r IH]; intros w Hc Hok; cbn in *; [exact Hc |].
  apply andb_prop in Hok. destruct Hok as [Ho Hr].
  apply IH; [now apply consistent_exec | exact Hr].
Qed.

End Consistency.

(** ** How stored schedules change *)

Section Evolution.
Context {L : Library}.
Hypothesis laws : library_laws L.
Import PyDictFacts.

Lemma medication_evolves_refl (s : Med.t) : medication_evolves s s.
Proof. split; auto. Qed.

Lemma followup_evolves_refl (s : Fu.t) : followup_evolves s s.
Proof. split; auto. Qed.

Lemma medication_evolves_trans (s1 s2 s3 : Med.t) :
  medication_evolves s1 s2 -> medication_evolves s2 s3 -> medication_evolves s1 s3.
Proof. intros [E1 A1] [E2 A2]. split; [congruence | auto]. Qed.

Lemma followup_evolves_trans (s1 s2 s3 : Fu.t) :
  followup_evolves s1 s2 -> followup_evolves s2 s3 -> followup_evolves s1 s3.
Proof. intros [E1 A1] [E2 A2]. split; [congruence | auto]. Qed.

Lemma evolves_refl (w : World) : evolves w w.
Proof.
  intros schedule_id. split; intros s Hs; exists s; split; try assumption.
  - apply medication_evolves_refl.
  - apply followup_evolves_refl.
Qed.

Lemma evolves_trans (w1 w2 w3 : World) :
  evolves w1 w2 -> evolves w2 w3 -> evolves w1 w3.
Proof.
  intros H12 H23 schedule_id.
  destruct (H12 schedule_id) as [Hm Hf], (H23 schedule_id) as [Hm' Hf'].
  split; intros s Hs.
  - destruct (Hm s Hs) as (s2 & Hs2 & E2). destruct (Hm' s2 Hs2) as (s3 & Hs3 & E3).
    exists s3. split; [assumption |]. eapply medication_evolves_trans; eassumption.
  - destruct (Hf s Hs) as (s2 & Hs2 & E2). destruct (Hf' s2 Hs2) as (s3 & Hs3 & E3).
    exists s3. split; [assumption |]. eapply followup_evolves_trans; eassumption.
Qed.

Lemma evolves_ext (w1 w2 w : World) :
  medication_schedules (self w1) = medication_schedules (self w2) ->
  followup_schedules (self w1) = followup_schedules (self w2) ->
  evolves w w1 -> evolves w w2.
Proof. unfold evolves. intros <- <-. auto. Qed.

Lemma get_map_values {V : Type} (f : V -> V) (k : string) (d : dict V) :
  PyDict.get k (map (fun kv => (fst kv, f (snd kv))) d)
  = option_map f (PyDict.get k d).
Proof.
  induction d as [| [k' v] r IH]; cbn; [reflexivity |].
  destruct (String.eqb k' k); [reflexivity | exact IH].
Qed.

Lemma evolves_modify_medication (k : string) (w : World) :
  evolves w
    (set_self (set_medications
                 (PyDict.modify k (Med.set_is_active false)
                    (medication_schedules (self w))) (self w)) w).
Proof.
  intros schedule_id. cbn.
  split; [| intros s Hs; exists s; split; [assumption | apply followup_evolves_refl]].
  intros s Hs.
  destruct (String.eqb_spec schedule_id k) as [-> | Hne].
  - rewrite get_modify_same, Hs. cbn. eexists. split; [reflexivity |].
    split; reflexivity.
  - rewrite get_modify_other by assumption.
    exists s. split; [assumption | apply medication_evolves_refl].
Qed.

Lemma evolves_modify_followup (k : string) (w : World) :
  evolves w
    (set_self (set_followups
                 (PyDict.modify k (Fu.set_is_active false)
                    (followup_schedules (self w))) (self w)) w).
Proof.
  intros schedule_id. cbn.
  split; [intros s Hs; exists s; split; [assumption | apply medication_evolves_refl] |].
  intros s Hs.
  destruct (String.eqb_spec schedule_id k) as [-> | Hne].
  - rewrite get_modify_same, Hs. cbn. eexists. split; [reflexivity |].
    split; reflexivity.
  - rewrite get_modify_other by assumption.
    exists s. split; [assumption | apply followup_evolves_refl].
Qed.

Lemma evolves_call_job_func (f : job_func) (now : datetime) (w : World) :
  evolves w (fst (call_job_func f now w)).
Proof.
  destruct f as [schedule_id | schedule_id days_before]; cbn.
  - unfold _send_medication_reminder.
    destruct (PyDict.get schedule_id (medication_schedules (self w))) as [s |];
      [| apply evolves_refl].
    destruct (negb (Med.is_active s)); [apply evolves_refl |].
    destruct (Med.end_date s <? now); [| apply evolves_refl].
    cbn [fst].
    eapply evolves_ext; [| | apply (evolves_modify_medication schedule_id)];
      reflexivity.
  - rewrite send_followup_world. apply evolves_refl.
Qed.

Lemma evolves_run_job (now : datetime) (w : World) (j : Job) :
  evolves w (run_job now w j).
Proof.
  destruct (run_job_self now w j) as (Hs & _ & _).
  eapply evolves_ext; [| | apply (evolves_call_job_func (job_do j) now w)];
    now rewrite Hs.
Qed.

Lemma evolves_fold_run_job (now : datetime) (l : list Job) :
  forall w, evolves w (fold_left (run_job now) l w).
Proof.
  induction l as [| j r IH]; intros w; cbn; [apply evolves_refl |].
  eapply evolves_trans; [apply evolves_run_job | apply IH].
Qed.

Lemma evolves_run_pending (now : datetime) (w : World) :
  evolves w (run_pending now w).
Proof.
  unfold run_pending.
  eapply evolves_ext;
    [| | apply (evolves_fold_run_job now
                  (sorted (filter (should_run now) (jobs w))) w)];
    reflexivity.
Qed.

Lemma evolves_set_fresh_medication (k : string) (v : Med.t) (w w' : World) :
  PyDict.contains k (medication_schedules (self w)) = false ->
  medication_schedules (self w') = PyDict.set k v (medication_schedules (self w)) ->
  followup_schedules (self w') = followup_schedules (self w) ->
  evolves w w'.
Proof.
  intros Hfresh Hm Hf schedule_id. rewrite Hm, Hf.
  apply contains_false_get in Hfresh.
  split; intros s Hs.
  - destruct (String.eqb_spec schedule_id k) as [-> | Hne]; [congruence |].
    rewrite get_set_other by assumption.
    exists s. split; [assumption | apply medication_evolves_refl].
  - exists s. split; [assumption | apply followup_evolves_refl].
Qed.

Lemma evolves_set_fresh_followup (k : string) (v : Fu.t) (w w' : World) :
  PyDict.contains k (followup_schedules (self w)) = false ->
  medication_schedules (self w') = medication_schedules (self w) ->
  followup_schedules (self w') = PyDict.set k v (followup_schedules (self w)) ->
  evolves w w'.
Proof.
  intros Hfresh Hm Hf schedule_id. rewrite Hm, Hf.
  apply contains_false_get in Hfresh.
  split; intros s Hs.
  - exists s. split; [assumption | apply medication_evolves_refl].
  - destruct (String.eqb_spec schedule_id k) as [-> | Hne]; [congruence |].
    rewrite get_set_other by assumption.
    exists s. split; [assumption | apply followup_evolves_refl].
Qed.

(** The operations of a running process need nothing of the file. *)
Lemma evolves_exec_here (o : op) (w : World) :
  same_process o = true -> op_ok w o = true -> evolves w (exec o w).
Proof.
  intros Hsame Hok. destruct o; try discriminate Hsame; cbn [exec].
  - unfold add_medication_schedule.
    destruct (delta <- timedelta_days duration_days;;
              Datetime.add match start_date with Some d => d | None => now end delta)
      as [end_date | e]; [| apply evolves_refl].
    cbn [snd]. unfold _schedule_medication_reminders, _save_schedules.
    match goal with
    | |- context [schedule_medication_loop ?i ?t ?n ?w0] =>
        destruct (self_schedule_medication_loop i t n w0) as (Hs & _ & _)
    end.
    cbn in Hok. rewrite !andb_true_iff, negb_true_iff in Hok.
    destruct Hok as ((Hfresh & _) & _).
    eapply evolves_set_fresh_medication; [exact Hfresh | |];
      cbn [self]; rewrite Hs; reflexivity.
  - unfold add_followup_schedule. cbn [snd].
    unfold _schedule_followup_reminders, _save_schedules.
    match goal with
    | |- context [schedule_followup_loop ?s ?l ?n ?w0] =>
        destruct (self_schedule_followup_loop s l n w0) as (Hs & _ & _)
    end.
    cbn in Hok. rewrite !andb_true_iff, negb_true_iff in Hok.
    destruct Hok as ((Hfresh & _) & _).
    eapply evolves_set_fresh_followup; [exact Hfresh | |];
      cbn [self]; rewrite Hs; reflexivity.
  - unfold stop_medication_schedule.
    destruct (PyDict.contains schedule_id (medication_schedules (self w)));
      [| apply evolves_refl].
    cbn [snd].
    eapply evolves_ext; [| | apply (evolves_modify_medication schedule_id)];
      reflexivity.
  - unfold stop_followup_schedule.
    destruct (PyDict.contains schedule_id (followup_schedules (self w)));
      [| apply evolves_refl].
    cbn [snd].
    eapply evolves_ext; [| | apply (evolves_modify_followup schedule_id)];
      reflexivity.
  - apply evolves_refl.
  - unfold start_scheduler. destruct (is_running (self w)); [apply evolves_refl |].
    eapply evolves_ext; [| | apply (evolves_refl w)]; reflexivity.
  - eapply evolves_ext; [| | apply (evolves_refl w)]; reflexivity.
  - unfold tick. destruct (is_running (self w)); [| apply evolves_refl].
    apply evolves_run_pending.
Qed.

Lemma evolves_exec (o : op) (w : World) :
  consistent w -> op_ok w o = true -> evolves w (exec o w).
Proof.
  intros Hc Hok. destruct (same_process o) eqn:Hsame;
    [now apply evolves_exec_here |].
  destruct o; try discriminate Hsame. cbn [exec].
  destruct Hc as [_ Hsync]. unfold in_sync in Hsync.
  intros schedule_id. cbn [self]. rewrite Hsync. cbn.
  split; intros s Hs.
  - rewrite get_map_values, Hs. cbn. eexists. split; [reflexivity |].
    split; [reflexivity | auto].
  - exists s. split; [assumption | apply followup_evolves_refl].
Qed.

Lemma evolves_run (ops : list op) :
  forall w, consistent w -> run_ok ops w = true -> evolves w (run ops w).
Proof.
  induction ops as [| o r IH]; intros w Hc Hok; [apply evolves_refl |].
  cbn [run_ok] in Hok. apply andb_prop in Hok. destruct Hok as [Ho Hr].
  apply (evolves_trans w (exec o w)); [apply evolves_exec; assumption |].
  apply IH; [now apply (consistent_exec laws) | exact Hr].
Qed.

(** With one scheduler object in a process at a time, a schedule that is
    inactive stays stored and inactive: in every world a process reaches
    from its start, and along every sequence of adds (with new ids),
    stops, listings, starts and stops of the loop, ticks of the loop and
    restarts of the process from there. *)
Lemma inactive_is_absorbing_alone (d : storage) (before ops : list op)
    (schedule_id : string) :
  run_ok before (boot d) = true ->
  let w := run before (boot d) in
  run_ok ops w = true ->
  (medication_active schedule_id w = Some false ->
   medication_active schedule_id (run ops w) = Some false)
  /\ (followup_active schedule_id w = Some false ->
      followup_active schedule_id (run ops w) = Some false).
Proof.
  intros Hbefore w Hok.
  assert (Hc : consistent w)
    by (apply (consistent_run laws); [apply (consistent_boot laws) | exact Hbefore]).
  destruct (evolves_run ops w Hc Hok schedule_id) as [Hm Hf].
  unfold medication_active, followup_active. split; intros H.
  - destruct (PyDict.get schedule_id (medication_schedules (self w))) as [s |];
      [| discriminate].
    destruct (Hm s eq_refl) as (s' & -> & _ & Hin). cbn in *.
    f_equal. apply Hin. congruence.
  - destruct (PyDict.get schedule_id (followup_schedules (self w))) as [s |];
      [| discriminate].
    destruct (Hf s eq_refl) as (s' & -> & _ & Hin). cbn in *.
    f_equal. apply Hin. congruence.
Qed.

End Evolution.

(** ** Deliveries *)

Section Deliveries.
Context {L : Library}.
Hypothesis laws : library_laws L.
Import PyDictFacts.

Lemma call_job_func_delivered (f : job_func) (now : datetime) (w : World) :
  delivered (fst (call_job_func f now w)) = delivered w
  /\ jobs (fst (call_job_func f now w)) = jobs w.
Proof.
  destruct f as [schedule_id | schedule_id days_before]; cbn.
  - unfold _send_medication_reminder.
    destruct (PyDict.get schedule_id (medication_schedules (self w))) as [s |];
      [| auto].
    destruct (negb (Med.is_active s)); [auto |].
    destruct (Med.end_date s <? now); auto.
  - rewrite send_followup_world. auto.
Qed.

(** A job function calls the client at most once, and only when [fires]
    holds. *)
Lemma call_job_func_fires (f : job_func) (now : datetime) (w : World) :
  snd (call_job_func f now w) = []
  \/ (exists c, snd (call_job_func f now w) = [c]
                /\ fst (call_job_func f now w) = w /\ fires f now w).
Proof.
  destruct f as [schedule_id | schedule_id days_before]; cbn.
  - unfold _send_medication_reminder.
    destruct (PyDict.get schedule_id (medication_schedules (self w))) as [s |] eqn:Es;
      [| now left].
    destruct (Med.is_active s) eqn:Ea; cbn; [| now left].
    destruct (Z.ltb_spec (Med.end_date s) now); [now left |].
    right. eexists. split; [reflexivity |]. split; [reflexivity |].
    exists s. auto.
  - unfold _send_followup_reminder.
    destruct (PyDict.get schedule_id (followup_schedules (self w))) as [s |] eqn:Es;
      [| now left].
    destruct (Fu.is_active s) eqn:Ea; cbn; [| now left].
    destruct (reminder_date_of (Fu.appointment_date s) days_before)
      as [reminder_date | e] eqn:Er; [| now left].
    destruct (Z.eqb_spec (date reminder_date) (date now)); cbn; [| now left].
    right. eexists. split; [reflexivity |]. split; [reflexivity |].
    exists s, reminder_date. auto.
Qed.

Lemma run_job_delivered (now : datetime) (w : World) (j : Job) :
  exists new,
    delivered (run_job now w j) = delivered w ++ new
    /\ Forall (fun e => by_job e = j /\ sent_at e = now /\ fires (job_do j) now w) new.
Proof.
  unfold run_job.
  destruct (call_job_func_delivered (job_do j) now w) as [Hd _].
  destruct (call_job_func_fires (job_do j) now w) as [Hn | (c & Hc & Hw & Hf)];
    destruct (call_job_func (job_do j) now w) as [w' calls]; cbn in *; subst.
  - exists []. cbn. split; [now rewrite Hd | constructor].
  - eexists. split; [reflexivity |]. repeat constructor. exact Hf.
Qed.

Lemma fired_between_widen (w0 w1 w2 w3 : World) (e : delivery) :
  evolves w0 w1 -> evolves w2 w3 -> fired_between w1 w2 e -> fired_between w0 w3 e.
Proof.
  intros H01 H23 (wm & H1m & Hm2 & Hf).
  exists wm. split; [| split].
  - eapply evolves_trans; eassumption.
  - eapply evolves_trans; eassumption.
  - exact Hf.
Qed.

Lemma fold_run_job_delivered (now : datetime) (l : list Job) :
  forall w,
  exists new,
    delivered (fold_left (run_job now) l w) = delivered w ++ new
    /\ Forall (fun e => In (by_job e) l /\ sent_at e = now
                        /\ fired_between w (fold_left (run_job now) l w) e) new.
Proof.
  induction l as [| j r IH]; intros w; cbn.
  - exists []. split; [now rewrite app_nil_r | constructor].
  - destruct (run_job_delivered now w j) as (new1 & Hd1 & Hn1).
    destruct (IH (run_job now w j)) as (new2 & Hd2 & Hn2).
    exists (new1 ++ new2). split.
    + rewrite Hd2, Hd1. now rewrite app_assoc.
    + apply Forall_app. split.
      * eapply Forall_impl; [| exact Hn1]. intros e (Hj & Hs & Hf).
        split; [now left |]. split; [assumption |].
        exists w. split; [| split].
        -- apply evolves_refl.
        -- eapply evolves_trans;
             [apply evolves_run_job | apply evolves_fold_run_job].
        -- rewrite Hj, Hs. exact Hf.
      * eapply Forall_impl; [| exact Hn2]. intros e (Hj & Hs & Hf).
        split; [now right |]. split; [assumption |].
        eapply fired_between_widen; [apply evolves_run_job | apply evolves_refl |].
        exact Hf.
Qed.

Lemma fired_between_ext (w w1 w2 : World) (e : delivery) :
  medication_schedules (self w1) = medication_schedules (self w2) ->
  followup_schedules (self w1) = followup_schedules (self w2) ->
  fired_between w w1 e -> fired_between w w2 e.
Proof.
  intros Hm Hf (wm & H1 & H2 & H3). exists wm. split; [| split].
  - exact H1.
  - eapply evolves_ext; eassumption.
  - exact H3.
Qed.

Lemma exec_delivered (o : op) (w : World) :
  exists new,
    delivered (exec o w) = delivered w ++ new
    /\ Forall (fired_between w (exec o w)) new.
Proof.
  assert (Hsame : delivered (exec o w) = delivered w ->
                  exists new, delivered (exec o w) = delivered w ++ new
                              /\ Forall (fired_between w (exec o w)) new).
  { intros H. exists []. split; [now rewrite app_nil_r | constructor]. }
  destruct o; cbn [exec]; cbn [exec] in Hsame.
  - apply Hsame. unfold add_medication_schedule.
    destruct (delta <- timedelta_days duration_days;;
              Datetime.add match start_date with Some d => d | None => now end delta);
      [| reflexivity].
    cbn [snd]. unfold _schedule_medication_reminders, _save_schedules.
    match goal with
    | |- context [schedule_medication_loop ?i ?t ?n ?w0] =>
        destruct (self_schedule_medication_loop i t n w0) as (_ & _ & Hd)
    end.
    cbn [delivered]. now rewrite Hd.
  - apply Hsame. unfold add_followup_schedule. cbn [snd].
    unfold _schedule_followup_reminders, _save_schedules.
    match goal with
    | |- context [schedule_followup_loop ?s ?l ?n ?w0] =>
        destruct (self_schedule_followup_loop s l n w0) as (_ & _ & Hd)
    end.
    cbn [delivered]. now rewrite Hd.
  - apply Hsame. unfold stop_medication_schedule.
    destruct (PyDict.contains schedule_id (medication_schedules (self w)));
      reflexivity.
  - apply Hsame. unfold stop_followup_schedule.
    destruct (PyDict.contains schedule_id (followup_schedules (self w)));
      reflexivity.
  - now apply Hsame.
  - apply Hsame. unfold start_scheduler. now destruct (is_running (self w)).
  - now apply Hsame.
  - unfold tick in *. destruct (is_running (self w)); [| now apply Hsame].
    clear Hsame. unfold run_pending. cbn [delivered].
    destruct (fold_run_job_delivered now
                (sorted (filter (should_run now) (jobs w))) w) as (new & Hd & Hn).
    exists new. split; [exact Hd |].
    eapply Forall_impl; [| exact Hn]. intros e (_ & _ & Hf).
    eapply fired_between_ext; [| | exact Hf]; reflexivity.
  - now apply Hsame.
Qed.

Lemma run_delivered (ops : list op) :
  forall w,
    consistent w -> run_ok ops w = true ->
    exists new,
      delivered (run ops w) = delivered w ++ new
      /\ Forall (fired_between w (run ops w)) new.
Proof.
  induction ops as [| o r IH]; intros w Hc Hok.
  - exists []. split; [now rewrite app_nil_r | constructor].
  - cbn [run_ok] in Hok. apply andb_prop in Hok. destruct Hok as [Ho Hr].
    destruct (exec_delivered o w) as (new1 & Hd1 & Hn1).
    pose proof (consistent_exec laws o w Hc Ho) as Hc'.
    destruct (IH (exec o w) Hc' Hr) as (new2 & Hd2 & Hn2).
    exists (new1 ++ new2). split.
    + change (run (o :: r) w) with (run r (exec o w)).
      rewrite Hd2, Hd1. now rewrite app_assoc.
    + change (run (o :: r) w) with (run r (exec o w)).
      apply Forall_app. split.
      * eapply Forall_impl; [| exact Hn1]. intros e He.
        eapply fired_between_widen;
          [apply evolves_refl | apply (evolves_run laws r _ Hc' Hr) | exact He].
      * eapply Forall_impl; [| exact Hn2]. intros e He.
        eapply fired_between_widen;
          [apply (evolves_exec o w Hc Ho) | apply evolves_refl | exact He].
Qed.

(** A delivery of a medication reminder was made no later than the end date
    the schedule still has. *)
Lemma fired_between_end_date (w w' : World) (e : delivery) (schedule_id : string) :
  fired_between w w' e ->
  job_do (by_job e) = send_medication schedule_id ->
  exists s,
    PyDict.get schedule_id (medication_schedules (self w')) = Some s
    /\ sent_at e <= Med.end_date s.
Proof.
  intros (wm & _ & Hm' & Hf) Hj. rewrite Hj in Hf.
  destruct Hf as (s & Hs & _ & Hle).
  destruct (Hm' schedule_id) as [Hm _].
  destruct (Hm s Hs) as (s' & Hs' & [Heq _]).
  exists s'. split; [exact Hs' |].
  replace (Med.end_date s') with (Med.end_date s); [exact Hle |].
  change (Med.end_date s)
    with (Med.end_date (Med.set_chat_id None (Med.set_is_active true s))).
  rewrite <- Heq. reflexivity.
Qed.

(** An inactive medication schedule makes no delivery. *)
Lemma fired_between_active (w w' : World) (e : delivery) (schedule_id : string) :
  fired_between w w' e ->
  medication_active schedule_id w = Some false ->
  job_do (by_job e) <> send_medication schedule_id.
Proof.
  intros (wm & Hwm & _ & Hf) Hin Hj. rewrite Hj in Hf.
  destruct Hf as (s & Hs & Ha & _).
  unfold medication_active in Hin.
  destruct (PyDict.get schedule_id (medication_schedules (self w))) as [s0 |] eqn:E0;
    [| discriminate].
  destruct (Hwm schedule_id) as [Hm _].
  destruct (Hm s0 E0) as (s' & Hs' & _ & Hstay).
  cbn in Hin. assert (Med.is_active s' = false) by (apply Hstay; congruence).
  congruence.
Qed.

(** C1.  In every world a process reaches from its start,
    - every medication reminder that was delivered was delivered at a time
      not after the end date of its schedule;
    - a dispatch for a schedule whose end date has passed makes no call to
      the Telegram client and leaves the schedule inactive, and when the
      schedule was active until then it rewrites the file from the
      scheduler;
    - from then on no operation makes a job of that schedule deliver. *)
Theorem expired_medication_never_delivered
    (d : storage) (before : list op) (schedule_id : string) :
  run_ok before (boot d) = true ->
  let w := run before (boot d) in
  (forall e, In e (delivered w) ->
             job_do (by_job e) = send_medication schedule_id ->
             exists s,
               PyDict.get schedule_id (medication_schedules (self w)) = Some s
               /\ sent_at e <= Med.end_date s)
  /\ (forall s now,
         PyDict.get schedule_id (medication_schedules (self w)) = Some s ->
         Med.end_date s < now ->
         let r := _send_medication_reminder schedule_id now w in
         snd r = []
         /\ medication_active schedule_id (fst r) = Some false
         /\ (Med.is_active s = true -> disk (fst r) = Content (snapshot (self (fst r))))
         /\ (forall after,
                run_ok after (fst r) = true ->
                exists later,
                  delivered (run after (fst r)) = delivered (fst r) ++ later
                  /\ forall e, In e later ->
                               job_do (by_job e) <> send_medication schedule_id)).
Proof.
  intros Hok w.
  pose proof (consistent_boot laws d) as Hboot.
  pose proof (consistent_run laws before (boot d) Hboot Hok) as Hc.
  fold w in Hc. split.
  - intros e He Hj.
    destruct (run_delivered before (boot d) Hboot Hok) as (new & Hd & Hn).
    fold w in Hd, Hn. cbn in Hd. rewrite Hd in He.
    rewrite Forall_forall in Hn.
    exact (fired_between_end_date _ _ _ _ (Hn e He) Hj).
  - intros s now Hs Hlt r.
    assert (Hr : snd r = [] /\ medication_active schedule_id (fst r) = Some false
                 /\ (Med.is_active s = true ->
                     disk (fst r) = Content (snapshot (self (fst r))))).
    { unfold r, _send_medication_reminder, medication_active. rewrite Hs.
      destruct (Med.is_active s) eqn:Ea; cbn [negb].
      - apply Z.ltb_lt in Hlt. rewrite Hlt. cbn.
        rewrite get_modify_same, Hs. auto.
      - cbn. rewrite Hs. cbn. rewrite Ea. repeat split. discriminate. }
    destruct Hr as (Hr1 & Hr2 & Hr3). repeat split; try assumption.
    intros after Hafter.
    assert (Hc' : consistent (fst r))
      by (apply (consistent_send_medication laws), Hc).
    destruct (run_delivered after (fst r) Hc' Hafter) as (later & Hd & Hn).
    exists later. split; [exact Hd |].
    intros e He. rewrite Forall_forall in Hn.
    exact (fired_between_active _ _ _ _ (Hn e He) Hr2).
Qed.

End Deliveries.

(** ** The daily jobs *)

Section NextRun.

Lemma date_monotone (a b : datetime) : a <= b -> date a <= date b.
Proof.
  intros H. unfold date. apply Z.div_le_mono; [| exact H].
  unfold usec_per_day, usec_per_second. lia.
Qed.

Lemma next_occurrence_time (a : Z) (now : datetime) :
  0 <= a < usec_per_day -> Datetime.time (next_occurrence a now) = a.
Proof.
  unfold next_occurrence, Datetime.time, date, usec_per_day, usec_per_second.
  intros Ha. cbv zeta.
  destruct (now <? now / (86400 * 1000000) * (86400 * 1000000) + a);
    Z.div_mod_to_equations; lia.
Qed.

Lemma next_occurrence_after (a : Z) (now : datetime) :
  0 <= a < usec_per_day -> now < next_occurrence a now.
Proof.
  unfold next_occurrence, date, usec_per_day, usec_per_second.
  intros Ha. cbv zeta.
  destruct (Z.ltb_spec now (now / (86400 * 1000000) * (86400 * 1000000) + a));
    [assumption |].
  Z.div_mod_to_equations. lia.
Qed.

(** Once the time of day has come, the next occurrence is tomorrow's. *)
Lemma next_occurrence_tomorrow (a : Z) (now : datetime) :
  0 <= a < usec_per_day -> a <= Datetime.time now ->
  date (next_occurrence a now) = date now + 1.
Proof.
  unfold next_occurrence, Datetime.time, date, usec_per_day, usec_per_second.
  intros Ha Hnow. cbv zeta.
  destruct (Z.ltb_spec now (now / (86400 * 1000000) * (86400 * 1000000) + a));
    Z.div_mod_to_equations; lia.
Qed.

Lemma job_ok_parts (j : Job) :
  job_ok j = true <->
  0 <= job_at j < usec_per_day /\ Datetime.time (next_run j) = job_at j.
Proof.
  unfold job_ok. rewrite !andb_true_iff, Z.leb_le, Z.ltb_lt, Z.eqb_eq. tauto.
Qed.

(** A job that is run on the day it fell due is run at or after its time of
    day. *)
Lemma due_today_time (j : Job) (now : datetime) :
  job_ok j = true -> next_run j <= now -> date (next_run j) = date now ->
  job_at j <= Datetime.time now.
Proof.
  intros Hj Hdue Hday. apply job_ok_parts in Hj. destruct Hj as [_ <-].
  revert Hdue Hday.
  unfold Datetime.time, date, usec_per_day, usec_per_second.
  Z.div_mod_to_equations. lia.
Qed.

End NextRun.

(** ** Counting *)

Section Counting.

Lemma filter_length_map {A B : Type} (p : B -> bool) (g : A -> B) (l : list A) :
  List.length (filter p (map g l)) = List.length (filter (fun x => p (g x)) l).
Proof.
  induction l as [| x r IH]; cbn; [reflexivity |].
  destruct (p (g x)); cbn; now rewrite IH.
Qed.

Lemma filter_length_app {A : Type} (p : A -> bool) (l1 l2 : list A) :
  List.length (filter p (l1 ++ l2))
  = (List.length (filter p l1) + List.length (filter p l2))%nat.
Proof. now rewrite filter_app, length_app. Qed.

Lemma filter_length_ext {A : Type} (p q : A -> bool) (l : list A) :
  (forall x, In x l -> p x = q x) ->
  List.length (filter p l) = List.length (filter q l).
Proof.
  induction l as [| x r IH]; intros H; cbn; [reflexivity |].
  rewrite (H x (or_introl eq_refl)).
  destruct (q x); cbn; rewrite IH; auto; intros y Hy; apply H; now right.
Qed.

Lemma filter_length_le {A : Type} (p q : A -> bool) (l : list A) :
  (forall x, In x l -> p x = true -> q x = true) ->
  (List.length (filter p l) <= List.length (filter q l))%nat.
Proof.
  induction l as [| x r IH]; intros H; cbn; [lia |].
  assert (Hr : (List.length (filter p r) <= List.length (filter q r))%nat)
    by (apply IH; intros y Hy; apply H; now right).
  destruct (p x) eqn:Ep.
  - rewrite (H x (or_introl eq_refl) Ep). cbn. lia.
  - destruct (q x); cbn; lia.
Qed.

(** If each element counts in [q] whenever it counts in [p] or in [r], and
    never in both, the counts add up. *)
Lemma filter_length_split {A : Type} (p q r : A -> bool) (l : list A) :
  (forall x, In x l ->
             (Nat.b2n (p x) + Nat.b2n (r x) <= Nat.b2n (q x))%nat) ->
  (List.length (filter p l) + List.length (filter r l)
   <= List.length (filter q l))%nat.
Proof.
  induction l as [| x l' IH]; intros H; cbn; [lia |].
  assert (Hl : (List.length (filter p l') + List.length (filter r l')
                <= List.length (filter q l'))%nat)
    by (apply IH; intros y Hy; apply H; now right).
  pose proof (H x (or_introl eq_refl)) as Hx.
  destruct (p x), (r x), (q x); cbn in *; lia.
Qed.

Lemma filter_length_insert_job (p : Job -> bool) (j : Job) (l : list Job) :
  List.length (filter p (insert_job j l)) = List.length (filter p (j :: l)).
Proof.
  induction l as [| k r IH]; [reflexivity |].
  cbn [insert_job]. destruct (next_run k <? next_run j); [| reflexivity].
  cbn [filter] in *. destruct (p k), (p j); cbn [List.length] in *; lia.
Qed.

Lemma filter_length_sorted (p : Job -> bool) (l : list Job) :
  List.length (filter p (sorted l)) = List.length (filter p l).
Proof.
  induction l as [| j r IH]; [reflexivity |].
  cbn [sorted fold_right]. fold (sorted r).
  rewrite filter_length_insert_job. cbn [filter].
  destruct (p j); cbn [List.length]; now rewrite IH.
Qed.

End Counting.

(** ** Deliveries and jobs are accounted for *)

Section Accounting.
Context {L : Library}.
Hypothesis laws : library_laws L.
Import PyDictFacts.

Lemma job_func_eqb_eq (f g : job_func) : job_func_eqb f g = true <-> f = g.
Proof.
  destruct f as [a | a n], g as [b | b m]; cbn.
  - rewrite String.eqb_eq. split; congruence.
  - split; discriminate.
  - split; discriminate.
  - rewrite andb_true_iff, String.eqb_eq, Z.eqb_eq. split; [intros [-> ->] | intros [= -> ->]]; auto.
Qed.

Lemma job_func_eqb_refl (f : job_func) : job_func_eqb f f = true.
Proof. now apply job_func_eqb_eq. Qed.

Lemma filter_length_filter {A : Type} (p q : A -> bool) (l : list A) :
  List.length (filter p (filter q l))
  = List.length (filter (fun x => q x && p x) l).
Proof.
  induction l as [| x r IH]; cbn; [reflexivity |].
  destruct (q x); cbn; [destruct (p x); cbn |]; now rewrite IH.
Qed.

(** One run of a job adds at most one delivery, by that job, at the clock. *)
Lemma run_job_new (now : datetime) (w : World) (j : Job) :
  jobs (run_job now w j) = jobs w
  /\ (delivered (run_job now w j) = delivered w
      \/ exists c,
           delivered (run_job now w j)
           = delivered w ++ [{| by_job := j; sent_at := now; call := c |}]).
Proof.
  unfold run_job.
  destruct (call_job_func_delivered (job_do j) now w) as [Hd Hj].
  destruct (call_job_func_fires (job_do j) now w) as [Hn | (c & Hc & _ & _)];
    destruct (call_job_func (job_do j) now w) as [w' calls]; cbn in *; subst.
  - split; [assumption |]. left. now rewrite app_nil_r.
  - split; [assumption |]. right. exists c. now rewrite Hd.
Qed.

Lemma fold_run_job_count (now : datetime) (f : job_func) (t : option Z)
    (day : Z) (l : list Job) :
  forall w,
    jobs (fold_left (run_job now) l w) = jobs w
    /\ exists new,
         delivered (fold_left (run_job now) l w) = delivered w ++ new
         /\ (List.length
               (filter (fun e => has_label f t (by_job e) && (date (sent_at e) =? day)%Z)
                  new)
             <= List.length
                  (filter (fun j => (day =? date now)%Z && has_label f t j) l))%nat.
Proof.
  induction l as [| j r IH]; intros w; cbn [fold_left].
  - split; [reflexivity |]. exists []. split; [now rewrite app_nil_r | cbn; lia].
  - destruct (run_job_new now w j) as [Hj Hd].
    destruct (IH (run_job now w j)) as (Hj' & new & Hnew & Hcount).
    split; [congruence |].
    destruct Hd as [Hd | (c & Hd)].
    + exists new. split; [congruence |].
      cbn [filter]. destruct ((day =? date now) && has_label f t j); cbn; lia.
    + exists ({| by_job := j; sent_at := now; call := c |} :: new). split.
      * rewrite Hnew, Hd, <- app_assoc. reflexivity.
      * cbn [filter by_job sent_at].
        rewrite (Z.eqb_sym (date now) day), (andb_comm (has_label f t j)).
        destruct ((day =? date now) && has_label f t j); cbn; lia.
Qed.

Lemma medication_evolves_times (s s' : Med.t) :
  medication_evolves s s' -> Med.times s' = Med.times s.
Proof.
  intros [H _].
  change (Med.times s')
    with (Med.times (Med.set_chat_id None (Med.set_is_active true s'))).
  now rewrite H.
Qed.

Lemma followup_evolves_fields (s s' : Fu.t) :
  followup_evolves s s' ->
  Fu.reminder_days_before s' = Fu.reminder_days_before s
  /\ Fu.appointment_date s' = Fu.appointment_date s.
Proof.
  intros [H _].
  change (Fu.reminder_days_before s')
    with (Fu.reminder_days_before (Fu.set_is_active true s')).
  change (Fu.appointment_date s')
    with (Fu.appointment_date (Fu.set_is_active true s')).
  now rewrite H.
Qed.

Lemma capacity_evolves (f : job_func) (t : option Z) (w w' : World) :
  evolves w w' -> (capacity f t (self w) <= capacity f t (self w'))%nat.
Proof.
  intros He. destruct f as [schedule_id | schedule_id days_before]; cbn.
  - destruct (He schedule_id) as [Hm _].
    destruct (PyDict.get schedule_id (medication_schedules (self w))) as [s |];
      [| lia].
    destruct (Hm s eq_refl) as (s' & -> & Hev).
    rewrite (medication_evolves_times _ _ Hev). lia.
  - destruct (He schedule_id) as [_ Hf].
    destruct (PyDict.get schedule_id (followup_schedules (self w))) as [s |];
      [| lia].
    destruct (Hf s eq_refl) as (s' & -> & Hev).
    destruct (followup_evolves_fields _ _ Hev) as [-> _]. lia.
Qed.

(** The world may evolve, and jobs may go, without breaking the account. *)
Lemma accounted_frame (w w' : World) :
  evolves w w' -> delivered w' = delivered w ->
  forallb job_ok (jobs w') = true ->
  (forall f t day, (pending_on f t day w' <= pending_on f t day w)%nat) ->
  accounted w -> accounted w'.
Proof.
  intros He Hd Hj Hp [_ Hacc]. split; [exact Hj |].
  intros f t day. specialize (Hacc f t day). specialize (Hp f t day).
  pose proof (capacity_evolves f t w w' He).
  unfold deliveries_on in *. rewrite Hd. lia.
Qed.

Lemma accounted_same_jobs (w w' : World) :
  evolves w w' -> delivered w' = delivered w -> jobs w' = jobs w ->
  accounted w -> accounted w'.
Proof.
  intros He Hd Hj Hacc. apply (accounted_frame w w'); try assumption.
  - rewrite Hj. apply Hacc.
  - intros f t day. unfold pending_on. rewrite Hj. lia.
Qed.

Lemma job_ok_reschedule (now : datetime) (j : Job) :
  job_ok j = true -> job_ok (reschedule now j) = true.
Proof.
  intros Hj. unfold reschedule. destruct (should_run now j); [| exact Hj].
  apply job_ok_parts in Hj. destruct Hj as [Ha _].
  apply job_ok_parts. cbn. split; [exact Ha | now apply next_occurrence_time].
Qed.

Lemma has_label_reschedule (f : job_func) (t : option Z) (now : datetime) (j : Job) :
  has_label f t (reschedule now j) = has_label f t j.
Proof. unfold reschedule. now destruct (should_run now j). Qed.

(** What one timely tick does to one job: either it stays as it was, or it
    was due today and is due tomorrow now. *)
Lemma reschedule_pointwise (f : job_func) (t : option Z) (day : Z)
    (now : datetime) (j : Job) :
  job_ok j = true ->
  negb (should_run now j) || (date (next_run j) =? date now) = true ->
  (Nat.b2n (has_label f t (reschedule now j)
            && (date (next_run (reschedule now j)) <=? day)%Z)
   + Nat.b2n ((should_run now j) && ((day =? date now)%Z && has_label f t j))
   <= Nat.b2n (has_label f t j && (date (next_run j) <=? day)%Z))%nat.
Proof.
  intros Hj Htimely. rewrite has_label_reschedule.
  unfold reschedule. destruct (should_run now j) eqn:Hdue; cbn [negb orb andb] in *.
  - apply Z.eqb_eq in Htimely. unfold should_run in Hdue. apply Z.leb_le in Hdue.
    pose proof (due_today_time j now Hj Hdue Htimely) as Htime.
    apply job_ok_parts in Hj. destruct Hj as [Ha _].
    pose proof (next_occurrence_tomorrow (job_at j) now Ha Htime) as Hnext.
    cbn [next_run]. rewrite Hnext, Htimely.
    destruct (has_label f t j), (Z.eqb_spec day (date now)),
      (Z.leb_spec (date now + 1) day), (Z.leb_spec (date now) day);
      cbn; lia.
  - rewrite Nat.add_0_r. lia.
Qed.

Lemma accounted_run_pending (now : datetime) (w : World) :
  timely now w = true -> accounted w -> accounted (run_pending now w).
Proof.
  intros Htimely [Hjobs Hacc]. unfold timely in Htimely.
  unfold run_pending.
  set (due := sorted (filter (should_run now) (jobs w))).
  set (w' := fold_left (run_job now) due w).
  assert (Hj' : jobs w' = jobs w)
    by (apply (fold_run_job_count now (send_medication "") None 0 due w)).
  split.
  - cbn [jobs]. rewrite Hj'. rewrite forallb_forall in *.
    intros j Hin. apply in_map_iff in Hin. destruct Hin as (j0 & <- & Hin).
    apply job_ok_reschedule. auto.
  - intros f t day. unfold deliveries_on, pending_on.
    cbn [delivered jobs self]. rewrite Hj'.
    destruct (fold_run_job_count now f t day due w) as (_ & new & Hnew & Hcount).
    fold w' in Hnew. rewrite Hnew, filter_length_app, filter_length_map.
    unfold due in Hcount. rewrite filter_length_sorted, filter_length_filter in Hcount.
    pose proof (filter_length_split
                  (fun j => has_label f t (reschedule now j)
                            && (date (next_run (reschedule now j)) <=? day))
                  (fun j => has_label f t j && (date (next_run j) <=? day))
                  (fun j => should_run now j && ((day =? date now) && has_label f t j))
                  (jobs w)) as Hsplit.
    assert (Hpt : forall x, In x (jobs w) ->
              (Nat.b2n (has_label f t (reschedule now x)
                        && (date (next_run (reschedule now x)) <=? day)%Z)
               + Nat.b2n (should_run now x && ((day =? date now)%Z && has_label f t x))
               <= Nat.b2n (has_label f t x && (date (next_run x) <=? day)%Z))%nat).
    { intros j Hin. rewrite forallb_forall in Hjobs, Htimely.
      apply reschedule_pointwise; auto. }
    specialize (Hsplit Hpt).
    specialize (Hacc f t day). unfold deliveries_on, pending_on in Hacc.
    assert (Hcap : (capacity f t (self w) <= capacity f t (self w'))%nat).
    { apply capacity_evolves. apply evolves_fold_run_job. }
    lia.
Qed.

Lemma schedule_medication_loop_jobs (schedule_id : string) (times : list string)
    (now : datetime) :
  forall w,
  exists added,
    jobs (schedule_medication_loop schedule_id times now w) = jobs w ++ added
    /\ forallb job_ok added = true
    /\ (forall j, In j added -> job_do j = send_medication schedule_id)
    /\ forall t,
         (List.length (filter (fun j => matches_time t (job_at j)) added)
          <= entries_at t times)%nat.
Proof.
  induction times as [| time_str r IH]; intros w; cbn [schedule_medication_loop].
  - exists []. rewrite app_nil_r. repeat split; [intros j [] | intros t; cbn; lia].
  - unfold every_day_at_do. destruct (at_time time_str) as [a |] eqn:Ea.
    + destruct (IH (add_job {| job_at := a; job_do := send_medication schedule_id;
                               next_run := next_occurrence a now |} w))
        as (added & Hj & Hok & Hdo & Hcount).
      eexists (_ :: added). split; [| split; [| split]].
      * rewrite Hj. cbn [jobs add_job]. rewrite <- app_assoc. reflexivity.
      * cbn [forallb]. rewrite Hok, andb_true_r.
        destruct laws as (_ & _ & Hat). specialize (Hat _ _ Ea).
        apply job_ok_parts. cbn. split; [exact Hat | now apply next_occurrence_time].
      * intros j [<- | Hin]; [reflexivity | now apply Hdo].
      * intros t. specialize (Hcount t). unfold entries_at in *.
        cbn [filter job_at]. rewrite Ea.
        destruct (matches_time t a); cbn [List.length]; lia.
    + exists []. rewrite app_nil_r. repeat split; [intros j [] | intros t; cbn; lia].
Qed.

Lemma schedule_followup_loop_jobs (schedule : Fu.t) (l : list Z) (now : datetime) :
  forall w,
  exists added,
    jobs (schedule_followup_loop schedule l now w) = jobs w ++ added
    /\ forallb job_ok added = true
    /\ (forall j, In j added ->
                  exists days_before,
                    job_do j = send_followup (Fu.id schedule) days_before)
    /\ forall days_before,
         (List.length
            (filter (fun j => job_func_eqb (job_do j)
                                (send_followup (Fu.id schedule) days_before)) added)
          <= occurrences days_before l)%nat.
Proof.
  induction l as [| n r IH]; intros w; cbn [schedule_followup_loop].
  - exists []. rewrite app_nil_r. repeat split; [intros j [] | intros t; cbn; lia].
  - assert (Hskip : forall days_before,
              (occurrences days_before r <= occurrences days_before (n :: r))%nat).
    { intros days_before. unfold occurrences. cbn [filter].
      destruct (days_before =? n); cbn [List.length]; lia. }
    assert (Hnone : exists added,
              jobs w = jobs w ++ added /\ forallb job_ok added = true
              /\ (forall j, In j added ->
                     exists days_before,
                       job_do j = send_followup (Fu.id schedule) days_before)
              /\ forall days_before,
                   (List.length
                      (filter (fun j => job_func_eqb (job_do j)
                                          (send_followup (Fu.id schedule) days_before))
                         added)
                    <= occurrences days_before (n :: r))%nat).
    { exists []. rewrite app_nil_r. repeat split; [intros j [] | intros t; cbn; lia]. }
    destruct (reminder_date_of (Fu.appointment_date schedule) n)
      as [reminder_date | e]; [| exact Hnone].
    destruct (now <? reminder_date).
    + unfold every_day_at_do. destruct (at_time "09:00") as [a |] eqn:Ea;
        [| exact Hnone].
      destruct (IH (add_job {| job_at := a;
                               job_do := send_followup (Fu.id schedule) n;
                               next_run := next_occurrence a now |} w))
        as (added & Hj & Hok & Hdo & Hcount).
      eexists (_ :: added). split; [| split; [| split]].
      * rewrite Hj. cbn [jobs add_job]. rewrite <- app_assoc. reflexivity.
      * cbn [forallb]. rewrite Hok, andb_true_r.
        destruct laws as (_ & _ & Hat). specialize (Hat _ _ Ea).
        apply job_ok_parts. cbn. split; [exact Hat | now apply next_occurrence_time].
      * intros j [<- | Hin]; [now exists n | now apply Hdo].
      * intros days_before. specialize (Hcount days_before). unfold occurrences in *.
        cbn [filter job_do job_func_eqb]. rewrite String.eqb_refl. cbn [andb].
        rewrite (Z.eqb_sym n days_before).
        destruct (days_before =? n); cbn [List.length]; lia.
    + destruct (IH w) as (added & Hj & Hok & Hdo & Hcount).
      exists added. repeat split; try assumption.
      intros days_before. specialize (Hcount days_before).
      specialize (Hskip days_before). lia.
Qed.

(** Registering the jobs of a schedule that was not stored before. *)
Lemma accounted_register (w w' : World) (added : list Job) :
  evolves w w' -> delivered w' = delivered w -> jobs w' = jobs w ++ added ->
  forallb job_ok added = true ->
  (forall j t, In j added -> capacity (job_do j) t (self w) = O) ->
  (forall f t, (List.length (filter (has_label f t) added)
                <= capacity f t (self w'))%nat) ->
  accounted w -> accounted w'.
Proof.
  intros He Hd Hj Hok Hfresh Hcount [Hjobs Hacc]. split.
  - rewrite Hj, forallb_app, Hjobs, Hok. reflexivity.
  - intros f t day. unfold deliveries_on, pending_on. rewrite Hd, Hj.
    rewrite filter_length_app.
    specialize (Hacc f t day). unfold deliveries_on, pending_on in Hacc.
    pose proof (capacity_evolves f t w w' He) as Hcap.
    specialize (Hcount f t).
    assert (Hle : (List.length
                     (filter (fun j => has_label f t j
                                       && (date (next_run j) <=? day)%Z) added)
                   <= List.length (filter (has_label f t) added))%nat).
    { apply filter_length_le. intros j _ H. apply andb_prop in H. tauto. }
    destruct (filter (has_label f t) added) as [| j0 rest] eqn:Ef.
    + cbn in Hle. lia.
    + assert (Hin : In j0 (filter (has_label f t) added))
        by (rewrite Ef; now left).
      apply filter_In in Hin. destruct Hin as [Hin Hlab].
      unfold has_label in Hlab. apply andb_prop in Hlab. destruct Hlab as [Hf _].
      apply job_func_eqb_eq in Hf. specialize (Hfresh j0 t Hin).
      rewrite Hf in Hfresh. lia.
Qed.

Lemma accounted_boot (d : storage) : accounted (boot d).
Proof. split; [reflexivity |]. intros f t day. cbn. lia. Qed.

(** What a successful [add_medication_schedule] leaves behind. *)
Lemma add_medication_schedule_effect
    (medication_name dosage : string) (times : list string) (duration_days : Z)
    (start_date : option datetime) (additional_notes : string)
    (chat_id : option string) (uuid4 : string) (now : datetime) (w : World) :
  let r := add_medication_schedule medication_name dosage times duration_days
             start_date additional_notes chat_id uuid4 now w in
  snd r = w
  \/ exists schedule added,
       Med.times schedule = times
       /\ medication_schedules (self (snd r))
          = PyDict.set uuid4 schedule (medication_schedules (self w))
       /\ followup_schedules (self (snd r)) = followup_schedules (self w)
       /\ delivered (snd r) = delivered w
       /\ jobs (snd r) = jobs w ++ added
       /\ forallb job_ok added = true
       /\ (forall j, In j added -> job_do j = send_medication uuid4)
       /\ forall t,
            (List.length (filter (fun j => matches_time t (job_at j)) added)
             <= entries_at t times)%nat.
Proof.
  cbv zeta. unfold add_medication_schedule.
  destruct (delta <- timedelta_days duration_days;;
            Datetime.add match start_date with Some d => d | None => now end delta)
    as [end_date | e]; [| now left].
  right. cbn [snd].
  set (schedule := match chat_id with
                   | Some c => if String.eqb c "" then _ else _
                   | None => _
                   end).
  assert (Hid : Med.id schedule = uuid4)
    by (unfold schedule; destruct chat_id as [c |];
        [destruct (String.eqb c "") |]; reflexivity).
  assert (Htimes : Med.times schedule = times)
    by (unfold schedule; destruct chat_id as [c |];
        [destruct (String.eqb c "") |]; reflexivity).
  unfold _schedule_medication_reminders, _save_schedules. rewrite Hid, Htimes.
  match goal with
  | |- context [schedule_medication_loop ?i ?t ?n ?w0] =>
      destruct (self_schedule_medication_loop i t n w0) as (Hs & _ & Hd);
      destruct (schedule_medication_loop_jobs i t n w0)
        as (added & Hj & Hjok & Hdo & Hcount)
  end.
  exists schedule, added. cbn [self delivered jobs]. rewrite Hs, Hd, Hj.
  repeat split; assumption.
Qed.

Lemma add_followup_schedule_effect
    (appointment_type : string) (appointment_date : datetime)
    (appointment_time location notes : string)
    (reminder_days_before : option (list Z)) (uuid4 : string) (now : datetime)
    (w : World) :
  let r := add_followup_schedule appointment_type appointment_date
             appointment_time location notes reminder_days_before uuid4 now w in
  exists schedule added,
    medication_schedules (self (snd r)) = medication_schedules (self w)
    /\ followup_schedules (self (snd r))
       = PyDict.set uuid4 schedule (followup_schedules (self w))
    /\ delivered (snd r) = delivered w
    /\ jobs (snd r) = jobs w ++ added
    /\ forallb job_ok added = true
    /\ (forall j, In j added ->
                  exists days_before, job_do j = send_followup uuid4 days_before)
    /\ forall days_before,
         (List.length
            (filter (fun j => job_func_eqb (job_do j)
                                (send_followup uuid4 days_before)) added)
          <= occurrences days_before (Fu.reminder_days_before schedule))%nat.
Proof.
  cbv zeta. unfold add_followup_schedule. cbn [snd].
  unfold _schedule_followup_reminders, _save_schedules.
  match goal with
  | |- context [schedule_followup_loop ?s ?l ?n ?w0] =>
      destruct (self_schedule_followup_loop s l n w0) as (Hs & _ & Hd);
      destruct (schedule_followup_loop_jobs s l n w0)
        as (added & Hj & Hjok & Hdo & Hcount)
  end.
  eexists _, added. cbn [self delivered jobs]. rewrite Hs, Hd, Hj.
  repeat split; try assumption; reflexivity.
Qed.

Lemma accounted_exec (o : op) (w : World) :
  consistent w -> op_ok w o = true -> ticks_timely [o] w = true ->
  accounted w -> accounted (exec o w).
Proof.
  intros Hc Hok Htimely Hacc.
  pose proof (evolves_exec o w Hc Hok) as He.
  destruct o; cbn [exec] in *.
  - (* add_medication_schedule *)
    match goal with
    | |- accounted (snd (add_medication_schedule ?a ?b ?c ?d ?e ?f ?g ?h ?i ?w0)) =>
        destruct (add_medication_schedule_effect a b c d e f g h i w0)
          as [-> | (schedule & added & Htimes & Hm & Hf & Hd & Hj & Hjok & Hdo & Hcount)]
    end; [exact Hacc |].
    cbn in Hok. rewrite !andb_true_iff, negb_true_iff in Hok.
    destruct Hok as ((Hfresh & _) & _). apply contains_false_get in Hfresh.
    apply (accounted_register w _ added); try assumption.
    + intros j t Hin. rewrite (Hdo j Hin). cbn. now rewrite Hfresh.
    + intros f t.
      destruct (job_func_eqb f (send_medication uuid4)) eqn:Ef.
      * apply job_func_eqb_eq in Ef. subst f. cbn [capacity].
        rewrite Hm, get_set_same, Htimes.
        etransitivity; [| apply (Hcount t)].
        apply filter_length_le. intros j _ H. unfold has_label in H.
        apply andb_prop in H. tauto.
      * replace (List.length (filter (has_label f t) added)) with O; [lia |].
        symmetry. rewrite (filter_length_ext _ (fun _ => false)).
        -- clear. induction added; cbn; auto.
        -- intros j Hin. unfold has_label. rewrite (Hdo j Hin).
           destruct (job_func_eqb (send_medication uuid4) f) eqn:E; [| reflexivity].
           apply job_func_eqb_eq in E. subst f.
           now rewrite job_func_eqb_refl in Ef.
  - (* add_followup_schedule *)
    match goal with
    | |- accounted (snd (add_followup_schedule ?a ?b ?c ?d ?e ?f ?g ?h ?w0)) =>
        destruct (add_followup_schedule_effect a b c d e f g h w0)
          as (schedule & added & Hm & Hf & Hd & Hj & Hjok & Hdo & Hcount)
    end.
    cbn in Hok. rewrite !andb_true_iff, negb_true_iff in Hok.
    destruct Hok as ((Hfresh & _) & _). apply contains_false_get in Hfresh.
    apply (accounted_register w _ added); try assumption.
    + intros j t Hin. destruct (Hdo j Hin) as (n & ->). cbn. now rewrite Hfresh.
    + intros f t.
      destruct f as [schedule_id | schedule_id days_before].
      * replace (List.length (filter (has_label (send_medication schedule_id) t) added))
          with O; [lia |].
        symmetry. rewrite (filter_length_ext _ (fun _ => false)).
        -- clear. induction added; cbn; auto.
        -- intros j Hin. unfold has_label. destruct (Hdo j Hin) as (n & ->).
           reflexivity.
      * destruct (String.eqb_spec schedule_id uuid4) as [-> | Hne].
        -- cbn [capacity]. rewrite Hf, get_set_same.
           etransitivity; [| apply (Hcount days_before)].
           apply filter_length_le. intros j _ H. unfold has_label in H.
           apply andb_prop in H. tauto.
        -- replace (List.length
                      (filter (has_label (send_followup schedule_id days_before) t)
                         added)) with O; [lia |].
           symmetry. rewrite (filter_length_ext _ (fun _ => false)).
           ++ clear. induction added; cbn; auto.
           ++ intros j Hin. unfold has_label. destruct (Hdo j Hin) as (n & ->).
              cbn. destruct (String.eqb_spec uuid4 schedule_id); [congruence |].
              reflexivity.
  - apply (accounted_same_jobs w); try assumption;
      unfold stop_medication_schedule;
      destruct (PyDict.contains schedule_id (medication_schedules (self w)));
      reflexivity.
  - apply (accounted_same_jobs w); try assumption;
      unfold stop_followup_schedule;
      destruct (PyDict.contains schedule_id (followup_schedules (self w)));
      reflexivity.
  - exact Hacc.
  - apply (accounted_same_jobs w); try assumption;
      unfold start_scheduler; destruct (is_running (self w)); reflexivity.
  - apply (accounted_same_jobs w); try assumption; reflexivity.
  - unfold tick in *. cbn [ticks_timely] in Htimely.
    destruct (is_running (self w)); [| exact Hacc].
    cbn in Htimely. rewrite andb_true_r in Htimely.
    now apply accounted_run_pending.
  - apply (accounted_frame w); try assumption; try reflexivity.
    intros f t day. unfold pending_on. cbn. lia.
Qed.

Lemma accounted_run (ops : list op) :
  forall w,
    consistent w -> run_ok ops w = true -> ticks_timely ops w = true ->
    accounted w -> accounted (run ops w).
Proof.
  induction ops as [| o r IH]; intros w Hc Hok Ht Hacc; [exact Hacc |].
  cbn [run_ok] in Hok. apply andb_prop in Hok. destruct Hok as [Ho Hr].
  cbn [ticks_timely] in Ht. apply andb_prop in Ht. destruct Ht as [Ht1 Ht2].
  change (run (o :: r) w) with (run r (exec o w)).
  apply IH; try assumption.
  - now apply (consistent_exec laws).
  - apply accounted_exec; try assumption.
    cbn [ticks_timely]. now rewrite Ht1.
Qed.

End Accounting.

(** ** One delivery per occurrence *)

Section Occurrences.
Context {L : Library}.
Hypothesis laws : library_laws L.
Import PyDictFacts.

(** C2, as the code has it.  Each entry of [times] registers a daily job of
    its own.  In every world a process reaches from its start by ticks that
    run each due job on the calendar day it fell due, the deliveries for a
    schedule, a time of day and a calendar day are at most as many as the
    entries of [times] that denote that time of day: one when the entries
    are distinct. *)
Theorem deliveries_per_time_and_day (d : storage) (ops : list op)
    (schedule_id : string) (schedule : Med.t) (t day : Z) :
  run_ok ops (boot d) = true -> ticks_timely ops (boot d) = true ->
  PyDict.get schedule_id (medication_schedules (self (run ops (boot d))))
  = Some schedule ->
  (deliveries_on (send_medication schedule_id) (Some t) day (run ops (boot d))
   <= entries_at (Some t) (Med.times schedule))%nat
  /\ ((entries_at (Some t) (Med.times schedule) <= 1)%nat ->
      (deliveries_on (send_medication schedule_id) (Some t) day (run ops (boot d))
       <= 1)%nat).
Proof.
  intros Hok Ht Hs.
  pose proof (accounted_run laws ops (boot d) (consistent_boot laws d) Hok Ht
                (accounted_boot d)) as [_ Hacc].
  specialize (Hacc (send_medication schedule_id) (Some t) day).
  cbn [capacity] in Hacc. rewrite Hs in Hacc. split; [lia | intros H; lia].
Qed.

Lemma reminder_date_of_returns (appointment_date : datetime) (days_before : Z)
    (reminder_date : datetime) :
  reminder_date_of appointment_date days_before = Returns reminder_date ->
  reminder_date = appointment_date - days_before * usec_per_day.
Proof.
  unfold reminder_date_of, timedelta_days, Datetime.sub, Datetime.add, bind.
  destruct (Z.abs days_before <=? 999999999); [| discriminate].
  destruct (in_range (appointment_date + - (days_before * usec_per_day)));
    [| discriminate].
  intros H. injection H as <-. lia.
Qed.

(** On the day of a reminder that is a day or more ahead, the appointment
    is still to come. *)
Lemma reminder_day_before_appointment (appointment_date now : datetime)
    (days_before : Z) (reminder_date : datetime) :
  reminder_date_of appointment_date days_before = Returns reminder_date ->
  date now = date reminder_date -> 1 <= days_before ->
  now < appointment_date.
Proof.
  intros Hr Hday Hn. apply reminder_date_of_returns in Hr. subst reminder_date.
  revert Hday. unfold date, usec_per_day, usec_per_second.
  intros Hday.
  assert (Hle : appointment_date - days_before * (86400 * 1000000)
                <= appointment_date - 86400 * 1000000) by nia.
  apply (Z.div_le_mono _ _ (86400 * 1000000)) in Hle; [| lia].
  revert Hday Hle. Z.div_mod_to_equations. lia.
Qed.

Lemma fired_between_followup (w w' : World) (e : delivery) (schedule_id : string)
    (days_before : Z) :
  fired_between w w' e ->
  job_do (by_job e) = send_followup schedule_id days_before ->
  exists s reminder_date,
    PyDict.get schedule_id (followup_schedules (self w')) = Some s
    /\ reminder_date_of (Fu.appointment_date s) days_before = Returns reminder_date
    /\ date (sent_at e) = date reminder_date.
Proof.
  intros (wm & _ & Hm' & Hf) Hj. rewrite Hj in Hf.
  destruct Hf as (s & reminder_date & Hs & _ & Hr & Hday).
  destruct (Hm' schedule_id) as [_ Hfu].
  destruct (Hfu s Hs) as (s' & Hs' & Hev).
  destruct (followup_evolves_fields _ _ Hev) as [_ Happ].
  exists s', reminder_date. rewrite Happ. auto.
Qed.

(** C3, as the code has it.  In every world a process reaches from its
    start, whenever its ticks come,
    - every reminder delivered for a follow-up schedule and an offset [N]
      was delivered on the calendar day of [appointment_date - N days], and
      when [N >= 1] the appointment was still to come at that moment;
    - a dispatch calls the Telegram client only for a stored, active
      schedule;
    and when the ticks ran each due job on the calendar day it fell due,
    the reminders delivered for the schedule and [N] are at most as many
    as the entries of [reminder_days_before] equal to [N]: one when the
    entries are distinct.  (The dispatch does not look at the time of the
    appointment: with [N = 0] it may be past.) *)
Theorem followup_reminder_day (d : storage) (ops : list op)
    (schedule_id : string) (days_before : Z) :
  run_ok ops (boot d) = true ->
  let w := run ops (boot d) in
  (forall e, In e (delivered w) ->
             job_do (by_job e) = send_followup schedule_id days_before ->
             exists s reminder_date,
               PyDict.get schedule_id (followup_schedules (self w)) = Some s
               /\ reminder_date_of (Fu.appointment_date s) days_before
                  = Returns reminder_date
               /\ date (sent_at e) = date reminder_date
               /\ (1 <= days_before -> sent_at e < Fu.appointment_date s))
  /\ (forall w0 now,
         snd (_send_followup_reminder schedule_id days_before now w0) <> [] ->
         exists s,
           PyDict.get schedule_id (followup_schedules (self w0)) = Some s
           /\ Fu.is_active s = true)
  /\ (ticks_timely ops (boot d) = true ->
      forall s,
        PyDict.get schedule_id (followup_schedules (self w)) = Some s ->
        (deliveries_of (send_followup schedule_id days_before) w
         <= occurrences days_before (Fu.reminder_days_before s))%nat).
Proof.
  intros Hok w.
  pose proof (consistent_boot laws d) as Hboot.
  assert (Hday : forall e, In e (delivered w) ->
             job_do (by_job e) = send_followup schedule_id days_before ->
             exists s reminder_date,
               PyDict.get schedule_id (followup_schedules (self w)) = Some s
               /\ reminder_date_of (Fu.appointment_date s) days_before
                  = Returns reminder_date
               /\ date (sent_at e) = date reminder_date).
  { intros e He Hj.
    destruct (run_delivered laws ops (boot d) Hboot Hok) as (new & Hd & Hn).
    fold w in Hd, Hn. cbn in Hd. rewrite Hd in He. rewrite Forall_forall in Hn.
    exact (fired_between_followup _ _ _ _ _ (Hn e He) Hj). }
  split; [| split].
  - intros e He Hj. destruct (Hday e He Hj) as (s & reminder_date & Hs & Hr & Hd).
    exists s, reminder_date. repeat split; try assumption.
    intros Hn. now apply (reminder_day_before_appointment _ _ _ _ Hr Hd).
  - intros w0 now Hcalls.
    destruct (call_job_func_fires (send_followup schedule_id days_before) now w0)
      as [Hn | (c & _ & _ & Hf)]; [contradiction |].
    destruct Hf as (s & r & Hs & Ha & _). exists s. auto.
  - intros Ht s Hs.
    pose proof (accounted_run laws ops (boot d) Hboot Hok Ht (accounted_boot d))
      as [_ Hacc].
    fold w in Hacc.
    destruct (reminder_date_of (Fu.appointment_date s) days_before)
      as [reminder_date | err] eqn:Er.
    + specialize (Hacc (send_followup schedule_id days_before) None
                    (date reminder_date)).
      cbn [capacity] in Hacc. rewrite Hs in Hacc.
      unfold deliveries_of. unfold deliveries_on in Hacc.
      rewrite (filter_length_ext _
                 (fun e => has_label (send_followup schedule_id days_before) None
                             (by_job e)
                           && (date (sent_at e) =? date reminder_date))); [lia |].
      intros e He. unfold has_label. cbn [matches_time]. rewrite andb_true_r.
      destruct (job_func_eqb (job_do (by_job e))
                  (send_followup schedule_id days_before)) eqn:Ej; [| reflexivity].
      apply job_func_eqb_eq in Ej.
      destruct (Hday e He Ej) as (s' & r' & Hs' & Hr' & Hd').
      assert (r' = reminder_date) by congruence. subst r'.
      symmetry. cbn. now apply Z.eqb_eq.
    + unfold deliveries_of.
      rewrite (filter_length_ext _ (fun _ => false)).
      * clear. induction (delivered w); cbn; [lia | assumption].
      * intros e He.
        destruct (job_func_eqb (job_do (by_job e))
                    (send_followup schedule_id days_before)) eqn:Ej; [| reflexivity].
        apply job_func_eqb_eq in Ej.
        destruct (Hday e He Ej) as (s' & r' & Hs' & Hr' & _). congruence.
Qed.

(** C4, where the code departs from it.  A save followed by a load gives
    back both dictionaries with every field but [chat_id]: what is read back
    for a medication schedule that had a chat id is that schedule without
    one. *)
Theorem save_load_loses_chat_id (w : World) (schedule_id chat : string)
    (schedule : Med.t) :
  well_formed (self w) = true ->
  PyDict.get schedule_id (medication_schedules (self w)) = Some schedule ->
  Med.chat_id schedule = Some chat ->
  let reloaded := __init__ (disk (_save_schedules w)) in
  PyDict.get schedule_id (medication_schedules reloaded)
  = Some (Med.set_chat_id None schedule)
  /\ PyDict.get schedule_id (medication_schedules reloaded) <> Some schedule
  /\ followup_schedules reloaded = followup_schedules (self w)
  /\ PyDict.keys (medication_schedules reloaded)
     = PyDict.keys (medication_schedules (self w)).
Proof.
  intros Hwf Hs Hchat reloaded.
  assert (Hr : reloaded = persisted_view (self w)).
  { unfold reloaded, __init__. cbn [disk _save_schedules].
    now rewrite (load_snapshot laws). }
  rewrite Hr. cbn. rewrite get_map_values, Hs. cbn.
  split; [reflexivity |]. split; [| split; [reflexivity |]].
  - intros [= H]. apply (f_equal Med.chat_id) in H. cbn in H. congruence.
  - unfold PyDict.keys. rewrite map_map. reflexivity.
Qed.

(** C5, as the code has it.  [_load_schedules] never raises: it returns
    with the scheduler as far as it was loaded, and the exception is
    logged.  With no file it leaves the scheduler as it is and logs
    nothing, so that a new scheduler has two empty dictionaries.  With a
    file that is no JSON, or whose top level has no list of medications to
    iterate, it leaves the scheduler as it is; when the top level has no
    list of follow-ups to iterate, the medications are loaded.  The values
    of the fields
    are not checked: a record is stored, with the values it has in the
    file, when it is an object with every key of the constructor call,
    strings that [fromisoformat] reads under the date keys, and an id that
    can be the key of a dictionary.  The first record that is not ends the
    load: the records before it have been stored and stay, the records
    after it are not read; when it is a medication record no follow-up
    record is read, and when it is a follow-up record all medication
    records have been stored. *)
Theorem load_schedules_tolerant (s : Unchecked.HealthcareScheduler) :
  Unchecked.__init__ Missing = Unchecked.fresh_scheduler
  /\ Unchecked._load_schedules Missing s = (s, None)
  /\ Unchecked._load_schedules Unparseable s = (s, Some ValueError)
  /\ (forall data e,
         bind (Json.get_default "medications" (JList []) data) Json.iter
         = Raises e ->
         Unchecked._load_schedules (Content data) s = (s, Some e))
  /\ (forall data good vs bad rest e,
         bind (Json.get_default "medications" (JList []) data) Json.iter
         = Returns (good ++ bad :: rest) ->
         mapM Unchecked.medication_record good = Returns vs ->
         Unchecked.medication_record bad = Raises e ->
         Unchecked._load_schedules (Content data) s
         = (Unchecked.set_medications
              (Unchecked.store_medications vs
                 (Unchecked.medication_schedules s)) s,
            Some e))
  /\ (forall data meds ms e,
         bind (Json.get_default "medications" (JList []) data) Json.iter
         = Returns meds ->
         mapM Unchecked.medication_record meds = Returns ms ->
         bind (Json.get_default "followups" (JList []) data) Json.iter
         = Raises e ->
         Unchecked._load_schedules (Content data) s
         = (Unchecked.set_medications
              (Unchecked.store_medications ms
                 (Unchecked.medication_schedules s)) s,
            Some e))
  /\ (forall data meds ms good vs bad rest e,
         bind (Json.get_default "medications" (JList []) data) Json.iter
         = Returns meds ->
         mapM Unchecked.medication_record meds = Returns ms ->
         bind (Json.get_default "followups" (JList []) data) Json.iter
         = Returns (good ++ bad :: rest) ->
         mapM Unchecked.followup_record good = Returns vs ->
         Unchecked.followup_record bad = Raises e ->
         Unchecked._load_schedules (Content data) s
         = (Unchecked.set_followups
              (Unchecked.store_followups vs (Unchecked.followup_schedules s))
              (Unchecked.set_medications
                 (Unchecked.store_medications ms
                    (Unchecked.medication_schedules s)) s),
            Some e))
  /\ (forall data meds ms fus fs,
         bind (Json.get_default "medications" (JList []) data) Json.iter
         = Returns meds ->
         mapM Unchecked.medication_record meds = Returns ms ->
         bind (Json.get_default "followups" (JList []) data) Json.iter
         = Returns fus ->
         mapM Unchecked.followup_record fus = Returns fs ->
         Unchecked._load_schedules (Content data) s
         = (Unchecked.set_followups
              (Unchecked.store_followups fs (Unchecked.followup_schedules s))
              (Unchecked.set_medications
                 (Unchecked.store_medications ms
                    (Unchecked.medication_schedules s)) s),
            None))
  /\ (forall med_data v,
         Unchecked.medication_record med_data = Returns v <->
         Unchecked.hashable (Unchecked.Med.id v) = true
         /\ exists items start_date end_date created_at,
              med_data = JDict items
              /\ PyDict.get "id" items = Some (Unchecked.Med.id v)
              /\ PyDict.get "medication_name" items
                 = Some (Unchecked.Med.medication_name v)
              /\ PyDict.get "dosage" items = Some (Unchecked.Med.dosage v)
              /\ PyDict.get "times" items = Some (Unchecked.Med.times v)
              /\ PyDict.get "duration_days" items
                 = Some (Unchecked.Med.duration_days v)
              /\ PyDict.get "start_date" items = Some (JStr start_date)
              /\ fromisoformat start_date = Some (Unchecked.Med.start_date v)
              /\ PyDict.get "end_date" items = Some (JStr end_date)
              /\ fromisoformat end_date = Some (Unchecked.Med.end_date v)
              /\ PyDict.get "additional_notes" items
                 = Some (Unchecked.Med.additional_notes v)
              /\ PyDict.get "is_active" items = Some (Unchecked.Med.is_active v)
              /\ PyDict.get "created_at" items = Some (JStr created_at)
              /\ fromisoformat created_at = Some (Unchecked.Med.created_at v)
              /\ Unchecked.Med.chat_id v = JNull)
  /\ (forall followup_data v,
         Unchecked.followup_record followup_data = Returns v <->
         Unchecked.hashable (Unchecked.Fu.id v) = true
         /\ exists items appointment_date created_at,
              followup_data = JDict items
              /\ PyDict.get "id" items = Some (Unchecked.Fu.id v)
              /\ PyDict.get "appointment_type" items
                 = Some (Unchecked.Fu.appointment_type v)
              /\ PyDict.get "appointment_date" items
                 = Some (JStr appointment_date)
              /\ fromisoformat appointment_date
                 = Some (Unchecked.Fu.appointment_date v)
              /\ PyDict.get "appointment_time" items
                 = Some (Unchecked.Fu.appointment_time v)
              /\ PyDict.get "location" items = Some (Unchecked.Fu.location v)
              /\ PyDict.get "notes" items = Some (Unchecked.Fu.notes v)
              /\ PyDict.get "reminder_days_before" items
                 = Some (Unchecked.Fu.reminder_days_before v)
              /\ PyDict.get "is_active" items = Some (Unchecked.Fu.is_active v)
              /\ PyDict.get "created_at" items = Some (JStr created_at)
              /\ fromisoformat created_at = Some (Unchecked.Fu.created_at v)).
Proof.
  split; [reflexivity |]. split; [reflexivity |]. split; [reflexivity |].
  split; [| split; [| split; [| split; [| split; [| split]]]]].
  - intros data e Hmeds. unfold Unchecked._load_schedules. now rewrite Hmeds.
  - intros data good vs bad rest e Hmeds Hgood Hbad.
    unfold Unchecked._load_schedules. rewrite Hmeds.
    rewrite (load_each_stops _ _ _ load_medication_record good vs bad rest e s
               Hgood Hbad).
    now rewrite fold_store_medications.
  - intros data meds ms e Hmeds Hms Hfus.
    unfold Unchecked._load_schedules. rewrite Hmeds.
    rewrite (load_each_all _ _ _ load_medication_record meds ms s Hms), Hfus.
    now rewrite fold_store_medications.
  - intros data meds ms good vs bad rest e Hmeds Hms Hfus Hgood Hbad.
    unfold Unchecked._load_schedules. rewrite Hmeds.
    rewrite (load_each_all _ _ _ load_medication_record meds ms s Hms), Hfus.
    rewrite (load_each_stops _ _ _ load_followup_record good vs bad rest e _
               Hgood Hbad).
    now rewrite fold_store_followups, fold_store_medications.
  - intros data meds ms fus fs Hmeds Hms Hfus Hfs.
    unfold Unchecked._load_schedules. rewrite Hmeds.
    rewrite (load_each_all _ _ _ load_medication_record meds ms s Hms), Hfus.
    rewrite (load_each_all _ _ _ load_followup_record fus fs _ Hfs).
    now rewrite fold_store_followups, fold_store_medications.
  - intros med_data v. rewrite <- medication_of_json_returns.
    unfold Unchecked.medication_record. split.
    + intros H. apply bind_returns in H. destruct H as (v0 & Hv0 & H).
      destruct (Unchecked.hashable (Unchecked.Med.id v0)) eqn:Hh;
        [| discriminate].
      injection H as <-. auto.
    + intros [Hh ->]. cbn. now rewrite Hh.
  - intros followup_data v. rewrite <- followup_of_json_returns.
    unfold Unchecked.followup_record. split.
    + intros H. apply bind_returns in H. destruct H as (v0 & Hv0 & H).
      destruct (Unchecked.hashable (Unchecked.Fu.id v0)) eqn:Hh;
        [| discriminate].
      injection H as <-. auto.
    + intros [Hh ->]. cbn. now rewrite Hh.
Qed.

End Occurrences.

(** ** Further properties of the scheduler *)

Section SchedulerFacts.
Context {L : Library}.
Import PyDictFacts.

(** The jobs a registration loop leaves depend on the registry alone. *)
Lemma schedule_medication_loop_frame (schedule_id : string) (times : list string)
    (now : datetime) (w1 w2 : World) :
  jobs w1 = jobs w2 ->
  jobs (schedule_medication_loop schedule_id times now w1)
  = jobs (schedule_medication_loop schedule_id times now w2).
Proof.
  revert w1 w2. induction times as [| time_str r IH]; intros w1 w2 H; cbn;
    [exact H |].
  unfold every_day_at_do. destruct (at_time time_str); [| exact H].
  apply IH. cbn. now rewrite H.
Qed.

Lemma schedule_followup_loop_frame (schedule : Fu.t) (l : list Z)
    (now : datetime) (w1 w2 : World) :
  jobs w1 = jobs w2 ->
  jobs (schedule_followup_loop schedule l now w1)
  = jobs (schedule_followup_loop schedule l now w2).
Proof.
  revert w1 w2. induction l as [| days_before r IH]; intros w1 w2 H; cbn;
    [exact H |].
  destruct (reminder_date_of (Fu.appointment_date schedule) days_before);
    [| exact H].
  destruct (now <? a); [| now apply IH].
  unfold every_day_at_do. destruct (at_time "09:00"); [| exact H].
  apply IH. cbn. now rewrite H.
Qed.

(** What [add_medication_schedule] does to the world. *)
Lemma add_medication_schedule_world
    (medication_name dosage : string) (times : list string) (duration_days : Z)
    (start_date : option datetime) (additional_notes : string)
    (chat_id : option string) (uuid4 : string) (now : datetime) (w : World) :
  let r := add_medication_schedule medication_name dosage times duration_days
             start_date additional_notes chat_id uuid4 now w in
  let start := match start_date with Some d => d | None => now end in
  match (delta <- timedelta_days duration_days ;; Datetime.add start delta) with
  | Returns end_date =>
      let schedule :=
        Med.mk uuid4 medication_name dosage times duration_days start
          end_date additional_notes true now
          (match chat_id with
           | Some c => if String.eqb c "" then None else Some c
           | None => None
           end) in
      fst r = Returns uuid4
      /\ self (snd r)
         = set_medications
             (PyDict.set uuid4 schedule (medication_schedules (self w))) (self w)
      /\ jobs (snd r) = jobs (schedule_medication_loop uuid4 times now w)
      /\ delivered (snd r) = delivered w
  | Raises e => r = (Raises e, w)
  end.
Proof.
  cbv zeta. unfold add_medication_schedule.
  destruct (delta <- timedelta_days duration_days;;
            Datetime.add match start_date with Some d => d | None => now end delta)
    as [end_date | e]; [| reflexivity].
  cbn [fst snd]. split; [reflexivity |].
  unfold _schedule_medication_reminders, _save_schedules.
  cbn [self disk jobs delivered].
  set (schedule := match chat_id with
                   | Some c => if String.eqb c "" then _ else _
                   | None => _
                   end).
  assert (Hsch : schedule
                 = Med.mk uuid4 medication_name dosage times duration_days
                     match start_date with Some d => d | None => now end
                     end_date additional_notes true now
                     (match chat_id with
                      | Some c => if String.eqb c "" then None else Some c
                      | None => None
                      end)).
  { subst schedule.
    destruct chat_id as [c |]; [destruct (String.eqb c "") |]; reflexivity. }
  assert (Hid : Med.id schedule = uuid4) by now rewrite Hsch.
  assert (Htimes : Med.times schedule = times) by now rewrite Hsch.
  rewrite Hid, Htimes.
  match goal with
  | |- context [schedule_medication_loop ?i ?t ?n ?w0] =>
      destruct (self_schedule_medication_loop i t n w0) as (Hs & _ & Hd);
      pose proof (schedule_medication_loop_frame i t n w0 w) as Hj
  end.
  rewrite Hs, Hd. cbn [self set_self delivered]. rewrite <- Hsch.
  split; [reflexivity |]. split; [| reflexivity].
  apply Hj; reflexivity.
Qed.

Lemma add_followup_schedule_world
    (appointment_type : string) (appointment_date : datetime)
    (appointment_time location notes : string)
    (reminder_days_before : option (list Z)) (uuid4 : string) (now : datetime)
    (w : World) :
  let r := add_followup_schedule appointment_type appointment_date
             appointment_time location notes reminder_days_before uuid4 now w in
  let l := match reminder_days_before with Some l => l | None => [1; 3; 7] end in
  let schedule :=
    Fu.mk uuid4 appointment_type appointment_date appointment_time location
      notes l true now in
  fst r = uuid4
  /\ self (snd r)
     = set_followups (PyDict.set uuid4 schedule (followup_schedules (self w)))
         (self w)
  /\ jobs (snd r) = jobs (schedule_followup_loop schedule l now w)
  /\ delivered (snd r) = delivered w
  /\ disk (snd r) = Content (snapshot (self (snd r))).
Proof.
  cbv zeta. unfold add_followup_schedule. cbn [fst snd].
  split; [reflexivity |].
  unfold _schedule_followup_reminders, _save_schedules, Fu.init.
  cbn [self disk jobs delivered Fu.reminder_days_before].
  match goal with
  | |- context [schedule_followup_loop ?s ?l ?n ?w0] =>
      destruct (self_schedule_followup_loop s l n w0) as (Hs & _ & Hd);
      pose proof (schedule_followup_loop_frame s l n w0 w) as Hj
  end.
  rewrite Hs, Hd. cbn [self set_self delivered].
  split; [reflexivity |]. split; [apply Hj; reflexivity |].
  split; reflexivity.
Qed.

Lemma add_medication_schedule_unvalidated_disk
    (medication_name dosage : string) (times : list string) (duration_days : Z)
    (additional_notes : string) (uuid4 : string) (now : datetime) (w : World) :
  let r := add_medication_schedule medication_name dosage times duration_days
             None additional_notes None uuid4 now w in
  fst r = Returns uuid4 -> disk (snd r) = Content (snapshot (self (snd r))).
Proof.
  cbv zeta. unfold add_medication_schedule.
  destruct (delta <- timedelta_days duration_days;; Datetime.add now delta)
    as [end_date | e]; [| discriminate].
  reflexivity.
Qed.

(** Lookup in a comprehension. *)
Lemma get_comprehension {V : Type} (p : V -> bool) (k : string) (d : dict V) :
  unique_keys d = true ->
  PyDict.get k (PyDict.comprehension p d)
  = match PyDict.get k d with
    | Some v => if p v then Some v else None
    | None => None
    end.
Proof.
  induction d as [| [k' v'] r IH]; cbn; [reflexivity |].
  intros H. apply andb_prop in H. destruct H as [Hk Hr].
  apply negb_true_iff, contains_false_get in Hk. specialize (IH Hr).
  destruct (String.eqb_spec k' k) as [-> | Hne].
  - destruct (p v'); cbn.
    + now rewrite String.eqb_refl.
    + unfold PyDict.comprehension in IH. rewrite IH, Hk. reflexivity.
  - destruct (p v'); cbn; [| exact IH].
    destruct (String.eqb_spec k' k); [congruence | exact IH].
Qed.

Lemma stop_medication_schedule_world (schedule_id : string) (w : World) :
  let r := stop_medication_schedule schedule_id w in
  medication_schedules (self (snd r))
  = PyDict.modify schedule_id (Med.set_is_active false)
      (medication_schedules (self w))
  /\ followup_schedules (self (snd r)) = followup_schedules (self w)
  /\ is_running (self (snd r)) = is_running (self w)
  /\ jobs (snd r) = jobs w /\ delivered (snd r) = delivered w.
Proof.
  cbv zeta. unfold stop_medication_schedule.
  destruct (PyDict.contains schedule_id (medication_schedules (self w))) eqn:Ec;
    cbn; repeat split.
  apply contains_false_get in Ec. clear - Ec.
  induction (medication_schedules (self w)) as [| [k v] r IH]; cbn in *;
    [reflexivity |].
  destruct (String.eqb k schedule_id); [discriminate |]. now rewrite <- IH.
Qed.

Lemma stop_followup_schedule_world (schedule_id : string) (w : World) :
  let r := stop_followup_schedule schedule_id w in
  followup_schedules (self (snd r))
  = PyDict.modify schedule_id (Fu.set_is_active false)
      (followup_schedules (self w))
  /\ medication_schedules (self (snd r)) = medication_schedules (self w)
  /\ is_running (self (snd r)) = is_running (self w)
  /\ jobs (snd r) = jobs w /\ delivered (snd r) = delivered w.
Proof.
  cbv zeta. unfold stop_followup_schedule.
  destruct (PyDict.contains schedule_id (followup_schedules (self w))) eqn:Ec;
    cbn; repeat split.
  apply contains_false_get in Ec. clear - Ec.
  induction (followup_schedules (self w)) as [| [k v] r IH]; cbn in *;
    [reflexivity |].
  destruct (String.eqb k schedule_id); [discriminate |]. now rewrite <- IH.
Qed.

(** X1.  A stopped schedule is absent from [get_active_schedules] at once and
    at every later time, whatever its end date or appointment date; the
    rest of the view is as before. *)
Theorem stopped_schedule_not_listed (schedule_id : string) (now : datetime)
    (w : World) :
  unique_keys (medication_schedules (self w)) = true ->
  unique_keys (followup_schedules (self w)) = true ->
  let wm := snd (stop_medication_schedule schedule_id w) in
  let wf := snd (stop_followup_schedule schedule_id w) in
  (PyDict.get schedule_id (fst (get_active_schedules now (self wm))) = None
   /\ (forall k, k <> schedule_id ->
                 PyDict.get k (fst (get_active_schedules now (self wm)))
                 = PyDict.get k (fst (get_active_schedules now (self w))))
   /\ snd (get_active_schedules now (self wm))
      = snd (get_active_schedules now (self w)))
  /\ (PyDict.get schedule_id (snd (get_active_schedules now (self wf))) = None
      /\ (forall k, k <> schedule_id ->
                    PyDict.get k (snd (get_active_schedules now (self wf)))
                    = PyDict.get k (snd (get_active_schedules now (self w))))
      /\ fst (get_active_schedules now (self wf))
         = fst (get_active_schedules now (self w))).
Proof.
  intros Hm Hf. cbv zeta.
  destruct (stop_medication_schedule_world schedule_id w) as (Em & Ef & _).
  destruct (stop_followup_schedule_world schedule_id w) as (Ef' & Em' & _).
  unfold get_active_schedules. cbn [fst snd].
  rewrite Em, Ef, Ef', Em'.
  split; (split; [| split; [| reflexivity]]).
  - rewrite get_comprehension by now rewrite unique_keys_modify.
    rewrite get_modify_same.
    now destruct (PyDict.get schedule_id (medication_schedules (self w))).
  - intros k Hk. rewrite !get_comprehension by now rewrite ?unique_keys_modify.
    now rewrite get_modify_other.
  - rewrite get_comprehension by now rewrite unique_keys_modify.
    rewrite get_modify_same.
    now destruct (PyDict.get schedule_id (followup_schedules (self w))).
  - intros k Hk. rewrite !get_comprehension by now rewrite ?unique_keys_modify.
    now rewrite get_modify_other.
Qed.

(** X17.  The view and the dispatch agree on medications: a medication schedule
    is listed by [get_active_schedules] at a time exactly when its dispatch
    at that time sends a reminder, and it then sends one reminder, with the
    fields of the listed schedule. *)
Theorem listed_iff_reminder_sent (schedule_id : string) (now : datetime)
    (w : World) :
  unique_keys (medication_schedules (self w)) = true ->
  (forall schedule,
      PyDict.get schedule_id (fst (get_active_schedules now (self w)))
      = Some schedule ->
      _send_medication_reminder schedule_id now w
      = (w, [medication_reminder (Med.chat_id schedule)
               (Med.medication_name schedule) (Med.dosage schedule) now
               (Med.additional_notes schedule)]))
  /\ (PyDict.get schedule_id (fst (get_active_schedules now (self w))) = None ->
      snd (_send_medication_reminder schedule_id now w) = []).
Proof.
  intros Hu. unfold get_active_schedules. cbn [fst].
  rewrite get_comprehension by exact Hu.
  unfold _send_medication_reminder.
  destruct (PyDict.get schedule_id (medication_schedules (self w))) as [s |];
    [| split; [discriminate | reflexivity]].
  destruct (Med.is_active s); cbn [andb negb];
    [| split; [discriminate | reflexivity]].
  rewrite Z.ltb_antisym. destruct (now <=? Med.end_date s); cbn [negb].
  - split; [| discriminate]. intros schedule H. injection H as <-. reflexivity.
  - split; [discriminate | reflexivity].
Qed.

(** X2.  A schedule that was just added is listed by [get_active_schedules]
    exactly at the times up to its end date (a medication) or before its
    appointment date (a follow-up): a medication added with a negative
    duration, or a follow-up added for a past appointment, is stored but
    never listed. *)
Theorem added_schedule_listed
    (medication_name dosage : string) (times : list string) (duration_days : Z)
    (start_date : option datetime) (additional_notes : string)
    (chat_id : option string)
    (appointment_type : string) (appointment_date : datetime)
    (appointment_time location notes : string)
    (reminder_days_before : option (list Z))
    (uuid4 : string) (now t : datetime) (w : World) :
  unique_keys (medication_schedules (self w)) = true ->
  unique_keys (followup_schedules (self w)) = true ->
  let rm := add_medication_schedule medication_name dosage times duration_days
              start_date additional_notes chat_id uuid4 now w in
  let rf := add_followup_schedule appointment_type appointment_date
              appointment_time location notes reminder_days_before uuid4 now w in
  (fst rm = Returns uuid4 ->
   exists schedule,
     PyDict.get uuid4 (medication_schedules (self (snd rm))) = Some schedule
     /\ Returns (Med.end_date schedule)
        = (delta <- timedelta_days duration_days ;;
           Datetime.add (match start_date with Some d => d | None => now end) delta)
     /\ PyDict.get uuid4 (fst (get_active_schedules t (self (snd rm))))
        = if t <=? Med.end_date schedule then Some schedule else None)
  /\ (exists schedule,
        PyDict.get uuid4 (followup_schedules (self (snd rf))) = Some schedule
        /\ Fu.appointment_date schedule = appointment_date
        /\ PyDict.get uuid4 (snd (get_active_schedules t (self (snd rf))))
           = if t <? appointment_date then Some schedule else None).
Proof.
  intros Hm Hf. cbv zeta. split.
  - pose proof (add_medication_schedule_world medication_name dosage times
                  duration_days start_date additional_notes chat_id uuid4 now w)
      as H.
    cbv zeta in H.
    destruct (delta <- timedelta_days duration_days;;
              Datetime.add match start_date with Some d => d | None => now end delta)
      as [end_date | e].
    + destruct H as (_ & Hs & _). intros _.
      eexists. rewrite Hs. cbn [medication_schedules set_medications].
      rewrite get_set_same. split; [reflexivity |]. split; [reflexivity |].
      unfold get_active_schedules. cbn [fst medication_schedules set_medications].
      rewrite get_comprehension by now apply unique_keys_set.
      rewrite get_set_same. cbn. reflexivity.
    + rewrite H. cbn. discriminate.
  - destruct (add_followup_schedule_world appointment_type appointment_date
                appointment_time location notes reminder_days_before uuid4 now w)
      as (_ & Hs & _).
    eexists. rewrite Hs. cbn [followup_schedules set_followups].
    rewrite get_set_same. split; [reflexivity |]. split; [reflexivity |].
    unfold get_active_schedules. cbn [snd followup_schedules set_followups].
    rewrite get_comprehension by now apply unique_keys_set.
    rewrite get_set_same. cbn. reflexivity.
Qed.

(** X3.  Adding a schedule under a new id appends it to its dictionary and
    touches nothing else of the scheduler: the schedules stored before keep
    their place and their fields, the other dictionary and the state of the
    loop are as before, and nothing is delivered by the call. *)
Theorem add_schedule_appends
    (medication_name dosage : string) (times : list string) (duration_days : Z)
    (start_date : option datetime) (additional_notes : string)
    (chat_id : option string)
    (appointment_type : string) (appointment_date : datetime)
    (appointment_time location notes : string)
    (reminder_days_before : option (list Z))
    (uuid4 : string) (now : datetime) (w : World) :
  PyDict.contains uuid4 (medication_schedules (self w)) = false ->
  PyDict.contains uuid4 (followup_schedules (self w)) = false ->
  let rm := add_medication_schedule medication_name dosage times duration_days
              start_date additional_notes chat_id uuid4 now w in
  let rf := add_followup_schedule appointment_type appointment_date
              appointment_time location notes reminder_days_before uuid4 now w in
  (fst rm = Returns uuid4 ->
   exists schedule,
     medication_schedules (self (snd rm))
     = medication_schedules (self w) ++ [(uuid4, schedule)]
     /\ followup_schedules (self (snd rm)) = followup_schedules (self w)
     /\ is_running (self (snd rm)) = is_running (self w)
     /\ delivered (snd rm) = delivered w)
  /\ (exists schedule,
        followup_schedules (self (snd rf))
        = followup_schedules (self w) ++ [(uuid4, schedule)]
        /\ medication_schedules (self (snd rf)) = medication_schedules (self w)
        /\ is_running (self (snd rf)) = is_running (self w)
        /\ delivered (snd rf) = delivered w).
Proof.
  intros Hm Hf. cbv zeta. split.
  - pose proof (add_medication_schedule_world medication_name dosage times
                  duration_days start_date additional_notes chat_id uuid4 now w)
      as H.
    cbv zeta in H.
    destruct (delta <- timedelta_days duration_days;;
              Datetime.add match start_date with Some d => d | None => now end delta)
      as [end_date | e].
    + destruct H as (_ & Hs & _ & Hd). intros _.
      eexists. rewrite Hs, Hd. cbn. rewrite set_fresh by exact Hm.
      repeat split; reflexivity.
    + rewrite H. cbn. discriminate.
  - destruct (add_followup_schedule_world appointment_type appointment_date
                appointment_time location notes reminder_days_before uuid4 now w)
      as (_ & Hs & _ & Hd & _).
    eexists. rewrite Hs, Hd. cbn. rewrite set_fresh by exact Hf.
    repeat split; reflexivity.
Qed.

(** *** Runs without jobs, and runs without a loop *)

Lemma run_pending_no_jobs (now : datetime) (w : World) :
  jobs w = [] ->
  jobs (run_pending now w) = [] /\ delivered (run_pending now w) = delivered w
  /\ self (run_pending now w) = self w.
Proof.
  intros H. unfold run_pending. rewrite H. cbn. rewrite H. auto.
Qed.

Lemma exec_no_jobs (o : op) (w : World) :
  jobs w = [] -> adds_nothing o = true ->
  jobs (exec o w) = [] /\ delivered (exec o w) = delivered w.
Proof.
  intros Hj Ho. destruct o; try discriminate Ho; cbn [exec].
  - destruct (stop_medication_schedule_world schedule_id w) as (_ & _ & _ & H1 & H2).
    now rewrite H1, H2.
  - destruct (stop_followup_schedule_world schedule_id w) as (_ & _ & _ & H1 & H2).
    now rewrite H1, H2.
  - auto.
  - unfold start_scheduler. destruct (is_running (self w)); auto.
  - auto.
  - unfold tick. destruct (is_running (self w)); [| auto].
    destruct (run_pending_no_jobs now w Hj) as (H1 & H2 & _). auto.
  - auto.
Qed.

(** X4.  A scheduler that is constructed from the file registers no job for the
    schedules it loads.  After a restart, and as long as no schedule is
    added, the registry stays empty and no iteration of the loop delivers
    anything, whatever the file holds and whatever the clock shows. *)
Theorem reloaded_schedules_have_no_jobs (w : World) (ops : list op) :
  forallb adds_nothing ops = true ->
  jobs (run ops (exec NewProcess w)) = []
  /\ delivered (run ops (exec NewProcess w)) = delivered w.
Proof.
  intros Hops.
  assert (H : forall v, jobs v = [] ->
                        jobs (run ops v) = [] /\ delivered (run ops v) = delivered v).
  { revert Hops. unfold run. induction ops as [| o r IH]; intros Hops v Hv;
      [auto |].
    cbn [forallb] in Hops. apply andb_prop in Hops. destruct Hops as [Ho Hr].
    destruct (exec_no_jobs o v Hv Ho) as [H1 H2].
    cbn [fold_left]. destruct (IH Hr (exec o v) H1) as [H3 H4].
    split; [exact H3 | now rewrite H4]. }
  apply (H (exec NewProcess w)). reflexivity.
Qed.

Lemma load_medications_is_running (l : list json) :
  forall s, is_running (fst (load_medications l s)) = is_running s.
Proof.
  induction l as [| x r IH]; intros s; cbn; [reflexivity |].
  destruct (medication_of_json x); [| reflexivity]. now rewrite IH.
Qed.

Lemma load_followups_is_running (l : list json) :
  forall s, is_running (fst (load_followups l s)) = is_running s.
Proof.
  induction l as [| x r IH]; intros s; cbn; [reflexivity |].
  destruct (followup_of_json x); [| reflexivity]. now rewrite IH.
Qed.

Lemma init_is_running (d : storage) : is_running (__init__ d) = false.
Proof.
  unfold __init__, _load_schedules. destruct d as [| | data]; try reflexivity.
  destruct (bind (Json.get_default "medications" (JList []) data) Json.iter)
    as [meds | e]; [| reflexivity].
  pose proof (load_medications_is_running meds fresh_scheduler) as Hm.
  destruct (load_medications meds fresh_scheduler) as [s1 [e |]];
    cbn [fst] in *; [exact Hm |].
  destruct (bind (Json.get_default "followups" (JList []) data) Json.iter)
    as [fus | e]; [| exact Hm].
  now rewrite load_followups_is_running.
Qed.

Lemma exec_not_running (o : op) (w : World) :
  is_running (self w) = false -> starts_nothing o = true ->
  is_running (self (exec o w)) = false /\ delivered (exec o w) = delivered w.
Proof.
  intros Hr Ho. destruct o; try discriminate Ho; cbn [exec].
  - pose proof (add_medication_schedule_world medication_name dosage times
                  duration_days start_date additional_notes chat_id uuid4 now w)
      as H.
    cbv zeta in H.
    destruct (delta <- timedelta_days duration_days;;
              Datetime.add match start_date with Some d => d | None => now end delta)
      as [end_date | e].
    + destruct H as (_ & Hs & _ & Hd). now rewrite Hs, Hd.
    + rewrite H. auto.
  - destruct (add_followup_schedule_world appointment_type appointment_date
                appointment_time location notes reminder_days_before uuid4 now w)
      as (_ & Hs & _ & Hd & _).
    now rewrite Hs, Hd.
  - destruct (stop_medication_schedule_world schedule_id w) as (_ & _ & H1 & _ & H2).
    now rewrite H1, H2.
  - destruct (stop_followup_schedule_world schedule_id w) as (_ & _ & H1 & _ & H2).
    now rewrite H1, H2.
  - auto.
  - auto.
  - unfold tick. rewrite Hr. auto.
  - cbn. split; [apply init_is_running | reflexivity].
Qed.

End SchedulerFacts.

Section SchedulerRuns.
Context {L : Library}.
Hypothesis laws : library_laws L.
Import PyDictFacts.

(** X6.  At every point of a run the file is up to date: a scheduler that is
    constructed from it holds the schedules of the running one, in the
    same order and with the same fields, except that no schedule has a chat
    id and the loop is not running.  So a restart forgets nothing else. *)
Theorem file_describes_scheduler (d : storage) (ops : list op) :
  run_ok ops (boot d) = true ->
  let w := run ops (boot d) in
  well_formed (self w) = true
  /\ self (exec NewProcess w) = persisted_view (self w).
Proof.
  intros Hok w.
  assert (Hc : consistent w)
    by (apply (consistent_run laws); [apply (consistent_boot laws) | exact Hok]).
  destruct Hc as [Hwf Hsync]. split; [exact Hwf | exact Hsync].
Qed.

Lemma values_map_values {V : Type} (f : V -> V) (d : dict V) :
  PyDict.values (map (fun kv => (fst kv, f (snd kv))) d) = map f (PyDict.values d).
Proof. unfold PyDict.values. rewrite !map_map. reflexivity. Qed.

Lemma snapshot_persisted_view (s : HealthcareScheduler) :
  snapshot (persisted_view s) = snapshot s.
Proof.
  unfold snapshot, persisted_view. cbn [medication_schedules followup_schedules].
  rewrite values_map_values, map_map. reflexivity.
Qed.

(** X7.  Loading a file that [_save_schedules] wrote logs no error, and saving
    what was loaded writes the same file again. *)
Theorem saved_file_is_stable (w : World) :
  well_formed (self w) = true ->
  let loaded := _load_schedules (disk (_save_schedules w)) fresh_scheduler in
  snd loaded = None
  /\ disk (_save_schedules (set_self (fst loaded) w)) = disk (_save_schedules w).
Proof.
  intros Hwf. cbv zeta. cbn [_save_schedules disk self set_self].
  rewrite (load_snapshot laws _ Hwf). cbn [fst snd].
  split; [reflexivity |]. now rewrite snapshot_persisted_view.
Qed.

(** *** What keeps a schedule active *)

Lemma active_medication_until_ext (schedule_id : string) (limit : datetime)
    (w w' : World) :
  medication_schedules (self w') = medication_schedules (self w) ->
  active_medication_until schedule_id limit w ->
  active_medication_until schedule_id limit w'.
Proof. unfold active_medication_until. intros ->. auto. Qed.

Lemma send_medication_keeps_active (k schedule_id : string) (now limit : datetime)
    (w : World) :
  now <= limit ->
  active_medication_until schedule_id limit w ->
  active_medication_until schedule_id limit
    (fst (_send_medication_reminder k now w)).
Proof.
  intros Hnow (s & Hget & Hact & Hend). unfold _send_medication_reminder.
  destruct (PyDict.get k (medication_schedules (self w))) as [s0 |] eqn:Hk;
    [| exists s; auto].
  destruct (negb (Med.is_active s0)); [exists s; auto |].
  destruct (Med.end_date s0 <? now) eqn:Hexp; [| exists s; auto].
  apply Z.ltb_lt in Hexp. cbn [fst].
  exists s. split; [| auto].
  cbn [_save_schedules self set_self medication_schedules set_medications].
  destruct (String.eqb_spec schedule_id k) as [-> | Hne].
  - assert (s0 = s) by congruence. subst s0. lia.
  - now rewrite get_modify_other.
Qed.

Lemma run_pending_keeps_active (schedule_id : string) (now limit : datetime)
    (w : World) :
  now <= limit ->
  active_medication_until schedule_id limit w ->
  active_medication_until schedule_id limit (run_pending now w).
Proof.
  intros Hnow H. unfold run_pending.
  eapply active_medication_until_ext; [cbn [self]; reflexivity |].
  apply fold_left_invariant; [| exact H].
  intros v j Hv. destruct (run_job_self now v j) as (Hs & _ & _).
  eapply active_medication_until_ext; [now rewrite Hs |].
  destruct (job_do j) as [k | k n]; cbn [call_job_func].
  - now apply send_medication_keeps_active.
  - now rewrite send_followup_world.
Qed.

Lemma exec_keeps_active_medication (o : op) (w : World) (schedule_id : string)
    (limit : datetime) :
  same_process o = true -> op_ok w o = true ->
  keeps_medication schedule_id o = true -> ticks_until limit o = true ->
  active_medication_until schedule_id limit w ->
  active_medication_until schedule_id limit (exec o w).
Proof.
  intros Hsame Hok Hkeep Htick H. destruct o; try discriminate Hsame; cbn [exec].
  - pose proof (add_medication_schedule_world medication_name dosage times
                  duration_days start_date additional_notes chat_id uuid4 now w)
      as Hw.
    cbv zeta in Hw.
    destruct (delta <- timedelta_days duration_days;;
              Datetime.add match start_date with Some d => d | None => now end delta)
      as [end_date | e]; [| now rewrite Hw].
    destruct Hw as (_ & Hs & _).
    destruct H as (s & Hget & Hact & Hend). exists s. rewrite Hs.
    cbn [medication_schedules set_medications]. split; [| auto].
    rewrite get_set_other; [exact Hget |].
    intros ->. cbn [op_ok] in Hok.
    apply andb_prop in Hok. destruct Hok as [Hok _].
    apply andb_prop in Hok. destruct Hok as [Hok _].
    apply negb_true_iff, contains_false_get in Hok. congruence.
  - destruct (add_followup_schedule_world appointment_type appointment_date
                appointment_time location notes reminder_days_before uuid4 now w)
      as (_ & Hs & _).
    eapply active_medication_until_ext; [| exact H]. now rewrite Hs.
  - destruct (stop_medication_schedule_world schedule_id0 w) as (Hs & _).
    destruct H as (s & Hget & Hact & Hend). exists s. rewrite Hs.
    split; [| auto]. rewrite get_modify_other; [exact Hget |].
    cbn [keeps_medication] in Hkeep. apply negb_true_iff in Hkeep.
    intros ->. now rewrite String.eqb_refl in Hkeep.
  - destruct (stop_followup_schedule_world schedule_id0 w) as (_ & Hs & _).
    eapply active_medication_until_ext; [exact Hs | exact H].
  - exact H.
  - unfold start_scheduler. destruct (is_running (self w)); exact H.
  - exact H.
  - unfold tick. destruct (is_running (self w)); [| exact H].
    apply run_pending_keeps_active; [| exact H].
    cbn [ticks_until] in Htick. now apply Z.leb_le.
Qed.

Lemma run_pending_followups (now : datetime) (w : World) :
  followup_schedules (self (run_pending now w)) = followup_schedules (self w).
Proof.
  unfold run_pending. cbn [self].
  apply (fold_left_invariant
           (fun v => followup_schedules (self v) = followup_schedules (self w)));
    [| reflexivity].
  intros v j Hv. destruct (run_job_self now v j) as (Hs & _ & _).
  rewrite Hs, <- Hv. destruct (job_do j) as [k | k n]; cbn [call_job_func].
  - unfold _send_medication_reminder.
    destruct (PyDict.get k (medication_schedules (self v))) as [s |];
      [| reflexivity].
    destruct (negb (Med.is_active s)); [reflexivity |].
    destruct (Med.end_date s <? now); reflexivity.
  - now rewrite send_followup_world.
Qed.

Lemma exec_keeps_active_followup (o : op) (w : World) (schedule_id : string) :
  same_process o = true -> op_ok w o = true ->
  keeps_followup schedule_id o = true ->
  followup_active schedule_id w = Some true ->
  followup_active schedule_id (exec o w) = Some true.
Proof.
  intros Hsame Hok Hkeep H. unfold followup_active in *.
  destruct o; try discriminate Hsame; cbn [exec].
  - pose proof (add_medication_schedule_world medication_name dosage times
                  duration_days start_date additional_notes chat_id uuid4 now w)
      as Hw.
    cbv zeta in Hw.
    destruct (delta <- timedelta_days duration_days;;
              Datetime.add match start_date with Some d => d | None => now end delta)
      as [end_date | e]; [| now rewrite Hw].
    destruct Hw as (_ & Hs & _). now rewrite Hs.
  - destruct (add_followup_schedule_world appointment_type appointment_date
                appointment_time location notes reminder_days_before uuid4 now w)
      as (_ & Hs & _).
    rewrite Hs. cbn [followup_schedules set_followups].
    rewrite get_set_other; [exact H |].
    intros ->. cbn [op_ok] in Hok.
    apply andb_prop in Hok. destruct Hok as [Hok _].
    apply andb_prop in Hok. destruct Hok as [Hok _].
    apply negb_true_iff, contains_false_get in Hok.
    rewrite Hok in H. discriminate.
  - destruct (stop_medication_schedule_world schedule_id0 w) as (_ & Hs & _).
    now rewrite Hs.
  - destruct (stop_followup_schedule_world schedule_id0 w) as (Hs & _).
    rewrite Hs, get_modify_other; [exact H |].
    cbn [keeps_followup] in Hkeep. apply negb_true_iff in Hkeep.
    intros ->. now rewrite String.eqb_refl in Hkeep.
  - exact H.
  - unfold start_scheduler. destruct (is_running (self w)); exact H.
  - exact H.
  - unfold tick. destruct (is_running (self w)); [| exact H].
    now rewrite run_pending_followups.
Qed.

End SchedulerRuns.

(** *** The jobs a schedule gets *)

Section Registration.
Context {L : Library}.
Hypothesis laws : library_laws L.
Import PyDictFacts.

Lemma schedule_medication_loop_stops (schedule_id : string)
    (pre : list string) (bad : string) (rest : list string) (now : datetime) :
  at_time bad = None ->
  forall w,
    schedule_medication_loop schedule_id (pre ++ bad :: rest) now w
    = schedule_medication_loop schedule_id pre now w.
Proof.
  intros Hbad. induction pre as [| time_str r IH]; intros w; cbn.
  - unfold every_day_at_do. now rewrite Hbad.
  - destruct (every_day_at_do time_str (send_medication schedule_id) now w);
      [apply IH | reflexivity].
Qed.

Lemma schedule_followup_loop_stops (schedule : Fu.t) (pre : list Z) (bad : Z)
    (rest : list Z) (now : datetime) (e : exn) :
  reminder_date_of (Fu.appointment_date schedule) bad = Raises e ->
  forall w,
    schedule_followup_loop schedule (pre ++ bad :: rest) now w
    = schedule_followup_loop schedule pre now w.
Proof.
  intros Hbad. induction pre as [| days_before r IH]; intros w; cbn.
  - now rewrite Hbad.
  - destruct (reminder_date_of (Fu.appointment_date schedule) days_before);
      [| reflexivity].
    destruct (now <? a); [| apply IH].
    destruct (every_day_at_do "09:00"
                (send_followup (Fu.id schedule) days_before) now w);
      [apply IH | reflexivity].
Qed.

Lemma schedule_followup_loop_schedule (s1 s2 : Fu.t) (l : list Z)
    (now : datetime) :
  Fu.id s1 = Fu.id s2 -> Fu.appointment_date s1 = Fu.appointment_date s2 ->
  forall w, schedule_followup_loop s1 l now w = schedule_followup_loop s2 l now w.
Proof.
  intros Hid Hdate. induction l as [| n r IH]; intros w; cbn; [reflexivity |].
  rewrite Hid, Hdate.
  destruct (reminder_date_of (Fu.appointment_date s2) n); [| reflexivity].
  destruct (now <? a); [| apply IH].
  destruct (every_day_at_do "09:00" (send_followup (Fu.id s2) n) now w);
    [apply IH | reflexivity].
Qed.

(** X9.  When the registry rejects a time string, or the date of a follow-up
    reminder cannot be computed, the registration loop ends there and the
    error is only logged: the entries after it get no job, exactly as if
    the list had ended before the failing entry.  The call still returns
    the id, and the schedule is stored with the list as given. *)
Theorem failed_registration_drops_the_rest
    (medication_name dosage : string) (pre : list string) (bad : string)
    (rest : list string) (duration_days : Z) (start_date : option datetime)
    (additional_notes : string) (chat_id : option string)
    (appointment_type : string) (appointment_date : datetime)
    (appointment_time location notes : string)
    (before : list Z) (overflowing : Z) (after : list Z)
    (uuid4 : string) (now : datetime) (w : World) :
  (at_time bad = None ->
   let rm := add_medication_schedule medication_name dosage (pre ++ bad :: rest)
               duration_days start_date additional_notes chat_id uuid4 now w in
   let rm' := add_medication_schedule medication_name dosage pre
                duration_days start_date additional_notes chat_id uuid4 now w in
   jobs (snd rm) = jobs (snd rm') /\ fst rm = fst rm'
   /\ (fst rm = Returns uuid4 ->
       option_map Med.times
         (PyDict.get uuid4 (medication_schedules (self (snd rm))))
       = Some (pre ++ bad :: rest)))
  /\ ((exists e, reminder_date_of appointment_date overflowing = Raises e) ->
      let rf := add_followup_schedule appointment_type appointment_date
                  appointment_time location notes
                  (Some (before ++ overflowing :: after)) uuid4 now w in
      let rf' := add_followup_schedule appointment_type appointment_date
                   appointment_time location notes (Some before) uuid4 now w in
      jobs (snd rf) = jobs (snd rf') /\ fst rf = uuid4
      /\ option_map Fu.reminder_days_before
           (PyDict.get uuid4 (followup_schedules (self (snd rf))))
         = Some (before ++ overflowing :: after)).
Proof.
  split.
  - intros Hbad. cbv zeta.
    pose proof (add_medication_schedule_world medication_name dosage
                  (pre ++ bad :: rest) duration_days start_date additional_notes
                  chat_id uuid4 now w) as H.
    pose proof (add_medication_schedule_world medication_name dosage pre
                  duration_days start_date additional_notes chat_id uuid4 now w)
      as H'.
    cbv zeta in H, H'.
    destruct (delta <- timedelta_days duration_days;;
              Datetime.add match start_date with Some d => d | None => now end delta)
      as [end_date | e0].
    + destruct H as (Hr & Hs & Hj & _), H' as (Hr' & _ & Hj' & _).
      rewrite Hj, Hj', Hr, Hr', Hs.
      rewrite (schedule_medication_loop_stops uuid4 pre bad rest now Hbad).
      cbn [medication_schedules set_medications]. rewrite get_set_same.
      repeat split.
    + rewrite H, H'. cbn. repeat split. discriminate.
  - intros [e Hover]. cbv zeta.
    destruct (add_followup_schedule_world appointment_type appointment_date
                appointment_time location notes
                (Some (before ++ overflowing :: after)) uuid4 now w)
      as (Hr & Hs & Hj & _).
    destruct (add_followup_schedule_world appointment_type appointment_date
                appointment_time location notes (Some before) uuid4 now w)
      as (_ & _ & Hj' & _).
    rewrite Hj, Hj', Hr, Hs.
    cbn [followup_schedules set_followups]. rewrite get_set_same.
    split; [| split; reflexivity].
    rewrite (schedule_followup_loop_stops _ before overflowing after now e)
      by exact Hover.
    f_equal. apply schedule_followup_loop_schedule; reflexivity.
Qed.

Lemma next_occurrence_within_a_day (a : Z) (now : datetime) :
  0 <= a < usec_per_day ->
  now < next_occurrence a now <= now + usec_per_day.
Proof.
  intros Ha. unfold next_occurrence, date.
  pose proof (Z.div_mod now usec_per_day) as Hdm.
  pose proof (Z.mod_pos_bound now usec_per_day) as Hm.
  unfold usec_per_day, usec_per_second in *.
  destruct (now <? now / (86400 * 1000000) * (86400 * 1000000) + a) eqn:E;
    [apply Z.ltb_lt in E | apply Z.ltb_ge in E]; lia.
Qed.

Lemma schedule_medication_loop_parsed (schedule_id : string) (now : datetime)
    (times : list string) :
  forall (ts : list Z) (w : World),
    map at_time times = map Some ts ->
    jobs (schedule_medication_loop schedule_id times now w)
    = jobs w
      ++ map (fun t => {| job_at := t; job_do := send_medication schedule_id;
                          next_run := next_occurrence t now |}) ts.
Proof.
  induction times as [| time_str r IH]; intros [| t ts] w H; try discriminate H;
    cbn.
  - now rewrite app_nil_r.
  - cbn in H. injection H as Ht Hr. unfold every_day_at_do. rewrite Ht.
    rewrite (IH ts) by exact Hr. cbn [jobs add_job].
    now rewrite <- app_assoc.
Qed.

(** X10.  When the registry accepts every entry of [times], a medication
    schedule gets one daily job per entry, in the order of the list.  Each
    job first falls due at its time of day strictly after the clock of the
    call and at most a day later, whatever [start_date] was given: a time
    of day that has passed, or is the very instant of the call, waits for
    the next day. *)
Theorem medication_jobs_registered
    (medication_name dosage : string) (times : list string) (duration_days : Z)
    (start_date : option datetime) (additional_notes : string)
    (chat_id : option string) (uuid4 : string) (now : datetime) (w : World)
    (ts : list Z) :
  map at_time times = map Some ts ->
  let r := add_medication_schedule medication_name dosage times duration_days
             start_date additional_notes chat_id uuid4 now w in
  fst r = Returns uuid4 ->
  jobs (snd r)
  = jobs w
    ++ map (fun t => {| job_at := t; job_do := send_medication uuid4;
                        next_run := next_occurrence t now |}) ts
  /\ (forall t, In t ts ->
                now < next_occurrence t now <= now + usec_per_day
                /\ Datetime.time (next_occurrence t now) = t).
Proof.
  intros Hts r Hr. subst r.
  pose proof (add_medication_schedule_world medication_name dosage times
                duration_days start_date additional_notes chat_id uuid4 now w)
    as H.
  cbv zeta in H.
  destruct (delta <- timedelta_days duration_days;;
            Datetime.add match start_date with Some d => d | None => now end delta)
    as [end_date | e].
  - destruct H as (_ & _ & Hj & _). split.
    + rewrite Hj. now apply schedule_medication_loop_parsed.
    + intros t Hin.
      assert (Ht : 0 <= t < usec_per_day).
      { destruct laws as (_ & _ & Hat).
        assert (Hs : In (Some t) (map at_time times))
          by (rewrite Hts; now apply in_map).
        apply in_map_iff in Hs. destruct Hs as (time_str & Hs & _).
        now apply (Hat time_str). }
      split; [now apply next_occurrence_within_a_day
             | now apply next_occurrence_time].
  - rewrite H in Hr. discriminate Hr.
Qed.

Lemma schedule_followup_loop_registered (schedule : Fu.t) (now : datetime)
    (t : Z) (l : list Z) :
  at_time "09:00" = Some t ->
  (forall n, In n l ->
             exists reminder_date,
               reminder_date_of (Fu.appointment_date schedule) n
               = Returns reminder_date) ->
  forall w,
    jobs (schedule_followup_loop schedule l now w)
    = jobs w
      ++ map (fun n => {| job_at := t; job_do := send_followup (Fu.id schedule) n;
                          next_run := next_occurrence t now |})
           (filter (fun n => now <? Fu.appointment_date schedule - n * usec_per_day)
              l).
Proof.
  intros Ht. induction l as [| n r IH]; intros Hall w;
    cbn [schedule_followup_loop filter map].
  - now rewrite app_nil_r.
  - destruct (Hall n (or_introl eq_refl)) as [reminder_date Hn].
    rewrite Hn. apply reminder_date_of_returns in Hn. subst reminder_date.
    assert (Hr : forall m, In m r ->
                   exists reminder_date,
                     reminder_date_of (Fu.appointment_date schedule) m
                     = Returns reminder_date)
      by (intros m Hm; apply Hall; now right).
    destruct (now <? Fu.appointment_date schedule - n * usec_per_day).
    + unfold every_day_at_do. rewrite Ht. rewrite (IH Hr).
      cbn [jobs add_job map]. rewrite <- app_assoc. reflexivity.
    + apply (IH Hr).
Qed.

(** X11.  A follow-up schedule gets a daily 09:00 job for an offset exactly when
    the reminder date, the appointment date less that many days, is
    strictly after the clock of the call.  For an appointment that is not
    in the future no offset of zero or more days gets a job, so no reminder
    will ever be sent, while the schedule is stored as active. *)
Theorem followup_jobs_registered
    (appointment_type : string) (appointment_date : datetime)
    (appointment_time location notes : string)
    (reminder_days_before : option (list Z)) (uuid4 : string) (now : datetime)
    (w : World) (t : Z) :
  at_time "09:00" = Some t ->
  let l := match reminder_days_before with Some l => l | None => [1; 3; 7] end in
  (forall n, In n l ->
             exists reminder_date,
               reminder_date_of appointment_date n = Returns reminder_date) ->
  let r := add_followup_schedule appointment_type appointment_date
             appointment_time location notes reminder_days_before uuid4 now w in
  jobs (snd r)
  = jobs w
    ++ map (fun n => {| job_at := t; job_do := send_followup uuid4 n;
                        next_run := next_occurrence t now |})
         (filter (fun n => now <? appointment_date - n * usec_per_day) l)
  /\ (appointment_date <= now -> (forall n, In n l -> 0 <= n) ->
      jobs (snd r) = jobs w
      /\ followup_active uuid4 (snd r) = Some true).
Proof.
  intros Ht l Hall r. subst r.
  destruct (add_followup_schedule_world appointment_type appointment_date
              appointment_time location notes reminder_days_before uuid4 now w)
    as (_ & Hs & Hj & _).
  fold l in Hs, Hj.
  assert (Hjobs : jobs (snd (add_followup_schedule appointment_type
                               appointment_date appointment_time location notes
                               reminder_days_before uuid4 now w))
                  = jobs w
                    ++ map (fun n => {| job_at := t;
                                        job_do := send_followup uuid4 n;
                                        next_run := next_occurrence t now |})
                         (filter (fun n => now <? appointment_date
                                                  - n * usec_per_day) l)).
  { rewrite Hj.
    rewrite (schedule_followup_loop_registered _ now t l Ht) by exact Hall.
    reflexivity. }
  split; [exact Hjobs |].
  intros Hpast Hpos. split.
  - rewrite Hjobs.
    replace (filter (fun n => now <? appointment_date - n * usec_per_day) l)
      with (@nil Z); [now rewrite app_nil_r |].
    symmetry. clear - Hpast Hpos.
    induction l as [| n r IH]; cbn [filter]; [reflexivity |].
    assert (Hn : 0 <= n) by (apply Hpos; now left).
    assert (E : (now <? appointment_date - n * usec_per_day) = false).
    { apply Z.ltb_ge. unfold usec_per_day, usec_per_second. nia. }
    rewrite E. apply IH. intros m Hm. apply Hpos. now right.
  - unfold followup_active. rewrite Hs.
    cbn [followup_schedules set_followups]. now rewrite get_set_same.
Qed.

Lemma exec_keeps_jobs (o : op) (w : World) :
  same_process o = true ->
  exists added,
    map (fun j => (job_at j, job_do j)) (jobs (exec o w))
    = map (fun j => (job_at j, job_do j)) (jobs w) ++ added.
Proof.
  intros Ho. destruct o; try discriminate Ho; cbn [exec].
  - pose proof (add_medication_schedule_world medication_name dosage times
                  duration_days start_date additional_notes chat_id uuid4 now w)
      as H.
    cbv zeta in H.
    destruct (delta <- timedelta_days duration_days;;
              Datetime.add match start_date with Some d => d | None => now end delta)
      as [end_date | e].
    + destruct H as (_ & _ & Hj & _).
      destruct (schedule_medication_loop_jobs laws uuid4 times now w)
        as (added & Ha & _).
      exists (map (fun j => (job_at j, job_do j)) added).
      now rewrite Hj, Ha, map_app.
    + rewrite H. exists []. now rewrite app_nil_r.
  - destruct (add_followup_schedule_world appointment_type appointment_date
                appointment_time location notes reminder_days_before uuid4 now w)
      as (_ & _ & Hj & _).
    match type of Hj with
    | _ = jobs (schedule_followup_loop ?s ?l _ _) =>
        destruct (schedule_followup_loop_jobs laws s l now w) as (added & Ha & _)
    end.
    exists (map (fun j => (job_at j, job_do j)) added).
    now rewrite Hj, Ha, map_app.
  - destruct (stop_medication_schedule_world schedule_id w) as (_ & _ & _ & Hj & _).
    exists []. now rewrite Hj, app_nil_r.
  - destruct (stop_followup_schedule_world schedule_id w) as (_ & _ & _ & Hj & _).
    exists []. now rewrite Hj, app_nil_r.
  - exists []. now rewrite app_nil_r.
  - exists []. rewrite app_nil_r. unfold start_scheduler.
    now destruct (is_running (self w)).
  - exists []. now rewrite app_nil_r.
  - exists []. rewrite app_nil_r. unfold tick.
    destruct (is_running (self w)); [| reflexivity].
    unfold run_pending. cbn [jobs].
    destruct (fold_run_job_count now (send_medication "") None 0
                (sorted (filter (should_run now) (jobs w))) w) as (Hj & _).
    rewrite Hj, map_map. apply map_ext. intros j.
    unfold reschedule. now destruct (should_run now j).
Qed.

(** X12.  Within a process no job ever leaves the registry.  Stopping a
    schedule, the expiry of a medication schedule and the passing of an
    appointment leave the daily jobs where they are, each with its time of
    day and its function: the registry only grows, by the jobs of the
    schedules that are added. *)
Theorem jobs_are_never_cancelled (w : World) (ops : list op) :
  forallb same_process ops = true ->
  exists added,
    map (fun j => (job_at j, job_do j)) (jobs (run ops w))
    = map (fun j => (job_at j, job_do j)) (jobs w) ++ added.
Proof.
  revert w. unfold run. induction ops as [| o r IH]; intros w Hops.
  - exists []. now rewrite app_nil_r.
  - cbn [forallb fold_left] in *. apply andb_prop in Hops.
    destruct Hops as [Ho Hr].
    destruct (exec_keeps_jobs o w Ho) as (a1 & H1).
    destruct (IH (exec o w) Hr) as (a2 & H2).
    exists (a1 ++ a2). now rewrite H2, H1, app_assoc.
Qed.

End Registration.

(** *** One iteration of the loop *)

Section Dispatch.
Context {L : Library}.
Import PyDictFacts.

Lemma expired_at_calls (now : datetime) (w v : World) (f : job_func) :
  expired_at now w v ->
  snd (call_job_func f now v) = snd (call_job_func f now w).
Proof.
  intros [Hf Hm]. destruct f as [k | k n]; cbn [call_job_func].
  - unfold _send_medication_reminder.
    destruct (Hm k) as [-> | (s & Hw & Hend & Hv)].
    + destruct (PyDict.get k (medication_schedules (self w))) as [s |];
        [| reflexivity].
      destruct (negb (Med.is_active s)); [reflexivity |].
      destruct (Med.end_date s <? now); reflexivity.
    + rewrite Hv, Hw. cbn [Med.set_is_active Med.is_active negb snd].
      apply Z.ltb_lt in Hend.
      destruct (negb (Med.is_active s)); [reflexivity |].
      cbn [Med.end_date]. now rewrite Hend.
  - unfold _send_followup_reminder. rewrite Hf.
    destruct (PyDict.get k (followup_schedules (self w))) as [s |];
      [| reflexivity].
    destruct (negb (Fu.is_active s)); [reflexivity |].
    destruct (reminder_date_of (Fu.appointment_date s) n); [| reflexivity].
    destruct (negb (date a =? date now)); reflexivity.
Qed.

Lemma expired_at_step (now : datetime) (w v : World) (f : job_func) :
  expired_at now w v -> expired_at now w (fst (call_job_func f now v)).
Proof.
  intros [Hf Hm]. destruct f as [k | k n]; cbn [call_job_func].
  - unfold _send_medication_reminder.
    destruct (PyDict.get k (medication_schedules (self v))) as [s0 |] eqn:Hk;
      [| split; assumption].
    destruct (negb (Med.is_active s0)) eqn:Hact; [split; assumption |].
    destruct (Med.end_date s0 <? now) eqn:Hexp; [| split; assumption].
    apply Z.ltb_lt in Hexp. apply negb_false_iff in Hact.
    split; [exact Hf |]. intros k'.
    cbn [fst _save_schedules self set_self medication_schedules
           followup_schedules set_medications].
    destruct (String.eqb_spec k' k) as [-> | Hne].
    + right. rewrite get_modify_same, Hk. cbn [option_map].
      destruct (Hm k) as [E | (s & Hw & Hend & Hv)].
      * exists s0. rewrite <- E, Hk. auto.
      * rewrite Hv in Hk. injection Hk as <-. discriminate Hact.
    + rewrite get_modify_other by exact Hne. apply Hm.
  - now rewrite send_followup_world.
Qed.

Lemma fold_run_job_deliveries (now : datetime) (w : World) (l : list Job) :
  forall v,
    expired_at now w v ->
    delivered (fold_left (run_job now) l v)
    = delivered v ++ flat_map (deliveries_of_job now w) l.
Proof.
  induction l as [| j r IH]; intros v Hv; cbn [fold_left flat_map].
  - now rewrite app_nil_r.
  - rewrite IH.
    + unfold run_job at 1, deliveries_of_job at 2.
      rewrite <- (expired_at_calls now w v (job_do j) Hv).
      destruct (call_job_func_delivered (job_do j) now v) as [Hd _].
      destruct (call_job_func (job_do j) now v) as [v' calls].
      cbn [fst snd delivered] in *. now rewrite Hd, app_assoc.
    + destruct (run_job_self now v j) as (Hs & _ & _).
      destruct (expired_at_step now w v (job_do j) Hv) as [Hf Hm].
      split; rewrite Hs; assumption.
Qed.

Lemma In_insert_job (j x : Job) (l : list Job) :
  In x (insert_job j l) <-> x = j \/ In x l.
Proof.
  induction l as [| k r IH]; cbn.
  - intuition.
  - destruct (next_run k <? next_run j); cbn; rewrite ?IH; intuition.
Qed.

Lemma In_sorted (x : Job) (l : list Job) : In x (sorted l) <-> In x l.
Proof.
  induction l as [| j r IH]; cbn; [tauto |].
  rewrite In_insert_job, IH. intuition.
Qed.

Lemma fires_calls (f : job_func) (now : datetime) (w : World) :
  fires f now w -> exists c, snd (call_job_func f now w) = [c].
Proof.
  destruct f as [k | k n]; cbn [fires call_job_func].
  - intros (s & Hget & Hact & Hend). unfold _send_medication_reminder.
    rewrite Hget, Hact. cbn [negb].
    assert (E : (Med.end_date s <? now) = false) by (apply Z.ltb_ge; lia).
    rewrite E. eexists. reflexivity.
  - intros (s & reminder_date & Hget & Hact & Hdate & Hday).
    unfold _send_followup_reminder. rewrite Hget, Hact, Hdate. cbn [negb].
    rewrite Hday, Z.eqb_refl. eexists. reflexivity.
Qed.

(** X13.  One iteration of the running loop delivers for every due job what that
    job's function sends in the world the iteration starts from, in the
    order in which the jobs fell due: a job that was run earlier in the
    iteration never changes what a later one sends.  So every due job
    whose schedule is active and not over (a medication), or is active on
    the day of the reminder (a follow-up), does deliver. *)
Theorem tick_delivers_every_due_job (now : datetime) (w : World) :
  is_running (self w) = true ->
  delivered (exec (Tick now) w)
  = delivered w
    ++ flat_map (deliveries_of_job now w)
         (sorted (filter (should_run now) (jobs w)))
  /\ (forall j,
         In j (jobs w) -> next_run j <= now -> fires (job_do j) now w ->
         exists c,
           In {| by_job := j; sent_at := now; call := c |}
             (delivered (exec (Tick now) w))).
Proof.
  intros Hrun.
  assert (Heq : delivered (exec (Tick now) w)
                = delivered w
                  ++ flat_map (deliveries_of_job now w)
                       (sorted (filter (should_run now) (jobs w)))).
  { cbn [exec]. unfold tick. rewrite Hrun. unfold run_pending.
    cbn [delivered]. apply fold_run_job_deliveries.
    split; [reflexivity | intros k; now left]. }
  split; [exact Heq |].
  intros j Hin Hdue Hfires. destruct (fires_calls _ _ _ Hfires) as [c Hc].
  exists c. rewrite Heq. apply in_or_app. right.
  apply in_flat_map. exists j. split.
  - apply In_sorted, filter_In. split; [exact Hin |].
    unfold should_run. now apply Z.leb_le.
  - unfold deliveries_of_job. rewrite Hc. now left.
Qed.

End Dispatch.

(** *** What a reminder says *)

Section Contents.
Context {L : Library}.
Hypothesis laws : library_laws L.
Import PyDictFacts.

Lemma chat_kept_refl (w : World) : chat_kept w w.
Proof. intros k s H. exists s. auto. Qed.

Lemma chat_kept_trans (w1 w2 w3 : World) :
  chat_kept w1 w2 -> chat_kept w2 w3 -> chat_kept w1 w3.
Proof.
  intros H12 H23 k s H. destruct (H12 k s H) as (s2 & H2 & Hc2).
  destruct (H23 k s2 H2) as (s3 & H3 & Hc3). exists s3. split; [exact H3 |].
  destruct Hc3 as [Hc3 | Hc3]; [rewrite Hc3; exact Hc2 | now right].
Qed.

Lemma chat_kept_ext (w w1 w2 : World) :
  medication_schedules (self w1) = medication_schedules (self w2) ->
  chat_kept w w1 -> chat_kept w w2.
Proof. intros E H k s Hk. rewrite <- E. now apply H. Qed.

Lemma chat_kept_modify (k : string) (b : bool) (w w' : World) :
  medication_schedules (self w')
  = PyDict.modify k (Med.set_is_active b) (medication_schedules (self w)) ->
  chat_kept w w'.
Proof.
  intros E k' s H. rewrite E.
  destruct (String.eqb_spec k' k) as [-> | Hne].
  - rewrite get_modify_same, H. eexists. split; [reflexivity | now left].
  - rewrite get_modify_other by exact Hne. exists s. auto.
Qed.

Lemma chat_kept_call_job_func (f : job_func) (now : datetime) (w : World) :
  chat_kept w (fst (call_job_func f now w)).
Proof.
  destruct f as [k | k n]; cbn [call_job_func].
  - unfold _send_medication_reminder.
    destruct (PyDict.get k (medication_schedules (self w))) as [s |];
      [| apply chat_kept_refl].
    destruct (negb (Med.is_active s)); [apply chat_kept_refl |].
    destruct (Med.end_date s <? now); [| apply chat_kept_refl].
    now apply (chat_kept_modify k false).
  - rewrite send_followup_world. apply chat_kept_refl.
Qed.

Lemma chat_kept_run_job (now : datetime) (w : World) (j : Job) :
  chat_kept w (run_job now w j).
Proof.
  destruct (run_job_self now w j) as (Hs & _ & _).
  eapply chat_kept_ext; [| apply (chat_kept_call_job_func (job_do j) now w)].
  now rewrite Hs.
Qed.

Lemma chat_kept_fold_run_job (now : datetime) (l : list Job) :
  forall w, chat_kept w (fold_left (run_job now) l w).
Proof.
  induction l as [| j r IH]; intros w; cbn; [apply chat_kept_refl |].
  eapply chat_kept_trans; [apply chat_kept_run_job | apply IH].
Qed.

Lemma chat_kept_exec (o : op) (w : World) :
  consistent w -> op_ok w o = true -> chat_kept w (exec o w).
Proof.
  intros [Hwf Hsync] Hok. destruct o; cbn [exec].
  - pose proof (add_medication_schedule_world medication_name dosage times
                  duration_days start_date additional_notes chat_id uuid4 now w)
      as Hw.
    cbv zeta in Hw.
    destruct (delta <- timedelta_days duration_days;;
              Datetime.add match start_date with Some d => d | None => now end delta)
      as [end_date | e]; [| rewrite Hw; apply chat_kept_refl].
    destruct Hw as (_ & Hs & _). intros k s H. exists s. rewrite Hs.
    cbn [medication_schedules set_medications]. split; [| now left].
    rewrite get_set_other; [exact H |].
    intros ->. cbn [op_ok] in Hok.
    apply andb_prop in Hok. destruct Hok as [Hok _].
    apply andb_prop in Hok. destruct Hok as [Hok _].
    apply negb_true_iff, contains_false_get in Hok. congruence.
  - destruct (add_followup_schedule_world appointment_type appointment_date
                appointment_time location notes reminder_days_before uuid4 now w)
      as (_ & Hs & _).
    eapply chat_kept_ext; [| apply chat_kept_refl]. now rewrite Hs.
  - destruct (stop_medication_schedule_world schedule_id w) as (Hs & _).
    now apply (chat_kept_modify schedule_id false).
  - destruct (stop_followup_schedule_world schedule_id w) as (_ & Hs & _).
    eapply chat_kept_ext; [| apply chat_kept_refl]. now rewrite Hs.
  - apply chat_kept_refl.
  - unfold start_scheduler. destruct (is_running (self w));
      [apply chat_kept_refl |].
    eapply chat_kept_ext; [| apply chat_kept_refl]. reflexivity.
  - eapply chat_kept_ext; [| apply chat_kept_refl]. reflexivity.
  - unfold tick. destruct (is_running (self w)); [| apply chat_kept_refl].
    unfold run_pending.
    eapply chat_kept_ext;
      [| apply (chat_kept_fold_run_job now
                  (sorted (filter (should_run now) (jobs w))) w)].
    reflexivity.
  - intros k s H. cbn [self]. unfold in_sync in Hsync. rewrite Hsync.
    unfold persisted_view. cbn [medication_schedules].
    rewrite get_map_values, H. eexists. split; [reflexivity | now right].
Qed.

Lemma chat_kept_run (ops : list op) :
  forall w, consistent w -> run_ok ops w = true -> chat_kept w (run ops w).
Proof.
  unfold run. induction ops as [| o r IH]; intros w Hc Hok;
    [apply chat_kept_refl |].
  cbn [run_ok fold_left] in *. apply andb_prop in Hok. destruct Hok as [Ho Hr].
  eapply chat_kept_trans; [apply (chat_kept_exec o w Hc Ho) |].
  apply IH; [now apply (consistent_exec laws) | exact Hr].
Qed.

Lemma sent_between_widen (w0 w1 w2 w3 : World) (e : delivery) :
  evolves w0 w1 -> evolves w2 w3 -> chat_kept w2 w3 ->
  sent_between w1 w2 e -> sent_between w0 w3 e.
Proof.
  intros H01 H23 C23 (wm & H1m & Hm2 & Cm2 & Hc).
  exists wm. split; [| split; [| split]].
  - eapply evolves_trans; eassumption.
  - eapply evolves_trans; eassumption.
  - eapply chat_kept_trans; eassumption.
  - exact Hc.
Qed.

Lemma fold_run_job_sent (now : datetime) (l : list Job) :
  forall w,
  exists new,
    delivered (fold_left (run_job now) l w) = delivered w ++ new
    /\ Forall (sent_between w (fold_left (run_job now) l w)) new.
Proof.
  induction l as [| j r IH]; intros w; cbn [fold_left].
  - exists []. split; [now rewrite app_nil_r | constructor].
  - destruct (IH (run_job now w j)) as (new2 & Hd2 & Hn2).
    exists (map (fun c => {| by_job := j; sent_at := now; call := c |})
              (snd (call_job_func (job_do j) now w)) ++ new2).
    split.
    + rewrite Hd2, app_assoc. f_equal. unfold run_job.
      destruct (call_job_func_delivered (job_do j) now w) as [Hd _].
      destruct (call_job_func (job_do j) now w) as [w' calls].
      cbn [fst snd delivered] in *. now rewrite Hd.
    + apply Forall_app. split.
      * destruct (call_job_func_fires (job_do j) now w)
          as [Hn | (c & Hc & _)]; rewrite ?Hn, ?Hc; [constructor |].
        repeat constructor. exists w. cbn [by_job sent_at call].
        split; [apply evolves_refl |].
        split; [apply (evolves_fold_run_job now (j :: r) w) |].
        split; [apply (chat_kept_fold_run_job now (j :: r) w) | exact Hc].
      * eapply Forall_impl; [| exact Hn2]. intros e He.
        eapply sent_between_widen;
          [apply evolves_run_job | apply evolves_refl | apply chat_kept_refl
          | exact He].
Qed.

Lemma exec_delivered_unless_tick (o : op) (w : World) :
  match o with Tick _ => True | _ => delivered (exec o w) = delivered w end.
Proof.
  destruct o; cbn [exec]; try reflexivity; try exact I.
  - pose proof (add_medication_schedule_world medication_name dosage times
                  duration_days start_date additional_notes chat_id uuid4 now w)
      as H.
    cbv zeta in H.
    destruct (delta <- timedelta_days duration_days;;
              Datetime.add match start_date with Some d => d | None => now end delta)
      as [end_date | e]; [apply H | now rewrite H].
  - apply (add_followup_schedule_world appointment_type appointment_date
             appointment_time location notes reminder_days_before uuid4 now w).
  - apply (stop_medication_schedule_world schedule_id w).
  - apply (stop_followup_schedule_world schedule_id w).
  - unfold start_scheduler. now destruct (is_running (self w)).
Qed.

Lemma exec_sent (o : op) (w : World) :
  exists new,
    delivered (exec o w) = delivered w ++ new
    /\ Forall (sent_between w (exec o w)) new.
Proof.
  pose proof (exec_delivered_unless_tick o w) as H.
  destruct o;
    try (exists []; split; [now rewrite app_nil_r | constructor]).
  clear H. cbn [exec]. unfold tick.
  destruct (is_running (self w));
    [| exists []; split; [now rewrite app_nil_r | constructor]].
  unfold run_pending. cbn [delivered].
  destruct (fold_run_job_sent now
              (sorted (filter (should_run now) (jobs w))) w)
    as (new & Hd & Hn).
  exists new. split; [exact Hd |].
  eapply Forall_impl; [| exact Hn]. intros e (wm & H1 & H2 & H3 & H4).
  exists wm. split; [exact H1 |]. split; [| split; [| exact H4]].
  - eapply evolves_ext; [| | exact H2]; reflexivity.
  - eapply chat_kept_ext; [| exact H3]. reflexivity.
Qed.

Lemma run_sent (ops : list op) :
  forall w,
    consistent w -> run_ok ops w = true ->
    exists new,
      delivered (run ops w) = delivered w ++ new
      /\ Forall (sent_between w (run ops w)) new.
Proof.
  induction ops as [| o r IH]; intros w Hc Hok.
  - exists []. split; [now rewrite app_nil_r | constructor].
  - cbn [run_ok] in Hok. apply andb_prop in Hok. destruct Hok as [Ho Hr].
    destruct (exec_sent o w) as (new1 & Hd1 & Hn1).
    pose proof (consistent_exec laws o w Hc Ho) as Hc'.
    destruct (IH (exec o w) Hc' Hr) as (new2 & Hd2 & Hn2).
    change (run (o :: r) w) with (run r (exec o w)).
    exists (new1 ++ new2). split.
    + rewrite Hd2, Hd1. now rewrite app_assoc.
    + apply Forall_app. split.
      * eapply Forall_impl; [| exact Hn1]. intros e He.
        eapply sent_between_widen;
          [apply evolves_refl | apply (evolves_run laws r _ Hc' Hr)
          | apply (chat_kept_run r _ Hc' Hr) | exact He].
      * eapply Forall_impl; [| exact Hn2]. intros e He.
        eapply sent_between_widen;
          [apply (evolves_exec o w Hc Ho) | apply evolves_refl
          | apply chat_kept_refl | exact He].
Qed.

(** X14.  Every reminder that was delivered says what the schedule stored under
    the id of its job says: a medication reminder carries the name, the
    dosage and the notes of that schedule and the time of sending, and
    went to the chat id of the schedule unless the schedule has lost it
    since; a follow-up reminder carries the type, date, time, location and
    notes of its schedule. *)
Theorem reminders_carry_stored_data (d : storage) (ops : list op) (e : delivery) :
  run_ok ops (boot d) = true ->
  let w := run ops (boot d) in
  In e (delivered w) ->
  match job_do (by_job e) with
  | send_medication schedule_id =>
      exists s chat,
        PyDict.get schedule_id (medication_schedules (self w)) = Some s
        /\ call e
           = medication_reminder chat (Med.medication_name s) (Med.dosage s)
               (sent_at e) (Med.additional_notes s)
        /\ (Med.chat_id s = chat \/ Med.chat_id s = None)
  | send_followup schedule_id days_before =>
      exists s,
        PyDict.get schedule_id (followup_schedules (self w)) = Some s
        /\ call e
           = follow_up_reminder (Fu.appointment_type s) (Fu.appointment_date s)
               (Fu.appointment_time s) (Fu.location s) (Fu.notes s)
  end.
Proof.
  intros Hok w Hin.
  destruct (run_sent ops (boot d) (consistent_boot laws d) Hok)
    as (new & Hd & Hn).
  fold w in Hd, Hn. rewrite Hd in Hin. cbn [boot delivered app] in Hin.
  rewrite Forall_forall in Hn.
  destruct (Hn e Hin) as (wm & _ & Hev & Hchat & Hcall).
  destruct (job_do (by_job e)) as [k | k n]; cbn [call_job_func] in Hcall.
  - unfold _send_medication_reminder in Hcall.
    destruct (PyDict.get k (medication_schedules (self wm))) as [s0 |] eqn:Hk;
      [| discriminate Hcall].
    destruct (negb (Med.is_active s0)); [discriminate Hcall |].
    destruct (Med.end_date s0 <? sent_at e); [discriminate Hcall |].
    cbn [snd] in Hcall. injection Hcall as Hcall.
    destruct (Hev k) as [Hm _]. destruct (Hm s0 Hk) as (s & Hs & Hfields & _).
    destruct (Hchat k s0 Hk) as (s' & Hs' & Hc).
    assert (s' = s) by congruence. subst s'.
    exists s, (Med.chat_id s0). split; [exact Hs |]. split; [| exact Hc].
    rewrite <- Hcall.
    apply (f_equal Med.medication_name) in Hfields as Hname.
    apply (f_equal Med.dosage) in Hfields as Hdosage.
    apply (f_equal Med.additional_notes) in Hfields as Hnotes.
    cbn in Hname, Hdosage, Hnotes. now rewrite Hname, Hdosage, Hnotes.
  - unfold _send_followup_reminder in Hcall.
    destruct (PyDict.get k (followup_schedules (self wm))) as [s0 |] eqn:Hk;
      [| discriminate Hcall].
    destruct (negb (Fu.is_active s0)); [discriminate Hcall |].
    destruct (reminder_date_of (Fu.appointment_date s0) n);
      [| discriminate Hcall].
    destruct (negb (date a =? date (sent_at e))); [discriminate Hcall |].
    cbn [snd] in Hcall. injection Hcall as Hcall.
    destruct (Hev k) as [_ Hf]. destruct (Hf s0 Hk) as (s & Hs & Hfields & _).
    exists s. split; [exact Hs |]. rewrite <- Hcall.
    apply (f_equal Fu.appointment_type) in Hfields as H1.
    apply (f_equal Fu.appointment_date) in Hfields as H2.
    apply (f_equal Fu.appointment_time) in Hfields as H3.
    apply (f_equal Fu.location) in Hfields as H4.
    apply (f_equal Fu.notes) in Hfields as H5.
    cbn in H1, H2, H3, H4, H5. now rewrite H1, H2, H3, H4, H5.
Qed.

End Contents.

(** *** The first reminder of a follow-up schedule *)

Section Earliest.
Context {L : Library}.
Hypothesis laws : library_laws L.
Import PyDictFacts.

Lemma job_known_evolves (w w' : World) (j : Job) :
  evolves w w' -> job_known (self w) j = true -> job_known (self w') j = true.
Proof.
  intros He. unfold job_known, PyDict.contains.
  destruct (job_do j) as [k | k n]; destruct (He k) as [Hm Hf].
  - destruct (PyDict.get k (medication_schedules (self w))) as [s |];
      [| discriminate].
    destruct (Hm s eq_refl) as (s' & -> & _). reflexivity.
  - destruct (PyDict.get k (followup_schedules (self w))) as [s |];
      [| discriminate].
    destruct (Hf s eq_refl) as (s' & -> & _). reflexivity.
Qed.

Lemma jobs_known_exec (o : op) (w : World) :
  consistent w -> op_ok w o = true ->
  forallb (job_known (self w)) (jobs w) = true ->
  forallb (job_known (self (exec o w))) (jobs (exec o w)) = true.
Proof.
  intros Hc Hok Hk.
  pose proof (evolves_exec o w Hc Hok) as He.
  assert (Hold : forallb (job_known (self (exec o w))) (jobs w) = true).
  { rewrite forallb_forall in *. intros j Hj.
    apply (job_known_evolves w); auto. }
  destruct o; cbn [exec] in *.
  - destruct (add_medication_schedule_effect laws medication_name dosage times
                duration_days start_date additional_notes chat_id uuid4 now w)
      as [E | (schedule & added & _ & Hm & _ & _ & Hj & _ & Hdo & _)].
    + now rewrite E.
    + rewrite Hj, forallb_app, Hold. cbn [andb].
      apply forallb_forall. intros j Hin. unfold job_known.
      rewrite (Hdo j Hin), Hm, contains_set, String.eqb_refl. reflexivity.
  - destruct (add_followup_schedule_effect laws appointment_type appointment_date
                appointment_time location notes reminder_days_before uuid4 now w)
      as (schedule & added & _ & Hf & _ & Hj & _ & Hdo & _).
    rewrite Hj, forallb_app, Hold. cbn [andb].
    apply forallb_forall. intros j Hin. unfold job_known.
    destruct (Hdo j Hin) as (n & ->).
    rewrite Hf, contains_set, String.eqb_refl. reflexivity.
  - destruct (stop_medication_schedule_world schedule_id w) as (_ & _ & _ & Hj & _).
    now rewrite Hj.
  - destruct (stop_followup_schedule_world schedule_id w) as (_ & _ & _ & Hj & _).
    now rewrite Hj.
  - exact Hold.
  - unfold start_scheduler in *. now destruct (is_running (self w)).
  - exact Hold.
  - unfold tick in *. destruct (is_running (self w)); [| exact Hold].
    unfold run_pending in *. cbn [jobs self] in *.
    destruct (fold_run_job_count now (send_medication "") None 0
                (sorted (filter (should_run now) (jobs w))) w) as (Hj & _).
    rewrite Hj, forallb_forall. intros j Hin.
    apply in_map_iff in Hin. destruct Hin as (j0 & <- & Hin).
    rewrite forallb_forall in Hold. specialize (Hold j0 Hin).
    unfold job_known, reschedule in *. now destruct (should_run now j0).
  - reflexivity.
Qed.

Lemma jobs_known_run (ops : list op) :
  forall w,
    consistent w -> run_ok ops w = true ->
    forallb (job_known (self w)) (jobs w) = true ->
    forallb (job_known (self (run ops w))) (jobs (run ops w)) = true.
Proof.
  unfold run. induction ops as [| o r IH]; intros w Hc Hok Hk; [exact Hk |].
  cbn [run_ok fold_left] in *. apply andb_prop in Hok. destruct Hok as [Ho Hr].
  apply IH; [now apply (consistent_exec laws) | exact Hr |].
  now apply jobs_known_exec.
Qed.

Lemma jobs_ok_exec (o : op) (w : World) :
  forallb job_ok (jobs w) = true -> forallb job_ok (jobs (exec o w)) = true.
Proof.
  intros Hk. destruct o; cbn [exec].
  - destruct (add_medication_schedule_effect laws medication_name dosage times
                duration_days start_date additional_notes chat_id uuid4 now w)
      as [E | (schedule & added & _ & _ & _ & _ & Hj & Hjok & _)].
    + now rewrite E.
    + now rewrite Hj, forallb_app, Hk, Hjok.
  - destruct (add_followup_schedule_effect laws appointment_type appointment_date
                appointment_time location notes reminder_days_before uuid4 now w)
      as (schedule & added & _ & _ & _ & Hj & Hjok & _).
    now rewrite Hj, forallb_app, Hk, Hjok.
  - destruct (stop_medication_schedule_world schedule_id w) as (_ & _ & _ & Hj & _).
    now rewrite Hj.
  - destruct (stop_followup_schedule_world schedule_id w) as (_ & _ & _ & Hj & _).
    now rewrite Hj.
  - exact Hk.
  - unfold start_scheduler. now destruct (is_running (self w)).
  - exact Hk.
  - unfold tick. destruct (is_running (self w)); [| exact Hk].
    unfold run_pending. cbn [jobs].
    destruct (fold_run_job_count now (send_medication "") None 0
                (sorted (filter (should_run now) (jobs w))) w) as (Hj & _).
    rewrite Hj, forallb_forall. intros j Hin.
    apply in_map_iff in Hin. destruct Hin as (j0 & <- & Hin).
    rewrite forallb_forall in Hk. apply job_ok_reschedule. auto.
  - reflexivity.
Qed.

Lemma jobs_ok_run (ops : list op) :
  forall w, forallb job_ok (jobs w) = true ->
            forallb job_ok (jobs (run ops w)) = true.
Proof.
  unfold run. induction ops as [| o r IH]; intros w Hk; [exact Hk |].
  cbn [fold_left]. apply IH. now apply jobs_ok_exec.
Qed.

Lemma followup_not_before_exec (o : op) (w : World) (schedule_id : string)
    (first : datetime) :
  consistent w -> op_ok w o = true ->
  followup_not_before schedule_id first w ->
  followup_not_before schedule_id first (exec o w).
Proof.
  intros [Hwf Hsync] Hok (Hjok & Hin & Hjobs & Hsent).
  split; [now apply jobs_ok_exec |].
  pose proof (exec_delivered_unless_tick o w) as Hd.
  destruct o; cbn [exec] in *.
  - destruct (add_medication_schedule_effect laws medication_name dosage times
                duration_days start_date additional_notes chat_id uuid4 now w)
      as [E | (schedule & added & _ & _ & Hf & _ & Hj & _ & Hdo & _)].
    + rewrite E. auto.
    + rewrite Hf, Hj, Hd. split; [exact Hin |]. split; [| exact Hsent].
      intros j n Hj' Hlab. apply in_app_or in Hj'. destruct Hj' as [Hj' | Hj'].
      * now apply (Hjobs j n).
      * rewrite (Hdo j Hj') in Hlab. discriminate Hlab.
  - destruct (add_followup_schedule_effect laws appointment_type appointment_date
                appointment_time location notes reminder_days_before uuid4 now w)
      as (schedule & added & _ & Hf & _ & Hj & _ & Hdo & _).
    rewrite Hf, Hj, Hd. split; [| split; [| exact Hsent]].
    + rewrite contains_set, Hin. apply orb_true_r.
    + intros j n Hj' Hlab. apply in_app_or in Hj'. destruct Hj' as [Hj' | Hj'].
      * now apply (Hjobs j n).
      * destruct (Hdo j Hj') as (m & Hm). rewrite Hm in Hlab.
        injection Hlab as -> _.
        cbn [op_ok] in Hok.
        apply andb_prop in Hok. destruct Hok as [Hok _].
        apply andb_prop in Hok. destruct Hok as [Hok _].
        apply negb_true_iff in Hok. congruence.
  - destruct (stop_medication_schedule_world schedule_id0 w)
      as (_ & Hf & _ & Hj & _).
    rewrite Hf, Hj, Hd. auto.
  - destruct (stop_followup_schedule_world schedule_id0 w)
      as (Hf & _ & _ & Hj & _).
    rewrite Hf, Hj, Hd, contains_modify. auto.
  - auto.
  - rewrite Hd. unfold start_scheduler. destruct (is_running (self w)); auto.
  - auto.
  - clear Hd. unfold tick. destruct (is_running (self w)); [| auto].
    rewrite run_pending_followups. split; [exact Hin |].
    unfold run_pending. cbn [jobs delivered].
    destruct (fold_run_job_count now (send_medication "") None 0
                (sorted (filter (should_run now) (jobs w))) w) as (Hj & _).
    rewrite Hj. split.
    + intros j n Hj' Hlab. apply in_map_iff in Hj'.
      destruct Hj' as (j0 & <- & Hj0).
      assert (Hlab0 : job_do j0 = send_followup schedule_id n)
        by (unfold reschedule in Hlab; now destruct (should_run now j0)).
      specialize (Hjobs j0 n Hj0 Hlab0).
      unfold reschedule. destruct (should_run now j0) eqn:Hdue; [| exact Hjobs].
      cbn [next_run]. unfold should_run in Hdue. apply Z.leb_le in Hdue.
      rewrite forallb_forall in Hjok. specialize (Hjok j0 Hj0).
      apply job_ok_parts in Hjok. destruct Hjok as [Hat _].
      pose proof (next_occurrence_after (job_at j0) now Hat). lia.
    + destruct (fold_run_job_delivered now
                  (sorted (filter (should_run now) (jobs w))) w)
        as (new & Hnew & Hall).
      rewrite Hnew. intros e n He Hlab. apply in_app_or in He.
      destruct He as [He | He]; [now apply (Hsent e n) |].
      rewrite Forall_forall in Hall. destruct (Hall e He) as (Hby & Hat & _).
      apply In_sorted, filter_In in Hby. destruct Hby as [Hby Hdue].
      unfold should_run in Hdue. apply Z.leb_le in Hdue.
      specialize (Hjobs (by_job e) n Hby Hlab). lia.
  - cbn [self jobs delivered]. unfold in_sync in Hsync. rewrite Hsync.
    split; [exact Hin |]. split; [intros j n [] | exact Hsent].
Qed.

Lemma followup_not_before_run (ops : list op) (schedule_id : string)
    (first : datetime) :
  forall w,
    consistent w -> run_ok ops w = true ->
    followup_not_before schedule_id first w ->
    followup_not_before schedule_id first (run ops w).
Proof.
  unfold run. induction ops as [| o r IH]; intros w Hc Hok H; [exact H |].
  cbn [run_ok fold_left] in *. apply andb_prop in Hok. destruct Hok as [Ho Hr].
  apply IH; [now apply (consistent_exec laws) | exact Hr |].
  now apply followup_not_before_exec.
Qed.

Lemma schedule_followup_loop_first (schedule : Fu.t) (l : list Z)
    (now : datetime) (t : Z) :
  at_time "09:00" = Some t ->
  forall w j,
    In j (jobs (schedule_followup_loop schedule l now w)) ->
    In j (jobs w)
    \/ (next_run j = next_occurrence t now
        /\ exists n, job_do j = send_followup (Fu.id schedule) n).
Proof.
  intros Ht. induction l as [| n r IH]; intros w j;
    cbn [schedule_followup_loop]; [now left |].
  destruct (reminder_date_of (Fu.appointment_date schedule) n); [| now left].
  destruct (now <? a); [| apply IH].
  unfold every_day_at_do. rewrite Ht. intros Hin.
  destruct (IH _ j Hin) as [Hold | Hnew]; [| now right].
  cbn [jobs add_job] in Hold. apply in_app_or in Hold.
  destruct Hold as [Hold | [<- | []]]; [now left |].
  right. split; [reflexivity | now exists n].
Qed.

(** X15.  No reminder of a follow-up schedule is sent before the first 09:00
    that comes strictly after the call that added it.  So when the date of
    a reminder is the day of the call and the call is made at 09:00 or
    later, that reminder is never sent, although its date lies ahead and a
    job may be registered for it: the job first runs on the next day, and
    the dispatch then finds that the day is not the day of the reminder. *)
Theorem followup_reminder_waits_for_next_check
    (d : storage) (before ops : list op)
    (appointment_type : string) (appointment_date : datetime)
    (appointment_time location notes : string)
    (reminder_days_before : option (list Z)) (uuid4 : string) (now : datetime)
    (t : Z) :
  run_ok before (boot d) = true ->
  let w0 := run before (boot d) in
  let add := AddFollowup appointment_type appointment_date appointment_time
               location notes reminder_days_before uuid4 now in
  run_ok (add :: ops) w0 = true ->
  at_time "09:00" = Some t ->
  let w := run (add :: ops) w0 in
  (forall e n,
      In e (delivered w) -> job_do (by_job e) = send_followup uuid4 n ->
      next_occurrence t now <= sent_at e)
  /\ (forall n reminder_date,
         reminder_date_of appointment_date n = Returns reminder_date ->
         date reminder_date = date now -> t <= Datetime.time now ->
         forall e, In e (delivered w) ->
                   job_do (by_job e) <> send_followup uuid4 n).
Proof.
  intros Hbefore w0 add Hok Ht w.
  assert (Hc0 : consistent w0)
    by (apply (consistent_run laws); [apply (consistent_boot laws) | exact Hbefore]).
  cbn [run_ok] in Hok. apply andb_prop in Hok. destruct Hok as [Hadd Hops].
  pose proof (consistent_exec laws add w0 Hc0 Hadd) as Hc1.
  assert (Hfresh : PyDict.contains uuid4 (followup_schedules (self w0)) = false).
  { cbn [op_ok add] in Hadd.
    apply andb_prop in Hadd. destruct Hadd as [Hadd _].
    apply andb_prop in Hadd. destruct Hadd as [Hadd _].
    now apply negb_true_iff in Hadd. }
  assert (Hnone : forall e n,
             In e (delivered w0) ->
             job_do (by_job e) <> send_followup uuid4 n).
  { intros e n He Hlab.
    destruct (run_delivered laws before (boot d) (consistent_boot laws d) Hbefore)
      as (new & Hd & Hall).
    fold w0 in Hd, Hall. rewrite Hd in He. cbn [boot delivered app] in He.
    rewrite Forall_forall in Hall.
    destruct (fired_between_followup _ _ e uuid4 n (Hall e He) Hlab)
      as (s & _ & Hs & _).
    unfold PyDict.contains in Hfresh. now rewrite Hs in Hfresh. }
  destruct (add_followup_schedule_world appointment_type appointment_date
              appointment_time location notes reminder_days_before uuid4 now w0)
    as (_ & Hs1 & Hj1 & Hd1 & _).
  cbv zeta in Hs1, Hj1.
  change (snd (add_followup_schedule appointment_type appointment_date
                 appointment_time location notes reminder_days_before uuid4
                 now w0)) with (exec add w0) in Hs1, Hj1, Hd1.
  assert (H1 : followup_not_before uuid4 (next_occurrence t now) (exec add w0)).
  { split; [| split; [| split]].
    - apply jobs_ok_exec. unfold w0. now apply jobs_ok_run.
    - rewrite Hs1. cbn [followup_schedules set_followups].
      now rewrite contains_set, String.eqb_refl.
    - intros j n Hj Hlab. rewrite Hj1 in Hj.
      destruct (schedule_followup_loop_first _ _ now t Ht w0 j Hj)
        as [Hold | [Hnew _]]; [| rewrite Hnew; lia].
      assert (Hk : forallb (job_known (self w0)) (jobs w0) = true)
        by (unfold w0; apply jobs_known_run;
            [apply (consistent_boot laws) | exact Hbefore | reflexivity]).
      rewrite forallb_forall in Hk. specialize (Hk j Hold).
      unfold job_known in Hk. rewrite Hlab in Hk. congruence.
    - intros e n He Hlab. rewrite Hd1 in He. now destruct (Hnone e n He). }
  pose proof (followup_not_before_run ops uuid4 _ _ Hc1 Hops H1)
    as (_ & _ & _ & Hsent).
  change (run ops (exec add w0)) with w in Hsent.
  split; [exact Hsent |].
  intros n reminder_date Hrd Hday Hlate e He Hlab.
  pose proof (Hsent e n He Hlab) as Hfirst.
  assert (Hat : 0 <= t < usec_per_day)
    by (destruct laws as (_ & _ & Hat); now apply (Hat "09:00")).
  pose proof (next_occurrence_tomorrow t now Hat Hlate) as Htomorrow.
  apply date_monotone in Hfirst. rewrite Htomorrow in Hfirst.
  assert (Hok' : run_ok (add :: ops) w0 = true)
    by (cbn [run_ok]; now rewrite Hadd, Hops).
  destruct (run_delivered laws (add :: ops) w0 Hc0 Hok') as (new & Hd & Hall).
  fold w in Hd, Hall. rewrite Hd in He. apply in_app_or in He.
  destruct He as [He | He]; [now destruct (Hnone e n He) |].
  rewrite Forall_forall in Hall.
  destruct (fired_between_followup _ _ e uuid4 n (Hall e He) Hlab)
    as (s & rd & Hs & Hrd' & Hsame).
  pose proof (evolves_run laws ops _ Hc1 Hops uuid4) as [_ Hev].
  change (run ops (exec add w0)) with w in Hev.
  rewrite Hs1 in Hev. cbn [followup_schedules set_followups] in Hev.
  rewrite get_set_same in Hev.
  destruct (Hev _ eq_refl) as (s' & Hs' & Hfields).
  assert (s' = s) by congruence. subst s'.
  apply followup_evolves_fields in Hfields. destruct Hfields as [_ Happt].
  cbn [Fu.appointment_date] in Happt. rewrite Happt, Hrd in Hrd'.
  injection Hrd' as <-. lia.
Qed.

End Earliest.

(** *** Several scheduler objects *)

Section ProcessFacts.
Context {L : Library}.
Hypothesis laws : library_laws L.
Import PyDictFacts.

Lemma replace_nth_last {A : Type} (x y : A) (l : list A) :
  replace_nth (List.length l) y (l ++ [x]) = l ++ [y].
Proof. induction l as [| a r IH]; cbn; [reflexivity | now rewrite IH]. Qed.

Lemma nth_error_replace_nth_same {A : Type} (x y : A) (l : list A) (i : nat) :
  nth_error l i = Some y -> nth_error (replace_nth i x l) i = Some x.
Proof.
  revert i. induction l as [| a r IH]; intros [| i]; cbn; try discriminate;
    [reflexivity | apply IH].
Qed.

Lemma nth_error_replace_nth_other {A : Type} (x : A) (l : list A) (i j : nat) :
  i <> j -> nth_error (replace_nth i x l) j = nth_error l j.
Proof.
  revert i j. induction l as [| a r IH]; intros [| i] [| j] H; cbn; try reflexivity;
    [congruence | apply IH; congruence].
Qed.

Lemma length_replace_nth {A : Type} (x : A) (l : list A) (i : nat) :
  List.length (replace_nth i x l) = List.length l.
Proof.
  revert i. induction l as [| a r IH]; intros [| i]; cbn; try reflexivity.
  now rewrite IH.
Qed.

(** X18.  [create_medication_schedule] constructs a scheduler of its own, which
    loads the file, and adds the schedule to it.  The schedule is stored
    without a chat id and written to the file; its jobs enter the registry
    of the process and belong to the new object, whose loop is not
    running; the scheduler objects that existed before are as they were,
    so none of them holds the new schedule. *)
Theorem create_medication_schedule_effect
    (medication_name dosage : string) (times : list string) (duration_days : Z)
    (additional_notes : string) (uuid4 : string) (now : datetime) (p : Process) :
  let r := create_medication_schedule medication_name dosage times duration_days
             additional_notes uuid4 now p in
  fst r = Returns uuid4 ->
  exists scheduler schedule,
    objects (snd r) = objects p ++ [scheduler]
    /\ is_running scheduler = false
    /\ medication_schedules scheduler
       = PyDict.set uuid4 schedule (medication_schedules (__init__ (file p)))
    /\ followup_schedules scheduler = followup_schedules (__init__ (file p))
    /\ Med.chat_id schedule = None /\ Med.is_active schedule = true
    /\ Med.medication_name schedule = medication_name
    /\ Med.times schedule = times
    /\ file (snd r) = Content (snapshot scheduler)
    /\ registry (snd r)
       = registry p
         ++ map (pair (List.length (objects p)))
              (jobs (schedule_medication_loop uuid4 times now
                       (world_of scheduler (file p))))
    /\ outbox (snd r) = outbox p.
Proof.
  cbv zeta. unfold create_medication_schedule.
  cbn [construct objects file registry outbox fst snd].
  pose proof (add_medication_schedule_world medication_name dosage times
                duration_days None additional_notes None uuid4 now
                (world_of (__init__ (file p)) (file p))) as H.
  pose proof (add_medication_schedule_unvalidated_disk medication_name dosage
                times duration_days additional_notes uuid4 now
                (world_of (__init__ (file p)) (file p))) as Hdisk.
  cbv zeta in H.
  destruct (delta <- timedelta_days duration_days;; Datetime.add now delta)
    as [end_date | e].
  - destruct H as (Hr & Hs & Hj & Hd). intros _.
    cbv zeta in Hdisk. specialize (Hdisk Hr).
    eexists _, _. unfold merge, construct. cbn [objects file registry outbox].
    rewrite replace_nth_last, Hs, Hj, Hd, Hdisk, Hs.
    cbn [delivered world_of map]. rewrite app_nil_r.
    split; [reflexivity |].
    split; [apply init_is_running |].
    split; [reflexivity |]. split; [reflexivity |].
    split; [reflexivity |]. split; [reflexivity |].
    split; [reflexivity |]. split; [reflexivity |].
    split; [reflexivity |]. split; [| reflexivity].
    f_equal. f_equal. apply schedule_medication_loop_frame. reflexivity.
  - rewrite H. cbn. discriminate.
Qed.

(** X22.  [create_followup_schedule] does the same for a follow-up.  It cannot
    pass the offsets, so the schedule always has the reminders of one,
    three and seven days before the appointment. *)
Theorem create_followup_schedule_effect
    (appointment_type : string) (appointment_date : datetime)
    (appointment_time location notes : string) (uuid4 : string) (now : datetime)
    (p : Process) :
  let r := create_followup_schedule appointment_type appointment_date
             appointment_time location notes uuid4 now p in
  let schedule :=
    Fu.mk uuid4 appointment_type appointment_date appointment_time location
      notes [1; 3; 7] true now in
  fst r = uuid4
  /\ exists scheduler,
       objects (snd r) = objects p ++ [scheduler]
       /\ is_running scheduler = false
       /\ followup_schedules scheduler
          = PyDict.set uuid4 schedule (followup_schedules (__init__ (file p)))
       /\ medication_schedules scheduler
          = medication_schedules (__init__ (file p))
       /\ file (snd r) = Content (snapshot scheduler)
       /\ registry (snd r)
          = registry p
            ++ map (pair (List.length (objects p)))
                 (jobs (schedule_followup_loop schedule [1; 3; 7] now
                          (world_of scheduler (file p))))
       /\ outbox (snd r) = outbox p.
Proof.
  cbv zeta. unfold create_followup_schedule.
  cbn [construct objects file registry outbox fst snd].
  destruct (add_followup_schedule_world appointment_type appointment_date
              appointment_time location notes None uuid4 now
              (world_of (__init__ (file p)) (file p)))
    as (Hr & Hs & Hj & Hd & Hdisk).
  cbv zeta in Hs, Hj. split; [exact Hr |].
  eexists. unfold merge, construct. cbn [objects file registry outbox].
  rewrite replace_nth_last, Hs, Hj, Hd, Hdisk, Hs.
  cbn [delivered world_of map]. rewrite app_nil_r.
  split; [reflexivity |].
  split; [apply init_is_running |].
  split; [reflexivity |]. split; [reflexivity |].
  split; [reflexivity |]. split; [| reflexivity].
  f_equal. f_equal. apply schedule_followup_loop_frame. reflexivity.
Qed.

(** X19.  The file is rewritten from the dictionaries of whichever object saves,
    so the last save wins.  A schedule that [create_medication_schedule]
    has added is in the file when the call returns; as soon as a scheduler
    object that existed before saves, here by stopping one of its own
    schedules, the file describes that object and the created schedule is
    gone from it. *)
Theorem created_schedule_lost_on_other_save
    (medication_name dosage : string) (times : list string) (duration_days : Z)
    (additional_notes : string) (uuid4 : string) (now : datetime) (p : Process)
    (j : nat) (s : HealthcareScheduler) (k : string) :
  nth_error (objects p) j = Some s -> well_formed s = true ->
  PyDict.contains k (medication_schedules s) = true ->
  PyDict.contains uuid4 (medication_schedules s) = false ->
  PyDict.contains uuid4 (medication_schedules (__init__ (file p))) = false ->
  in_range now = true ->
  let r := create_medication_schedule medication_name dosage times duration_days
             additional_notes uuid4 now p in
  fst r = Returns uuid4 ->
  PyDict.contains uuid4 (medication_schedules (__init__ (file (snd r)))) = true
  /\ exists p',
       call_method j (stop_medication_schedule k) (snd r) = Some (true, p')
       /\ nth_error (objects p') j
          = Some (set_medications
                    (PyDict.modify k (Med.set_is_active false)
                       (medication_schedules s)) s)
       /\ __init__ (file p')
          = persisted_view
              (set_medications
                 (PyDict.modify k (Med.set_is_active false)
                    (medication_schedules s)) s)
       /\ PyDict.contains uuid4 (medication_schedules (__init__ (file p')))
          = false.
Proof.
  intros Hj Hwf Hk Hfresh Hnew Hnow r Hr. subst r.
  unfold create_medication_schedule in *.
  cbn [construct objects file registry outbox fst snd] in *.
  set (add := AddMedication medication_name dosage times duration_days None
                additional_notes None uuid4 now).
  assert (Hok : op_ok (boot (file p)) add = true).
  { cbn [op_ok add boot self]. now rewrite Hnew, Hnow. }
  pose proof (consistent_exec laws add (boot (file p))
                (consistent_boot laws (file p)) Hok) as [Hwf' Hsync].
  pose proof (add_medication_schedule_world medication_name dosage times
                duration_days None additional_notes None uuid4 now
                (boot (file p))) as H.
  cbv zeta in H.
  change (world_of (__init__ (file p)) (file p)) with (boot (file p)) in *.
  change (snd (add_medication_schedule medication_name dosage times
                 duration_days None additional_notes None uuid4 now
                 (boot (file p)))) with (exec add (boot (file p))) in *.
  destruct (delta <- timedelta_days duration_days;; Datetime.add now delta)
    as [end_date | e]; [| rewrite H in Hr; discriminate Hr].
  destruct H as (_ & Hs & _). split.
  - unfold merge. cbn [file]. unfold in_sync in Hsync. rewrite Hsync.
    unfold persisted_view, PyDict.contains. cbn [medication_schedules].
    rewrite get_map_values, Hs. cbn [medication_schedules set_medications].
    now rewrite get_set_same.
  - assert (Hlt : (j < List.length (objects p))%nat)
      by (apply nth_error_Some; congruence).
    assert (Hobj : nth_error
                     (objects (merge (List.length (objects p))
                                 (exec add (boot (file p))) (construct p))) j
                   = Some s).
    { unfold merge, construct. cbn [objects].
      rewrite nth_error_replace_nth_other by lia.
      now rewrite nth_error_app1. }
    unfold call_method. rewrite Hobj. unfold stop_medication_schedule.
    cbn [world_of self]. rewrite Hk. cbn [fst snd].
    eexists. split; [reflexivity |].
    split; [unfold merge at 1; cbn [objects _save_schedules set_self self];
            eapply nth_error_replace_nth_same; exact Hobj |].
    assert (Hwf2 : well_formed
                     (set_medications
                        (PyDict.modify k (Med.set_is_active false)
                           (medication_schedules s)) s) = true)
      by now apply well_formed_modify_medication.
    assert (Hload : __init__
                      (Content
                         (snapshot
                            (set_medications
                               (PyDict.modify k (Med.set_is_active false)
                                  (medication_schedules s)) s)))
                    = persisted_view
                        (set_medications
                           (PyDict.modify k (Med.set_is_active false)
                              (medication_schedules s)) s)).
    { unfold __init__. now rewrite (load_snapshot laws _ Hwf2). }
    change (file (merge j ?w ?q)) with (disk w).
    cbn [_save_schedules disk set_self self].
    split; [exact Hload |]. rewrite Hload.
    unfold persisted_view, PyDict.contains in *.
    cbn [medication_schedules set_medications].
    rewrite get_map_values.
    destruct (String.eqb_spec uuid4 k) as [-> | Hne].
    + now rewrite Hk in Hfresh.
    + rewrite get_modify_other by exact Hne.
      now destruct (PyDict.get uuid4 (medication_schedules s)).
Qed.

Lemma expired_at_self (now : datetime) (w w' v v' : World) :
  self w = self w' -> self v = self v' ->
  expired_at now w v -> expired_at now w' v'.
Proof. unfold expired_at. intros <- <-. auto. Qed.

Lemma expired_in_refl (now : datetime) (p : Process) : expired_in now p p.
Proof.
  intros i. destruct (nth_error (objects p) i); [| exact I].
  split; [reflexivity | intros k; now left].
Qed.

Lemma run_owned_job_outbox (now : datetime) (p0 p : Process) (ij : nat * Job) :
  expired_in now p0 p ->
  outbox (run_owned_job now p ij)
  = outbox p ++ deliveries_of_owned_job now p0 ij
  /\ registry (run_owned_job now p ij) = registry p
  /\ expired_in now p0 (run_owned_job now p ij).
Proof.
  intros H. pose proof (H (fst ij)) as Hi.
  unfold run_owned_job, deliveries_of_owned_job.
  destruct (nth_error (objects p0) (fst ij)) as [s0 |] eqn:E0;
    destruct (nth_error (objects p) (fst ij)) as [s |] eqn:E;
    try contradiction.
  - pose proof (expired_at_calls now _ _ (job_do (snd ij)) Hi) as Hcalls.
    pose proof (expired_at_step now _ _ (job_do (snd ij)) Hi) as Hstep.
    destruct (call_job_func (job_do (snd ij)) now (world_of s (file p)))
      as [w calls].
    cbn [fst snd outbox registry] in *. rewrite <- Hcalls.
    split; [reflexivity |]. split; [reflexivity |].
    intros i. cbn [objects file].
    destruct (Nat.eq_dec (fst ij) i) as [<- | Hne].
    + rewrite E0, (nth_error_replace_nth_same _ _ _ _ E).
      eapply expired_at_self; [| | exact Hstep]; reflexivity.
    + rewrite nth_error_replace_nth_other by exact Hne.
      specialize (H i).
      destruct (nth_error (objects p0) i), (nth_error (objects p) i); auto.
  - rewrite app_nil_r. auto.
Qed.

Lemma fold_run_owned_job_outbox (now : datetime) (p0 : Process)
    (l : list (nat * Job)) :
  forall p,
    expired_in now p0 p ->
    outbox (fold_left (run_owned_job now) l p)
    = outbox p ++ flat_map (deliveries_of_owned_job now p0) l
    /\ registry (fold_left (run_owned_job now) l p) = registry p.
Proof.
  induction l as [| ij r IH]; intros p Hp; cbn [fold_left flat_map].
  - now rewrite app_nil_r.
  - destruct (run_owned_job_outbox now p0 p ij Hp) as (Ho & Hr & He).
    destruct (IH _ He) as (Ho' & Hr').
    now rewrite Ho', Hr', Ho, Hr, app_assoc.
Qed.

Lemma In_insert_owned (ij x : nat * Job) (l : list (nat * Job)) :
  In x (insert_owned ij l) <-> x = ij \/ In x l.
Proof.
  induction l as [| k r IH]; cbn.
  - intuition.
  - destruct (next_run (snd k) <? next_run (snd ij)); cbn; rewrite ?IH; intuition.
Qed.

Lemma In_sorted_owned (x : nat * Job) (l : list (nat * Job)) :
  In x (sorted_owned l) <-> In x l.
Proof.
  induction l as [| j r IH]; cbn; [tauto |].
  rewrite In_insert_owned, IH. intuition.
Qed.

(** X20.  The registry belongs to the process, not to a scheduler: the loop of
    any object that is running runs every due job, also the jobs of
    objects whose own loop was never started, such as the object that
    [create_medication_schedule] leaves behind.  An iteration delivers for
    each due job what its function sends on the object that owns it, in
    the state the iteration started from. *)
Theorem any_loop_runs_every_job (i : nat) (s : HealthcareScheduler)
    (now : datetime) (p : Process) :
  nth_error (objects p) i = Some s -> is_running s = true ->
  outbox (tick_of i now p)
  = outbox p
    ++ flat_map (deliveries_of_owned_job now p)
         (sorted_owned (filter (fun ij => should_run now (snd ij)) (registry p)))
  /\ (forall owner j scheduler,
         In (owner, j) (registry p) -> next_run j <= now ->
         nth_error (objects p) owner = Some scheduler ->
         fires (job_do j) now (world_of scheduler (file p)) ->
         exists c,
           In (owner, {| by_job := j; sent_at := now; call := c |})
             (outbox (tick_of i now p))).
Proof.
  intros Hi Hrun.
  assert (Heq : outbox (tick_of i now p)
                = outbox p
                  ++ flat_map (deliveries_of_owned_job now p)
                       (sorted_owned
                          (filter (fun ij => should_run now (snd ij))
                             (registry p)))).
  { unfold tick_of. rewrite Hi, Hrun. unfold run_pending_all. cbn [outbox].
    apply fold_run_owned_job_outbox, expired_in_refl. }
  split; [exact Heq |].
  intros owner j scheduler Hin Hdue Hown Hfires.
  destruct (fires_calls _ _ _ Hfires) as [c Hc].
  exists c. rewrite Heq. apply in_or_app. right.
  apply in_flat_map. exists (owner, j). split.
  - apply In_sorted_owned, filter_In. split; [exact Hin |].
    unfold should_run. now apply Z.leb_le.
  - unfold deliveries_of_owned_job. cbn [fst snd]. rewrite Hown, Hc. now left.
Qed.

Lemma add_reminders_world (reminders : list Reminder) :
  forall w,
  let r := add_reminders reminders w in
  exists added,
    jobs (snd r) = jobs w ++ added
    /\ delivered (snd r) = delivered w
    /\ is_running (self (snd r)) = is_running (self w)
    /\ followup_schedules (self (snd r)) = followup_schedules (self w)
    /\ (forall k,
           PyDict.contains k (medication_schedules (self w)) = true ->
           PyDict.contains k (medication_schedules (self (snd r))) = true)
    /\ (fst r = Returns tt ->
        forall reminder,
          In reminder reminders ->
          PyDict.contains (reminder_uuid4 reminder)
            (medication_schedules (self (snd r))) = true
          /\ forall ts,
               map at_time (reminder_times reminder) = map Some ts ->
               forall t,
                 In t ts ->
                 exists j,
                   In j added /\ job_at j = t
                   /\ job_do j = send_medication (reminder_uuid4 reminder)).
Proof.
  induction reminders as [| reminder rest IH]; intros w; cbv zeta.
  - exists []. cbn. rewrite app_nil_r. repeat split; auto; contradiction.
  - cbn [add_reminders].
    pose proof (add_medication_schedule_world (reminder_medication reminder)
                  (reminder_dosage reminder) (reminder_times reminder)
                  (reminder_duration reminder) None (reminder_message reminder)
                  (Some (reminder_chat_id reminder)) (reminder_uuid4 reminder)
                  (reminder_now reminder) w) as H.
    cbv zeta in H.
    destruct (delta <- timedelta_days (reminder_duration reminder);;
              Datetime.add (reminder_now reminder) delta) as [end_date | e].
    + destruct H as (Hr & Hs & Hj & Hd).
      destruct (add_medication_schedule (reminder_medication reminder)
                  (reminder_dosage reminder) (reminder_times reminder)
                  (reminder_duration reminder) None (reminder_message reminder)
                  (Some (reminder_chat_id reminder)) (reminder_uuid4 reminder)
                  (reminder_now reminder) w) as [o w1].
      cbn [fst snd] in Hr, Hs, Hj, Hd. subst o.
      destruct (schedule_medication_loop_jobs laws (reminder_uuid4 reminder)
                  (reminder_times reminder) (reminder_now reminder) w)
        as (added1 & Ha1 & _).
      destruct (IH w1) as (added2 & Hj2 & Hd2 & Hr2 & Hf2 & Hk2 & Hall2).
      exists (added1 ++ added2).
      assert (Hstored : PyDict.contains (reminder_uuid4 reminder)
                          (medication_schedules (self w1)) = true).
      { rewrite Hs. cbn [medication_schedules set_medications].
        now rewrite contains_set, String.eqb_refl. }
      split; [now rewrite Hj2, Hj, Ha1, app_assoc |].
      split; [now rewrite Hd2, Hd |].
      split; [now rewrite Hr2, Hs |].
      split; [now rewrite Hf2, Hs |].
      split.
      * intros k Hk. apply Hk2. rewrite Hs.
        cbn [medication_schedules set_medications].
        rewrite contains_set, Hk. apply orb_true_r.
      * intros Hret x [<- | Hin].
        -- split; [now apply Hk2 |].
           intros ts Hts t Ht.
           pose proof (schedule_medication_loop_parsed (reminder_uuid4 reminder)
                         (reminder_now reminder) (reminder_times reminder) ts w
                         Hts) as Hp.
           rewrite Ha1 in Hp. apply app_inv_head in Hp.
           exists {| job_at := t;
                     job_do := send_medication (reminder_uuid4 reminder);
                     next_run := next_occurrence t (reminder_now reminder) |}.
           split; [| split; reflexivity].
           apply in_or_app. left. rewrite Hp.
           apply in_map_iff. exists t. split; [reflexivity | exact Ht].
        -- destruct (Hall2 Hret x Hin) as [H1 H2]. split; [exact H1 |].
           intros ts Hts t Ht. destruct (H2 ts Hts t Ht) as (j & Hj' & Hat & Hdo).
           exists j. split; [apply in_or_app; now right | auto].
    + rewrite H. exists []. cbn [fst snd]. rewrite app_nil_r.
      split; [reflexivity |]. split; [reflexivity |]. split; [reflexivity |].
      split; [reflexivity |]. split; [auto | discriminate].
Qed.

(** X21.  [Start All Reminders] never clears anything.  The new scheduler loads
    what the file holds and adds a schedule for every reminder of the
    session under a new id; the scheduler objects of earlier clicks, their
    running loops and their jobs stay as they are.  So a second click on
    the same list stores every reminder again and registers a second job
    for each of its times, next to the job of the first click. *)
Theorem start_all_reminders_keeps_earlier_jobs (reminders : list Reminder)
    (p : Process) :
  let r := start_all_reminders reminders p in
  exists scheduler added,
    objects (snd r) = objects p ++ [scheduler]
    /\ registry (snd r) = registry p ++ map (pair (List.length (objects p))) added
    /\ outbox (snd r) = outbox p
    /\ (forall k,
           PyDict.contains k (medication_schedules (__init__ (file p))) = true ->
           PyDict.contains k (medication_schedules scheduler) = true)
    /\ (fst r = Returns tt ->
        is_running scheduler = true
        /\ forall reminder,
             In reminder reminders ->
             PyDict.contains (reminder_uuid4 reminder)
               (medication_schedules scheduler) = true
             /\ forall ts,
                  map at_time (reminder_times reminder) = map Some ts ->
                  forall t,
                    In t ts ->
                    exists j,
                      In j added /\ job_at j = t
                      /\ job_do j = send_medication (reminder_uuid4 reminder)).
Proof.
  cbv zeta. unfold start_all_reminders.
  cbn [construct objects file registry outbox].
  destruct (add_reminders_world reminders (world_of (__init__ (file p)) (file p)))
    as (added & Hj & Hd & Hr & _ & Hk & Hall).
  cbv zeta in Hall.
  destruct (fst (add_reminders reminders (world_of (__init__ (file p)) (file p))))
    as [[] | e] eqn:Ef; cbn [fst snd]; unfold merge, construct;
    cbn [objects file registry outbox]; rewrite replace_nth_last.
  - exists (self (start_scheduler
                    (snd (add_reminders reminders
                            (world_of (__init__ (file p)) (file p))))));
      exists added.
    assert (Hsame : forall w,
               medication_schedules (self (start_scheduler w))
               = medication_schedules (self w)
               /\ jobs (start_scheduler w) = jobs w
               /\ delivered (start_scheduler w) = delivered w
               /\ is_running (self (start_scheduler w)) = true).
    { intros w. unfold start_scheduler.
      destruct (is_running (self w)) eqn:E; cbn; auto. }
    destruct (Hsame (snd (add_reminders reminders
                            (world_of (__init__ (file p)) (file p)))))
      as (Hm & Hj' & Hd' & Hrun).
    rewrite Hj', Hd', Hj, Hd, Hm. cbn [world_of jobs delivered app map].
    rewrite app_nil_r.
    split; [reflexivity |]. split; [reflexivity |]. split; [reflexivity |].
    split; [exact Hk |]. intros _. split; [exact Hrun |].
    apply Hall. reflexivity.
  - exists (self (snd (add_reminders reminders
                         (world_of (__init__ (file p)) (file p)))));
      exists added.
    rewrite Hj, Hd. cbn [world_of jobs delivered app map]. rewrite app_nil_r.
    split; [reflexivity |]. split; [reflexivity |]. split; [reflexivity |].
    split; [exact Hk |]. discriminate.
Qed.

End ProcessFacts.

(** ** Runs of a process with several scheduler objects *)

Section ProcessRunsFacts.
Context {L : Library}.
Import PyDictFacts.

Lemma evolves_self (w1 w2 v1 v2 : World) :
  self w1 = self w2 -> self v1 = self v2 -> evolves w1 v1 -> evolves w2 v2.
Proof. unfold evolves. intros <- <-. auto. Qed.

Lemma objects_evolve_refl (p : Process) : objects_evolve p p.
Proof. intros i s Hs. exists s. split; [exact Hs | apply evolves_refl]. Qed.

Lemma objects_evolve_trans (p1 p2 p3 : Process) :
  objects_evolve p1 p2 -> objects_evolve p2 p3 -> objects_evolve p1 p3.
Proof.
  intros H12 H23 i s Hs.
  destruct (H12 i s Hs) as (s2 & Hs2 & E2).
  destruct (H23 i s2 Hs2) as (s3 & Hs3 & E3).
  exists s3. split; [exact Hs3 | eapply evolves_trans; eassumption].
Qed.

(** New objects go to the end of the list. *)
Lemma objects_evolve_app (p p' : Process) (l : list HealthcareScheduler) :
  objects p' = objects p ++ l -> objects_evolve p p'.
Proof.
  intros H i s Hs. exists s. rewrite H. split.
  - rewrite nth_error_app1; [exact Hs |].
    apply nth_error_Some. congruence.
  - eapply evolves_self; [| | apply (evolves_refl (world_of s (file p)))];
      reflexivity.
Qed.

Lemma objects_evolve_replace (p p' : Process) (i : nat)
    (s s' : HealthcareScheduler) :
  nth_error (objects p) i = Some s ->
  evolves (world_of s (file p)) (world_of s' (file p')) ->
  objects p' = replace_nth i s' (objects p) ->
  objects_evolve p p'.
Proof.
  intros Hi Hev Hobj j sj Hj. rewrite Hobj.
  destruct (Nat.eq_dec i j) as [<- | Hne].
  - exists s'. split; [now apply (nth_error_replace_nth_same _ s) |].
    assert (sj = s) by congruence. subst sj. exact Hev.
  - exists sj. split; [now rewrite nth_error_replace_nth_other |].
    eapply evolves_self; [| | apply (evolves_refl (world_of sj (file p)))];
      reflexivity.
Qed.

Lemma objects_evolve_run_owned_job (now : datetime) (p : Process)
    (ij : nat * Job) :
  objects_evolve p (run_owned_job now p ij).
Proof.
  unfold run_owned_job.
  destruct (nth_error (objects p) (fst ij)) as [s |] eqn:E;
    [| apply objects_evolve_refl].
  pose proof (evolves_call_job_func (job_do (snd ij)) now (world_of s (file p)))
    as Hev.
  destruct (call_job_func (job_do (snd ij)) now (world_of s (file p)))
    as [w calls].
  cbn [fst] in Hev.
  apply (objects_evolve_replace _ _ (fst ij) s (self w) E); [| reflexivity].
  eapply evolves_self; [| | exact Hev]; reflexivity.
Qed.

Lemma objects_evolve_fold_run_owned_job (now : datetime)
    (l : list (nat * Job)) :
  forall p, objects_evolve p (fold_left (run_owned_job now) l p).
Proof.
  induction l as [| ij r IH]; intros p; cbn [fold_left];
    [apply objects_evolve_refl |].
  eapply objects_evolve_trans; [apply objects_evolve_run_owned_job | apply IH].
Qed.

Lemma objects_evolve_tick_of (i : nat) (now : datetime) (p : Process) :
  objects_evolve p (tick_of i now p).
Proof.
  unfold tick_of.
  destruct (nth_error (objects p) i) as [s |]; [| apply objects_evolve_refl].
  destruct (is_running s); [| apply objects_evolve_refl].
  unfold run_pending_all.
  eapply objects_evolve_trans;
    [apply (objects_evolve_fold_run_owned_job now) |].
  intros j sj Hj. exists sj. cbn [objects file]. split; [exact Hj |].
  apply evolves_refl.
Qed.

(** A method that was called on a new object leaves the objects that were
    there before as they are. *)
Lemma objects_evolve_merge_new (w : World) (p : Process) :
  objects_evolve p (merge (List.length (objects p)) w (construct p)).
Proof.
  apply (objects_evolve_app _ _ [self w]).
  unfold merge, construct. cbn [objects]. apply replace_nth_last.
Qed.

Lemma objects_evolve_act (a : action) (p : Process) :
  action_ok p a = true -> objects_evolve p (act a p).
Proof.
  intros Hok. destruct a; cbn [act].
  - apply (objects_evolve_app _ _ [__init__ (file p)]). reflexivity.
  - cbn [action_ok] in Hok.
    destruct (nth_error (objects p) i) as [s |] eqn:E;
      [| apply objects_evolve_refl].
    destruct (method o) eqn:Hm; [| apply objects_evolve_refl].
    apply (objects_evolve_replace _ _ i s
             (self (exec o (world_of s (file p)))) E); [| reflexivity].
    eapply evolves_self;
      [| | apply (evolves_exec_here o (world_of s (file p)))];
      try reflexivity; [| exact Hok].
    destruct o; try reflexivity; discriminate Hm.
  - apply objects_evolve_tick_of.
  - apply objects_evolve_merge_new.
  - apply objects_evolve_merge_new.
  - unfold start_all_reminders.
    destruct (fst (add_reminders reminders
                     (world_of (__init__ (file (construct p)))
                        (file (construct p)))));
      apply objects_evolve_merge_new.
Qed.

Lemma objects_evolve_play (acts : list action) :
  forall p, play_ok acts p = true -> objects_evolve p (play acts p).
Proof.
  induction acts as [| a r IH]; intros p Hok; [apply objects_evolve_refl |].
  cbn [play_ok] in Hok. apply andb_prop in Hok. destruct Hok as [Ha Hr].
  apply (objects_evolve_trans p (act a p));
    [now apply objects_evolve_act | now apply IH].
Qed.

Lemma method_delivers_nothing (o : op) (w : World) :
  method o = true -> delivered (exec o w) = delivered w.
Proof.
  intros Hm. pose proof (exec_delivered_unless_tick o w) as H.
  destruct o; try exact H; discriminate Hm.
Qed.

Lemma add_reminders_delivered (reminders : list Reminder) :
  forall w, delivered (snd (add_reminders reminders w)) = delivered w.
Proof.
  induction reminders as [| reminder rest IH]; intros w; [reflexivity |].
  cbn [add_reminders].
  pose proof (method_delivers_nothing
                (AddMedication (reminder_medication reminder)
                   (reminder_dosage reminder) (reminder_times reminder)
                   (reminder_duration reminder) None (reminder_message reminder)
                   (Some (reminder_chat_id reminder)) (reminder_uuid4 reminder)
                   (reminder_now reminder)) w eq_refl) as H.
  cbn [exec] in H.
  destruct (add_medication_schedule (reminder_medication reminder)
              (reminder_dosage reminder) (reminder_times reminder)
              (reminder_duration reminder) None (reminder_message reminder)
              (Some (reminder_chat_id reminder)) (reminder_uuid4 reminder)
              (reminder_now reminder) w) as [[id | e] w1]; cbn [snd] in *.
  - now rewrite IH.
  - exact H.
Qed.

End ProcessRunsFacts.

(** *** What a run does to one object

    A property of a scheduler that the calls on the object [i] and the job
    functions keep is kept by the object [i] along a run, and holds of the
    object whenever one of its jobs calls the Telegram client. *)
Section ObjectInvariant.
Context {L : Library}.
Variable P : HealthcareScheduler -> Prop.
Variable i : nat.
Variable allowed : action -> bool.
Hypothesis call_keeps :
  forall o s d,
    allowed (Call i o) = true -> method o = true ->
    op_ok (world_of s d) o = true ->
    P s -> P (self (exec o (world_of s d))).
Hypothesis job_keeps :
  forall j now f s d,
    allowed (Iterate j now) = true ->
    P s -> P (self (fst (call_job_func f now (world_of s d)))).

Lemma run_owned_job_object (j : nat) (now : datetime) (p : Process)
    (ij : nat * Job) (s : HealthcareScheduler) :
  allowed (Iterate j now) = true ->
  nth_error (objects p) i = Some s -> P s ->
  exists s' new,
    nth_error (objects (run_owned_job now p ij)) i = Some s' /\ P s'
    /\ outbox (run_owned_job now p ij) = outbox p ++ new
    /\ fired_by P i new.
Proof.
  intros Hallowed Hi HP. unfold run_owned_job.
  destruct (nth_error (objects p) (fst ij)) as [sk |] eqn:Ek.
  - pose proof (call_job_func_fires (job_do (snd ij)) now
                  (world_of sk (file p))) as Hfires.
    pose proof (job_keeps j now (job_do (snd ij)) sk (file p) Hallowed) as Hkeep.
    destruct (call_job_func (job_do (snd ij)) now (world_of sk (file p)))
      as [w calls].
    cbn [fst snd objects outbox] in *.
    destruct (Nat.eq_dec (fst ij) i) as [Heq | Hne].
    + rewrite Heq in *. assert (sk = s) by congruence. subst sk.
      exists (self w). eexists.
      split; [now apply (nth_error_replace_nth_same _ s) |].
      split; [now apply Hkeep |]. split; [reflexivity |].
      intros e He. apply in_map_iff in He. destruct He as (c & Hc & Hin).
      injection Hc as <-.
      destruct Hfires as [Hnil | (c0 & Hc0 & _ & Hf)];
        [rewrite Hnil in Hin; contradiction |].
      exists s, (file p). cbn [by_job sent_at]. auto.
    + exists s. eexists.
      split; [now rewrite nth_error_replace_nth_other |].
      split; [exact HP |]. split; [reflexivity |].
      intros e He. apply in_map_iff in He. destruct He as (c & Hc & _).
      injection Hc as Hc _. contradiction.
  - exists s, []. rewrite app_nil_r.
    split; [exact Hi |]. split; [exact HP |]. split; [reflexivity |].
    intros e [].
Qed.

Lemma fired_by_app (new1 new2 : list (nat * delivery)) :
  fired_by P i new1 -> fired_by P i new2 -> fired_by P i (new1 ++ new2).
Proof.
  intros H1 H2 e He. apply in_app_or in He. destruct He; auto.
Qed.

Lemma fired_by_nil : fired_by P i [].
Proof. intros e []. Qed.

Lemma fold_run_owned_job_object (j : nat) (now : datetime)
    (l : list (nat * Job)) :
  allowed (Iterate j now) = true ->
  forall p s,
    nth_error (objects p) i = Some s -> P s ->
    exists s' new,
      nth_error (objects (fold_left (run_owned_job now) l p)) i = Some s'
      /\ P s'
      /\ outbox (fold_left (run_owned_job now) l p) = outbox p ++ new
      /\ fired_by P i new.
Proof.
  intros Hallowed. induction l as [| ij r IH]; intros p s Hi HP;
    cbn [fold_left].
  - exists s, []. rewrite app_nil_r. repeat split; auto using fired_by_nil.
  - destruct (run_owned_job_object j now p ij s Hallowed Hi HP)
      as (s1 & new1 & Hi1 & HP1 & Ho1 & Hf1).
    destruct (IH _ s1 Hi1 HP1) as (s2 & new2 & Hi2 & HP2 & Ho2 & Hf2).
    exists s2, (new1 ++ new2). split; [exact Hi2 |]. split; [exact HP2 |].
    split; [now rewrite Ho2, Ho1, app_assoc |].
    now apply fired_by_app.
Qed.

(** A method that was called on a new object. *)
Lemma merge_new_object (w : World) (p : Process) (s : HealthcareScheduler) :
  delivered w = [] ->
  nth_error (objects p) i = Some s ->
  nth_error (objects (merge (List.length (objects p)) w (construct p))) i
  = Some s
  /\ outbox (merge (List.length (objects p)) w (construct p)) = outbox p.
Proof.
  intros Hd Hi. unfold merge, construct. cbn [objects outbox].
  rewrite replace_nth_last, Hd. cbn [map]. rewrite app_nil_r.
  split; [| reflexivity].
  rewrite nth_error_app1; [exact Hi |]. apply nth_error_Some. congruence.
Qed.

Lemma start_all_reminders_delivers_nothing (reminders : list Reminder)
    (p : Process) :
  exists w,
    delivered w = []
    /\ snd (start_all_reminders reminders p)
       = merge (List.length (objects p)) w (construct p).
Proof.
  unfold start_all_reminders.
  pose proof (add_reminders_delivered reminders
                (world_of (__init__ (file (construct p))) (file (construct p))))
    as Hd.
  cbn [delivered world_of] in Hd.
  destruct (fst (add_reminders reminders
                   (world_of (__init__ (file (construct p)))
                      (file (construct p))))).
  - eexists. split; [| reflexivity].
    unfold start_scheduler.
    match goal with
    | |- context [is_running ?x] => destruct (is_running x)
    end; [exact Hd | cbn [delivered set_self]; exact Hd].
  - eexists. split; [| reflexivity]. exact Hd.
Qed.

Lemma act_object (a : action) (p : Process) (s : HealthcareScheduler) :
  action_ok p a = true -> allowed a = true ->
  nth_error (objects p) i = Some s -> P s ->
  exists s' new,
    nth_error (objects (act a p)) i = Some s' /\ P s'
    /\ outbox (act a p) = outbox p ++ new
    /\ fired_by P i new.
Proof.
  intros Hok Hallowed Hi HP. destruct a; cbn [act].
  - exists s, []. rewrite app_nil_r. cbn [construct objects outbox].
    split; [| auto using fired_by_nil].
    rewrite nth_error_app1; [exact Hi |]. apply nth_error_Some. congruence.
  - cbn [action_ok] in Hok.
    destruct (nth_error (objects p) i0) as [s0 |] eqn:E0;
      [| exists s, []; rewrite app_nil_r; auto using fired_by_nil].
    destruct (method o) eqn:Hm;
      [| exists s, []; rewrite app_nil_r; auto using fired_by_nil].
    unfold merge. cbn [objects outbox].
    rewrite (method_delivers_nothing o _ Hm). cbn [delivered world_of map].
    destruct (Nat.eq_dec i0 i) as [Heq | Hne].
    + subst i0. assert (s0 = s) by congruence. subst s0.
      exists (self (exec o (world_of s (file p)))), [].
      split; [now apply (nth_error_replace_nth_same _ s) |].
      split; [now apply call_keeps |].
      auto using fired_by_nil.
    + exists s, [].
      split; [now rewrite nth_error_replace_nth_other |].
      auto using fired_by_nil.
  - unfold tick_of.
    destruct (nth_error (objects p) i0) as [s0 |] eqn:E0;
      [| exists s, []; rewrite app_nil_r; auto using fired_by_nil].
    destruct (is_running s0);
      [| exists s, []; rewrite app_nil_r; auto using fired_by_nil].
    unfold run_pending_all. cbn [objects outbox].
    apply (fold_run_owned_job_object i0 now _ Hallowed _ s Hi HP).
  - unfold create_medication_schedule. cbn [snd].
    destruct (merge_new_object
                (snd (add_medication_schedule medication_name dosage times
                        duration_days None additional_notes None uuid4 now
                        (world_of (__init__ (file (construct p)))
                           (file (construct p)))))
                p s) as [H1 H2]; [| exact Hi |].
    + apply (method_delivers_nothing
               (AddMedication medication_name dosage times duration_days None
                  additional_notes None uuid4 now)). reflexivity.
    + exists s, []. rewrite app_nil_r. auto using fired_by_nil.
  - unfold create_followup_schedule. cbn [snd].
    destruct (merge_new_object
                (snd (add_followup_schedule appointment_type appointment_date
                        appointment_time location notes None uuid4 now
                        (world_of (__init__ (file (construct p)))
                           (file (construct p)))))
                p s) as [H1 H2]; [| exact Hi |].
    + apply (method_delivers_nothing
               (AddFollowup appointment_type appointment_date appointment_time
                  location notes None uuid4 now)). reflexivity.
    + exists s, []. rewrite app_nil_r. auto using fired_by_nil.
  - destruct (start_all_reminders_delivers_nothing reminders p)
      as (w & Hd & ->).
    destruct (merge_new_object w p s Hd Hi) as [H1 H2].
    exists s, []. rewrite app_nil_r. auto using fired_by_nil.
Qed.

Lemma play_object (acts : list action) :
  forall p s,
    play_ok acts p = true -> forallb allowed acts = true ->
    nth_error (objects p) i = Some s -> P s ->
    exists s' new,
      nth_error (objects (play acts p)) i = Some s' /\ P s'
      /\ outbox (play acts p) = outbox p ++ new
      /\ fired_by P i new.
Proof.
  induction acts as [| a r IH]; intros p s Hok Hall Hi HP.
  - exists s, []. rewrite app_nil_r. cbn. auto using fired_by_nil.
  - cbn [play_ok forallb] in Hok, Hall.
    apply andb_prop in Hok, Hall. destruct Hok as [Ha Hr], Hall as [Hb Hs].
    destruct (act_object a p s Ha Hb Hi HP)
      as (s1 & new1 & Hi1 & HP1 & Ho1 & Hf1).
    destruct (IH (act a p) s1 Hr Hs Hi1 HP1)
      as (s2 & new2 & Hi2 & HP2 & Ho2 & Hf2).
    exists s2, (new1 ++ new2). split; [exact Hi2 |]. split; [exact HP2 |].
    split; [| now apply fired_by_app].
    change (play (a :: r) p) with (play r (act a p)).
    now rewrite Ho2, Ho1, app_assoc.
Qed.

End ObjectInvariant.

(** *** Stopping in a process with several objects *)

Section ProcessProperties.
Context {L : Library}.
Import PyDictFacts.

Lemma Forall_replace_nth {A : Type} (Q : A -> Prop) (x : A) (l : list A)
    (k : nat) :
  Q x -> Forall Q l -> Forall Q (replace_nth k x l).
Proof.
  intros Hx Hl. revert k. induction Hl as [| y r Hy Hr IH]; intros [| k]; cbn;
    constructor; auto.
Qed.

Lemma merge_new_not_running (w : World) (p : Process) :
  delivered w = [] -> is_running (self w) = false ->
  Forall not_running (objects p) ->
  outbox (merge (List.length (objects p)) w (construct p)) = outbox p
  /\ Forall not_running
       (objects (merge (List.length (objects p)) w (construct p))).
Proof.
  intros Hd Hr Hall. unfold merge, construct. cbn [objects outbox].
  rewrite replace_nth_last, Hd. cbn [map]. rewrite app_nil_r.
  split; [reflexivity |]. apply Forall_app. split; [exact Hall |].
  constructor; [exact Hr | constructor].
Qed.

Lemma act_all_stopped (a : action) (p : Process) :
  starts_no_loop a = true ->
  Forall not_running (objects p) ->
  outbox (act a p) = outbox p /\ Forall not_running (objects (act a p)).
Proof.
  intros Ha Hall. destruct a; try discriminate Ha; cbn [act].
  - cbn [construct objects outbox]. split; [reflexivity |].
    apply Forall_app. split; [exact Hall |].
    constructor; [apply init_is_running | constructor].
  - destruct (nth_error (objects p) i) as [s |] eqn:E; [| auto].
    destruct (method o) eqn:Hm; [| auto].
    assert (Hs : is_running s = false).
    { rewrite Forall_forall in Hall. apply Hall. eapply nth_error_In, E. }
    destruct (exec_not_running o (world_of s (file p)) Hs Ha) as [H1 H2].
    unfold merge. cbn [objects outbox]. rewrite H2. cbn [delivered world_of map].
    rewrite app_nil_r. split; [reflexivity |].
    now apply Forall_replace_nth.
  - unfold tick_of. destruct (nth_error (objects p) i) as [s |] eqn:E; [| auto].
    assert (Hs : is_running s = false).
    { rewrite Forall_forall in Hall. apply Hall. eapply nth_error_In, E. }
    rewrite Hs. auto.
  - unfold create_medication_schedule. cbn [snd].
    destruct (exec_not_running
                (AddMedication medication_name dosage times duration_days None
                   additional_notes None uuid4 now)
                (world_of (__init__ (file (construct p))) (file (construct p)))
                (init_is_running _) eq_refl) as [H1 H2].
    now apply merge_new_not_running.
  - unfold create_followup_schedule. cbn [snd].
    destruct (exec_not_running
                (AddFollowup appointment_type appointment_date appointment_time
                   location notes None uuid4 now)
                (world_of (__init__ (file (construct p))) (file (construct p)))
                (init_is_running _) eq_refl) as [H1 H2].
    now apply merge_new_not_running.
Qed.

(** X5.  The job registry is the process's, so stopping one loop silences the
    reminders only when no other loop is running.  After [stop_scheduler]
    on the only object whose loop is running, nothing is delivered until a
    loop is started again, by [start_scheduler] or by the button of the
    application: schedules can be added and stopped, objects constructed
    and the convenience functions called, and the loops that were stopped
    can come to their last iteration, but the jobs that fall due are not
    run. *)
Theorem stopped_loops_deliver_nothing (p : Process) (i : nat)
    (acts : list action) :
  (forall j s, j <> i -> nth_error (objects p) j = Some s ->
               is_running s = false) ->
  forallb starts_no_loop acts = true ->
  let p1 := act (Call i StopScheduler) p in
  outbox (play acts p1) = outbox p
  /\ forall j s, nth_error (objects (play acts p1)) j = Some s ->
                 is_running s = false.
Proof.
  intros Hothers Hacts p1.
  assert (H1 : outbox p1 = outbox p /\ Forall not_running (objects p1)).
  { unfold p1. cbn [act method].
    destruct (nth_error (objects p) i) as [s |] eqn:E.
    - unfold merge. cbn [objects outbox exec stop_scheduler delivered set_self
                           world_of map self].
      rewrite app_nil_r. split; [reflexivity |].
      apply Forall_forall. intros x Hx.
      apply In_nth_error in Hx. destruct Hx as [j Hj].
      destruct (Nat.eq_dec i j) as [<- | Hne].
      + rewrite (nth_error_replace_nth_same _ _ _ _ E) in Hj.
        injection Hj as <-. reflexivity.
      + rewrite nth_error_replace_nth_other in Hj by exact Hne.
        apply (Hothers j); [congruence | exact Hj].
    - split; [reflexivity |].
      apply Forall_forall. intros x Hx.
      apply In_nth_error in Hx. destruct Hx as [j Hj].
      apply (Hothers j); [| exact Hj]. intros ->. congruence. }
  destruct H1 as [Ho1 Hall1]. rewrite <- Ho1. clearbody p1. clear Ho1 Hothers.
  revert p1 Hall1. unfold play.
  induction acts as [| a r IH]; intros q Hq; cbn [fold_left].
  - split; [reflexivity |]. intros j s Hj.
    rewrite Forall_forall in Hq. apply Hq. eapply nth_error_In, Hj.
  - cbn [forallb] in Hacts. apply andb_prop in Hacts. destruct Hacts as [Ha Hr].
    destruct (act_all_stopped a q Ha Hq) as [Ho Hall].
    destruct (IH Hr (act a q) Hall) as [Ho' Hall']. split; [| exact Hall'].
    now rewrite Ho', Ho.
Qed.

(** **** What a stop silences *)

Lemma inactive_medication_evolves (w w' : World) (schedule_id : string) :
  evolves w w' ->
  medication_active_in schedule_id (self w) = Some false ->
  medication_active_in schedule_id (self w') = Some false.
Proof.
  intros Hev H. unfold medication_active_in in *.
  destruct (PyDict.get schedule_id (medication_schedules (self w))) as [m |] eqn:E;
    [| discriminate].
  destruct (Hev schedule_id) as [Hm _].
  destruct (Hm m E) as (m' & -> & _ & Hin). cbn in *.
  f_equal. apply Hin. congruence.
Qed.

Lemma inactive_followup_evolves (w w' : World) (schedule_id : string) :
  evolves w w' ->
  followup_active_in schedule_id (self w) = Some false ->
  followup_active_in schedule_id (self w') = Some false.
Proof.
  intros Hev H. unfold followup_active_in in *.
  destruct (PyDict.get schedule_id (followup_schedules (self w))) as [f |] eqn:E;
    [| discriminate].
  destruct (Hev schedule_id) as [_ Hf].
  destruct (Hf f E) as (f' & -> & _ & Hin). cbn in *.
  f_equal. apply Hin. congruence.
Qed.

Lemma method_same_process (o : op) : method o = true -> same_process o = true.
Proof. destruct o; auto. Qed.

(** X16.  A stop silences the jobs of the object it is called on.  After
    [stop_medication_schedule] or [stop_followup_schedule] has returned
    [True] on an object, no job of that object delivers a reminder of that
    schedule again, whatever is called on the objects of the process and
    whichever loop runs the jobs, although the jobs stay in the registry.
    (The jobs of a schedule are jobs of the object that added it: a stop on
    another object, which holds the schedule because it loaded the file,
    returns [True] as well and silences nothing.) *)
Theorem stopped_schedule_never_delivers (p : Process) (i : nat)
    (s : HealthcareScheduler) (acts : list action) (schedule_id : string) :
  nth_error (objects p) i = Some s ->
  (fst (stop_medication_schedule schedule_id (world_of s (file p))) = true ->
   let p1 := act (Call i (StopMedication schedule_id)) p in
   play_ok acts p1 = true ->
   exists later,
     outbox (play acts p1) = outbox p ++ later
     /\ forall e, In (i, e) later ->
                  job_do (by_job e) <> send_medication schedule_id)
  /\ (fst (stop_followup_schedule schedule_id (world_of s (file p))) = true ->
      let p1 := act (Call i (StopFollowup schedule_id)) p in
      play_ok acts p1 = true ->
      exists later,
        outbox (play acts p1) = outbox p ++ later
        /\ forall e n, In (i, e) later ->
                       job_do (by_job e) <> send_followup schedule_id n).
Proof.
  intros Hi. split.
  - intros Hstop p1 Hok.
    destruct (stop_medication_schedule_world schedule_id (world_of s (file p)))
      as (Hm & _ & _ & _ & Hd).
    set (s1 := self (snd (stop_medication_schedule schedule_id
                            (world_of s (file p))))) in *.
    assert (Hp1 : nth_error (objects p1) i = Some s1 /\ outbox p1 = outbox p).
    { unfold p1. cbn [act method]. rewrite Hi. unfold merge.
      cbn [objects outbox exec]. rewrite Hd. cbn [delivered world_of map].
      rewrite app_nil_r. split; [| reflexivity].
      now apply (nth_error_replace_nth_same _ s). }
    destruct Hp1 as [Hi1 Ho1].
    assert (Hin : medication_active_in schedule_id s1 = Some false).
    { unfold medication_active_in. rewrite Hm, get_modify_same.
      unfold stop_medication_schedule, PyDict.contains in Hstop.
      cbn [self world_of] in Hstop |- *.
      destruct (PyDict.get schedule_id (medication_schedules s));
        [reflexivity | discriminate Hstop]. }
    destruct (play_object
                (fun x => medication_active_in schedule_id x = Some false) i
                (fun _ => true)) with (acts := acts) (p := p1) (s := s1)
      as (s' & later & _ & _ & Ho & Hf); auto.
    + intros o x d _ Hmeth Hop Hx.
      apply (inactive_medication_evolves (world_of x d)); [| exact Hx].
      apply evolves_exec_here; [now apply method_same_process | exact Hop].
    + intros j now f x d _ Hx.
      apply (inactive_medication_evolves (world_of x d)); [| exact Hx].
      apply evolves_call_job_func.
    + clear. induction acts; cbn; auto.
    + exists later. split; [now rewrite Ho, Ho1 |].
      intros e He Hj. destruct (Hf e He) as (x & d & Hx & Hfires).
      rewrite Hj in Hfires. destruct Hfires as (m & Hget & Hact & _).
      unfold medication_active_in in Hx. cbn [self world_of] in Hget.
      rewrite Hget in Hx. cbn in Hx. congruence.
  - intros Hstop p1 Hok.
    destruct (stop_followup_schedule_world schedule_id (world_of s (file p)))
      as (Hfu & _ & _ & _ & Hd).
    set (s1 := self (snd (stop_followup_schedule schedule_id
                            (world_of s (file p))))) in *.
    assert (Hp1 : nth_error (objects p1) i = Some s1 /\ outbox p1 = outbox p).
    { unfold p1. cbn [act method]. rewrite Hi. unfold merge.
      cbn [objects outbox exec]. rewrite Hd. cbn [delivered world_of map].
      rewrite app_nil_r. split; [| reflexivity].
      now apply (nth_error_replace_nth_same _ s). }
    destruct Hp1 as [Hi1 Ho1].
    assert (Hin : followup_active_in schedule_id s1 = Some false).
    { unfold followup_active_in. rewrite Hfu, get_modify_same.
      unfold stop_followup_schedule, PyDict.contains in Hstop.
      cbn [self world_of] in Hstop |- *.
      destruct (PyDict.get schedule_id (followup_schedules s));
        [reflexivity | discriminate Hstop]. }
    destruct (play_object
                (fun x => followup_active_in schedule_id x = Some false) i
                (fun _ => true)) with (acts := acts) (p := p1) (s := s1)
      as (s' & later & _ & _ & Ho & Hf); auto.
    + intros o x d _ Hmeth Hop Hx.
      apply (inactive_followup_evolves (world_of x d)); [| exact Hx].
      apply evolves_exec_here; [now apply method_same_process | exact Hop].
    + intros j now f x d _ Hx.
      apply (inactive_followup_evolves (world_of x d)); [| exact Hx].
      apply evolves_call_job_func.
    + clear. induction acts; cbn; auto.
    + exists later. split; [now rewrite Ho, Ho1 |].
      intros e n He Hj. destruct (Hf e He) as (x & d & Hx & Hfires).
      rewrite Hj in Hfires. destruct Hfires as (f & rd & Hget & Hact & _).
      unfold followup_active_in in Hx. cbn [self world_of] in Hget.
      rewrite Hget in Hx. cbn in Hx. congruence.
Qed.

(** **** What keeps a schedule active in an object *)

Lemma call_job_func_keeps_active (f : job_func) (schedule_id : string)
    (now limit : datetime) (w : World) :
  now <= limit ->
  active_medication_until schedule_id limit w ->
  active_medication_until schedule_id limit (fst (call_job_func f now w)).
Proof.
  intros Hnow H. destruct f as [k | k n]; cbn [call_job_func].
  - now apply send_medication_keeps_active.
  - now rewrite send_followup_world.
Qed.

Lemma call_job_func_followups (f : job_func) (now : datetime) (w : World) :
  followup_schedules (self (fst (call_job_func f now w)))
  = followup_schedules (self w).
Proof.
  destruct f as [k | k n]; cbn [call_job_func].
  - unfold _send_medication_reminder.
    destruct (PyDict.get k (medication_schedules (self w))) as [s |];
      [| reflexivity].
    destruct (negb (Med.is_active s)); [reflexivity |].
    destruct (Med.end_date s <? now); reflexivity.
  - now rewrite send_followup_world.
Qed.

Lemma method_ticks_until (o : op) (limit : datetime) :
  method o = true -> ticks_until limit o = true.
Proof. destruct o; auto. discriminate. Qed.

(** X8.  In a scheduler object only two things make a schedule inactive.
    An active medication schedule stays active in the object as long as it
    is not stopped on that object and no iteration of a loop reads a clock
    past its end date; an active follow-up schedule stays active as long
    as it is not stopped on that object, also when its appointment has
    passed.  What is called on the other objects of the process, adds
    under other ids, and the construction of further objects change
    neither. *)
Theorem active_until_stopped_or_expired (p : Process) (acts : list action)
    (i : nat) (s : HealthcareScheduler) (schedule_id : string) :
  play_ok acts p = true ->
  nth_error (objects p) i = Some s ->
  (forall m,
      PyDict.get schedule_id (medication_schedules s) = Some m ->
      Med.is_active m = true ->
      forallb (keeps_medication_of i schedule_id) acts = true ->
      forallb (iterations_until (Med.end_date m)) acts = true ->
      exists s',
        nth_error (objects (play acts p)) i = Some s'
        /\ medication_active_in schedule_id s' = Some true)
  /\ (followup_active_in schedule_id s = Some true ->
      forallb (keeps_followup_of i schedule_id) acts = true ->
      exists s',
        nth_error (objects (play acts p)) i = Some s'
        /\ followup_active_in schedule_id s' = Some true).
Proof.
  intros Hok Hi. split.
  - intros m Hget Hact Hkeep Htick.
    destruct (play_object
                (fun x => active_medication_until schedule_id (Med.end_date m)
                            (world_of x Missing)) i
                (fun a => keeps_medication_of i schedule_id a
                          && iterations_until (Med.end_date m) a))
      with (acts := acts) (p := p) (s := s)
      as (s' & _ & Hi' & (m' & Hget' & Hact' & _) & _); auto.
    + intros o x d Hallowed Hmeth Hop Hx.
      apply andb_prop in Hallowed. destruct Hallowed as [Hk _].
      cbn [keeps_medication_of] in Hk. rewrite Nat.eqb_refl in Hk.
      cbn [negb orb] in Hk.
      eapply active_medication_until_ext;
        [| apply (exec_keeps_active_medication o (world_of x d) schedule_id
                    (Med.end_date m));
           [now apply method_same_process | exact Hop | exact Hk
           | now apply method_ticks_until
           | eapply active_medication_until_ext; [| exact Hx]; reflexivity]].
      reflexivity.
    + intros j now f x d Hallowed Hx.
      apply andb_prop in Hallowed. destruct Hallowed as [_ Hnow].
      cbn [iterations_until] in Hnow. apply Z.leb_le in Hnow.
      eapply active_medication_until_ext;
        [| apply (call_job_func_keeps_active f schedule_id now
                    (Med.end_date m) (world_of x d) Hnow);
           eapply active_medication_until_ext; [| exact Hx]; reflexivity].
      reflexivity.
    + clear - Hkeep Htick. induction acts as [| a r IH]; [reflexivity |].
      cbn [forallb] in *. apply andb_prop in Hkeep, Htick.
      destruct Hkeep as [H1 H2], Htick as [H3 H4].
      now rewrite H1, H3, IH.
    + exists m. auto.
    + exists s'. split; [exact Hi' |].
      unfold medication_active_in. cbn [self world_of] in Hget'.
      now rewrite Hget', <- Hact'.
  - intros Hact Hkeep.
    destruct (play_object
                (fun x => followup_active_in schedule_id x = Some true) i
                (keeps_followup_of i schedule_id))
      with (acts := acts) (p := p) (s := s)
      as (s' & _ & Hi' & Hact' & _); auto.
    + intros o x d Hallowed Hmeth Hop Hx.
      cbn [keeps_followup_of] in Hallowed. rewrite Nat.eqb_refl in Hallowed.
      cbn [negb orb] in Hallowed.
      apply (exec_keeps_active_followup o (world_of x d) schedule_id);
        [now apply method_same_process | exact Hop | exact Hallowed | exact Hx].
    + intros j now f x d _ Hx. unfold followup_active_in.
      now rewrite call_job_func_followups.
    + exists s'. auto.
Qed.

End ProcessProperties.

Section ProcessClaims.
Context {L : Library}.
Hypothesis laws : library_laws L.
Import PyDictFacts.

(** C9, as the code has it.  Inactivity is absorbing within a scheduler
    object: once a schedule is inactive in an object, it stays stored and
    inactive in that object along every sequence of constructions of
    further objects, method calls on any object (adds with new ids, stops,
    listings, starts and stops of a loop), iterations of any loop, calls
    of the convenience functions and clicks on the button.  And while one
    scheduler object at a time is all a process has, a schedule that is
    inactive stays inactive across loads and restarts of the process too.
    (The file is not protected when several objects write it: each save
    rewrites it from the dictionaries of the object that saves.) *)
Theorem inactive_is_absorbing_per_object (schedule_id : string) :
  (forall (p : Process) (acts : list action) (i : nat)
          (s : HealthcareScheduler),
      play_ok acts p = true ->
      nth_error (objects p) i = Some s ->
      exists s',
        nth_error (objects (play acts p)) i = Some s'
        /\ (medication_active_in schedule_id s = Some false ->
            medication_active_in schedule_id s' = Some false)
        /\ (followup_active_in schedule_id s = Some false ->
            followup_active_in schedule_id s' = Some false))
  /\ (forall (d : storage) (before ops : list op),
         run_ok before (boot d) = true ->
         let w := run before (boot d) in
         run_ok ops w = true ->
         (medication_active schedule_id w = Some false ->
          medication_active schedule_id (run ops w) = Some false)
         /\ (followup_active schedule_id w = Some false ->
             followup_active schedule_id (run ops w) = Some false)).
Proof.
  split; [| intros d before ops; apply (inactive_is_absorbing_alone laws)].
  intros p acts i s Hok Hi.
  destruct (objects_evolve_play acts p Hok i s Hi) as (s' & Hs' & Hev).
  exists s'. split; [exact Hs' |].
  destruct (Hev schedule_id) as [Hm Hf].
  cbn [self world_of] in Hm, Hf.
  unfold medication_active_in, followup_active_in. split; intros H.
  - destruct (PyDict.get schedule_id (medication_schedules s)) as [m |];
      [| discriminate].
    destruct (Hm m eq_refl) as (m' & -> & _ & Hin). cbn in *.
    f_equal. apply Hin. congruence.
  - destruct (PyDict.get schedule_id (followup_schedules s)) as [f |];
      [| discriminate].
    destruct (Hf f eq_refl) as (f' & -> & _ & Hin). cbn in *.
    f_equal. apply Hin. congruence.
Qed.

End ProcessClaims.

(** ** Text and the Telegram client *)

Module TextFacts.
Import Text.

Lemma lstrip_spaces (t l : list ascii) :
  forallb space1 t = true -> lstrip (t ++ l) = lstrip l.
Proof.
  induction t as [| a r IH]; cbn [forallb app]; [reflexivity |].
  intros H. apply andb_prop in H. destruct H as [Ha Hr].
  cbn [lstrip]. rewrite Ha. now apply IH.
Qed.

Lemma rstrip_rev_spaces (t l : list ascii) :
  forallb space1 t = true -> rstrip_rev (t ++ l) = rstrip_rev l.
Proof.
  induction t as [| a r IH]; cbn [forallb app]; [reflexivity |].
  intros H. apply andb_prop in H. destruct H as [Ha Hr].
  cbn [rstrip_rev]. rewrite Ha. now apply IH.
Qed.

Lemma plain_head_parts (a : ascii) :
  plain_head a = true ->
  space1 a = false
  /\ (forall b, space2 a b = false) /\ (forall b c, space3 a b c = false).
Proof.
  unfold plain_head, space2, space3. intros H. apply andb_prop in H.
  destruct H as [H1 H2]. apply negb_true_iff in H1, H2.
  apply orb_false_iff in H2. destruct H2 as [H2 H5].
  apply orb_false_iff in H2. destruct H2 as [H2 H4].
  apply orb_false_iff in H2. destruct H2 as [H2 H3].
  split; [exact H1 |]. split; intros; now rewrite ?H2, ?H3, ?H4, ?H5.
Qed.

Lemma plain_tail_parts (c : ascii) :
  plain_tail c = true ->
  space1 c = false
  /\ (forall b, space2 b c = false) /\ (forall a b, space3 a b c = false).
Proof.
  unfold plain_tail, space2, space3. intros H. apply andb_prop in H.
  destruct H as [H1 H2]. apply negb_true_iff in H1, H2.
  repeat (apply orb_false_iff in H2; destruct H2 as [H2 ?]).
  split; [exact H1 |]. split.
  - intros b. destruct (code b =? 194)%N; [| reflexivity].
    cbn [andb]. apply orb_false_iff. split; assumption.
  - intros a b.
    assert (E128 : (code c =? 128)%N = false).
    { destruct (N.eqb_spec (code c) 128) as [E |]; [| reflexivity].
      rewrite E in H2. discriminate H2. }
    rewrite E128, H2. repeat rewrite andb_false_r.
    repeat match goal with H : _ = false |- _ => rewrite H end.
    repeat rewrite andb_false_r. reflexivity.
Qed.

Lemma lstrip_keeps (a : ascii) (r : list ascii) :
  plain_head a = true -> lstrip (a :: r) = a :: r.
Proof.
  intros H. destruct (plain_head_parts a H) as (H1 & H2 & H3).
  cbn [lstrip]. rewrite H1.
  destruct r as [| b r2]; [reflexivity |]. rewrite H2.
  destruct r2 as [| c r3]; [reflexivity |]. now rewrite H3.
Qed.

Lemma rstrip_rev_keeps (c : ascii) (r : list ascii) :
  plain_tail c = true -> rstrip_rev (c :: r) = c :: r.
Proof.
  intros H. destruct (plain_tail_parts c H) as (H1 & H2 & H3).
  cbn [rstrip_rev]. rewrite H1.
  destruct r as [| b r2]; [reflexivity |]. rewrite H2.
  destruct r2 as [| a r3]; [reflexivity |]. now rewrite H3.
Qed.

Lemma forallb_rev {A : Type} (p : A -> bool) (l : list A) :
  forallb p l = true -> forallb p (rev l) = true.
Proof.
  rewrite !forallb_forall. intros H x Hx. apply H. now apply in_rev.
Qed.

Lemma list_ascii_of_string_app (s1 s2 : string) :
  list_ascii_of_string (s1 ++ s2)
  = list_ascii_of_string s1 ++ list_ascii_of_string s2.
Proof. induction s1 as [| a r IH]; cbn; [reflexivity | now rewrite IH]. Qed.

(** White space around a text that neither begins nor ends with white
    space is all that [strip] removes. *)
Lemma strip_trimmed (lead t trail : string) :
  forallb space1 (list_ascii_of_string lead) = true ->
  forallb space1 (list_ascii_of_string trail) = true ->
  starts_plain t = true -> ends_plain t = true ->
  strip (lead ++ t ++ trail) = t.
Proof.
  intros Hlead Htrail Hs He. unfold strip, strip_bytes.
  rewrite !list_ascii_of_string_app, !rev_app_distr, <- app_assoc.
  rewrite rstrip_rev_spaces by now apply forallb_rev.
  unfold ends_plain in He.
  destruct (rev (list_ascii_of_string t)) as [| z r'] eqn:Er; [discriminate |].
  cbn [app]. rewrite rstrip_rev_keeps by exact He.
  change (z :: r' ++ rev (list_ascii_of_string lead))
    with ((z :: r') ++ rev (list_ascii_of_string lead)).
  rewrite <- Er, <- rev_app_distr, rev_involutive.
  rewrite lstrip_spaces by exact Hlead.
  destruct t as [| a r]; [discriminate |]. cbn [list_ascii_of_string].
  unfold starts_plain, plain in Hs. apply andb_prop in Hs.
  rewrite lstrip_keeps by apply Hs.
  change (a :: list_ascii_of_string r) with (list_ascii_of_string (String a r)).
  apply string_of_list_ascii_of_string.
Qed.

Lemma ends_plain_app (s t : string) :
  ends_plain t = true -> ends_plain (s ++ t) = true.
Proof.
  unfold ends_plain. rewrite list_ascii_of_string_app, rev_app_distr.
  destruct (rev (list_ascii_of_string t)); [discriminate | auto].
Qed.

Lemma rstrip_rev_last (a : ascii) :
  plain a = true ->
  forall n l, (List.length l <= n)%nat ->
              exists l', rstrip_rev (l ++ [a]) = l' ++ [a].
Proof.
  intros Ha. unfold plain in Ha. apply andb_prop in Ha. destruct Ha as [Hh Ht].
  destruct (plain_head_parts a Hh) as (_ & H2 & H3).
  assert (H0 : rstrip_rev [a] = [] ++ [a]) by now apply rstrip_rev_keeps.
  induction n as [| n IH]; intros l Hl.
  - destruct l; [| cbn in Hl; lia]. now exists [].
  - destruct l as [| x [| y [| z rest]]]; cbn [app rstrip_rev];
      cbn [List.length] in Hl.
    + now exists [].
    + destruct (space1 x); [now exists [] |]. rewrite H2. now exists [x].
    + destruct (space1 x); [apply (IH [y]); cbn; lia |].
      destruct (space2 y x); [now exists [] |]. rewrite H3. now exists [x; y].
    + destruct (space1 x); [apply (IH (y :: z :: rest)); cbn; lia |].
      destruct (space2 y x); [apply (IH (z :: rest)); cbn; lia |].
      destruct (space3 z y x); [apply (IH rest); lia |].
      now exists (x :: y :: z :: rest).
Qed.

(** A text that begins with a byte that is part of no white space is not
    blank. *)
Lemma strip_not_blank (t : string) :
  starts_plain t = true -> String.eqb (strip t) "" = false.
Proof.
  destruct t as [| a r]; [discriminate |]. cbn [starts_plain]. intros Ha.
  unfold strip, strip_bytes. cbn [list_ascii_of_string rev].
  destruct (rstrip_rev_last a Ha _ (rev (list_ascii_of_string r)) (le_n _))
    as (l' & ->).
  rewrite rev_app_distr. cbn [rev app].
  unfold plain in Ha. apply andb_prop in Ha.
  rewrite lstrip_keeps by apply Ha. reflexivity.
Qed.

End TextFacts.

Module TelegramFacts.
Import Text Telegram TextFacts.
#[local] Open Scope string_scope.

Lemma or_empty (s : string) : (if String.eqb s "" then "" else s) = s.
Proof. destruct (String.eqb_spec s ""); congruence. Qed.

Lemma strip_lead (lead t : string) :
  forallb space1 (list_ascii_of_string lead) = true ->
  starts_plain t = true -> ends_plain t = true ->
  strip (lead ++ t) = t.
Proof.
  intros Hl Hs He. rewrite <- (DigitsFacts.append_nil_r t) at 1.
  now apply strip_trimmed.
Qed.

Lemma medication_text_stripped
    (medication_name dosage time_to_take additional_notes : string) :
  medication_text medication_name dosage time_to_take additional_notes
  = "💊 <b>Medication Reminder</b>" ++ newline ++ newline
    ++ "<b>Medication:</b> " ++ medication_name ++ newline
    ++ "<b>Dosage:</b> " ++ dosage ++ newline
    ++ "<b>Time:</b> " ++ time_to_take ++ newline ++ newline
    ++ additional_notes ++ newline ++ newline
    ++ "Please take your medication as prescribed.".
Proof.
  unfold medication_text. rewrite or_empty.
  apply strip_lead; [reflexivity | reflexivity |].
  repeat apply ends_plain_app. reflexivity.
Qed.

Lemma follow_up_text_stripped
    (appointment_type date time location notes : string) :
  follow_up_text appointment_type date time location notes
  = "📅 <b>Follow-up Appointment Reminder</b>" ++ newline ++ newline
    ++ "<b>Type:</b> " ++ appointment_type ++ newline
    ++ "<b>Date:</b> " ++ date ++ newline
    ++ "<b>Time:</b> " ++ time ++ newline ++ newline
    ++ (if String.eqb location "" then ""
        else "<b>Location:</b> " ++ location)
    ++ newline ++ newline ++ notes ++ newline ++ newline
    ++ "Please confirm your appointment or contact us if you need to reschedule.".
Proof.
  unfold follow_up_text. rewrite or_empty.
  match goal with
  | |- _ = ?t =>
      transitivity (strip (newline ++ t ++ newline ++ "        "))
  end.
  - f_equal. f_equal. rewrite !DigitsFacts.append_assoc. reflexivity.
  - apply strip_trimmed; [reflexivity | reflexivity | reflexivity |].
    repeat apply ends_plain_app. reflexivity.
Qed.

(** X23.  [strip] takes nothing but the margin of the two templates away: the
    fields reach the text of a reminder as they are, with the white space
    they begin or end with, and an empty field leaves its place empty. *)
Theorem reminder_texts_verbatim
    (medication_name dosage time_to_take additional_notes : string)
    (appointment_type date time location notes : string) :
  medication_text medication_name dosage time_to_take additional_notes
  = "💊 <b>Medication Reminder</b>" ++ newline ++ newline
    ++ "<b>Medication:</b> " ++ medication_name ++ newline
    ++ "<b>Dosage:</b> " ++ dosage ++ newline
    ++ "<b>Time:</b> " ++ time_to_take ++ newline ++ newline
    ++ additional_notes ++ newline ++ newline
    ++ "Please take your medication as prescribed."
  /\ follow_up_text appointment_type date time location notes
     = "📅 <b>Follow-up Appointment Reminder</b>" ++ newline ++ newline
       ++ "<b>Type:</b> " ++ appointment_type ++ newline
       ++ "<b>Date:</b> " ++ date ++ newline
       ++ "<b>Time:</b> " ++ time ++ newline ++ newline
       ++ (if String.eqb location "" then ""
           else "<b>Location:</b> " ++ location)
       ++ newline ++ newline ++ notes ++ newline ++ newline
       ++ "Please confirm your appointment or contact us if you need to reschedule.".
Proof.
  split; [apply medication_text_stripped | apply follow_up_text_stripped].
Qed.

Lemma send_message_posts (sender : TelegramSender) (message parse_mode : string)
    (reply : Reply) :
  starts_plain message = true ->
  send_message sender message parse_mode reply
  = (sent reply,
     [sendMessage sender (Some (chat_id sender)) message parse_mode]).
Proof.
  intros H. unfold send_message. rewrite (strip_not_blank message H).
  destruct message; [discriminate H | reflexivity].
Qed.

(** X24.  Every call of the dispatch becomes exactly one request to
    [sendMessage], whatever the fields of the schedule hold, and the call
    returns [True] exactly when the answer has status 200.  A medication
    reminder is addressed to the chat id of its schedule, also when that
    is [None]: the chat of the environment is no fallback.  A follow-up
    reminder is always addressed to the chat of the environment. *)
Theorem reminders_are_posted_once {F : Formats} (sender : TelegramSender)
    (c : telegram_call) (reply : Reply) :
  perform sender c reply
  = (sent reply,
     [sendMessage sender
        match c with
        | medication_reminder to _ _ _ _ => to
        | follow_up_reminder _ _ _ _ _ => Some (chat_id sender)
        end
        match c with
        | medication_reminder _ medication_name dosage time_to_take
            additional_notes =>
            medication_text medication_name dosage
              (strftime_I_M_p time_to_take) additional_notes
        | follow_up_reminder appointment_type date time location notes =>
            follow_up_text appointment_type (strftime_Y_m_d date) time
              location notes
        end "HTML"]).
Proof.
  destruct c as [to medication_name dosage time_to_take additional_notes
                | appointment_type date time location notes];
    cbn [perform].
  - reflexivity.
  - unfold send_follow_up_reminder. apply send_message_posts.
    rewrite follow_up_text_stripped.
    reflexivity.
Qed.

Lemma fold_left_head {V : Type} (f : V -> string) (l : list V) :
  forall (a : ascii) (r : string),
  exists r',
    fold_left (fun summary v => summary ++ f v) l (String a r) = String a r'.
Proof.
  induction l as [| v l IH]; intros a r; cbn [fold_left]; [now exists r |].
  apply (IH a (r ++ f v)).
Qed.

Lemma summary_text_head (now : datetime) (s : HealthcareScheduler) :
  starts_plain (summary_text now s) = true.
Proof.
  unfold summary_text.
  set (m := fst (get_active_schedules now s)).
  set (f := snd (get_active_schedules now s)).
  set (head := "📋 <b>Healthcare Schedule Summary</b>" ++ newline ++ newline).
  assert (Hhead : exists r, head = String "240" r) by (eexists; reflexivity).
  destruct Hhead as (r0 & Hhead). clearbody head. subst head.
  assert (H1 : exists r1,
             (if nonempty m
              then fold_left
                     (fun summary schedule =>
                        summary ++ medication_line now schedule)
                     (PyDict.values m)
                     (String "240" r0 ++ "💊 <b>Active Medications:</b>"
                      ++ newline) ++ newline
              else String "240" r0) = String "240" r1).
  { destruct (nonempty m); [| now exists r0].
    cbn [append].
    match goal with
    | |- context [fold_left ?g ?l (String ?a ?r)] =>
        destruct (fold_left_head (medication_line now) l a r) as (r' & ->)
    end.
    eexists. reflexivity. }
  destruct H1 as (r1 & ->).
  assert (H2 : exists r2,
             (if nonempty f
              then fold_left
                     (fun summary schedule =>
                        summary ++ followup_line now schedule)
                     (PyDict.values f)
                     (String "240" r1 ++ "📅 <b>Upcoming Appointments:</b>"
                      ++ newline)
              else String "240" r1) = String "240" r2).
  { destruct (nonempty f); [| now exists r1].
    cbn [append].
    match goal with
    | |- context [fold_left ?g ?l (String ?a ?r)] =>
        destruct (fold_left_head (followup_line now) l a r) as (r' & ->)
    end.
    eexists. reflexivity. }
  destruct H2 as (r2 & ->).
  destruct (negb (nonempty m) && negb (nonempty f)); reflexivity.
Qed.

(** X25.  [send_summary] makes exactly one request in every state of the
    scheduler, to the chat of the environment, with the text it has built:
    the text is never blank, also when nothing is active, so the guard of
    [send_message] never drops it. *)
Theorem send_summary_posts_once (sender : TelegramSender) (now : datetime)
    (reply : Reply) (s : HealthcareScheduler) :
  send_summary sender now reply s
  = [sendMessage sender (Some (chat_id sender)) (summary_text now s) "HTML"].
Proof.
  unfold send_summary.
  now rewrite (send_message_posts _ _ _ _ (summary_text_head now s)).
Qed.

End TelegramFacts.

(** ** The properties at concrete worlds *)

Module Witnesses.
Import PythonLibrary PythonLibraryFacts Examples.

(** The two reminders of [lisinopril_day] were sent before the schedule
    ended. *)
Lemma expired_medication_never_delivered_witness :
  run_ok (lisinopril_ops ++ lisinopril_day) (boot Missing) = true
  /\ (forall e,
         In e (delivered (run (lisinopril_ops ++ lisinopril_day) (boot Missing))) ->
         job_do (by_job e) = send_medication "med-1" ->
         exists s,
           PyDict.get "med-1"
             (medication_schedules
                (self (run (lisinopril_ops ++ lisinopril_day) (boot Missing))))
           = Some s
           /\ sent_at e <= Med.end_date s).
Proof.
  assert (Hok : run_ok (lisinopril_ops ++ lisinopril_day) (boot Missing) = true)
    by (vm_compute; reflexivity).
  split; [exact Hok |].
  exact (proj1 (expired_medication_never_delivered python_library_laws Missing
                  (lisinopril_ops ++ lisinopril_day) "med-1" Hok)).
Defined.

(** C6, as the specification states it, fails: a call whose only time is
    [25:99] and whose duration is zero days returns an id, and the schedule
    is stored and written to the file. *)
Lemma add_medication_schedule_accepts_invalid :
  fst unvalidated_add = Returns "med-1"
  /\ PyDict.contains "med-1" (medication_schedules (self (snd unvalidated_add)))
     = true
  /\ disk (snd unvalidated_add) = Content (snapshot (self (snd unvalidated_add)))
  /\ disk (snd unvalidated_add) <> Missing.
Proof. repeat split; try (vm_compute; reflexivity). discriminate. Qed.

(** C7, as the specification states it, fails: stopping an id that is not
    known raises nothing; the call returns [False] and changes nothing. *)
Lemma stop_unknown_returns_false :
  stop_medication_schedule "no-such-id" lisinopril_world
  = (false, lisinopril_world)
  /\ stop_followup_schedule "no-such-id" lisinopril_world
     = (false, lisinopril_world).
Proof. split; vm_compute; reflexivity. Qed.

(** C2, as the specification states it, fails: with [08:00] listed twice
    the tick at 08:00 delivers twice for the same schedule, time of day and
    calendar day; and a job that is run a day late delivers in the morning
    and again at its time of day, twice on one calendar day. *)
Lemma doubled_time_delivers_twice :
  (run_ok doubled_ops (boot Missing) = true
   /\ ticks_timely doubled_ops (boot Missing) = true
   /\ deliveries_on (send_medication "med-1") (Some eight_o_clock) day0
        (run doubled_ops (boot Missing)) = 2%nat)
  /\ (run_ok late_ops (boot Missing) = true
      /\ ticks_timely late_ops (boot Missing) = false
      /\ deliveries_on (send_medication "med-1") (Some eight_o_clock) (day0 + 1)
           (run late_ops (boot Missing)) = 2%nat).
Proof. repeat split; vm_compute; reflexivity. Qed.

(** One delivery at 08:00 on the first day of [lisinopril_day]. *)
Lemma deliveries_per_time_and_day_witness :
  run_ok (lisinopril_ops ++ lisinopril_day) (boot Missing) = true
  /\ ticks_timely (lisinopril_ops ++ lisinopril_day) (boot Missing) = true
  /\ (deliveries_on (send_medication "med-1") (Some eight_o_clock) day0
        (run (lisinopril_ops ++ lisinopril_day) (boot Missing)) <= 1)%nat.
Proof.
  assert (Hok : run_ok (lisinopril_ops ++ lisinopril_day) (boot Missing) = true)
    by (vm_compute; reflexivity).
  assert (Ht : ticks_timely (lisinopril_ops ++ lisinopril_day) (boot Missing) = true)
    by (vm_compute; reflexivity).
  assert (Hs : PyDict.get "med-1"
                 (medication_schedules
                    (self (run (lisinopril_ops ++ lisinopril_day) (boot Missing))))
               = Some (Med.set_is_active false lisinopril_schedule))
    by (vm_compute; reflexivity).
  split; [exact Hok |]. split; [exact Ht |].
  apply (proj2 (deliveries_per_time_and_day python_library_laws Missing
                  (lisinopril_ops ++ lisinopril_day) "med-1" _ eight_o_clock day0
                  Hok Ht Hs)).
  vm_compute. apply le_n.
Defined.

(** C3, as the specification states it, fails: the reminder for the day of
    the appointment is delivered at 09:00, an hour after the appointment;
    and an offset listed twice is delivered twice. *)
Lemma same_day_reminder_after_appointment :
  (run_ok same_day_ops (boot Missing) = true
   /\ ticks_timely same_day_ops (boot Missing) = true
   /\ map (fun e => (job_do (by_job e), sent_at e))
        (delivered (run same_day_ops (boot Missing)))
      = [(send_followup "fu-1" 0, at_clock (day0 + 1) 9 0)]
   /\ option_map Fu.appointment_date
        (PyDict.get "fu-1"
           (followup_schedules (self (run same_day_ops (boot Missing)))))
      = Some (at_clock (day0 + 1) 8 0)
   /\ at_clock (day0 + 1) 8 0 < at_clock (day0 + 1) 9 0)
  /\ (run_ok repeated_offset_ops (boot Missing) = true
      /\ ticks_timely repeated_offset_ops (boot Missing) = true
      /\ deliveries_of (send_followup "fu-1" 3)
           (run repeated_offset_ops (boot Missing)) = 2%nat).
Proof. repeat split; vm_compute; reflexivity. Qed.

(** One reminder three days before the appointment of [cardiology_ops],
    delivered on that day; and the reminder that the late loop of
    [late_followup_ops] delivers was delivered on the day three days
    before the appointment, too. *)
Lemma followup_reminder_day_witness :
  (run_ok cardiology_ops (boot Missing) = true
   /\ ticks_timely cardiology_ops (boot Missing) = true
   /\ (exists e,
         In e (delivered (run cardiology_ops (boot Missing)))
         /\ job_do (by_job e) = send_followup "fu-1" 3
         /\ date (sent_at e) = day0 + 4
         /\ sent_at e < at_clock (day0 + 7) 14 30)
   /\ (deliveries_of (send_followup "fu-1" 3) (run cardiology_ops (boot Missing))
       <= occurrences 3 (Fu.reminder_days_before cardiology_schedule))%nat)
  /\ (run_ok late_followup_ops (boot Missing) = true
      /\ ticks_timely late_followup_ops (boot Missing) = false
      /\ delivered (run late_followup_ops (boot Missing)) <> []
      /\ forall e,
           In e (delivered (run late_followup_ops (boot Missing))) ->
           job_do (by_job e) = send_followup "fu-1" 3 ->
           date (sent_at e) = day0 + 4).
Proof.
  split.
  2: {
    assert (Hok : run_ok late_followup_ops (boot Missing) = true)
      by (vm_compute; reflexivity).
    split; [exact Hok |]. split; [vm_compute; reflexivity |].
    split; [vm_compute; discriminate |].
    intros e He Hj.
    destruct (proj1 (followup_reminder_day python_library_laws Missing
                       late_followup_ops "fu-1" 3 Hok) e He Hj)
      as (s & reminder_date & Hs & Hr & Hd & _).
    assert (Hs0 : PyDict.get "fu-1"
                    (followup_schedules
                       (self (run late_followup_ops (boot Missing))))
                  = Some cardiology_schedule) by (vm_compute; reflexivity).
    assert (s = cardiology_schedule) by congruence. subst s.
    assert (Hr0 : reminder_date_of (Fu.appointment_date cardiology_schedule) 3
                  = Returns (at_clock (day0 + 4) 14 30))
      by (vm_compute; reflexivity).
    rewrite Hr0 in Hr. injection Hr as <-. rewrite Hd.
    vm_compute. reflexivity. }
  assert (Hok : run_ok cardiology_ops (boot Missing) = true)
    by (vm_compute; reflexivity).
  assert (Ht : ticks_timely cardiology_ops (boot Missing) = true)
    by (vm_compute; reflexivity).
  pose proof (followup_reminder_day python_library_laws Missing cardiology_ops
                "fu-1" 3 Hok) as (Hday & _ & Hcount).
  split; [exact Hok |]. split; [exact Ht |]. split.
  - set (e := nth 1 (delivered (run cardiology_ops (boot Missing)))
                {| by_job := {| job_at := 0; job_do := send_followup "fu-1" 3;
                                next_run := 0 |};
                   sent_at := 0;
                   call := follow_up_reminder "" 0 "" "" "" |}).
    assert (He : In e (delivered (run cardiology_ops (boot Missing))))
      by (vm_compute; auto).
    assert (Hj : job_do (by_job e) = send_followup "fu-1" 3)
      by (vm_compute; reflexivity).
    destruct (Hday e He Hj) as (s & reminder_date & Hs & Hr & Hd & Hbefore).
    exists e. split; [exact He |]. split; [exact Hj |].
    split; [vm_compute; reflexivity |].
    assert (Hs0 : PyDict.get "fu-1"
                    (followup_schedules (self (run cardiology_ops (boot Missing))))
                  = Some cardiology_schedule) by (vm_compute; reflexivity).
    assert (s = cardiology_schedule) by congruence. subst s.
    apply Hbefore. vm_compute. discriminate.
  - apply (Hcount Ht). vm_compute. reflexivity.
Defined.

(** The chat id of [lisinopril_schedule] does not come back. *)
Lemma save_load_loses_chat_id_witness :
  well_formed (self lisinopril_world) = true
  /\ PyDict.get "med-1" (medication_schedules (self lisinopril_world))
     = Some lisinopril_schedule
  /\ PyDict.get "med-1"
       (medication_schedules (__init__ (disk (_save_schedules lisinopril_world))))
     = Some (Med.set_chat_id None lisinopril_schedule).
Proof.
  assert (Hwf : well_formed (self lisinopril_world) = true)
    by (vm_compute; reflexivity).
  assert (Hs : PyDict.get "med-1" (medication_schedules (self lisinopril_world))
               = Some lisinopril_schedule) by (vm_compute; reflexivity).
  split; [exact Hwf |]. split; [exact Hs |].
  exact (proj1 (save_load_loses_chat_id python_library_laws lisinopril_world
                  "med-1" "4711" lisinopril_schedule Hwf Hs eq_refl)).
Defined.

(** C5, as the specification states it, fails: a file with a malformed
    record is loaded without an exception; the record before the malformed
    one is in the scheduler, the follow-up of the file is not; a file that
    is no JSON gives the empty scheduler; and a file whose first record
    holds values of other types than the annotations is loaded whole, with
    those values, and nothing is logged. *)
Lemma truncated_file_loads_partially :
  Unchecked.medication_of_json (JDict [("id", JStr "med-2")])
  = Raises (KeyError "medication_name")
  /\ Unchecked._load_schedules truncated_file Unchecked.fresh_scheduler
     = ({| Unchecked.medication_schedules :=
             [(JStr "med-1",
               unchecked_medication (Med.set_chat_id None lisinopril_schedule))];
           Unchecked.followup_schedules := [];
           Unchecked.is_running := false |},
        Some (KeyError "medication_name"))
  /\ Unchecked.__init__ Unparseable = Unchecked.fresh_scheduler
  /\ snd (Unchecked._load_schedules mistyped_file Unchecked.fresh_scheduler)
     = None
  /\ map fst (Unchecked.medication_schedules (Unchecked.__init__ mistyped_file))
     = [JInt 7; JStr "med-1"]
  /\ map (fun kv => Unchecked.Med.duration_days (snd kv))
       (Unchecked.medication_schedules (Unchecked.__init__ mistyped_file))
     = [JStr "seven"; JInt 1]
  /\ map fst (Unchecked.followup_schedules (Unchecked.__init__ mistyped_file))
     = [JStr "fu-1"].
Proof. repeat split; vm_compute; reflexivity. Qed.

End Witnesses.

(** ** The further properties at concrete worlds *)

Module MoreWitnesses.
Import PythonLibrary PythonLibraryFacts Examples MoreExamples.

(** The schedule of [lisinopril_world] is listed at noon, and is not once
    it is stopped. *)
Lemma stopped_schedule_not_listed_witness :
  unique_keys (medication_schedules (self lisinopril_world)) = true
  /\ unique_keys (followup_schedules (self lisinopril_world)) = true
  /\ PyDict.get "med-1" (fst (get_active_schedules noon (self lisinopril_world)))
     = Some lisinopril_schedule
  /\ PyDict.get "med-1"
       (fst (get_active_schedules noon
               (self (snd (stop_medication_schedule "med-1" lisinopril_world)))))
     = None.
Proof.
  assert (Hm : unique_keys (medication_schedules (self lisinopril_world)) = true)
    by (vm_compute; reflexivity).
  assert (Hf : unique_keys (followup_schedules (self lisinopril_world)) = true)
    by (vm_compute; reflexivity).
  split; [exact Hm |]. split; [exact Hf |].
  split; [vm_compute; reflexivity |].
  exact (proj1 (proj1 (stopped_schedule_not_listed "med-1" noon lisinopril_world
                         Hm Hf))).
Defined.

(** A one day schedule added at 07:00 is listed at noon and is not listed
    two days later. *)
Lemma added_schedule_listed_witness :
  unique_keys (medication_schedules (self (boot Missing))) = true
  /\ unique_keys (followup_schedules (self (boot Missing))) = true
  /\ (exists schedule,
         PyDict.get "med-1"
           (medication_schedules
              (self (snd (add_medication_schedule "Lisinopril" "10mg"
                            ["08:00"; "20:00"] 1 None "Take with food"
                            (Some "4711") "med-1" (at_clock day0 7 0)
                            (boot Missing)))))
         = Some schedule
         /\ PyDict.get "med-1"
              (fst (get_active_schedules noon
                      (self (snd (add_medication_schedule "Lisinopril" "10mg"
                                    ["08:00"; "20:00"] 1 None "Take with food"
                                    (Some "4711") "med-1" (at_clock day0 7 0)
                                    (boot Missing))))))
            = if noon <=? Med.end_date schedule then Some schedule else None).
Proof.
  assert (Hm : unique_keys (medication_schedules (self (boot Missing))) = true)
    by reflexivity.
  assert (Hf : unique_keys (followup_schedules (self (boot Missing))) = true)
    by reflexivity.
  split; [exact Hm |]. split; [exact Hf |].
  destruct (proj1 (added_schedule_listed "Lisinopril" "10mg" ["08:00"; "20:00"] 1
                     None "Take with food" (Some "4711")
                     "Cardiology" (at_clock (day0 + 7) 14 30) "2:30 PM" "" "" None
                     "med-1" (at_clock day0 7 0) noon (boot Missing) Hm Hf)
             eq_refl) as (schedule & H1 & _ & H3).
  exists schedule. split; [exact H1 | exact H3].
Defined.

(** A second schedule goes behind the one of [lisinopril_world]. *)
Lemma add_schedule_appends_witness :
  PyDict.contains "med-2" (medication_schedules (self lisinopril_world)) = false
  /\ PyDict.contains "med-2" (followup_schedules (self lisinopril_world)) = false
  /\ exists schedule,
       medication_schedules
         (self (snd (add_medication_schedule "Metformin" "500mg" ["09:30"] 30
                       None "" None "med-2" (at_clock day0 9 0)
                       lisinopril_world)))
       = medication_schedules (self lisinopril_world) ++ [("med-2", schedule)].
Proof.
  assert (Hm : PyDict.contains "med-2"
                 (medication_schedules (self lisinopril_world)) = false)
    by (vm_compute; reflexivity).
  assert (Hf : PyDict.contains "med-2"
                 (followup_schedules (self lisinopril_world)) = false)
    by (vm_compute; reflexivity).
  split; [exact Hm |]. split; [exact Hf |].
  destruct (proj1 (add_schedule_appends "Metformin" "500mg" ["09:30"] 30 None ""
                     None "Cardiology" (at_clock (day0 + 7) 14 30) "2:30 PM" ""
                     "" None "med-2" (at_clock day0 9 0) lisinopril_world Hm Hf)
             eq_refl) as (schedule & H1 & _).
  exists schedule. exact H1.
Defined.

(** After the restart the schedule is stored and active, the loop runs
    through 08:00 and 20:00, and nothing is delivered. *)
Lemma reloaded_schedules_have_no_jobs_witness :
  forallb adds_nothing idle_ticks = true
  /\ medication_active "med-1" (run idle_ticks restarted_world) = Some true
  /\ delivered (run idle_ticks (exec NewProcess lisinopril_world))
     = delivered lisinopril_world.
Proof.
  assert (H : forallb adds_nothing idle_ticks = true) by reflexivity.
  split; [exact H |]. split; [vm_compute; reflexivity |].
  exact (proj2 (reloaded_schedules_have_no_jobs lisinopril_world idle_ticks H)).
Defined.

(** After the day of [lisinopril_day] a restart finds the schedule, with
    no chat id. *)
Lemma file_describes_scheduler_witness :
  run_ok (lisinopril_ops ++ lisinopril_day) (boot Missing) = true
  /\ self (exec NewProcess (run (lisinopril_ops ++ lisinopril_day) (boot Missing)))
     = persisted_view (self (run (lisinopril_ops ++ lisinopril_day) (boot Missing))).
Proof.
  assert (Hok : run_ok (lisinopril_ops ++ lisinopril_day) (boot Missing) = true)
    by (vm_compute; reflexivity).
  split; [exact Hok |].
  exact (proj2 (file_describes_scheduler python_library_laws Missing
                  (lisinopril_ops ++ lisinopril_day) Hok)).
Defined.

(** The file of [lisinopril_world] loads without an error. *)
Lemma saved_file_is_stable_witness :
  well_formed (self lisinopril_world) = true
  /\ snd (_load_schedules (disk (_save_schedules lisinopril_world))
            fresh_scheduler) = None.
Proof.
  assert (Hwf : well_formed (self lisinopril_world) = true)
    by (vm_compute; reflexivity).
  split; [exact Hwf |].
  exact (proj1 (saved_file_is_stable python_library_laws lisinopril_world Hwf)).
Defined.

(** With [8am] between 08:00 and 20:00 the registry gets the job of 08:00
    only. *)
Lemma failed_registration_drops_the_rest_witness :
  at_time "8am" = None
  /\ jobs (snd (add_medication_schedule "Lisinopril" "10mg"
                  (["08:00"] ++ "8am" :: ["20:00"]) 1 None "" None "med-1"
                  (at_clock day0 7 0) (boot Missing)))
     = jobs (snd (add_medication_schedule "Lisinopril" "10mg" ["08:00"] 1 None ""
                    None "med-1" (at_clock day0 7 0) (boot Missing))).
Proof.
  assert (H : at_time "8am" = None) by (vm_compute; reflexivity).
  split; [exact H |].
  exact (proj1 (proj1 (failed_registration_drops_the_rest "Lisinopril" "10mg"
                         ["08:00"] "8am" ["20:00"] 1 None "" None
                         "Cardiology" (at_clock (day0 + 7) 14 30) "2:30 PM" "" ""
                         [] 0 [] "med-1" (at_clock day0 7 0) (boot Missing))
                  H)).
Defined.

(** The two jobs of the schedule of [lisinopril_ops]. *)
Lemma medication_jobs_registered_witness :
  map at_time ["08:00"; "20:00"] = map Some [eight_o_clock; 20 * usec_per_hour]
  /\ jobs (snd (add_medication_schedule "Lisinopril" "10mg" ["08:00"; "20:00"] 1
                  None "Take with food" (Some "4711") "med-1" (at_clock day0 7 0)
                  (boot Missing)))
     = jobs (boot Missing)
       ++ map (fun t => {| job_at := t; job_do := send_medication "med-1";
                           next_run := next_occurrence t (at_clock day0 7 0) |})
            [eight_o_clock; 20 * usec_per_hour].
Proof.
  assert (H : map at_time ["08:00"; "20:00"]
              = map Some [eight_o_clock; 20 * usec_per_hour])
    by (vm_compute; reflexivity).
  split; [exact H |].
  exact (proj1 (medication_jobs_registered python_library_laws "Lisinopril" "10mg"
                  ["08:00"; "20:00"] 1 None "Take with food" (Some "4711") "med-1"
                  (at_clock day0 7 0) (boot Missing)
                  [eight_o_clock; 20 * usec_per_hour] H eq_refl)).
Defined.

(** The appointment of [tomorrow_add] gets a job for the day before only:
    three and seven days before it are past. *)
Lemma followup_jobs_registered_witness :
  at_time "09:00" = Some nine_o_clock
  /\ (forall n, In n [1; 3; 7] ->
                exists reminder_date,
                  reminder_date_of (at_clock (day0 + 1) 14 30) n
                  = Returns reminder_date)
  /\ jobs (exec tomorrow_add (boot Missing))
     = jobs (boot Missing)
       ++ map (fun n => {| job_at := nine_o_clock;
                           job_do := send_followup "fu-1" n;
                           next_run := next_occurrence nine_o_clock
                                         (at_clock day0 10 0) |})
            (filter (fun n => at_clock day0 10 0
                              <? at_clock (day0 + 1) 14 30 - n * usec_per_day)
               [1; 3; 7]).
Proof.
  assert (Ht : at_time "09:00" = Some nine_o_clock) by (vm_compute; reflexivity).
  assert (Hall : forall n, In n [1; 3; 7] ->
                   exists reminder_date,
                     reminder_date_of (at_clock (day0 + 1) 14 30) n
                     = Returns reminder_date).
  { intros n [<- | [<- | [<- | []]]]; eexists; vm_compute; reflexivity. }
  split; [exact Ht |]. split; [exact Hall |].
  exact (proj1 (followup_jobs_registered "Cardiology" (at_clock (day0 + 1) 14 30)
                  "2:30 PM" "Room 302" "" None "fu-1" (at_clock day0 10 0)
                  (boot Missing) nine_o_clock Ht Hall)).
Defined.

(** The two jobs of [lisinopril_world] are in the registry after the
    schedule was stopped and the loop ran on. *)
Lemma jobs_are_never_cancelled_witness :
  forallb same_process stop_and_tick = true
  /\ exists added,
       map (fun j => (job_at j, job_do j)) (jobs (run stop_and_tick lisinopril_world))
       = map (fun j => (job_at j, job_do j)) (jobs lisinopril_world) ++ added.
Proof.
  assert (H : forallb same_process stop_and_tick = true) by reflexivity.
  split; [exact H |].
  exact (jobs_are_never_cancelled python_library_laws lisinopril_world
           stop_and_tick H).
Defined.

(** The iteration of 08:00 delivers for the 08:00 job of
    [lisinopril_world]. *)
Lemma tick_delivers_every_due_job_witness :
  is_running (self lisinopril_world) = true
  /\ In morning_job (jobs lisinopril_world)
  /\ next_run morning_job <= at_clock day0 8 0
  /\ exists c,
       In {| by_job := morning_job; sent_at := at_clock day0 8 0; call := c |}
         (delivered (exec (Tick (at_clock day0 8 0)) lisinopril_world)).
Proof.
  assert (Hrun : is_running (self lisinopril_world) = true) by reflexivity.
  assert (Hin : In morning_job (jobs lisinopril_world))
    by (vm_compute; left; reflexivity).
  assert (Hdue : next_run morning_job <= at_clock day0 8 0)
    by (vm_compute; discriminate).
  split; [exact Hrun |]. split; [exact Hin |]. split; [exact Hdue |].
  apply (proj2 (tick_delivers_every_due_job (at_clock day0 8 0) lisinopril_world
                  Hrun) morning_job Hin Hdue).
  exists lisinopril_schedule. split; [vm_compute; reflexivity |].
  split; [reflexivity | vm_compute; discriminate].
Defined.

(** The reminder of 08:00 in [lisinopril_day] says what the schedule
    says. *)
Lemma reminders_carry_stored_data_witness :
  run_ok (lisinopril_ops ++ lisinopril_day) (boot Missing) = true
  /\ In morning_delivery
       (delivered (run (lisinopril_ops ++ lisinopril_day) (boot Missing)))
  /\ exists s chat,
       PyDict.get "med-1"
         (medication_schedules
            (self (run (lisinopril_ops ++ lisinopril_day) (boot Missing))))
       = Some s
       /\ call morning_delivery
          = medication_reminder chat (Med.medication_name s) (Med.dosage s)
              (sent_at morning_delivery) (Med.additional_notes s)
       /\ (Med.chat_id s = chat \/ Med.chat_id s = None).
Proof.
  assert (Hok : run_ok (lisinopril_ops ++ lisinopril_day) (boot Missing) = true)
    by (vm_compute; reflexivity).
  assert (Hin : In morning_delivery
                  (delivered (run (lisinopril_ops ++ lisinopril_day)
                                (boot Missing))))
    by (vm_compute; left; reflexivity).
  split; [exact Hok |]. split; [exact Hin |].
  exact (reminders_carry_stored_data python_library_laws Missing
           (lisinopril_ops ++ lisinopril_day) morning_delivery Hok Hin).
Defined.

(** The reminder for the day before the appointment of [tomorrow_add] has
    a job, and is never delivered. *)
Lemma followup_reminder_waits_for_next_check_witness :
  run_ok [StartScheduler] (boot Missing) = true
  /\ run_ok (tomorrow_add :: tomorrow_ticks) (run [StartScheduler] (boot Missing))
     = true
  /\ at_time "09:00" = Some nine_o_clock
  /\ reminder_date_of (at_clock (day0 + 1) 14 30) 1
     = Returns (at_clock day0 14 30)
  /\ map job_do
       (jobs (run (tomorrow_add :: tomorrow_ticks)
                (run [StartScheduler] (boot Missing))))
     = [send_followup "fu-1" 1]
  /\ forall e,
       In e (delivered (run (tomorrow_add :: tomorrow_ticks)
                          (run [StartScheduler] (boot Missing)))) ->
       job_do (by_job e) <> send_followup "fu-1" 1.
Proof.
  assert (Hbefore : run_ok [StartScheduler] (boot Missing) = true) by reflexivity.
  assert (Hok : run_ok (tomorrow_add :: tomorrow_ticks)
                  (run [StartScheduler] (boot Missing)) = true)
    by (vm_compute; reflexivity).
  assert (Ht : at_time "09:00" = Some nine_o_clock) by (vm_compute; reflexivity).
  assert (Hrd : reminder_date_of (at_clock (day0 + 1) 14 30) 1
                = Returns (at_clock day0 14 30)) by (vm_compute; reflexivity).
  split; [exact Hbefore |]. split; [exact Hok |]. split; [exact Ht |].
  split; [exact Hrd |]. split; [vm_compute; reflexivity |].
  apply (proj2 (followup_reminder_waits_for_next_check python_library_laws Missing
                  [StartScheduler] tomorrow_ticks "Cardiology"
                  (at_clock (day0 + 1) 14 30) "2:30 PM" "Room 302" "" None "fu-1"
                  (at_clock day0 10 0) nine_o_clock Hbefore Hok Ht)
           1 (at_clock day0 14 30) Hrd).
  - vm_compute. reflexivity.
  - vm_compute. discriminate.
Defined.

(** The schedule of [with_created] is held by a second scheduler, which
    is not running, and has no chat id. *)
Lemma create_medication_schedule_effect_witness :
  fst (create_medication_schedule "Metformin" "500mg" ["09:30"] 30 "" "med-9"
         (at_clock day0 9 0) first_click) = Returns "med-9"
  /\ exists scheduler schedule,
       objects with_created = objects first_click ++ [scheduler]
       /\ is_running scheduler = false
       /\ medication_schedules scheduler
          = PyDict.set "med-9" schedule
              (medication_schedules (__init__ (file first_click)))
       /\ Med.chat_id schedule = None.
Proof.
  assert (H : fst (create_medication_schedule "Metformin" "500mg" ["09:30"] 30 ""
                     "med-9" (at_clock day0 9 0) first_click) = Returns "med-9")
    by (vm_compute; reflexivity).
  split; [exact H |].
  destruct (create_medication_schedule_effect "Metformin" "500mg" ["09:30"] 30 ""
              "med-9" (at_clock day0 9 0) first_click H)
    as (scheduler & schedule & H1 & H2 & H3 & _ & H5 & _).
  exists scheduler, schedule. auto.
Defined.

(** When the scheduler of the first click stops its schedule, the created
    schedule leaves the file. *)
Lemma created_schedule_lost_on_other_save_witness :
  nth_error (objects first_click) 0 = Some first_scheduler
  /\ well_formed first_scheduler = true
  /\ PyDict.contains "med-1" (medication_schedules first_scheduler) = true
  /\ PyDict.contains "med-9" (medication_schedules first_scheduler) = false
  /\ PyDict.contains "med-9" (medication_schedules (__init__ (file first_click)))
     = false
  /\ in_range (at_clock day0 9 0) = true
  /\ PyDict.contains "med-9" (medication_schedules (__init__ (file with_created)))
     = true
  /\ exists p',
       call_method 0 (stop_medication_schedule "med-1") with_created
       = Some (true, p')
       /\ PyDict.contains "med-9" (medication_schedules (__init__ (file p')))
          = false.
Proof.
  assert (H1 : nth_error (objects first_click) 0 = Some first_scheduler)
    by (vm_compute; reflexivity).
  assert (H2 : well_formed first_scheduler = true) by (vm_compute; reflexivity).
  assert (H3 : PyDict.contains "med-1" (medication_schedules first_scheduler)
               = true) by (vm_compute; reflexivity).
  assert (H4 : PyDict.contains "med-9" (medication_schedules first_scheduler)
               = false) by (vm_compute; reflexivity).
  assert (H5 : PyDict.contains "med-9"
                 (medication_schedules (__init__ (file first_click))) = false)
    by (vm_compute; reflexivity).
  assert (H6 : in_range (at_clock day0 9 0) = true) by (vm_compute; reflexivity).
  assert (H7 : fst (create_medication_schedule "Metformin" "500mg" ["09:30"] 30
                      "" "med-9" (at_clock day0 9 0) first_click)
               = Returns "med-9") by (vm_compute; reflexivity).
  split; [exact H1 |]. split; [exact H2 |]. split; [exact H3 |].
  split; [exact H4 |]. split; [exact H5 |]. split; [exact H6 |].
  destruct (created_schedule_lost_on_other_save python_library_laws "Metformin"
              "500mg" ["09:30"] 30 "" "med-9" (at_clock day0 9 0) first_click 0
              first_scheduler "med-1" H1 H2 H3 H4 H5 H6 H7)
    as (Hin & p' & Hcall & _ & _ & Hout).
  split; [exact Hin |]. exists p'. split; [exact Hcall | exact Hout].
Defined.

(** The loop of the first scheduler runs the job of the created schedule,
    which belongs to the second scheduler. *)
Lemma any_loop_runs_every_job_witness :
  nth_error (objects with_created) 0 = Some first_scheduler
  /\ is_running first_scheduler = true
  /\ In (1%nat, created_job) (registry with_created)
  /\ nth_error (objects with_created) 1 = Some created_scheduler
  /\ is_running created_scheduler = false
  /\ exists c,
       In (1%nat, {| by_job := created_job; sent_at := at_clock day0 9 30;
                     call := c |})
         (outbox (tick_of 0 (at_clock day0 9 30) with_created)).
Proof.
  assert (H1 : nth_error (objects with_created) 0 = Some first_scheduler)
    by (vm_compute; reflexivity).
  assert (H2 : is_running first_scheduler = true) by (vm_compute; reflexivity).
  assert (H3 : In (1%nat, created_job) (registry with_created))
    by (vm_compute; right; right; left; reflexivity).
  assert (H4 : nth_error (objects with_created) 1 = Some created_scheduler)
    by (vm_compute; reflexivity).
  split; [exact H1 |]. split; [exact H2 |]. split; [exact H3 |].
  split; [exact H4 |]. split; [vm_compute; reflexivity |].
  apply (proj2 (any_loop_runs_every_job 0 first_scheduler (at_clock day0 9 30)
                  with_created H1 H2) 1%nat created_job created_scheduler H3).
  - vm_compute. discriminate.
  - exact H4.
  - eexists. split; [vm_compute; reflexivity |].
    split; [reflexivity | vm_compute; discriminate].
Defined.

(** After the second click the registry holds the two jobs of the first
    click and two more for the same times, and the iteration of 08:00
    delivers twice. *)
Lemma start_all_reminders_keeps_earlier_jobs_witness :
  (exists scheduler added,
      objects second_click = objects first_click ++ [scheduler]
      /\ registry second_click
         = registry first_click
           ++ map (pair (List.length (objects first_click))) added)
  /\ map (fun ij => (fst ij, job_at (snd ij), job_do (snd ij)))
       (registry second_click)
     = [ (0%nat, eight_o_clock, send_medication "med-1");
         (0%nat, 20 * usec_per_hour, send_medication "med-1");
         (1%nat, eight_o_clock, send_medication "med-2");
         (1%nat, 20 * usec_per_hour, send_medication "med-2") ]
  /\ List.length (outbox (tick_of 0 (at_clock day0 8 0) second_click)) = 2%nat.
Proof.
  split; [| split; vm_compute; reflexivity].
  destruct (start_all_reminders_keeps_earlier_jobs python_library_laws
              [session_reminder "med-2" (at_clock day0 7 5)] first_click)
    as (scheduler & added & H1 & H2 & _).
  exists scheduler, added. split; [exact H1 | exact H2].
Defined.

(** At noon the schedule of [lisinopril_world] is listed, and a dispatch
    sends its reminder. *)
Lemma listed_iff_reminder_sent_witness :
  unique_keys (medication_schedules (self lisinopril_world)) = true
  /\ PyDict.get "med-1" (fst (get_active_schedules noon (self lisinopril_world)))
     = Some lisinopril_schedule
  /\ _send_medication_reminder "med-1" noon lisinopril_world
     = (lisinopril_world,
        [medication_reminder (Some "4711") "Lisinopril" "10mg" noon
           "Take with food"]).
Proof.
  assert (Hu : unique_keys (medication_schedules (self lisinopril_world)) = true)
    by (vm_compute; reflexivity).
  assert (Hl : PyDict.get "med-1"
                 (fst (get_active_schedules noon (self lisinopril_world)))
               = Some lisinopril_schedule) by (vm_compute; reflexivity).
  split; [exact Hu |]. split; [exact Hl |].
  exact (proj1 (listed_iff_reminder_sent "med-1" noon lisinopril_world Hu)
           lisinopril_schedule Hl).
Defined.

(** C9, as the specification states it, fails.  A week after the two
    clicks the schedule of the first click has ended: the iteration at
    07:02 makes it inactive in the object of the first click and in the
    file.  At 08:00 the schedule of the second click has ended too, and the
    object of the second click, which holds the first schedule as it
    loaded it, rewrites the file: the schedule that was inactive is active
    in the file again, and in the object that is constructed next. *)
Lemma inactive_schedule_reloaded_active :
  medication_active_in "med-1" (nth 0 (objects first_expired) fresh_scheduler)
  = Some false
  /\ medication_active_in "med-1" (__init__ (file first_expired)) = Some false
  /\ medication_active_in "med-1" (__init__ (file both_expired)) = Some true
  /\ medication_active_in "med-1" (nth 2 (objects both_expired) fresh_scheduler)
     = Some true.
Proof. repeat split; vm_compute; reflexivity. Qed.

(** The schedule that was stopped on the object of the first click is
    inactive in that object after [week_of_ticks], and the stopped schedule
    of [stopped_world] is inactive after [later_ops]. *)
Lemma inactive_is_absorbing_per_object_witness :
  (play_ok week_of_ticks first_stopped = true
   /\ medication_active_in "med-1" (nth 0 (objects first_stopped) fresh_scheduler)
      = Some false
   /\ medication_active_in "med-1"
        (nth 0 (objects (play week_of_ticks first_stopped)) fresh_scheduler)
      = Some false)
  /\ (run_ok stopping_ops (boot Missing) = true
      /\ run_ok later_ops stopped_world = true
      /\ medication_active "med-1" stopped_world = Some false
      /\ medication_active "med-1" (run later_ops stopped_world) = Some false).
Proof.
  pose proof (inactive_is_absorbing_per_object python_library_laws "med-1")
    as [Hobject Halone].
  split.
  - assert (Hok : play_ok week_of_ticks first_stopped = true)
      by (vm_compute; reflexivity).
    assert (Hin : medication_active_in "med-1"
                    (nth 0 (objects first_stopped) fresh_scheduler)
                  = Some false) by (vm_compute; reflexivity).
    split; [exact Hok |]. split; [exact Hin |].
    destruct (Hobject first_stopped week_of_ticks 0%nat
                (nth 0 (objects first_stopped) fresh_scheduler) Hok eq_refl)
      as (s' & Hs' & Hm & _).
    assert (Hnth : nth 0 (objects (play week_of_ticks first_stopped))
                     fresh_scheduler = s').
    { apply nth_error_nth. exact Hs'. }
    rewrite Hnth. exact (Hm Hin).
  - assert (Hbefore : run_ok stopping_ops (boot Missing) = true)
      by (vm_compute; reflexivity).
    assert (Hok : run_ok later_ops stopped_world = true)
      by (vm_compute; reflexivity).
    assert (Hin : medication_active "med-1" stopped_world = Some false)
      by (vm_compute; reflexivity).
    split; [exact Hbefore |]. split; [exact Hok |]. split; [exact Hin |].
    exact (proj1 (Halone Missing stopping_ops later_ops Hbefore Hok) Hin).
Defined.

(** With the loop of the first click stopped, [quiet_actions] deliver
    nothing; with the loop running they do. *)
Lemma stopped_loops_deliver_nothing_witness :
  forallb starts_no_loop quiet_actions = true
  /\ outbox (play quiet_actions first_click_stopped) = outbox first_click
  /\ outbox (play quiet_actions first_click) <> outbox first_click.
Proof.
  assert (Hacts : forallb starts_no_loop quiet_actions = true)
    by (vm_compute; reflexivity).
  split; [exact Hacts |]. split.
  - refine (proj1 (stopped_loops_deliver_nothing first_click 0 quiet_actions
                     _ Hacts)).
    intros j s Hj. destruct j as [| j]; [contradiction |].
    assert (Hobj : List.length (objects first_click) = 1%nat)
      by (vm_compute; reflexivity).
    intros H.
    assert (Hlt : (S j < List.length (objects first_click))%nat)
      by (apply nth_error_Some; congruence).
    rewrite Hobj in Hlt. lia.
  - vm_compute. discriminate.
Defined.

(** After the stop of the first schedule on the object of the first click
    the jobs of that object deliver nothing for it, while the jobs of the
    second click deliver.  After the same stop on the object of the second
    click the 08:00 job of the first click delivers. *)
Lemma stopped_schedule_never_delivers_witness :
  fst (stop_medication_schedule "med-1"
         (world_of (nth 0 (objects second_click) fresh_scheduler)
            (file second_click))) = true
  /\ play_ok week_of_ticks first_stopped = true
  /\ (exists later,
         outbox (play week_of_ticks first_stopped)
         = outbox second_click ++ later
         /\ later <> []
         /\ forall e, In (0%nat, e) later ->
                      job_do (by_job e) <> send_medication "med-1")
  /\ (fst (stop_medication_schedule "med-1"
             (world_of (nth 1 (objects second_click) fresh_scheduler)
                (file second_click))) = true
      /\ exists e,
           In (0%nat, e)
             (outbox (act (Iterate 1 (at_clock day0 8 0)) stopped_elsewhere))
           /\ job_do (by_job e) = send_medication "med-1").
Proof.
  assert (Hstop : fst (stop_medication_schedule "med-1"
                         (world_of (nth 0 (objects second_click) fresh_scheduler)
                            (file second_click))) = true)
    by (vm_compute; reflexivity).
  assert (Hok : play_ok week_of_ticks first_stopped = true)
    by (vm_compute; reflexivity).
  split; [exact Hstop |]. split; [exact Hok |]. split.
  - destruct (proj1 (stopped_schedule_never_delivers second_click 0
                       (nth 0 (objects second_click) fresh_scheduler)
                       week_of_ticks "med-1" eq_refl) Hstop Hok)
      as (later & Hout & Hnone).
    exists later. split; [exact Hout |]. split; [| exact Hnone].
    intros ->. revert Hout. vm_compute. discriminate.
  - split; [vm_compute; reflexivity |].
    eexists. split; [vm_compute; left; reflexivity | reflexivity].
Defined.

(** The schedule of the second click is active in the object of the second
    click after the stops on the object of the first click and an
    iteration before its end. *)
Lemma active_until_stopped_or_expired_witness :
  play_ok other_stops second_click = true
  /\ forallb (keeps_medication_of 1 "med-2") other_stops = true
  /\ forallb (iterations_until (at_clock (day0 + 7) 7 5)) other_stops = true
  /\ medication_active_in "med-2" (nth 1 (objects second_click) fresh_scheduler)
     = Some true
  /\ medication_active_in "med-2"
       (nth 1 (objects (play other_stops second_click)) fresh_scheduler)
     = Some true.
Proof.
  assert (Hok : play_ok other_stops second_click = true)
    by (vm_compute; reflexivity).
  assert (Hkeep : forallb (keeps_medication_of 1 "med-2") other_stops = true)
    by (vm_compute; reflexivity).
  assert (Htick : forallb (iterations_until (at_clock (day0 + 7) 7 5))
                    other_stops = true) by (vm_compute; reflexivity).
  split; [exact Hok |]. split; [exact Hkeep |]. split; [exact Htick |].
  split; [vm_compute; reflexivity |].
  set (m := Med.mk "med-2" "Lisinopril" "10mg" ["08:00"; "20:00"] 7
              (at_clock day0 7 5) (at_clock (day0 + 7) 7 5)
              "Time to take your medication!" true (at_clock day0 7 5)
              (Some "4711")).
  assert (Hget : PyDict.get "med-2"
                   (medication_schedules
                      (nth 1 (objects second_click) fresh_scheduler))
                 = Some m) by (vm_compute; reflexivity).
  destruct (proj1 (active_until_stopped_or_expired second_click other_stops 1
                     (nth 1 (objects second_click) fresh_scheduler) "med-2"
                     Hok eq_refl) m Hget eq_refl Hkeep Htick)
    as (s' & Hs' & Hact).
  assert (Hnth : nth 1 (objects (play other_stops second_click)) fresh_scheduler
                 = s') by (apply nth_error_nth; exact Hs').
  rewrite Hnth. exact Hact.
Defined.

End MoreWitnesses.
